(** * Buffer layout and encoding selection of the Mali gralloc allocator

    Shallow embedding of
      - src/core/buffer_allocation.cpp  (encoding selection, plane geometry,
        size accumulation, multi-layer replication), and
      - interfaces/libs/drmutils/src/drm_utils.cpp  (DRM fourcc lookup),
    followed by the properties of the layout engine.

    Conventions.  Machine integers are values of [Z] with the C conversion
    written out: [u32], [u64] reduce modulo the width, [s32] is the
    two's-complement reading of the low 32 bits.  C arrays of [MAX_PLANES]
    elements are lists read with [arr_get] and written with stdpp's
    [<[i:=x]>].  [assert] is modelled as a failing computation ([None]). *)

From stdpp Require Import base numbers option list gmap strings.

Local Open Scope Z_scope.

(** ** Machine integers *)

Definition u8 (x : Z) : Z := x mod 2 ^ 8.
Definition u16 (x : Z) : Z := x mod 2 ^ 16.
Definition u32 (x : Z) : Z := x mod 2 ^ 32.
Definition u64 (x : Z) : Z := x mod 2 ^ 64.
(** [int]: the low 32 bits read as a signed number. *)
Definition s32 (x : Z) : Z := (x + 2 ^ 31) mod 2 ^ 32 - 2 ^ 31.

(** C truth value of an integer expression [x & mask]. *)
Definition has_bits (x mask : Z) : bool := negb (Z.land x mask =? 0).

(** Modelled from the spec: the macro [GRALLOC_ALIGN(value, base)] is declared
    in a helper header that is not among the sources; the spec describes it as
    rounding [value] up to a multiple of [base].  It is an expression macro, so
    it is evaluated in the type of its operands; [wrap] is the conversion of
    that type.  The sources do not show what the macro does with [base]
    zero; the model answers 0 there. *)
Definition GRALLOC_ALIGN (wrap : Z → Z) (value base : Z) : Z :=
  wrap (wrap (value + base - 1) / base * base).

(** The same macro on [int] operands (division truncates towards zero). *)
Definition GRALLOC_ALIGN_int (value base : Z) : Z :=
  s32 (Z.quot (s32 (value + base - 1)) base * base).

(** ** Types declared in the allocator's headers *)

(** Modelled from the spec: [MAX_PLANES] comes from a header that is not among
    the sources; the spec gives the plane count as 1-4. *)
Definition MAX_PLANES : nat := 4.

Definition arr_get (a : list Z) (i : nat) : Z := default 0 (a !! i).

(** Modelled from the spec: [AllocBaseType] is declared in buffer_allocation.h,
    which is not among the sources; the enumerators are those the code names,
    matching the four encodings of the spec with the three superblock classes
    of the block-compressed one. *)
Inductive AllocBaseType :=
  | UNCOMPRESSED
  | AFBC
  | AFBC_WIDEBLK
  | AFBC_EXTRAWIDEBLK
  | AFRC
  | BLOCK_LINEAR.

Global Instance AllocBaseType_eq_dec : EqDecision AllocBaseType.
Proof. solve_decision. Defined.

(** Modelled from the spec: [rect_t] (absent header), the width and height
    of a superblock or tile, both 16-bit. *)
Record rect_t := { rect_width : Z; rect_height : Z }.

(** Modelled from the spec: the [afrc] member of [alloc_type_t] (absent
    header), with the fields the code assigns: paging tile, coding-unit size
    and plane alignment per plane group, clump size per plane. *)
Record afrc_t := {
  paging_tile_width : Z;
  paging_tile_height : Z;
  rgba_luma_coding_unit_bytes : Z;
  chroma_coding_unit_bytes : Z;
  rgba_luma_plane_alignment : Z;
  chroma_plane_alignment : Z;
  clump_width : list Z;
  clump_height : list Z
}.

(** Modelled from the spec: [alloc_type_t] (absent header), the spec's
    EncodingDecision, with the fields the code assigns. *)
Record alloc_type_t := {
  primary_type : AllocBaseType;
  is_multi_plane : bool;
  is_tiled : bool;
  is_padded : bool;
  is_frontbuffer_safe : bool;
  afrc : afrc_t
}.

(** Value-initialised [alloc_type_t alloc_type{}]. *)
Definition afrc_zero : afrc_t :=
  {| paging_tile_width := 0; paging_tile_height := 0;
     rgba_luma_coding_unit_bytes := 0; chroma_coding_unit_bytes := 0;
     rgba_luma_plane_alignment := 0; chroma_plane_alignment := 0;
     clump_width := replicate MAX_PLANES 0;
     clump_height := replicate MAX_PLANES 0 |}.

Definition alloc_type_zero : alloc_type_t :=
  {| primary_type := UNCOMPRESSED; is_multi_plane := false; is_tiled := false;
     is_padded := false; is_frontbuffer_safe := false; afrc := afrc_zero |}.

(** Modelled from the spec: the predicates of [alloc_type_t] are declared in
    buffer_allocation.h, not among the sources; the spec's EncodingDecision
    makes the three superblock classes the block-compressed variant. *)
Definition is_afbc (t : alloc_type_t) : bool :=
  match primary_type t with
  | AFBC | AFBC_WIDEBLK | AFBC_EXTRAWIDEBLK => true
  | _ => false
  end.
Definition is_afrc (t : alloc_type_t) : bool :=
  bool_decide (primary_type t = AFRC).
Definition is_block_linear (t : alloc_type_t) : bool :=
  bool_decide (primary_type t = BLOCK_LINEAR).

(** Modelled from the spec: [format_info_t] is declared in format_info.h,
    which is not among the sources; these are the fields of the spec's
    FormatAttributes that the allocator reads.  [afrc_supported] is the C
    field [afrc]. *)
Record format_info_t := {
  id : Z;
  npln : nat;
  ncmp : list Z;
  bpp_afbc : list Z;
  bpp : list Z;
  hsub : Z;
  vsub : Z;
  align_w : Z;
  align_h : Z;
  align_w_cpu : Z;
  tile_size : Z;
  is_yuv : bool;
  afbc : bool;
  linear : bool;
  afrc_supported : bool;
  block_linear : bool
}.

Definition format_zero : format_info_t :=
  {| id := 0; npln := 0%nat; ncmp := []; bpp_afbc := []; bpp := [];
     hsub := 0; vsub := 0; align_w := 0; align_h := 0; align_w_cpu := 0;
     tile_size := 0; is_yuv := false; afbc := false; linear := false;
     afrc_supported := false; block_linear := false |}.

(** Modelled from the spec: [plane_info_t] (absent header), the spec's
    PlaneLayout; the four fields are 32-bit unsigned, as the pointers that
    [get_pixel_w_h] and [update_yv12_stride] take to them show. *)
Record plane_info_t := {
  offset : Z;
  byte_stride : Z;
  alloc_width : Z;
  alloc_height : Z
}.

Definition plane_info_zero : plane_info_t :=
  {| offset := 0; byte_stride := 0; alloc_width := 0; alloc_height := 0 |}.

(** ** What the absent headers provide

    gralloc/formats.h, format_info.h and usages.h are not among the sources.
    Their constants, the format-classification predicates and the catalogue
    are taken as an interface; every statement below holds for each
    implementation of it.  [format_id n] is the numeric value of the
    enumerator [MALI_GRALLOC_FORMAT_INTERNAL_n] (of the Android constant for
    [HAL_PIXEL_FORMAT_YCBCR_P010]). *)
Inductive format_name :=
  | UNDEFINED | BLOB
  | RAW16 | RGBA_8888 | BGRA_8888 | RGB_565 | RGBX_8888 | RGB_888
  | RGBA_1010102 | RGBA_16161616 | RGBA_10101010
  | YV12 | YU12 | NV12 | NV15 | NV16 | NV21 | Y0L2 | Y210 | P010 | P210
  | Y410 | YUV444 | Q410 | Q401 | YUV422_8BIT | YUV420_8BIT_I
  | YUV420_10BIT_I
  | HAL_PIXEL_FORMAT_YCBCR_P010.

Class Headers := {
  MALI_GRALLOC_INTFMT_AFBC_WIDEBLK : Z;
  MALI_GRALLOC_INTFMT_AFBC_EXTRAWIDEBLK : Z;
  MALI_GRALLOC_INTFMT_AFBC_TILED_HEADERS : Z;
  MALI_GRALLOC_INTFMT_AFBC_DOUBLE_BODY : Z;
  MALI_GRALLOC_INTFMT_AFBC_YUV_TRANSFORM : Z;
  MALI_GRALLOC_INTFMT_AFRC_ROT_LAYOUT : Z;
  MALI_GRALLOC_INTFMT_AFRC_RGBA_CODING_UNIT_BYTES_SHIFT : Z;
  MALI_GRALLOC_INTFMT_AFRC_CHROMA_CODING_UNIT_BYTES_SHIFT : Z;
  MALI_GRALLOC_INTFMT_AFRC_CODING_UNIT_BYTES_MASK : Z;
  MALI_GRALLOC_INTFMT_AFRC_CODING_UNIT_BYTES_UNWRAP : Z → Z;
  MALI_GRALLOC_INTFMT_FMT_MASK : Z;
  MALI_GRALLOC_INTFMT_EXT_MASK : Z;
  MALI_GRALLOC_USAGE_AFBC_PADDING : Z;
  format_id : format_name → Z;
  get_internal_format_from_gralloc_format : Z → Z;
  GRALLOC_USAGE_SW_READ_MASK : Z;
  GRALLOC_USAGE_SW_WRITE_MASK : Z;
  GRALLOC_USAGE_PRIVATE_MASK : Z;
  is_format_afbc : Z → bool;
  is_format_afrc : Z → bool;
  is_format_block_linear : Z → bool;
  formats : list format_info_t;
  get_format_index : Z → option nat;
  mali_gralloc_select_format : Z → Z → Z → Z;
  mali_gralloc_adjust_dimensions : Z → Z → Z → Z → Z * Z
}.

(** ** Logging and failure

    The allocator reports through [MALI_GRALLOC_LOGW]/[LOGE] and fails by
    returning [false] (turned into [-EINVAL] by
    [mali_gralloc_derive_format_and_size]) or by a failing [assert].  A
    computation yields the messages it logged and either the site at which it
    failed or a value. *)

Inductive log_msg :=
  | LOGW_yuv_transform_on_yuv
  | LOGW_extra_wide_must_be_signalled
  | LOGW_multi_plane_without_tiling
  | LOGE_extra_wide_without_tiled_headers
  | LOGE_front_buffer_safe_with_wide_block
  | LOGE_multiplane_with_single_plane_format
  | LOGE_invalid_coding_unit_size (coding_unit_size : Z)
  | LOGE_invalid_number_of_components (plane : nat) (n : Z)
  | LOGE_afbc_not_supported
  | LOGE_incompatible_plane_request (multi : bool)
  | LOGE_afrc_not_supported
  | LOGE_block_linear_not_supported
  | LOGE_uncompressed_not_supported
  | LOGE_blob_height
  | LOGE_unrecognized_format.

Inductive failure :=
  (* get_alloc_type *)
  | Err_extra_wide_without_tiled_headers
  | Err_multiplane_with_single_plane_format
  | Err_coding_unit_size
  | Err_number_of_components
  (* validate_format *)
  | Err_afbc_not_supported
  | Err_incompatible_plane_request
  | Err_afrc_not_supported
  | Err_block_linear_not_supported
  | Err_uncompressed_not_supported
  | Err_blob_height
  (* mali_gralloc_derive_format_and_size *)
  | Err_undefined_format
  | Err_format_index
  (* assert, or a division by zero: the process is killed *)
  | Assertion_failed.

(** The error kinds of the spec (section 7) that the failure sites fall under. *)
Inductive error_kind :=
  | UnrecognizedFormat
  | UnsupportedFormatForEncoding
  | InvalidEncodingCombination
  | InvalidCodingUnitSize
  | InvalidDimensions
  | InternalConsistency.

Definition kind_of (e : failure) : error_kind :=
  match e with
  | Err_extra_wide_without_tiled_headers => InvalidEncodingCombination
  | Err_multiplane_with_single_plane_format => InvalidEncodingCombination
  | Err_coding_unit_size => InvalidCodingUnitSize
  | Err_number_of_components => InternalConsistency
  | Err_afbc_not_supported => UnsupportedFormatForEncoding
  | Err_incompatible_plane_request => UnsupportedFormatForEncoding
  | Err_afrc_not_supported => UnsupportedFormatForEncoding
  | Err_block_linear_not_supported => UnsupportedFormatForEncoding
  | Err_uncompressed_not_supported => UnsupportedFormatForEncoding
  | Err_blob_height => InvalidDimensions
  | Err_undefined_format => UnrecognizedFormat
  | Err_format_index => UnrecognizedFormat
  | Assertion_failed => InternalConsistency
  end.

Definition M (A : Type) : Type := list log_msg * (failure + A).

Definition ret {A} (a : A) : M A := ([], inr a).
Definition fail {A} (e : failure) : M A := ([], inl e).
(** A failing [assert] aborts, and so does a division by zero. *)
Definition of_assert {A} (c : option A) : M A :=
  match c with Some a => ret a | None => fail Assertion_failed end.
Definition log (m : log_msg) : M unit := ([m], inr tt).
Definition bind {A B} (c : M A) (k : A → M B) : M B :=
  match c with
  | (l, inl e) => (l, inl e)
  | (l, inr a) => let '(l', r) := k a in (l ++ l', r)
  end.
Definition when (b : bool) (c : M unit) : M unit := if b then c else ret tt.

Notation "'let*' x ':=' c 'in' k" := (bind c (λ x, k))
  (at level 10, x name, c at level 100, k at level 200).
Notation "'run' c 'in' k" := (bind c (λ _, k))
  (at level 10, c at level 100, k at level 200).

(** ** buffer_allocation.cpp *)

Definition AFBC_PIXELS_PER_BLOCK : Z := 256.
Definition AFBC_HEADER_BUFFER_BYTES_PER_BLOCKENTRY : Z := 16.

Definition afbc_buffer_align (is_tiled : bool) (size : Z) : Z :=
  let AFBC_BODY_BUFFER_BYTE_ALIGNMENT := 1024 in
  let buffer_byte_alignment :=
    if is_tiled then 4 * AFBC_BODY_BUFFER_BYTE_ALIGNMENT
    else AFBC_BODY_BUFFER_BYTE_ALIGNMENT in
  GRALLOC_ALIGN_int size buffer_byte_alignment.

(** Returns the alignment and what it logged ([0] with a message for an
    invalid size). *)
Definition afrc_plane_alignment_requirement (coding_unit_size : Z) : M Z :=
  if coding_unit_size =? 16 then ret 1024
  else if coding_unit_size =? 24 then ret 512
  else if coding_unit_size =? 32 then ret 2048
  else run log (LOGE_invalid_coding_unit_size coding_unit_size) in ret 0.

Definition get_afbc_sb_size_base (alloc_base_type : AllocBaseType) : rect_t :=
  match alloc_base_type with
  | AFBC => {| rect_width := 16; rect_height := 16 |}
  | AFBC_WIDEBLK => {| rect_width := 32; rect_height := 8 |}
  | AFBC_EXTRAWIDEBLK => {| rect_width := 64; rect_height := 4 |}
  | _ => {| rect_width := 0; rect_height := 0 |}
  end.

Definition get_afbc_sb_size (alloc_type : alloc_type_t) (plane : nat) : rect_t :=
  if bool_decide (0 < plane)%nat && is_afbc alloc_type && is_multi_plane alloc_type
  then get_afbc_sb_size_base AFBC_EXTRAWIDEBLK
  else get_afbc_sb_size_base (primary_type alloc_type).

(** Field updates of [alloc_type_t], as the assignments through the
    [alloc_type] pointer. *)
Definition set_primary_type (t : alloc_type_t) (v : AllocBaseType) : alloc_type_t :=
  {| primary_type := v; is_multi_plane := is_multi_plane t;
     is_tiled := is_tiled t; is_padded := is_padded t;
     is_frontbuffer_safe := is_frontbuffer_safe t; afrc := afrc t |}.
Definition set_is_multi_plane (t : alloc_type_t) (v : bool) : alloc_type_t :=
  {| primary_type := primary_type t; is_multi_plane := v;
     is_tiled := is_tiled t; is_padded := is_padded t;
     is_frontbuffer_safe := is_frontbuffer_safe t; afrc := afrc t |}.
Definition set_is_tiled (t : alloc_type_t) (v : bool) : alloc_type_t :=
  {| primary_type := primary_type t; is_multi_plane := is_multi_plane t;
     is_tiled := v; is_padded := is_padded t;
     is_frontbuffer_safe := is_frontbuffer_safe t; afrc := afrc t |}.
Definition set_is_padded (t : alloc_type_t) (v : bool) : alloc_type_t :=
  {| primary_type := primary_type t; is_multi_plane := is_multi_plane t;
     is_tiled := is_tiled t; is_padded := v;
     is_frontbuffer_safe := is_frontbuffer_safe t; afrc := afrc t |}.
Definition set_is_frontbuffer_safe (t : alloc_type_t) (v : bool) : alloc_type_t :=
  {| primary_type := primary_type t; is_multi_plane := is_multi_plane t;
     is_tiled := is_tiled t; is_padded := is_padded t;
     is_frontbuffer_safe := v; afrc := afrc t |}.
Definition set_afrc (t : alloc_type_t) (v : afrc_t) : alloc_type_t :=
  {| primary_type := primary_type t; is_multi_plane := is_multi_plane t;
     is_tiled := is_tiled t; is_padded := is_padded t;
     is_frontbuffer_safe := is_frontbuffer_safe t; afrc := v |}.

Definition set_paging_tile (a : afrc_t) (w h : Z) : afrc_t :=
  {| paging_tile_width := w; paging_tile_height := h;
     rgba_luma_coding_unit_bytes := rgba_luma_coding_unit_bytes a;
     chroma_coding_unit_bytes := chroma_coding_unit_bytes a;
     rgba_luma_plane_alignment := rgba_luma_plane_alignment a;
     chroma_plane_alignment := chroma_plane_alignment a;
     clump_width := clump_width a; clump_height := clump_height a |}.
Definition set_rgba_luma (a : afrc_t) (bytes alignment : Z) : afrc_t :=
  {| paging_tile_width := paging_tile_width a;
     paging_tile_height := paging_tile_height a;
     rgba_luma_coding_unit_bytes := bytes;
     chroma_coding_unit_bytes := chroma_coding_unit_bytes a;
     rgba_luma_plane_alignment := alignment;
     chroma_plane_alignment := chroma_plane_alignment a;
     clump_width := clump_width a; clump_height := clump_height a |}.
Definition set_chroma (a : afrc_t) (bytes alignment : Z) : afrc_t :=
  {| paging_tile_width := paging_tile_width a;
     paging_tile_height := paging_tile_height a;
     rgba_luma_coding_unit_bytes := rgba_luma_coding_unit_bytes a;
     chroma_coding_unit_bytes := bytes;
     rgba_luma_plane_alignment := rgba_luma_plane_alignment a;
     chroma_plane_alignment := alignment;
     clump_width := clump_width a; clump_height := clump_height a |}.
Definition set_clump (a : afrc_t) (plane : nat) (w h : Z) : afrc_t :=
  {| paging_tile_width := paging_tile_width a;
     paging_tile_height := paging_tile_height a;
     rgba_luma_coding_unit_bytes := rgba_luma_coding_unit_bytes a;
     chroma_coding_unit_bytes := chroma_coding_unit_bytes a;
     rgba_luma_plane_alignment := rgba_luma_plane_alignment a;
     chroma_plane_alignment := chroma_plane_alignment a;
     clump_width := <[plane := w]> (clump_width a);
     clump_height := <[plane := h]> (clump_height a) |}.

(** [for (plane = 0; plane < n; ++plane) body], leaving at the first failure. *)
Fixpoint for_planes {S} (body : nat → S → M S) (planes : list nat) (s : S) : M S :=
  match planes with
  | [] => ret s
  | plane :: rest => let* s' := body plane s in for_planes body rest s'
  end.

(** The [switch (format.ncmp[plane])] of the AFRC branch. *)
Definition afrc_clump (format : format_info_t) (plane : nat) (a : afrc_t) : M afrc_t :=
  let n := arr_get (ncmp format) plane in
  if n =? 1 then ret (set_clump a plane (paging_tile_width a) (paging_tile_height a))
  else if n =? 2 then ret (set_clump a plane 8 4)
  else if (n =? 3) || (n =? 4) then ret (set_clump a plane 4 4)
  else run log (LOGE_invalid_number_of_components plane n) in
       fail Err_number_of_components.

Section Allocation.
Context `{H : Headers}.

(** [formats[format_idx]]. *)
Definition format_at (format_idx : nat) : format_info_t :=
  default format_zero (formats !! format_idx).

(** The coding-unit size of one plane group:
    [UNWRAP((format_ext >> shift) & MASK)], stored in a [uint32_t] field. *)
Definition afrc_coding_unit_bytes (format_ext shift : Z) : Z :=
  u32 (MALI_GRALLOC_INTFMT_AFRC_CODING_UNIT_BYTES_UNWRAP
         (Z.land (Z.shiftr format_ext shift)
                 MALI_GRALLOC_INTFMT_AFRC_CODING_UNIT_BYTES_MASK)).

Definition get_alloc_type (format_ext : Z) (format_idx : nat) (usage : Z)
    (alloc_type : alloc_type_t) : M alloc_type_t :=
  let format := format_at format_idx in
  let alloc_type := set_primary_type alloc_type UNCOMPRESSED in
  let alloc_type := set_is_multi_plane alloc_type (bool_decide (1 < npln format)%nat) in
  let alloc_type := set_is_tiled alloc_type false in
  let alloc_type := set_is_padded alloc_type false in
  let alloc_type := set_is_frontbuffer_safe alloc_type false in
  if is_format_afbc format_ext then
    run when (is_yuv format && has_bits format_ext MALI_GRALLOC_INTFMT_AFBC_YUV_TRANSFORM)
             (log LOGW_yuv_transform_on_yuv) in
    let alloc_type := set_primary_type alloc_type AFBC in
    let alloc_type :=
      if has_bits format_ext MALI_GRALLOC_INTFMT_AFBC_WIDEBLK
      then set_primary_type alloc_type AFBC_WIDEBLK
      else if has_bits format_ext MALI_GRALLOC_INTFMT_AFBC_EXTRAWIDEBLK
      then set_primary_type alloc_type AFBC_EXTRAWIDEBLK
      else alloc_type in
    let* alloc_type :=
      (if has_bits format_ext MALI_GRALLOC_INTFMT_AFBC_TILED_HEADERS then
         let alloc_type := set_is_tiled alloc_type true in
         let* alloc_type :=
           (if bool_decide (1 < npln format)%nat
               && negb (has_bits format_ext MALI_GRALLOC_INTFMT_AFBC_EXTRAWIDEBLK)
            then run log LOGW_extra_wide_must_be_signalled in
                 ret (set_is_multi_plane alloc_type false)
            else ret alloc_type) in
         ret (if has_bits format_ext MALI_GRALLOC_INTFMT_AFBC_DOUBLE_BODY
              then set_is_frontbuffer_safe alloc_type true
              else alloc_type)
       else
         run when (bool_decide (1 < npln format)%nat)
                  (log LOGW_multi_plane_without_tiling) in
         ret (set_is_multi_plane alloc_type false)) in
    run (if has_bits format_ext MALI_GRALLOC_INTFMT_AFBC_EXTRAWIDEBLK
            && negb (is_tiled alloc_type)
         then run log LOGE_extra_wide_without_tiled_headers in
              fail Err_extra_wide_without_tiled_headers
         else ret tt) in
    run when (is_frontbuffer_safe alloc_type
              && has_bits format_ext
                   (Z.lor MALI_GRALLOC_INTFMT_AFBC_WIDEBLK
                          MALI_GRALLOC_INTFMT_AFBC_EXTRAWIDEBLK))
             (log LOGE_front_buffer_safe_with_wide_block) in
    run (if bool_decide (npln format = 1%nat)
            && has_bits format_ext MALI_GRALLOC_INTFMT_AFBC_WIDEBLK
            && has_bits format_ext MALI_GRALLOC_INTFMT_AFBC_EXTRAWIDEBLK
         then run log LOGE_multiplane_with_single_plane_format in
              fail Err_multiplane_with_single_plane_format
         else ret tt) in
    ret (if has_bits usage MALI_GRALLOC_USAGE_AFBC_PADDING
         then set_is_padded alloc_type true
         else alloc_type)
  else if is_format_afrc format_ext then
    let alloc_type := set_primary_type alloc_type AFRC in
    let a := afrc alloc_type in
    let a :=
      if has_bits format_ext MALI_GRALLOC_INTFMT_AFRC_ROT_LAYOUT
      then set_paging_tile a 8 8
      else set_paging_tile a 16 4 in
    let rgba_luma := afrc_coding_unit_bytes format_ext
                       MALI_GRALLOC_INTFMT_AFRC_RGBA_CODING_UNIT_BYTES_SHIFT in
    let* rgba_luma_alignment := afrc_plane_alignment_requirement rgba_luma in
    let a := set_rgba_luma a rgba_luma rgba_luma_alignment in
    run (if rgba_luma_alignment =? 0 then fail Err_coding_unit_size else ret tt) in
    let chroma := afrc_coding_unit_bytes format_ext
                    MALI_GRALLOC_INTFMT_AFRC_CHROMA_CODING_UNIT_BYTES_SHIFT in
    let* chroma_alignment := afrc_plane_alignment_requirement chroma in
    let a := set_chroma a chroma chroma_alignment in
    run (if chroma_alignment =? 0 then fail Err_coding_unit_size else ret tt) in
    let* a := for_planes (afrc_clump format) (seq 0 (npln format)) a in
    ret (set_afrc alloc_type a)
  else if is_format_block_linear format_ext then
    ret (set_primary_type alloc_type BLOCK_LINEAR)
  else ret alloc_type.

(** The overloads of the file-local [max] on [int]. *)
Definition max2 (a b : Z) : Z := if a >? b then a else b.
Definition max3 (a b c : Z) : Z := if c >? max2 a b then c else max2 a b.
Definition max4 (a b c d : Z) : Z := if d >? max3 a b c then d else max3 a b c.

Definition HEADER_STRIDE_ALIGN_IN_SUPER_BLOCKS : Z := 0.

(** The AFBC branch of [get_pixel_w_h]: the pair [(pixel_align_w, pixel_align_h)]. *)
Definition afbc_pixel_align (format : format_info_t) (alloc_type : alloc_type_t)
    (plane : nat) : Z * Z :=
  let sb := get_afbc_sb_size alloc_type plane in
  let num_sb_align :=
    if is_padded alloc_type && negb (is_yuv format) then 4 else 0 in
  let pixel_align_w :=
    max2 HEADER_STRIDE_ALIGN_IN_SUPER_BLOCKS num_sb_align * rect_width sb in
  let afbc_tile :=
    if is_tiled alloc_type then
      {| rect_width :=
           u16 (if arr_get (bpp_afbc format) plane >? 32
                then 4 * rect_width sb else 8 * rect_width sb);
         rect_height :=
           u16 (if arr_get (bpp_afbc format) plane >? 32
                then 4 * rect_height sb else 8 * rect_height sb) |}
    else sb in
  let pixel_align_w := max2 pixel_align_w (rect_width afbc_tile) in
  let pixel_align_h := max2 1 (rect_height afbc_tile) in
  let pixel_align_h :=
    if bool_decide (primary_type alloc_type = AFBC_WIDEBLK)
       && negb (is_tiled alloc_type)
    then max2 pixel_align_h 16 else pixel_align_h in
  (pixel_align_w, pixel_align_h).

(** First half of [get_pixel_w_h]: rounding to the format's granularity and
    sub-sampling of the planes after the first.  These are the values that
    the function computes; with [hsub] or [vsub] zero the C division kills
    the process, which [get_pixel_w_h_divisors] checks for its caller. *)
Definition plane_w_h (width height : Z) (format : format_info_t) (plane : nat)
    : Z * Z :=
  let width := GRALLOC_ALIGN u32 width (align_w format) in
  let height := GRALLOC_ALIGN u32 height (align_h format) in
  (if bool_decide (0 < plane)%nat then width / hsub format else width,
   if bool_decide (0 < plane)%nat then height / vsub format else height).

(** Second half: the pair [(pixel_align_w, pixel_align_h)]. *)
Definition pixel_align (format : format_info_t) (alloc_type : alloc_type_t)
    (plane : nat) (has_cpu_usage : bool) : Z * Z :=
  if has_cpu_usage then (align_w_cpu format, 1)
  else if is_afbc alloc_type then afbc_pixel_align format alloc_type plane
  else if is_afrc alloc_type then
    (paging_tile_width (afrc alloc_type)
       * arr_get (clump_width (afrc alloc_type)) plane,
     paging_tile_height (afrc alloc_type)
       * arr_get (clump_height (afrc alloc_type)) plane)
  else if is_block_linear alloc_type then (16, 16)
  else (1, 1).

(** [get_pixel_w_h]: the in/out parameters [*width], [*height] ([uint32_t])
    are passed in and returned. *)
Definition get_pixel_w_h (width height : Z) (format : format_info_t)
    (alloc_type : alloc_type_t) (plane : nat) (has_cpu_usage : bool) : Z * Z :=
  let '(width, height) := plane_w_h width height format plane in
  let '(pixel_align_w, pixel_align_h) :=
    pixel_align format alloc_type plane has_cpu_usage in
  (GRALLOC_ALIGN u32 width (max3 1 pixel_align_w (tile_size format)),
   GRALLOC_ALIGN u32 height (max3 1 pixel_align_h (tile_size format))).

(** The [while (b != 0)] loop of [gcd]; [fuel] bounds the iterations. *)
Fixpoint gcd_loop (fuel : nat) (a b : Z) : Z :=
  match fuel with
  | O => a
  | S fuel' => if b =? 0 then a else gcd_loop fuel' b (a mod b)
  end.

Definition gcd (a b : Z) : Z :=
  if a =? b then a
  else
    let '(a, b) := if a <? b then (b, a) else (a, b) in
    gcd_loop (S (Z.to_nat b)) a b.

Definition lcm (a b : Z) : Z :=
  if negb (a =? 0) && negb (b =? 0) then u32 (a * b) / gcd a b
  else u32 (max2 (s32 a) (s32 b)).

Definition c_assert (b : bool) : option unit := if b then Some tt else None.

(** The divisor of a C division or remainder: zero kills the process
    (SIGFPE), as a failing [assert] does (SIGABRT).  The check stands before
    the expression that divides. *)
Definition c_divisor (d : Z) : option unit := if d =? 0 then None else Some tt.

(** The divisions of [get_pixel_w_h]: by [hsub] and [vsub], for the planes
    after the first. *)
Definition get_pixel_w_h_divisors (format : format_info_t) (plane : nat)
    : option unit :=
  if bool_decide (0 < plane)%nat
  then c_divisor (hsub format);; c_divisor (vsub format)
  else Some tt.

(** [update_yv12_stride]: returns the new [*byte_stride]. *)
Definition update_yv12_stride (plane : nat) (luma_stride stride_align : Z)
    : option Z :=
  if bool_decide (plane = 0%nat) then
    Some (GRALLOC_ALIGN u32 luma_stride (u32 (2 * stride_align)))
  else
    let stride := luma_stride / 2 in
    c_assert (stride =? GRALLOC_ALIGN u32 stride stride_align);;
    c_assert (Z.land stride 15 =? 0);;
    Some stride.

Definition pi_get (a : list plane_info_t) (i : nat) : plane_info_t :=
  default plane_info_zero (a !! i).

Definition set_offset (p : plane_info_t) (v : Z) : plane_info_t :=
  {| offset := v; byte_stride := byte_stride p;
     alloc_width := alloc_width p; alloc_height := alloc_height p |}.
Definition set_byte_stride (p : plane_info_t) (v : Z) : plane_info_t :=
  {| offset := offset p; byte_stride := v;
     alloc_width := alloc_width p; alloc_height := alloc_height p |}.
Definition set_alloc_w_h (p : plane_info_t) (w h : Z) : plane_info_t :=
  {| offset := offset p; byte_stride := byte_stride p;
     alloc_width := w; alloc_height := h |}.

(** The outputs of [calc_allocation_size] while the loop runs.  [cs_sizes]
    records the locals [body_size] and [header_size] of each finished plane,
    in plane order; the C code only adds them into [*size]. *)
Record calc_state := {
  cs_plane_info : list plane_info_t;
  cs_size : Z;
  cs_pixel_stride : Z;
  cs_sizes : list (Z * Z)
}.

(** Byte stride of [plane]; [pis] is [plane_info] with the allocation width and
    height of [plane] already stored. *)
Definition calc_byte_stride (alloc_type : alloc_type_t) (format : format_info_t)
    (has_cpu_usage has_hw_usage : bool) (plane : nat) (pis : list plane_info_t)
    : option Z :=
  let info := pi_get pis plane in
  if is_afrc alloc_type then
    let coding_unit_bytes :=
      if bool_decide (plane = 0%nat)
      then rgba_luma_coding_unit_bytes (afrc alloc_type)
      else chroma_coding_unit_bytes (afrc alloc_type) in
    c_divisor (arr_get (clump_width (afrc alloc_type)) plane);;
    c_divisor (paging_tile_width (afrc alloc_type));;
    let paging_tile_stride :=
      alloc_width info / arr_get (clump_width (afrc alloc_type)) plane
        / paging_tile_width (afrc alloc_type) in
    let coding_units_in_paging_tile := 64 in
    Some (u32 (paging_tile_stride * coding_units_in_paging_tile * coding_unit_bytes))
  else if is_afbc alloc_type then
    c_assert (u32 (alloc_width info * arr_get (bpp_afbc format) plane) mod 8 =? 0);;
    Some (u32 (alloc_width info * arr_get (bpp_afbc format) plane) / 8)
  else if is_block_linear alloc_type then
    c_assert (u32 (alloc_width info * arr_get (bpp format) plane) mod 8 =? 0);;
    (if bool_decide (0 < plane)%nat
     then c_divisor (vsub format);; c_divisor (hsub format)
     else Some tt);;
    let sample_height := if bool_decide (0 < plane)%nat then 16 / vsub format else 16 in
    let sample_width := if bool_decide (0 < plane)%nat then 16 / hsub format else 16 in
    let bytes_per_block :=
      u32 (sample_height * sample_width * arr_get (bpp format) plane) / 8 in
    let number_of_x_blocks := alloc_width (pi_get pis 0) / 16 in
    Some (u32 (number_of_x_blocks * bytes_per_block))
  else
    c_assert (u32 (alloc_width info * arr_get (bpp format) plane) mod 8 =? 0);;
    let stride := u32 (alloc_width info * arr_get (bpp format) plane) / 8 in
    let hw_align :=
      if has_hw_usage then (if is_yuv format then 128 else 64) else 0 in
    cpu_align ←
      (if has_cpu_usage then
         c_assert (Z.rem (arr_get (bpp format) plane * align_w_cpu format) 8 =? 0);;
         Some (Z.quot (arr_get (bpp format) plane * align_w_cpu format) 8)
       else Some 0);
    let stride_align := lcm hw_align cpu_align in
    (if negb (stride_align =? 0) then c_divisor (tile_size format)
     else Some tt);;
    let stride :=
      if negb (stride_align =? 0)
      then GRALLOC_ALIGN u32 (stride * tile_size format) stride_align
             / tile_size format
      else stride in
    if (id format =? format_id YV12)
       && has_hw_usage && has_cpu_usage
    then
      update_yv12_stride plane
        (byte_stride (pi_get (<[plane := set_byte_stride info stride]> pis) 0))
        stride_align
    else Some stride.

(** Body size of [plane] in the AFBC branch. *)
Definition afbc_body_size (alloc_type : alloc_type_t) (format : format_info_t)
    (plane : nat) (sb_num : Z) : Z :=
  let sb := get_afbc_sb_size alloc_type plane in
  let sb_bytes :=
    GRALLOC_ALIGN_int
      (Z.quot (arr_get (bpp_afbc format) plane * rect_width sb * rect_height sb) 8)
      128 in
  let body_size := s32 (u32 (sb_num * sb_bytes)) in
  let body_size :=
    if bool_decide (1 < npln format)%nat && bool_decide (plane < 2)%nat
    then afbc_buffer_align (is_tiled alloc_type) body_size
    else body_size in
  if is_frontbuffer_safe alloc_type then
    let back_buffer_size := afbc_buffer_align (is_tiled alloc_type) body_size in
    s32 (body_size + back_buffer_size)
  else body_size.

(** One iteration of the plane loop of [calc_allocation_size].  The result is
    [None] when the process is killed in the iteration, by a failing [assert]
    or by a division by zero. *)
Definition calc_plane (width height : Z) (alloc_type : alloc_type_t)
    (format : format_info_t) (has_cpu_usage has_hw_usage : bool)
    (plane : nat) (st : calc_state) : option calc_state :=
  (* the divisions of [get_pixel_w_h] *)
  get_pixel_w_h_divisors format plane;;
  let '(w, h) :=
    get_pixel_w_h (u32 width) (u32 height) format alloc_type plane has_cpu_usage in
  let pis := <[plane := set_alloc_w_h (pi_get (cs_plane_info st) plane) w h]>
               (cs_plane_info st) in
  stride ← calc_byte_stride alloc_type format has_cpu_usage has_hw_usage plane pis;
  let pis := <[plane := set_byte_stride (pi_get pis plane) stride]> pis in
  let info := pi_get pis plane in
  pixel_stride ←
    (if bool_decide (plane = 0%nat) then
       let is_cpu_accessible :=
         negb (is_afbc alloc_type) && negb (is_afrc alloc_type)
         && negb (is_block_linear alloc_type) && has_cpu_usage in
       if is_cpu_accessible then
         c_divisor (arr_get (bpp format) plane);;
         c_assert (u32 (byte_stride info * 8) mod arr_get (bpp format) plane =? 0);;
         Some (s32 (u32 (byte_stride info * 8) / arr_get (bpp format) plane))
       else Some 0
     else Some (cs_pixel_stride st));
  let sb_num := u32 (alloc_width info * alloc_height info) / AFBC_PIXELS_PER_BLOCK in
  let size := cs_size st in
  (* the divisions of the AFRC body size *)
  (if negb (is_afbc alloc_type) && is_afrc alloc_type
   then c_divisor (arr_get (clump_width (afrc alloc_type)) plane);;
        c_divisor (arr_get (clump_height (afrc alloc_type)) plane)
   else Some tt);;
  let '(size, body_size) :=
    if is_afbc alloc_type then
      (size, afbc_body_size alloc_type format plane sb_num)
    else if is_afrc alloc_type then
      let alignment :=
        if bool_decide (plane = 0%nat)
        then rgba_luma_plane_alignment (afrc alloc_type)
        else chroma_plane_alignment (afrc alloc_type) in
      let coding_unit_bytes :=
        if bool_decide (plane = 0%nat)
        then rgba_luma_coding_unit_bytes (afrc alloc_type)
        else chroma_coding_unit_bytes (afrc alloc_type) in
      let s_coding_units :=
        alloc_width info / arr_get (clump_width (afrc alloc_type)) plane in
      let t_coding_units :=
        alloc_height info / arr_get (clump_height (afrc alloc_type)) plane in
      (GRALLOC_ALIGN u64 size alignment,
       s32 (u32 (s_coding_units * t_coding_units * coding_unit_bytes)))
    else if is_block_linear alloc_type then
      let number_of_blocks_y := alloc_height (pi_get pis 0) / 16 in
      (size, s32 (u32 (byte_stride info * number_of_blocks_y)))
    else
      (size, s32 (u32 (byte_stride info * alloc_height info))) in
  let header_size :=
    if is_afbc alloc_type then
      afbc_buffer_align (is_tiled alloc_type)
        (s32 (u32 (sb_num * AFBC_HEADER_BUFFER_BYTES_PER_BLOCKENTRY)))
    else 0 in
  let pis :=
    if bool_decide (0 < plane)%nat
    then <[plane := set_offset info (u32 size)]> pis
    else pis in
  Some {| cs_plane_info := pis;
          cs_size := u64 (size + s32 (body_size + header_size));
          cs_pixel_stride := pixel_stride;
          cs_sizes := cs_sizes st ++ [(body_size, header_size)] |}.

(** The plane loop. *)
Fixpoint calc_planes (step : nat → calc_state → option calc_state)
    (planes : list nat) (st : calc_state) : option calc_state :=
  match planes with
  | [] => Some st
  | plane :: rest => st' ← step plane st; calc_planes step rest st'
  end.

(** [calc_allocation_size]; [plane_info] and [pixel_stride] are the caller's
    values of the output parameters ([*size] is overwritten first). *)
Definition calc_allocation_size (width height : Z) (alloc_type : alloc_type_t)
    (format : format_info_t) (has_cpu_usage has_hw_usage : bool)
    (pixel_stride : Z) (plane_info : list plane_info_t) : option calc_state :=
  let plane_info := <[0%nat := set_offset (pi_get plane_info 0) 0]> plane_info in
  calc_planes
    (calc_plane width height alloc_type format has_cpu_usage has_hw_usage)
    (seq 0 (npln format))
    {| cs_plane_info := plane_info; cs_size := 0;
       cs_pixel_stride := pixel_stride; cs_sizes := [] |}.

(** Modelled from the spec: [buffer_descriptor_t] is declared in
    buffer_descriptor.h, which is not among the sources; these are the fields
    that the derivation reads or writes. *)
Record buffer_descriptor_t := {
  d_width : Z;
  d_height : Z;
  d_hal_format : Z;
  d_format_type : Z;
  d_producer_usage : Z;
  d_consumer_usage : Z;
  d_layer_count : Z;
  d_alloc_format : Z;
  d_pixel_stride : Z;
  d_size : Z;
  d_plane_info : list plane_info_t
}.

Definition set_alloc_format (d : buffer_descriptor_t) (v : Z) : buffer_descriptor_t :=
  {| d_width := d_width d; d_height := d_height d;
     d_hal_format := d_hal_format d; d_format_type := d_format_type d;
     d_producer_usage := d_producer_usage d;
     d_consumer_usage := d_consumer_usage d;
     d_layer_count := d_layer_count d; d_alloc_format := v;
     d_pixel_stride := d_pixel_stride d; d_size := d_size d;
     d_plane_info := d_plane_info d |}.
Definition set_layout (d : buffer_descriptor_t) (pixel_stride size : Z)
    (plane_info : list plane_info_t) : buffer_descriptor_t :=
  {| d_width := d_width d; d_height := d_height d;
     d_hal_format := d_hal_format d; d_format_type := d_format_type d;
     d_producer_usage := d_producer_usage d;
     d_consumer_usage := d_consumer_usage d;
     d_layer_count := d_layer_count d; d_alloc_format := d_alloc_format d;
     d_pixel_stride := pixel_stride; d_size := size;
     d_plane_info := plane_info |}.
Definition set_size (d : buffer_descriptor_t) (v : Z) : buffer_descriptor_t :=
  set_layout d (d_pixel_stride d) v (d_plane_info d).

Definition validate_format (format : format_info_t) (alloc_type : alloc_type_t)
    (bufDescriptor : buffer_descriptor_t) : M unit :=
  run (if is_afbc alloc_type then
         run (if negb (afbc format)
              then run log LOGE_afbc_not_supported in fail Err_afbc_not_supported
              else ret tt) in
         if (bool_decide (npln format = 1%nat) && is_multi_plane alloc_type)
            || (bool_decide (1 < npln format)%nat && negb (is_multi_plane alloc_type))
         then run log (LOGE_incompatible_plane_request (is_multi_plane alloc_type)) in
              fail Err_incompatible_plane_request
         else ret tt
       else if is_afrc alloc_type then
         if negb (afrc_supported format)
         then run log LOGE_afrc_not_supported in fail Err_afrc_not_supported
         else ret tt
       else if is_block_linear alloc_type then
         if negb (block_linear format)
         then run log LOGE_block_linear_not_supported in
              fail Err_block_linear_not_supported
         else ret tt
       else
         if negb (linear format)
         then run log LOGE_uncompressed_not_supported in
              fail Err_uncompressed_not_supported
         else ret tt) in
  if (id format =? format_id BLOB)
     && negb (d_height bufDescriptor =? 1)
  then run log LOGE_blob_height in fail Err_blob_height
  else ret tt.

(** The multi-layer step at the end of the derivation: the new
    [descriptor->size] ([size_t]). *)
Definition layer_size (alloc_format layer_count size : Z) : Z :=
  if layer_count >? 1 then
    let size :=
      if is_format_afbc alloc_format then
        if has_bits alloc_format MALI_GRALLOC_INTFMT_AFBC_TILED_HEADERS
        then GRALLOC_ALIGN u64 size 4096
        else GRALLOC_ALIGN u64 size 128
      else size in
    u64 (size * layer_count)
  else size.

(** A result [inr d] is the return value [0] with the descriptor [d]; a result
    [inl e] other than [Assertion_failed] is the return value [-EINVAL]. *)
Definition mali_gralloc_derive_format_and_size (descriptor : buffer_descriptor_t)
    : M buffer_descriptor_t :=
  let alloc_type := alloc_type_zero in
  let alloc_width := s32 (d_width descriptor) in
  let alloc_height := s32 (d_height descriptor) in
  let usage := Z.lor (d_producer_usage descriptor) (d_consumer_usage descriptor) in
  let descriptor :=
    set_alloc_format descriptor
      (mali_gralloc_select_format (d_hal_format descriptor)
         (d_format_type descriptor) usage) in
  if d_alloc_format descriptor =? format_id UNDEFINED then
    run log LOGE_unrecognized_format in fail Err_undefined_format
  else
  match get_format_index
          (Z.land (d_alloc_format descriptor) MALI_GRALLOC_INTFMT_FMT_MASK) with
  | None => fail Err_format_index
  | Some format_idx =>
    let* alloc_type :=
      get_alloc_type
        (Z.land (d_alloc_format descriptor) MALI_GRALLOC_INTFMT_EXT_MASK)
        format_idx usage alloc_type in
    run validate_format (format_at format_idx) alloc_type descriptor in
    let '(alloc_width, alloc_height) :=
      mali_gralloc_adjust_dimensions (d_alloc_format descriptor) usage
        alloc_width alloc_height in
    let* st :=
      of_assert
        (calc_allocation_size alloc_width alloc_height alloc_type
           (format_at format_idx)
           (has_bits usage
              (Z.lor GRALLOC_USAGE_SW_READ_MASK GRALLOC_USAGE_SW_WRITE_MASK))
           (has_bits usage
              (Z.lnot (Z.lor GRALLOC_USAGE_PRIVATE_MASK
                         (Z.lor GRALLOC_USAGE_SW_READ_MASK
                                GRALLOC_USAGE_SW_WRITE_MASK))))
           (d_pixel_stride descriptor) (d_plane_info descriptor)) in
    let descriptor :=
      set_layout descriptor (cs_pixel_stride st) (cs_size st) (cs_plane_info st) in
    ret (set_size descriptor
           (layer_size (d_alloc_format descriptor) (d_layer_count descriptor)
              (d_size descriptor)))
  end.

End Allocation.

(** ** drm_utils.cpp *)

(** [fourcc_code(a, b, c, d)] and the format codes of drm_fourcc.h (libdrm,
    outside this repository), from their four characters. *)
Definition fourcc_code (s : string) : Z :=
  match s with
  | String a (String b (String c (String d EmptyString))) =>
      Z.lor (Z.of_nat (Ascii.nat_of_ascii a))
        (Z.lor (Z.shiftl (Z.of_nat (Ascii.nat_of_ascii b)) 8)
           (Z.lor (Z.shiftl (Z.of_nat (Ascii.nat_of_ascii c)) 16)
                  (Z.shiftl (Z.of_nat (Ascii.nat_of_ascii d)) 24)))
  | _ => 0
  end.

Definition DRM_FORMAT_INVALID : Z := 0.
Definition DRM_FORMAT_R16 := fourcc_code "R16 ".
Definition DRM_FORMAT_ABGR8888 := fourcc_code "AB24".
Definition DRM_FORMAT_ARGB8888 := fourcc_code "AR24".
Definition DRM_FORMAT_RGB565 := fourcc_code "RG16".
Definition DRM_FORMAT_BGR565 := fourcc_code "BG16".
Definition DRM_FORMAT_XBGR8888 := fourcc_code "XB24".
Definition DRM_FORMAT_BGR888 := fourcc_code "BG24".
Definition DRM_FORMAT_ABGR2101010 := fourcc_code "AB30".
Definition DRM_FORMAT_ABGR16161616F := fourcc_code "AB4H".
Definition DRM_FORMAT_AXBXGXRX106106106106 := fourcc_code "AB10".
Definition DRM_FORMAT_YVU420 := fourcc_code "YV12".
Definition DRM_FORMAT_YUV420 := fourcc_code "YU12".
Definition DRM_FORMAT_NV12 := fourcc_code "NV12".
Definition DRM_FORMAT_NV15 := fourcc_code "NV15".
Definition DRM_FORMAT_NV16 := fourcc_code "NV16".
Definition DRM_FORMAT_NV21 := fourcc_code "NV21".
Definition DRM_FORMAT_Y0L2 := fourcc_code "Y0L2".
Definition DRM_FORMAT_Y210 := fourcc_code "Y210".
Definition DRM_FORMAT_P010 := fourcc_code "P010".
Definition DRM_FORMAT_P210 := fourcc_code "P210".
Definition DRM_FORMAT_Y410 := fourcc_code "Y410".
Definition DRM_FORMAT_YUV444 := fourcc_code "YU24".
Definition DRM_FORMAT_Q410 := fourcc_code "Q410".
Definition DRM_FORMAT_Q401 := fourcc_code "Q401".
Definition DRM_FORMAT_YUYV := fourcc_code "YUYV".
Definition DRM_FORMAT_YUV420_8BIT := fourcc_code "YU08".
Definition DRM_FORMAT_YUV420_10BIT := fourcc_code "YU10".

Inductive format_colormodel := rgb | yuv.

Record table_entry := { fourcc : Z; colormodel : format_colormodel }.

(** Modelled from the spec: [private_handle_t] (absent header), reduced to
    the field that the fourcc lookup reads. *)
Record private_handle_t := { alloc_format : Z }.

Section DrmUtils.
Context `{H : Headers}.

(** The initialiser list of [table], in source order. *)
Definition table_init : list (Z * table_entry) :=
  [ (format_id RAW16, {| fourcc := DRM_FORMAT_R16; colormodel := rgb |});
    (format_id RGBA_8888, {| fourcc := DRM_FORMAT_ABGR8888; colormodel := rgb |});
    (format_id BGRA_8888, {| fourcc := DRM_FORMAT_ARGB8888; colormodel := rgb |});
    (format_id RGB_565, {| fourcc := DRM_FORMAT_RGB565; colormodel := rgb |});
    (format_id RGBX_8888, {| fourcc := DRM_FORMAT_XBGR8888; colormodel := rgb |});
    (format_id RGB_888, {| fourcc := DRM_FORMAT_BGR888; colormodel := rgb |});
    (format_id RGBA_1010102, {| fourcc := DRM_FORMAT_ABGR2101010; colormodel := rgb |});
    (format_id RGBA_16161616, {| fourcc := DRM_FORMAT_ABGR16161616F; colormodel := rgb |});
    (format_id RGBA_10101010,
       {| fourcc := DRM_FORMAT_AXBXGXRX106106106106; colormodel := rgb |});
    (format_id YV12, {| fourcc := DRM_FORMAT_YVU420; colormodel := yuv |});
    (format_id YU12, {| fourcc := DRM_FORMAT_YUV420; colormodel := yuv |});
    (format_id NV12, {| fourcc := DRM_FORMAT_NV12; colormodel := yuv |});
    (format_id NV15, {| fourcc := DRM_FORMAT_NV15; colormodel := yuv |});
    (format_id NV16, {| fourcc := DRM_FORMAT_NV16; colormodel := yuv |});
    (format_id NV21, {| fourcc := DRM_FORMAT_NV21; colormodel := yuv |});
    (format_id Y0L2, {| fourcc := DRM_FORMAT_Y0L2; colormodel := yuv |});
    (format_id Y210, {| fourcc := DRM_FORMAT_Y210; colormodel := yuv |});
    (format_id P010, {| fourcc := DRM_FORMAT_P010; colormodel := yuv |});
    (format_id P210, {| fourcc := DRM_FORMAT_P210; colormodel := yuv |});
    (format_id Y410, {| fourcc := DRM_FORMAT_Y410; colormodel := yuv |});
    (format_id YUV444, {| fourcc := DRM_FORMAT_YUV444; colormodel := yuv |});
    (format_id Q410, {| fourcc := DRM_FORMAT_Q410; colormodel := yuv |});
    (format_id Q401, {| fourcc := DRM_FORMAT_Q401; colormodel := yuv |});
    (format_id YUV422_8BIT, {| fourcc := DRM_FORMAT_YUYV; colormodel := yuv |});
    (format_id YUV420_8BIT_I, {| fourcc := DRM_FORMAT_YUV420_8BIT; colormodel := yuv |});
    (format_id YUV420_10BIT_I,
       {| fourcc := DRM_FORMAT_YUV420_10BIT; colormodel := yuv |});
    (format_id HAL_PIXEL_FORMAT_YCBCR_P010,
       {| fourcc := DRM_FORMAT_P010; colormodel := yuv |}) ].

(** The [std::unordered_map] built from it: of two entries with the same key
    the earlier one is kept, as with [list_to_map]. *)
Definition table : gmap Z table_entry := list_to_map table_init.

Definition drm_fourcc_from_handle (hnd : private_handle_t) : Z :=
  let unmasked_format := alloc_format hnd in
  let internal_format := get_internal_format_from_gralloc_format unmasked_format in
  match table !! internal_format with
  | None => DRM_FORMAT_INVALID
  | Some entry =>
      let afbc := is_format_afbc unmasked_format in
      if afbc && (internal_format =? format_id RGB_565)
      then DRM_FORMAT_BGR565
      else fourcc entry
  end.

End DrmUtils.

(** ** A concrete implementation of the header interface

    Used to run the model on concrete requests.  The bit positions,
    identifiers and catalogue entries follow the usual layout of the Mali
    gralloc headers.  The general statements hold for every implementation of
    [Headers]; only the examples at the end of the file use this one. *)
Module Sample.

Definition bit (n : Z) : Z := Z.shiftl 1 n.

Definition INTFMT_AFBC_BASIC : Z := bit 32.
Definition INTFMT_AFBC_WIDEBLK : Z := bit 34.
Definition INTFMT_AFBC_TILED_HEADERS : Z := bit 35.
Definition INTFMT_AFBC_EXTRAWIDEBLK : Z := bit 36.
Definition INTFMT_AFBC_DOUBLE_BODY : Z := bit 37.
Definition INTFMT_AFBC_YUV_TRANSFORM : Z := bit 39.
Definition INTFMT_AFRC_BASIC : Z := bit 42.
Definition INTFMT_AFRC_ROT_LAYOUT : Z := bit 43.
Definition INTFMT_BLOCK_LINEAR_BASIC : Z := bit 48.
Definition USAGE_SW_READ_OFTEN : Z := 3.
Definition USAGE_HW_TEXTURE : Z := 256.

Definition sample_format_id (n : format_name) : Z :=
  match n with
  | UNDEFINED => 0
  | RGBA_8888 => 1 | RGBX_8888 => 2 | RGB_888 => 3 | RGB_565 => 4
  | BGRA_8888 => 5 | RGBA_16161616 => 22 | RAW16 => 32 | BLOB => 33
  | RGBA_1010102 => 43 | HAL_PIXEL_FORMAT_YCBCR_P010 => 54
  | YV12 => 842094169
  | NV12 => 256 | NV21 => 257 | YUV422_8BIT => 258 | Y0L2 => 259
  | Y210 => 260 | P010 => 261 | P210 => 262 | Y410 => 263
  | YUV420_8BIT_I => 264 | YUV420_10BIT_I => 265 | RGBA_10101010 => 266
  | NV16 => 267 | NV15 => 268 | YU12 => 269 | YUV444 => 270
  | Q410 => 271 | Q401 => 272
  end.

Definition fmt_rgba_8888 : format_info_t :=
  {| id := sample_format_id RGBA_8888; npln := 1; ncmp := [4; 0; 0; 0];
     bpp_afbc := [32; 0; 0; 0]; bpp := [32; 0; 0; 0]; hsub := 0; vsub := 0;
     align_w := 1; align_h := 1; align_w_cpu := 16; tile_size := 1;
     is_yuv := false; afbc := true; linear := true; afrc_supported := true;
     block_linear := false |}.

Definition fmt_rgb_565 : format_info_t :=
  {| id := sample_format_id RGB_565; npln := 1; ncmp := [3; 0; 0; 0];
     bpp_afbc := [16; 0; 0; 0]; bpp := [16; 0; 0; 0]; hsub := 0; vsub := 0;
     align_w := 1; align_h := 1; align_w_cpu := 16; tile_size := 1;
     is_yuv := false; afbc := true; linear := true; afrc_supported := false;
     block_linear := false |}.

Definition fmt_nv12 : format_info_t :=
  {| id := sample_format_id NV12; npln := 2; ncmp := [1; 2; 0; 0];
     bpp_afbc := [8; 16; 0; 0]; bpp := [8; 16; 0; 0]; hsub := 2; vsub := 2;
     align_w := 2; align_h := 2; align_w_cpu := 16; tile_size := 1;
     is_yuv := true; afbc := true; linear := true; afrc_supported := true;
     block_linear := true |}.

Definition fmt_yv12 : format_info_t :=
  {| id := sample_format_id YV12; npln := 3; ncmp := [1; 1; 1; 0];
     bpp_afbc := [8; 8; 8; 0]; bpp := [8; 8; 8; 0]; hsub := 2; vsub := 2;
     align_w := 2; align_h := 2; align_w_cpu := 16; tile_size := 1;
     is_yuv := true; afbc := false; linear := true; afrc_supported := true;
     block_linear := false |}.

Definition fmt_blob : format_info_t :=
  {| id := sample_format_id BLOB; npln := 1; ncmp := [1; 0; 0; 0];
     bpp_afbc := [0; 0; 0; 0]; bpp := [8; 0; 0; 0]; hsub := 0; vsub := 0;
     align_w := 1; align_h := 1; align_w_cpu := 1; tile_size := 1;
     is_yuv := false; afbc := false; linear := true; afrc_supported := false;
     block_linear := false |}.

Definition sample_formats : list format_info_t :=
  [fmt_rgba_8888; fmt_rgb_565; fmt_nv12; fmt_yv12; fmt_blob].

Fixpoint index_of (base_format : Z) (l : list format_info_t) (i : nat) : option nat :=
  match l with
  | [] => None
  | f :: l' => if id f =? base_format then Some i else index_of base_format l' (S i)
  end.

Definition headers : Headers := {|
  MALI_GRALLOC_INTFMT_AFBC_WIDEBLK := INTFMT_AFBC_WIDEBLK;
  MALI_GRALLOC_INTFMT_AFBC_EXTRAWIDEBLK := INTFMT_AFBC_EXTRAWIDEBLK;
  MALI_GRALLOC_INTFMT_AFBC_TILED_HEADERS := INTFMT_AFBC_TILED_HEADERS;
  MALI_GRALLOC_INTFMT_AFBC_DOUBLE_BODY := INTFMT_AFBC_DOUBLE_BODY;
  MALI_GRALLOC_INTFMT_AFBC_YUV_TRANSFORM := INTFMT_AFBC_YUV_TRANSFORM;
  MALI_GRALLOC_INTFMT_AFRC_ROT_LAYOUT := INTFMT_AFRC_ROT_LAYOUT;
  MALI_GRALLOC_INTFMT_AFRC_RGBA_CODING_UNIT_BYTES_SHIFT := 44;
  MALI_GRALLOC_INTFMT_AFRC_CHROMA_CODING_UNIT_BYTES_SHIFT := 46;
  MALI_GRALLOC_INTFMT_AFRC_CODING_UNIT_BYTES_MASK := 3;
  MALI_GRALLOC_INTFMT_AFRC_CODING_UNIT_BYTES_UNWRAP := λ x, 8 * (x + 2);
  MALI_GRALLOC_INTFMT_FMT_MASK := 2 ^ 32 - 1;
  MALI_GRALLOC_INTFMT_EXT_MASK := 2 ^ 64 - 2 ^ 32;
  MALI_GRALLOC_USAGE_AFBC_PADDING := bit 28;
  format_id := sample_format_id;
  get_internal_format_from_gralloc_format := λ f, Z.land f (2 ^ 32 - 1);
  GRALLOC_USAGE_SW_READ_MASK := 15;
  GRALLOC_USAGE_SW_WRITE_MASK := 240;
  GRALLOC_USAGE_PRIVATE_MASK := 15 * 2 ^ 28;
  is_format_afbc := λ f, has_bits f INTFMT_AFBC_BASIC;
  is_format_afrc := λ f, has_bits f INTFMT_AFRC_BASIC;
  is_format_block_linear := λ f, has_bits f INTFMT_BLOCK_LINEAR_BASIC;
  formats := sample_formats;
  get_format_index := λ base_format, index_of base_format sample_formats 0;
  mali_gralloc_select_format := λ hal_format _ _, hal_format;
  mali_gralloc_adjust_dimensions := λ _ _ w h, (w, h)
|}.

(** A request for [width] x [height] pixels of [format] (internal format word,
    extension bits included) with one usage word and [layers] layers. *)
Definition request (width height format usage layers : Z) : buffer_descriptor_t :=
  {| d_width := width; d_height := height; d_hal_format := format;
     d_format_type := 0; d_producer_usage := usage; d_consumer_usage := usage;
     d_layer_count := layers; d_alloc_format := 0; d_pixel_stride := 0;
     d_size := 0; d_plane_info := replicate MAX_PLANES plane_info_zero |}.

(** The caller's zeroed [plane_info] array. *)
Definition planes0 : list plane_info_t := replicate MAX_PLANES plane_info_zero.

End Sample.

(** ** Notions used in the statements *)

(** The coding-unit sizes [afrc_plane_alignment_requirement] accepts, and the
    alignment it answers for each. *)
Definition valid_coding_unit (cu : Z) : bool :=
  (cu =? 16) || (cu =? 24) || (cu =? 32).

Definition alignment_of_coding_unit (cu : Z) : Z :=
  if cu =? 16 then 1024 else if cu =? 24 then 512 else 2048.

(** The clump of a plane with [n] components, if [n] is a handled count. *)
Definition clump_of (a : afrc_t) (n : Z) : option (Z * Z) :=
  if n =? 1 then Some (paging_tile_width a, paging_tile_height a)
  else if n =? 2 then Some (8, 4)
  else if (n =? 3) || (n =? 4) then Some (4, 4)
  else None.

(** The paging tile chosen by the AFRC branch of [get_alloc_type]. *)
Definition afrc_paging_tile `{H : Headers} (format_ext : Z) : Z * Z :=
  if has_bits format_ext MALI_GRALLOC_INTFMT_AFRC_ROT_LAYOUT then (8, 8) else (16, 4).

(** [value] rounded up to a multiple of [base], in [Z]. *)
Definition round_up (value base : Z) : Z := (value + base - 1) / base * base.

(** Ranges of the catalogue fields for which the size computation stays within
    32 bits on requests of up to [MAX_DIM] pixels a side.  Sub-sampling
    factors matter only for formats with more than one plane. *)
Definition MAX_DIM : Z := 8192.

Definition format_wf (format : format_info_t) : Prop :=
  (npln format ≤ MAX_PLANES)%nat
  ∧ 1 ≤ align_w format ≤ 16 ∧ 1 ≤ align_h format ≤ 16
  ∧ 1 ≤ align_w_cpu format ≤ 16 ∧ 1 ≤ tile_size format ≤ 16
  ∧ ((1 < npln format)%nat →
     1 ≤ hsub format ≤ align_w format ∧ 1 ≤ vsub format ≤ align_h format)
  ∧ ∀ plane, (plane < npln format)%nat →
      8 ≤ arr_get (bpp format) plane ≤ 64
      ∧ 0 ≤ arr_get (bpp_afbc format) plane ≤ 64.

(** The divisors of [get_pixel_w_h] and of the block-linear stride: a format
    with several planes has sub-sampling factors other than zero. *)
Definition subsampling_wf (format : format_info_t) : Prop :=
  (1 < npln format)%nat → hsub format ≠ 0 ∧ vsub format ≠ 0.

(** What the selector guarantees about the AFRC parameters of its answer. *)
Definition alloc_type_wf (format : format_info_t) (t : alloc_type_t) : Prop :=
  is_afrc t = true →
  ((paging_tile_width (afrc t) = 8 ∧ paging_tile_height (afrc t) = 8)
   ∨ (paging_tile_width (afrc t) = 16 ∧ paging_tile_height (afrc t) = 4))
  ∧ valid_coding_unit (rgba_luma_coding_unit_bytes (afrc t)) = true
  ∧ valid_coding_unit (chroma_coding_unit_bytes (afrc t)) = true
  ∧ rgba_luma_plane_alignment (afrc t)
    = alignment_of_coding_unit (rgba_luma_coding_unit_bytes (afrc t))
  ∧ chroma_plane_alignment (afrc t)
    = alignment_of_coding_unit (chroma_coding_unit_bytes (afrc t))
  ∧ ∀ plane, (plane < npln format)%nat →
      clump_of (afrc t) (arr_get (ncmp format) plane)
      = Some (arr_get (clump_width (afrc t)) plane,
              arr_get (clump_height (afrc t)) plane).

(** Offset, body size and header size of a plane in a finished layout. *)
Definition plane_offset (st : calc_state) (plane : nat) : Z :=
  offset (pi_get (cs_plane_info st) plane).
Definition plane_body (st : calc_state) (plane : nat) : Z :=
  (default (0, 0) (cs_sizes st !! plane)).1.
Definition plane_header (st : calc_state) (plane : nat) : Z :=
  (default (0, 0) (cs_sizes st !! plane)).2.
Definition sum_bodies (st : calc_state) : Z :=
  foldr Z.add 0 (fst <$> cs_sizes st).

(** The running size of a layout after the planes whose body and header sizes
    are [sizes], for the encodings that do not align the start of a plane:
    body and header are added as [int], and the sum is added to the [size_t]
    size. *)
Definition running_size (sizes : list (Z * Z)) : Z :=
  foldl (λ size bh, u64 (size + s32 (bh.1 + bh.2))) 0 sizes.

(** What later planes read from the record of plane 0: its allocation size for
    block-linear buffers and its byte stride for YV12 with CPU and hardware
    usage. *)
Definition plane0_inv `{H : Headers} (t : alloc_type_t) (format : format_info_t)
    (has_cpu_usage has_hw_usage : bool) (pis : list plane_info_t) : Prop :=
  (is_block_linear t = true →
   16 ≤ alloc_width (pi_get pis 0) ≤ 8718
   ∧ 16 ≤ alloc_height (pi_get pis 0) ≤ 8334)
  ∧ ((id format =? format_id YV12) && has_hw_usage && has_cpu_usage = true →
     2 ≤ byte_stride (pi_get pis 0) ≤ 118896).

(** Largest body plus header of one plane on a request of up to [MAX_DIM]
    pixels a side. *)
Definition MAX_PLANE_SIZE : Z := 1300000000.

(** The invariant of the plane loop after [k] planes, for a [plane_info] array
    of [len] entries: every finished plane has a non-empty body plus header
    that lies below the running size and below the offsets of the planes
    after it. *)
Definition layout_inv `{H : Headers} (t : alloc_type_t) (format : format_info_t)
    (has_cpu_usage has_hw_usage : bool) (len : nat) (k : nat) (st : calc_state)
    : Prop :=
  length (cs_plane_info st) = len
  ∧ length (cs_sizes st) = k
  ∧ 0 ≤ cs_size st ≤ Z.of_nat k * (MAX_PLANE_SIZE + 2047)
  ∧ plane_offset st 0 = 0
  ∧ (∀ i, (i < k)%nat →
       0 ≤ plane_body st i ∧ 0 ≤ plane_header st i
       ∧ 1 ≤ plane_body st i + plane_header st i
       ∧ 0 ≤ plane_offset st i
       ∧ plane_offset st i + plane_body st i + plane_header st i ≤ cs_size st)
  ∧ (∀ i j, (i < j < k)%nat →
       plane_offset st i + plane_body st i + plane_header st i
       ≤ plane_offset st j)
  ∧ sum_bodies st ≤ cs_size st
  ∧ ((0 < k)%nat →
     plane0_inv t format has_cpu_usage has_hw_usage (cs_plane_info st)).

(** * The rest of the allocator

    The functions of the same files that the layout engine does not call:
    the DRM modifier of drm_utils.cpp, the AFBC header initialisation and the
    buffer identifiers of buffer_allocation.cpp. *)

(** ** More of the gralloc headers

    The remaining constants and macros of gralloc/formats.h and format_info.h
    that these functions use, as a second interface.
    [MALI_GRALLOC_INTFMT_AFRC_x_CODING_UNIT_BYTES] are the function-like
    macros that place a coding-unit size class in the field of plane group
    [x]. *)
Class FormatHeaders := {
  MALI_GRALLOC_INTFMT_AFBC_SPLITBLK : Z;
  MALI_GRALLOC_INTFMT_AFBC_BCH : Z;
  MALI_GRALLOC_INTFMT_AFBC_SPARSE : Z;
  MALI_GRALLOC_INTFMT_AFBC_USM : Z;
  get_modifier_from_gralloc_format : Z → Z;
  MALI_GRALLOC_INTFMT_AFRC_LUMA_CODING_UNIT_BYTES : Z → Z;
  MALI_GRALLOC_INTFMT_AFRC_CHROMA_CODING_UNIT_BYTES : Z → Z;
  MALI_GRALLOC_INTFMT_AFRC_RGBA_CODING_UNIT_BYTES : Z → Z;
  MALI_GRALLOC_INTFMT_AFRC_CODING_UNIT_BYTES_16 : Z;
  MALI_GRALLOC_INTFMT_AFRC_CODING_UNIT_BYTES_24 : Z;
  MALI_GRALLOC_INTFMT_AFRC_CODING_UNIT_BYTES_32 : Z;
  is_subsampled_yuv : Z → bool
}.

(** ** drm_utils.cpp: the modifier *)

(** The modifier macros and constants of drm_fourcc.h (libdrm, outside this
    repository); all of type [__u64]. *)
Definition DRM_FORMAT_MOD_VENDOR_SAMSUNG : Z := 0x04.
Definition DRM_FORMAT_MOD_VENDOR_ARM : Z := 0x08.

Definition fourcc_mod_code (vendor val : Z) : Z :=
  Z.lor (u64 (Z.shiftl vendor 56)) (Z.land val 0x00ffffffffffffff).

Definition DRM_FORMAT_MOD_SAMSUNG_16_16_TILE : Z :=
  fourcc_mod_code DRM_FORMAT_MOD_VENDOR_SAMSUNG 2.
Definition DRM_FORMAT_MOD_GENERIC_16_16_TILE : Z :=
  DRM_FORMAT_MOD_SAMSUNG_16_16_TILE.

Definition DRM_FORMAT_MOD_ARM_CODE (type val : Z) : Z :=
  fourcc_mod_code DRM_FORMAT_MOD_VENDOR_ARM
    (Z.lor (u64 (Z.shiftl type 52)) (Z.land val 0x000fffffffffffff)).

Definition DRM_FORMAT_MOD_ARM_TYPE_AFBC : Z := 0x00.
Definition DRM_FORMAT_MOD_ARM_TYPE_AFRC : Z := 0x02.

Definition DRM_FORMAT_MOD_ARM_AFBC (afbc_mode : Z) : Z :=
  DRM_FORMAT_MOD_ARM_CODE DRM_FORMAT_MOD_ARM_TYPE_AFBC afbc_mode.
Definition DRM_FORMAT_MOD_ARM_AFRC (afrc_mode : Z) : Z :=
  DRM_FORMAT_MOD_ARM_CODE DRM_FORMAT_MOD_ARM_TYPE_AFRC afrc_mode.

Definition AFBC_FORMAT_MOD_BLOCK_SIZE_MASK : Z := 0xf.
Definition AFBC_FORMAT_MOD_BLOCK_SIZE_16x16 : Z := 1.
Definition AFBC_FORMAT_MOD_BLOCK_SIZE_32x8 : Z := 2.
Definition AFBC_FORMAT_MOD_BLOCK_SIZE_64x4 : Z := 3.
Definition AFBC_FORMAT_MOD_BLOCK_SIZE_32x8_64x4 : Z := 4.
Definition AFBC_FORMAT_MOD_YTR : Z := Z.shiftl 1 4.
Definition AFBC_FORMAT_MOD_SPLIT : Z := Z.shiftl 1 5.
Definition AFBC_FORMAT_MOD_SPARSE : Z := Z.shiftl 1 6.
Definition AFBC_FORMAT_MOD_TILED : Z := Z.shiftl 1 8.
Definition AFBC_FORMAT_MOD_DB : Z := Z.shiftl 1 10.
Definition AFBC_FORMAT_MOD_BCH : Z := Z.shiftl 1 11.
Definition AFBC_FORMAT_MOD_USM : Z := Z.shiftl 1 12.

Definition AFRC_FORMAT_MOD_CU_SIZE_MASK : Z := 0xf.
Definition AFRC_FORMAT_MOD_CU_SIZE_16 : Z := 1.
Definition AFRC_FORMAT_MOD_CU_SIZE_24 : Z := 2.
Definition AFRC_FORMAT_MOD_CU_SIZE_32 : Z := 3.
Definition AFRC_FORMAT_MOD_CU_SIZE_P0 (afrc_cu_size : Z) : Z := afrc_cu_size.
Definition AFRC_FORMAT_MOD_CU_SIZE_P12 (afrc_cu_size : Z) : Z :=
  Z.shiftl afrc_cu_size 4.
Definition AFRC_FORMAT_MOD_LAYOUT_SCAN : Z := Z.shiftl 1 8.

(** [==] on the colour models. *)
Definition colormodel_eqb (a b : format_colormodel) : bool :=
  match a, b with
  | rgb, rgb | yuv, yuv => true
  | _, _ => false
  end.

(** [modifier |= flag] under a condition. *)
Definition or_if (c : bool) (modifier flag : Z) : Z :=
  if c then Z.lor modifier flag else modifier.

Section DrmModifier.
Context `{H : Headers} `{F : FormatHeaders}.

(** One [switch] on a coding-unit field: [wrap] is the macro of the plane
    group, [place] the sub-field of the modifier.  No label matching leaves
    the modifier as it is. *)
Definition afrc_cu_size_switch (block_size : Z) (wrap place : Z → Z)
    (modifier : Z) : Z :=
  if block_size =? wrap MALI_GRALLOC_INTFMT_AFRC_CODING_UNIT_BYTES_32
  then Z.lor modifier (place AFRC_FORMAT_MOD_CU_SIZE_32)
  else if block_size =? wrap MALI_GRALLOC_INTFMT_AFRC_CODING_UNIT_BYTES_24
  then Z.lor modifier (place AFRC_FORMAT_MOD_CU_SIZE_24)
  else if block_size =? wrap MALI_GRALLOC_INTFMT_AFRC_CODING_UNIT_BYTES_16
  then Z.lor modifier (place AFRC_FORMAT_MOD_CU_SIZE_16)
  else modifier.

(** [hnd_is_multi_plane] is the answer of [hnd->is_multi_plane()], a method of
    the handle class whose header is not among the sources. *)
Definition get_afrc_modifier_tags (hnd : private_handle_t)
    (hnd_is_multi_plane : bool) : Z :=
  let unmasked_format := alloc_format hnd in
  if negb (is_format_afrc unmasked_format) then 0
  else
    let internal_format := get_internal_format_from_gralloc_format unmasked_format in
    let internal_modifier := get_modifier_from_gralloc_format unmasked_format in
    let modifier := 0 in
    match table !! internal_format with
    | None => 0
    | Some entry =>
        let modifier :=
          or_if (negb (has_bits internal_modifier MALI_GRALLOC_INTFMT_AFRC_ROT_LAYOUT))
            modifier AFRC_FORMAT_MOD_LAYOUT_SCAN in
        let modifier :=
          if colormodel_eqb (colormodel entry) yuv && hnd_is_multi_plane then
            let luma_block_size :=
              Z.land internal_modifier
                (MALI_GRALLOC_INTFMT_AFRC_LUMA_CODING_UNIT_BYTES
                   MALI_GRALLOC_INTFMT_AFRC_CODING_UNIT_BYTES_MASK) in
            let chroma_block_size :=
              Z.land internal_modifier
                (MALI_GRALLOC_INTFMT_AFRC_CHROMA_CODING_UNIT_BYTES
                   MALI_GRALLOC_INTFMT_AFRC_CODING_UNIT_BYTES_MASK) in
            let modifier :=
              afrc_cu_size_switch luma_block_size
                MALI_GRALLOC_INTFMT_AFRC_LUMA_CODING_UNIT_BYTES
                AFRC_FORMAT_MOD_CU_SIZE_P0 modifier in
            afrc_cu_size_switch chroma_block_size
              MALI_GRALLOC_INTFMT_AFRC_CHROMA_CODING_UNIT_BYTES
              AFRC_FORMAT_MOD_CU_SIZE_P12 modifier
          else
            let rgba_block_size :=
              Z.land internal_modifier
                (MALI_GRALLOC_INTFMT_AFRC_RGBA_CODING_UNIT_BYTES
                   MALI_GRALLOC_INTFMT_AFRC_CODING_UNIT_BYTES_MASK) in
            afrc_cu_size_switch rgba_block_size
              MALI_GRALLOC_INTFMT_AFRC_RGBA_CODING_UNIT_BYTES
              AFRC_FORMAT_MOD_CU_SIZE_P0 modifier in
        DRM_FORMAT_MOD_ARM_AFRC modifier
    end.

Definition get_afbc_modifier_tags (hnd : private_handle_t)
    (hnd_is_multi_plane : bool) : Z :=
  let internal_format := alloc_format hnd in
  if negb (is_format_afbc internal_format) then 0
  else
    let modifier := 0 in
    let modifier :=
      or_if (has_bits internal_format MALI_GRALLOC_INTFMT_AFBC_SPLITBLK)
        modifier AFBC_FORMAT_MOD_SPLIT in
    let modifier :=
      or_if (has_bits internal_format MALI_GRALLOC_INTFMT_AFBC_TILED_HEADERS)
        modifier AFBC_FORMAT_MOD_TILED in
    let modifier :=
      or_if (has_bits internal_format MALI_GRALLOC_INTFMT_AFBC_DOUBLE_BODY)
        modifier AFBC_FORMAT_MOD_DB in
    let modifier :=
      or_if (has_bits internal_format MALI_GRALLOC_INTFMT_AFBC_BCH)
        modifier AFBC_FORMAT_MOD_BCH in
    let modifier :=
      or_if (has_bits internal_format MALI_GRALLOC_INTFMT_AFBC_YUV_TRANSFORM)
        modifier AFBC_FORMAT_MOD_YTR in
    let modifier :=
      or_if (has_bits internal_format MALI_GRALLOC_INTFMT_AFBC_SPARSE)
        modifier AFBC_FORMAT_MOD_SPARSE in
    let modifier :=
      or_if (has_bits internal_format MALI_GRALLOC_INTFMT_AFBC_USM)
        modifier AFBC_FORMAT_MOD_USM in
    let modifier :=
      if has_bits internal_format MALI_GRALLOC_INTFMT_AFBC_WIDEBLK then
        Z.lor modifier
          (if hnd_is_multi_plane then AFBC_FORMAT_MOD_BLOCK_SIZE_32x8_64x4
           else AFBC_FORMAT_MOD_BLOCK_SIZE_32x8)
      else if has_bits internal_format MALI_GRALLOC_INTFMT_AFBC_EXTRAWIDEBLK then
        Z.lor modifier AFBC_FORMAT_MOD_BLOCK_SIZE_64x4
      else
        Z.lor modifier AFBC_FORMAT_MOD_BLOCK_SIZE_16x16 in
    DRM_FORMAT_MOD_ARM_AFBC modifier.

Definition drm_modifier_from_handle (hnd : private_handle_t)
    (hnd_is_multi_plane : bool) : Z :=
  if is_format_afbc (alloc_format hnd) then
    get_afbc_modifier_tags hnd hnd_is_multi_plane
  else if is_format_afrc (alloc_format hnd) then
    get_afrc_modifier_tags hnd hnd_is_multi_plane
  else if is_format_block_linear (alloc_format hnd) then
    DRM_FORMAT_MOD_GENERIC_16_16_TILE
  else 0.

End DrmModifier.

(** The size class that one [switch] of [get_afrc_modifier_tags] selects, as
    a number: the labels are tried in source order, and 0 stands for no
    label matching. *)
Definition cu_size_class `{F : FormatHeaders} (wrap : Z → Z) (block_size : Z) : Z :=
  if block_size =? wrap MALI_GRALLOC_INTFMT_AFRC_CODING_UNIT_BYTES_32 then 3
  else if block_size =? wrap MALI_GRALLOC_INTFMT_AFRC_CODING_UNIT_BYTES_24 then 2
  else if block_size =? wrap MALI_GRALLOC_INTFMT_AFRC_CODING_UNIT_BYTES_16 then 1
  else 0.

(** ** buffer_allocation.cpp: AFBC headers and buffer identifiers *)

(** [getUniqueId]: [pid] is the answer of [getpid()], [counter] the value of
    the function's static 32-bit counter; returns the identifier and the
    counter after the increment. *)
Definition getUniqueId (pid counter : Z) : Z * Z :=
  let id := u64 (Z.shiftl (u64 pid) 32) in
  (Z.lor id counter, u32 (counter + 1)).

(** [n] successive calls, threading the counter. *)
Fixpoint unique_ids (pid counter : Z) (n : nat) : list Z :=
  match n with
  | O => []
  | S n' =>
      let '(id, counter') := getUniqueId pid counter in
      id :: unique_ids pid counter' n'
  end.

(** The header buffer is read and written as 32-bit words: one header entry
    is the 16 bytes of a [uint32_t[4]].  [memcpy_words buf pos src] copies
    [src] to the words from [pos] on; writing past the end of the buffer has
    no defined result. *)
Definition memcpy_words (buf : list Z) (pos : nat) (src : list Z)
    : option (list Z) :=
  if bool_decide (pos + length src ≤ length buf)%nat
  then Some (list_inserts pos src buf)
  else None.

(** The [for] loop of [init_afbc]: [n] headers from word [pos] on. *)
Fixpoint write_headers (n : nat) (header : list Z) (pos : nat) (buf : list Z)
    : option (list Z) :=
  match n with
  | O => Some buf
  | S n' =>
      buf' ← memcpy_words buf pos header;
      write_headers n' header (pos + length header) buf'
  end.

Section InitAfbc.
Context `{H : Headers} `{F : FormatHeaders}.

(** The locals [n_headers] and [body_offset] (after alignment) of
    [init_afbc]. *)
Definition init_afbc_n_headers (w h : Z) : Z :=
  u32 (Z.quot (s32 (w * h)) AFBC_PIXELS_PER_BLOCK).

Definition init_afbc_body_offset (alloc_format : Z) (w h : Z) : Z :=
  let is_tiled :=
    Z.land alloc_format MALI_GRALLOC_INTFMT_AFBC_TILED_HEADERS
    =? MALI_GRALLOC_INTFMT_AFBC_TILED_HEADERS in
  let n_headers := init_afbc_n_headers w h in
  let body_offset :=
    s32 (u32 (n_headers * AFBC_HEADER_BUFFER_BYTES_PER_BLOCKENTRY)) in
  afbc_buffer_align is_tiled body_offset.

(** The table [headers] after the conditional [memset]. *)
Definition init_afbc_headers (alloc_format : Z) (w h : Z) : list (list Z) :=
  let body_offset := init_afbc_body_offset alloc_format w h in
  let headers0 := [u32 body_offset; 0x1; 0x10000; 0x0] in
  let headers1 :=
    [u32 (u32 body_offset + Z.shiftl 1 28); 0x80200040; 0x1004000; 0x20080] in
  let headers0 :=
    if has_bits alloc_format MALI_GRALLOC_INTFMT_AFBC_TILED_HEADERS
    then [0; 0; 0; 0] else headers0 in
  [headers0; headers1].

Definition init_afbc_layout (alloc_format : Z) (is_multi_plane : bool) : nat :=
  let base_format := u32 (Z.land alloc_format MALI_GRALLOC_INTFMT_FMT_MASK) in
  if is_subsampled_yuv base_format && negb is_multi_plane then 1%nat else 0%nat.

(** [init_afbc]: the buffer after the call. *)
Definition init_afbc (buf : list Z) (alloc_format : Z) (is_multi_plane : bool)
    (w h : Z) : option (list Z) :=
  let n_headers := init_afbc_n_headers w h in
  let headers := init_afbc_headers alloc_format w h in
  let layout := init_afbc_layout alloc_format is_multi_plane in
  write_headers (Z.to_nat n_headers) (default [] (headers !! layout)) 0 buf.

End InitAfbc.

(** ** More notions used in the statements *)

(** The record that [calc_allocation_size] leaves for [plane] after its
    iteration: [old] is the record before it, [off] the running size at the
    point where the offset is stored. *)
Definition stored_info (old : plane_info_t) (plane : nat) (off stride aw ah : Z)
    : plane_info_t :=
  {| offset := if bool_decide (0 < plane)%nat then off else offset old;
     byte_stride := stride; alloc_width := aw; alloc_height := ah |}.

(** Two states of the plane loop that agree on everything the iterations
    from plane [k] on read. *)
Definition agree_upto (k : nat) (st1 st2 : calc_state) : Prop :=
  cs_size st1 = cs_size st2
  ∧ cs_sizes st1 = cs_sizes st2
  ∧ length (cs_plane_info st1) = length (cs_plane_info st2)
  ∧ (∀ q, (q < k)%nat → cs_plane_info st1 !! q = cs_plane_info st2 !! q)
  ∧ ((0 < k)%nat → cs_pixel_stride st1 = cs_pixel_stride st2)
  ∧ offset (pi_get (cs_plane_info st1) 0) = offset (pi_get (cs_plane_info st2) 0).

(** The body and header sizes that the iteration of [plane] computes from
    the byte stride and the allocation size of the plane; [ah0] is the
    allocation height of plane 0. *)
Definition plane_body_size (t : alloc_type_t) (format : format_info_t)
    (plane : nat) (stride aw ah ah0 : Z) : Z :=
  if is_afbc t then
    afbc_body_size t format plane (u32 (aw * ah) / AFBC_PIXELS_PER_BLOCK)
  else if is_afrc t then
    s32 (u32 (aw / arr_get (clump_width (afrc t)) plane
              * (ah / arr_get (clump_height (afrc t)) plane)
              * (if bool_decide (plane = 0%nat)
                 then rgba_luma_coding_unit_bytes (afrc t)
                 else chroma_coding_unit_bytes (afrc t))))
  else if is_block_linear t then s32 (u32 (stride * (ah0 / 16)))
  else s32 (u32 (stride * ah)).

Definition plane_header_size (t : alloc_type_t) (aw ah : Z) : Z :=
  if is_afbc t then
    afbc_buffer_align (is_tiled t)
      (s32 (u32 (u32 (aw * ah) / AFBC_PIXELS_PER_BLOCK
                 * AFBC_HEADER_BUFFER_BYTES_PER_BLOCKENTRY)))
  else 0.

(** Whether the CPU can address the pixels: the condition
    [is_cpu_accessible] of [calc_allocation_size]. *)
Definition is_cpu_accessible (t : alloc_type_t) (has_cpu_usage : bool) : bool :=
  negb (is_afbc t) && negb (is_afrc t) && negb (is_block_linear t)
  && has_cpu_usage.

(** The divisions of one iteration of the plane loop outside
    [calc_byte_stride]: those of [get_pixel_w_h], the one of the pixel
    stride, and those of the AFRC body size. *)
Definition calc_plane_divisors (t : alloc_type_t) (format : format_info_t)
    (has_cpu_usage : bool) (plane : nat) : option unit :=
  get_pixel_w_h_divisors format plane;;
  (if bool_decide (plane = 0%nat) && is_cpu_accessible t has_cpu_usage
   then c_divisor (arr_get (bpp format) plane)
   else Some tt);;
  (if negb (is_afbc t) && is_afrc t
   then c_divisor (arr_get (clump_width (afrc t)) plane);;
        c_divisor (arr_get (clump_height (afrc t)) plane)
   else Some tt).

Section FinishedLayoutNotions.
Context `{H : Headers}.
Variables (width height : Z) (t : alloc_type_t) (format : format_info_t)
  (has_cpu_usage has_hw_usage : bool).

(** What the plane loop has established for [plane] in state [s]: its record
    holds the allocation size of [get_pixel_w_h] and the byte stride that
    [calc_byte_stride] answered on an array [pis] of [len] records, and its
    body and header sizes are recorded. *)
Definition plane_done (len : nat) (plane : nat) (s : calc_state) : Prop :=
  let aw := (get_pixel_w_h (u32 width) (u32 height) format t plane has_cpu_usage).1 in
  let ah := (get_pixel_w_h (u32 width) (u32 height) format t plane has_cpu_usage).2 in
  ∃ (pis : list plane_info_t) (stride off : Z),
    length pis = len
    ∧ alloc_width (pi_get pis plane) = aw
    ∧ ((0 < plane)%nat → pi_get pis 0 = pi_get (cs_plane_info s) 0)
    ∧ calc_byte_stride t format has_cpu_usage has_hw_usage plane pis = Some stride
    ∧ pi_get (cs_plane_info s) plane
      = {| offset := off; byte_stride := stride;
           alloc_width := aw; alloc_height := ah |}
    ∧ cs_sizes s !! plane
      = Some (plane_body_size t format plane stride aw ah
                (alloc_height (pi_get (cs_plane_info s) 0)),
              plane_header_size t aw ah).

(** What the iteration of plane 0 has established for the pixel stride. *)
Definition pixel_stride_done (s : calc_state) : Prop :=
  let stride0 := byte_stride (pi_get (cs_plane_info s) 0) in
  let bpp0 := arr_get (bpp format) 0 in
  if is_cpu_accessible t has_cpu_usage
  then u32 (stride0 * 8) mod bpp0 = 0
       ∧ cs_pixel_stride s = s32 (u32 (stride0 * 8) / bpp0)
  else cs_pixel_stride s = 0.

End FinishedLayoutNotions.

(** What the first part of [validate_format] checks: the catalogue entry
    supports the encoding. *)
Definition encoding_supported (format : format_info_t) (t : alloc_type_t) : Prop :=
  if is_afbc t then
    afbc format = true
    ∧ (npln format = 1%nat → is_multi_plane t = false)
    ∧ ((1 < npln format)%nat → is_multi_plane t = true)
  else if is_afrc t then afrc_supported format = true
  else if is_block_linear t then block_linear format = true
  else linear format = true.

(** The alignment of AFBC header and body buffers, as [afbc_buffer_align]
    chooses it. *)
Definition afbc_alignment (is_tiled : bool) : Z := if is_tiled then 4096 else 1024.

(** ** A concrete implementation of the second interface *)
Module SampleFormats.

Definition INTFMT_AFBC_SPLITBLK : Z := Sample.bit 33.
Definition INTFMT_AFBC_BCH : Z := Sample.bit 38.
Definition INTFMT_AFBC_SPARSE : Z := Sample.bit 40.
Definition INTFMT_AFBC_USM : Z := Sample.bit 41.

Definition format_headers : FormatHeaders := {|
  MALI_GRALLOC_INTFMT_AFBC_SPLITBLK := INTFMT_AFBC_SPLITBLK;
  MALI_GRALLOC_INTFMT_AFBC_BCH := INTFMT_AFBC_BCH;
  MALI_GRALLOC_INTFMT_AFBC_SPARSE := INTFMT_AFBC_SPARSE;
  MALI_GRALLOC_INTFMT_AFBC_USM := INTFMT_AFBC_USM;
  get_modifier_from_gralloc_format := λ f, Z.land f (2 ^ 64 - 2 ^ 32);
  MALI_GRALLOC_INTFMT_AFRC_LUMA_CODING_UNIT_BYTES := λ x, Z.shiftl x 44;
  MALI_GRALLOC_INTFMT_AFRC_CHROMA_CODING_UNIT_BYTES := λ x, Z.shiftl x 46;
  MALI_GRALLOC_INTFMT_AFRC_RGBA_CODING_UNIT_BYTES := λ x, Z.shiftl x 44;
  MALI_GRALLOC_INTFMT_AFRC_CODING_UNIT_BYTES_16 := 0;
  MALI_GRALLOC_INTFMT_AFRC_CODING_UNIT_BYTES_24 := 1;
  MALI_GRALLOC_INTFMT_AFRC_CODING_UNIT_BYTES_32 := 2;
  is_subsampled_yuv := λ base_format,
    bool_decide (base_format = Sample.sample_format_id NV12)
    || bool_decide (base_format = Sample.sample_format_id YV12)
|}.

End SampleFormats.

(** ** The allocation entry points

    [mali_gralloc_buffer_allocate] and [mali_gralloc_buffer_free] of
    buffer_allocation.cpp, the loop [allocate] of hidl_common/allocator.cpp
    and [GrallocAllocator::allocate] of 3.x/allocator.cpp.

    The back end ([allocator_allocate], [allocator_free]), the shared memory
    helpers and the descriptor decoder are not among the sources.  Their
    answers are inputs of the model: [allocator_allocate i] and
    [gralloc_shared_memory_allocate i] say whether the call made by iteration
    [i] of the loop succeeds.  What the code does to the outside is recorded
    as a trace of events, in the order of the calls. *)

Module Error.
Inductive t := NONE | BAD_DESCRIPTOR | NO_RESOURCES | UNSUPPORTED.
End Error.

(** The handle that the loop works on: [hnd_id] names the object created by
    [allocator_allocate] (the number of the iteration that created it). *)
Record buffer_handle := { hnd_id : nat; backing_store_id : Z }.

Inductive event :=
  | ev_log (m : log_msg)
  | ev_LOGE_buffer_allocation_failed
  | ev_LOGE_shared_memory_allocation_failed
  | ev_allocator_allocate (hnd : nat) (ok : bool)
  | ev_gralloc_shared_memory_allocate (hnd : nat) (ok : bool)
  | ev_munmap (hnd : nat)
  | ev_allocator_free (hnd : nat)
  | ev_gralloc_shared_memory_free (hnd : nat)
  | ev_native_handle_delete (hnd : nat)
  | ev_hidl_cb (error : Error.t) (stride : Z) (buffers : list buffer_handle).

(** The answer of [mali_gralloc_buffer_allocate]: the return value [0] with
    the descriptor as the derivation left it, the new handle and the counter
    of [getUniqueId]; another return value; or a failed [assert]. *)
Inductive allocate_result :=
  | Allocated (descriptor : buffer_descriptor_t) (hnd : buffer_handle)
      (counter : Z)
  | Failed
  | Aborted.

(** [grallocBuffers], [stride] and the descriptor that the loop of [allocate]
    carries from one iteration to the next, with the counter of
    [getUniqueId]. *)
Record loop_state := {
  ls_descriptor : buffer_descriptor_t;
  ls_counter : Z;
  ls_stride : Z;
  ls_grallocBuffers : list buffer_handle
}.

(** How one iteration ends: the loop goes on, it is left by [break] with
    [error] set, or an [assert] has aborted the process. *)
Inductive loop_exit :=
  | Next (s : loop_state)
  | Break (error : Error.t) (s : loop_state)
  | Abort.

(** [mali_gralloc_buffer_free]: a null handle gives [-1] and no call. *)
Definition mali_gralloc_buffer_free (hnd : option buffer_handle)
    : list event * Z :=
  match hnd with
  | None => ([], -1)
  | Some hnd =>
      ([ev_allocator_free (hnd_id hnd);
        ev_gralloc_shared_memory_free (hnd_id hnd)], 0)
  end.

Section Allocate.
Context `{H : Headers}.
Variable allocator_allocate : nat → bool.
Variable gralloc_shared_memory_allocate : nat → bool.
Variable pid : Z.

(** The call made by iteration [i]. *)
Definition mali_gralloc_buffer_allocate (i : nat)
    (descriptor : buffer_descriptor_t) (counter : Z)
    : list event * allocate_result :=
  match mali_gralloc_derive_format_and_size descriptor with
  | (l, inl Assertion_failed) => (map ev_log l, Aborted)
  | (l, inl _) => (map ev_log l, Failed)
  | (l, inr descriptor) =>
      if allocator_allocate i then
        let '(id, counter) := getUniqueId pid counter in
        (map ev_log l ++ [ev_allocator_allocate i true],
         Allocated descriptor {| hnd_id := i; backing_store_id := id |} counter)
      else (map ev_log l ++ [ev_allocator_allocate i false], Failed)
  end.

(** The body of the loop of [allocate].  The statements between the check of
    the shared memory and [munmap] fill the attribute region and fields of
    the handle that the loop does not read; they are not in the trace.  After
    a [break] the descriptor is not read any more. *)
Definition allocate_body (i : nat) (s : loop_state) : list event * loop_exit :=
  let '(ev, r) :=
    mali_gralloc_buffer_allocate i (ls_descriptor s) (ls_counter s) in
  match r with
  | Aborted => (ev, Abort)
  | Failed => (ev ++ [ev_LOGE_buffer_allocation_failed],
               Break Error.NO_RESOURCES s)
  | Allocated descriptor hnd counter =>
      if negb (gralloc_shared_memory_allocate i) then
        (ev ++ [ev_gralloc_shared_memory_allocate i false;
                ev_LOGE_shared_memory_allocation_failed]
            ++ (mali_gralloc_buffer_free (Some hnd)).1,
         Break Error.UNSUPPORTED
           {| ls_descriptor := descriptor; ls_counter := counter;
              ls_stride := ls_stride s;
              ls_grallocBuffers := ls_grallocBuffers s |})
      else
        let ev := ev ++ [ev_gralloc_shared_memory_allocate i true;
                         ev_munmap i] in
        let tmpStride := d_pixel_stride descriptor in
        if ls_stride s =? 0 then
          (ev,
           Next {| ls_descriptor := descriptor; ls_counter := counter;
                   ls_stride := tmpStride;
                   ls_grallocBuffers := ls_grallocBuffers s ++ [hnd] |})
        else if negb (ls_stride s =? tmpStride) then
          (ev ++ (mali_gralloc_buffer_free (Some hnd)).1,
           Break Error.UNSUPPORTED
             {| ls_descriptor := descriptor; ls_counter := counter;
                ls_stride := 0;
                ls_grallocBuffers := ls_grallocBuffers s |})
        else
          (ev,
           Next {| ls_descriptor := descriptor; ls_counter := counter;
                   ls_stride := ls_stride s;
                   ls_grallocBuffers := ls_grallocBuffers s ++ [hnd] |})
  end.

Fixpoint allocate_loop (iterations : list nat) (s : loop_state)
    : list event * loop_exit :=
  match iterations with
  | [] => ([], Next s)
  | i :: iterations =>
      let '(ev, r) := allocate_body i s in
      match r with
      | Next s =>
          let '(ev', r) := allocate_loop iterations s in (ev ++ ev', r)
      | _ => (ev, r)
      end
  end.

(** The end of [allocate]: the callback, which takes the stride as
    [uint32_t], then the release of every handle in [grallocBuffers]. *)
Definition allocate_finish (error : Error.t) (s : loop_state) : list event :=
  let hidlBuffers :=
    match error with Error.NONE => ls_grallocBuffers s | _ => [] end in
  ev_hidl_cb error (u32 (ls_stride s)) hidlBuffers
  :: flat_map (λ buffer,
       (mali_gralloc_buffer_free (Some buffer)).1
       ++ [ev_native_handle_delete (hnd_id buffer)])
       (ls_grallocBuffers s).

(** [allocate]: the trace, and the counter of [getUniqueId] afterwards, or
    [None] when an [assert] aborted the process. *)
Definition allocate (bufferDescriptor : buffer_descriptor_t) (count : nat)
    (counter : Z) : list event * option Z :=
  let '(ev, r) :=
    allocate_loop (seq 0 count)
      {| ls_descriptor := bufferDescriptor; ls_counter := counter;
         ls_stride := 0; ls_grallocBuffers := [] |} in
  match r with
  | Next s => (ev ++ allocate_finish Error.NONE s, Some (ls_counter s))
  | Break error s => (ev ++ allocate_finish error s, Some (ls_counter s))
  | Abort => (ev, None)
  end.

(** [GrallocAllocator::allocate]: [decoded] is the answer of
    [grallocDecodeBufferDescriptor], [None] when it returns [false]. *)
Definition GrallocAllocator_allocate (decoded : option buffer_descriptor_t)
    (count : nat) (counter : Z) : list event * option Z :=
  match decoded with
  | None => ([ev_hidl_cb Error.BAD_DESCRIPTOR 0 []], Some counter)
  | Some bufferDescriptor => allocate bufferDescriptor count counter
  end.

End Allocate.

(** *** Reading a trace *)

(** The handles that [allocator_allocate] created, in order. *)
Definition allocated (tr : list event) : list nat :=
  omap (λ e, match e with
             | ev_allocator_allocate hnd true => Some hnd
             | _ => None
             end) tr.
(** The handles given to [allocator_free], to [gralloc_shared_memory_free]
    and to [native_handle_delete], in order. *)
Definition freed (tr : list event) : list nat :=
  omap (λ e, match e with ev_allocator_free hnd => Some hnd | _ => None end) tr.
Definition shared_memory_freed (tr : list event) : list nat :=
  omap (λ e, match e with
             | ev_gralloc_shared_memory_free hnd => Some hnd
             | _ => None
             end) tr.
Definition deleted (tr : list event) : list nat :=
  omap (λ e, match e with
             | ev_native_handle_delete hnd => Some hnd
             | _ => None
             end) tr.
(** The calls of the callback, in order. *)
Definition callbacks (tr : list event)
    : list (Error.t * Z * list buffer_handle) :=
  omap (λ e, match e with
             | ev_hidl_cb error stride buffers => Some (error, stride, buffers)
             | _ => None
             end) tr.

(** The handles that [count] successful iterations create from the counter
    value [counter]. *)
Definition handles (pid counter : Z) (count : nat) : list buffer_handle :=
  zip_with Build_buffer_handle (seq 0 count) (unique_ids pid counter count).

(** ** Machine arithmetic without wrap-around *)

Lemma u32_small x : 0 ≤ x < 2 ^ 32 → u32 x = x.
Proof. intros Hx. unfold u32. by apply Z.mod_small. Qed.

Lemma u32_range x : 0 ≤ u32 x < 2 ^ 32.
Proof. unfold u32. apply Z.mod_pos_bound. lia. Qed.

Lemma u64_small x : 0 ≤ x < 2 ^ 64 → u64 x = x.
Proof. intros Hx. unfold u64. by apply Z.mod_small. Qed.

Lemma u16_small x : 0 ≤ x < 2 ^ 16 → u16 x = x.
Proof. intros Hx. unfold u16. by apply Z.mod_small. Qed.

Lemma s32_small x : - 2 ^ 31 ≤ x < 2 ^ 31 → s32 x = x.
Proof. intros Hx. unfold s32. rewrite Z.mod_small; lia. Qed.

(** Rounding up in [Z]. *)
Lemma round_up_bounds v b :
  0 ≤ v → 0 < b →
  v ≤ (v + b - 1) / b * b < v + b ∧ (b | (v + b - 1) / b * b).
Proof.
  intros Hv Hb.
  pose proof (Z.div_mod (v + b - 1) b ltac:(lia)) as Hdm.
  pose proof (Z.mod_pos_bound (v + b - 1) b Hb) as Hm.
  split; [nia|]. by apply Z.divide_factor_r.
Qed.

Lemma round_up_fixed v b : 0 < b → (b | v) → (v + b - 1) / b * b = v.
Proof.
  intros Hb [q ->].
  replace (q * b + b - 1) with (b - 1 + q * b) by lia.
  rewrite Z.div_add by lia. rewrite Z.div_small by lia. lia.
Qed.

(** The macro on a modular type: the result is always a multiple of the base,
    and it is the rounded-up value when [value + base - 1] is representable. *)
Lemma align_mod_divide M v b :
  0 < M → 0 < b → (b | ((v + b - 1) mod M / b * b) mod M).
Proof.
  intros HM Hb.
  pose proof (Z.mod_pos_bound (v + b - 1) M HM) as Hr.
  set (x := (v + b - 1) mod M) in *.
  pose proof (Z.div_mod x b ltac:(lia)) as Hdm.
  pose proof (Z.mod_pos_bound x b Hb) as Hm.
  assert (0 ≤ x / b) by (apply Z.div_pos; lia).
  rewrite Z.mod_small by nia. by apply Z.divide_factor_r.
Qed.

Lemma align_mod_exact M v b :
  0 ≤ v → 0 < b → v + b - 1 < M →
  ((v + b - 1) mod M / b * b) mod M = (v + b - 1) / b * b.
Proof.
  intros Hv Hb HM.
  rewrite (Z.mod_small (v + b - 1)) by lia.
  pose proof (round_up_bounds v b Hv Hb) as [Hbd _].
  rewrite Z.mod_small; lia.
Qed.

Lemma GRALLOC_ALIGN_u32_divide v b : 0 < b → (b | GRALLOC_ALIGN u32 v b).
Proof. intros Hb. unfold GRALLOC_ALIGN, u32. by apply align_mod_divide. Qed.

Lemma GRALLOC_ALIGN_u32_exact v b :
  0 ≤ v → 0 < b → v + b - 1 < 2 ^ 32 →
  GRALLOC_ALIGN u32 v b = (v + b - 1) / b * b.
Proof. intros. unfold GRALLOC_ALIGN, u32. by apply align_mod_exact. Qed.

Lemma GRALLOC_ALIGN_u32_bounds v b :
  0 ≤ v → 0 < b → v + b - 1 < 2 ^ 32 →
  v ≤ GRALLOC_ALIGN u32 v b < v + b.
Proof.
  intros Hv Hb HM. rewrite GRALLOC_ALIGN_u32_exact by done.
  by apply round_up_bounds.
Qed.

Lemma GRALLOC_ALIGN_u32_range v b : 0 ≤ GRALLOC_ALIGN u32 v b < 2 ^ 32.
Proof. unfold GRALLOC_ALIGN. apply u32_range. Qed.

Lemma GRALLOC_ALIGN_u64_exact v b :
  0 ≤ v → 0 < b → v + b - 1 < 2 ^ 64 →
  GRALLOC_ALIGN u64 v b = (v + b - 1) / b * b.
Proof. intros. unfold GRALLOC_ALIGN, u64. by apply align_mod_exact. Qed.

Lemma GRALLOC_ALIGN_u64_bounds v b :
  0 ≤ v → 0 < b → v + b - 1 < 2 ^ 64 →
  v ≤ GRALLOC_ALIGN u64 v b < v + b.
Proof.
  intros Hv Hb HM. rewrite GRALLOC_ALIGN_u64_exact by done.
  by apply round_up_bounds.
Qed.

Lemma GRALLOC_ALIGN_int_exact v b :
  0 ≤ v → 0 < b → v + b - 1 < 2 ^ 31 →
  GRALLOC_ALIGN_int v b = (v + b - 1) / b * b.
Proof.
  intros Hv Hb HM. unfold GRALLOC_ALIGN_int.
  rewrite (s32_small (v + b - 1)) by lia.
  rewrite Z.quot_div_nonneg by lia.
  pose proof (round_up_bounds v b Hv Hb) as [Hbd _].
  rewrite s32_small; lia.
Qed.

Lemma GRALLOC_ALIGN_int_bounds v b :
  0 ≤ v → 0 < b → v + b - 1 < 2 ^ 31 →
  v ≤ GRALLOC_ALIGN_int v b < v + b ∧ (b | GRALLOC_ALIGN_int v b).
Proof.
  intros Hv Hb HM. rewrite GRALLOC_ALIGN_int_exact by done.
  by apply round_up_bounds.
Qed.

Lemma afbc_buffer_align_bounds is_tiled size :
  0 ≤ size → size + 4095 < 2 ^ 31 →
  size ≤ afbc_buffer_align is_tiled size < size + 4096
  ∧ (1024 | afbc_buffer_align is_tiled size).
Proof.
  intros Hs Hb. unfold afbc_buffer_align.
  destruct is_tiled.
  - destruct (GRALLOC_ALIGN_int_bounds size (4 * 1024)) as [? [q Hq]]; [lia..|].
    split; [lia|]. exists (4 * q). lia.
  - destruct (GRALLOC_ALIGN_int_bounds size 1024) as [? ?]; [lia..|].
    split; [lia|done].
Qed.

Lemma max2_spec a b : max2 a b = Z.max a b.
Proof. unfold max2. destruct (Z.gtb_spec a b); lia. Qed.

Lemma max3_spec a b c : max3 a b c = Z.max (Z.max a b) c.
Proof. unfold max3. rewrite max2_spec. destruct (Z.gtb_spec c (Z.max a b)); lia. Qed.

(** * Properties *)

(** ** The encoding selector *)

Lemma has_bits_lor x a b :
  has_bits x (Z.lor a b) = has_bits x a || has_bits x b.
Proof.
  unfold has_bits. rewrite Z.land_lor_distr_r.
  destruct (Z.eqb_spec (Z.land x a) 0) as [Ha|Ha];
  destruct (Z.eqb_spec (Z.land x b) 0) as [Hb|Hb]; simpl.
  - rewrite Ha, Hb. reflexivity.
  - rewrite Ha, Z.lor_0_l. apply Z.eqb_neq in Hb. rewrite Hb. reflexivity.
  - rewrite Hb, Z.lor_0_r. apply Z.eqb_neq in Ha. rewrite Ha. reflexivity.
  - destruct (Z.eqb_spec (Z.lor (Z.land x a) (Z.land x b)) 0) as [E|E]; [|done].
    apply Z.lor_eq_0_iff in E. tauto.
Qed.

Lemma arr_get_insert_eq (a : list Z) (i : nat) (v : Z) :
  (i < length a)%nat → arr_get (<[i := v]> a) i = v.
Proof. intros Hi. unfold arr_get. by rewrite list_lookup_insert_eq. Qed.

Lemma arr_get_insert_ne (a : list Z) (i j : nat) (v : Z) :
  i ≠ j → arr_get (<[i := v]> a) j = arr_get a j.
Proof. intros Hne. unfold arr_get. by rewrite list_lookup_insert_ne. Qed.

Lemma afrc_clump_spec format plane a :
  match clump_of a (arr_get (ncmp format) plane) with
  | Some (w, h) => afrc_clump format plane a = ([], inr (set_clump a plane w h))
  | None => afrc_clump format plane a
            = ([LOGE_invalid_number_of_components plane
                  (arr_get (ncmp format) plane)],
               inl Err_number_of_components)
  end.
Proof.
  unfold clump_of, afrc_clump.
  destruct (_ =? 1); [done|]. destruct (_ =? 2); [done|].
  destruct ((_ =? 3) || (_ =? 4)); done.
Qed.

Lemma clump_of_set_clump a p w h n :
  clump_of (set_clump a p w h) n = clump_of a n.
Proof. reflexivity. Qed.

Lemma for_planes_clump_ok format planes : ∀ a,
  NoDup planes →
  (∀ p, p ∈ planes → is_Some (clump_of a (arr_get (ncmp format) p))) →
  ∃ a', for_planes (afrc_clump format) planes a = ([], inr a')
    ∧ paging_tile_width a' = paging_tile_width a
    ∧ paging_tile_height a' = paging_tile_height a
    ∧ rgba_luma_coding_unit_bytes a' = rgba_luma_coding_unit_bytes a
    ∧ chroma_coding_unit_bytes a' = chroma_coding_unit_bytes a
    ∧ rgba_luma_plane_alignment a' = rgba_luma_plane_alignment a
    ∧ chroma_plane_alignment a' = chroma_plane_alignment a
    ∧ length (clump_width a') = length (clump_width a)
    ∧ length (clump_height a') = length (clump_height a)
    ∧ (∀ p, p ∈ planes → (p < length (clump_width a))%nat →
            (p < length (clump_height a))%nat →
         clump_of a (arr_get (ncmp format) p)
         = Some (arr_get (clump_width a') p, arr_get (clump_height a') p))
    ∧ (∀ p, p ∉ planes →
         arr_get (clump_width a') p = arr_get (clump_width a) p
         ∧ arr_get (clump_height a') p = arr_get (clump_height a) p).
Proof.
  induction planes as [|q planes IH]; intros a Hnd Hok.
  - exists a. cbn. repeat split; try done. intros p Hp. by apply elem_of_nil in Hp.
  - apply NoDup_cons in Hnd as [Hq Hnd].
    destruct (Hok q) as [[w h] Hwh]; [by left|].
    pose proof (afrc_clump_spec format q a) as Hstep. rewrite Hwh in Hstep.
    destruct (IH (set_clump a q w h) Hnd) as
      (a' & Hrun & H1 & H2 & H3 & H4 & H5 & H6 & H7 & H8 & Hin & Hout).
    { intros p Hp. rewrite clump_of_set_clump. apply Hok. by right. }
    exists a'. cbn [for_planes]. rewrite Hstep. cbn. rewrite Hrun. cbn.
    cbn in H1, H2, H3, H4, H5, H6, H7, H8.
    rewrite length_insert in H7, H8.
    do 9 (split; [done|]). split.
    + intros p Hp Hlw Hlh. apply elem_of_cons in Hp as [->|Hp].
      * destruct (Hout q Hq) as [Ew Eh]. rewrite Ew, Eh. cbn.
        rewrite !arr_get_insert_eq by done. done.
      * rewrite <- (Hin p Hp); [done| |]; cbn; by rewrite length_insert.
    + intros p Hnotin. apply not_elem_of_cons in Hnotin as [Hne Hp].
      destruct (Hout p Hp) as [Ew Eh]. rewrite Ew, Eh. cbn.
      split; by apply arr_get_insert_ne.
Qed.

Lemma for_planes_clump_fail format planes : ∀ a,
  (∃ p, p ∈ planes ∧ clump_of a (arr_get (ncmp format) p) = None) →
  ∃ l, for_planes (afrc_clump format) planes a = (l, inl Err_number_of_components).
Proof.
  induction planes as [|q planes IH]; intros a (p & Hp & Hnone).
  - by apply elem_of_nil in Hp.
  - cbn [for_planes]. pose proof (afrc_clump_spec format q a) as Hstep.
    destruct (clump_of a (arr_get (ncmp format) q)) as [[w h]|] eqn:Hq.
    + rewrite Hstep. cbn.
      destruct (IH (set_clump a q w h)) as [l Hl].
      { exists p. split; [|by rewrite clump_of_set_clump].
        apply elem_of_cons in Hp as [->|Hp]; [congruence|done]. }
      rewrite Hl. by eexists.
    + rewrite Hstep. by eexists.
Qed.

Section SelectorProperties.
Context `{H : Headers}.

Lemma afrc_plane_alignment_requirement_valid cu :
  valid_coding_unit cu = true →
  afrc_plane_alignment_requirement cu = ([], inr (alignment_of_coding_unit cu))
  ∧ alignment_of_coding_unit cu ≠ 0.
Proof.
  unfold valid_coding_unit, afrc_plane_alignment_requirement,
    alignment_of_coding_unit.
  destruct (cu =? 16); [done|]. destruct (cu =? 24); [done|].
  destruct (cu =? 32); done.
Qed.

Lemma afrc_plane_alignment_requirement_invalid cu :
  valid_coding_unit cu = false →
  afrc_plane_alignment_requirement cu = ([LOGE_invalid_coding_unit_size cu], inr 0).
Proof.
  unfold valid_coding_unit, afrc_plane_alignment_requirement.
  destruct (cu =? 16); [done|]. destruct (cu =? 24); [done|].
  destruct (cu =? 32); done.
Qed.

Section Afrc.
Variables (format_ext : Z) (format_idx : nat) (usage : Z) (alloc_type : alloc_type_t).
Hypothesis Hafbc : is_format_afbc format_ext = false.
Hypothesis Hafrc : is_format_afrc format_ext = true.

Local Abbreviation luma := (afrc_coding_unit_bytes format_ext
                    MALI_GRALLOC_INTFMT_AFRC_RGBA_CODING_UNIT_BYTES_SHIFT).
Local Abbreviation chroma := (afrc_coding_unit_bytes format_ext
                      MALI_GRALLOC_INTFMT_AFRC_CHROMA_CODING_UNIT_BYTES_SHIFT).
Local Abbreviation format := (format_at format_idx).

Lemma get_alloc_type_afrc_bad_unit :
  valid_coding_unit luma && valid_coding_unit chroma = false →
  ∃ l, get_alloc_type format_ext format_idx usage alloc_type
       = (l, inl Err_coding_unit_size).
Proof.
  intros Hbad. unfold get_alloc_type. rewrite Hafbc, Hafrc.
  destruct (valid_coding_unit luma) eqn:Hl.
  - destruct (afrc_plane_alignment_requirement_valid _ Hl) as [-> Hnz].
    cbn. apply Z.eqb_neq in Hnz. rewrite Hnz. cbn.
    cbn in Hbad. rewrite (afrc_plane_alignment_requirement_invalid _ Hbad).
    cbn. by eexists.
  - rewrite (afrc_plane_alignment_requirement_invalid _ Hl). cbn. by eexists.
Qed.

Lemma get_alloc_type_afrc_run :
  valid_coding_unit luma = true → valid_coding_unit chroma = true →
  get_alloc_type format_ext format_idx usage alloc_type
  = let alloc_type0 :=
      set_is_frontbuffer_safe
        (set_is_padded
           (set_is_tiled
              (set_is_multi_plane (set_primary_type alloc_type UNCOMPRESSED)
                 (bool_decide (1 < npln format)%nat)) false) false) false in
    let alloc_type1 := set_primary_type alloc_type0 AFRC in
    let a :=
      set_chroma
        (set_rgba_luma
           (set_paging_tile (afrc alloc_type1) (afrc_paging_tile format_ext).1
              (afrc_paging_tile format_ext).2)
           luma (alignment_of_coding_unit luma))
        chroma (alignment_of_coding_unit chroma) in
    let* a := for_planes (afrc_clump format) (seq 0 (npln format)) a in
    ret (set_afrc alloc_type1 a).
Proof.
  intros Hl Hc. unfold get_alloc_type. rewrite Hafbc, Hafrc.
  destruct (afrc_plane_alignment_requirement_valid _ Hl) as [-> Hnl].
  destruct (afrc_plane_alignment_requirement_valid _ Hc) as [-> Hnc].
  apply Z.eqb_neq in Hnl, Hnc. cbn. rewrite Hnl, Hnc. cbn.
  unfold afrc_paging_tile.
  destruct (has_bits format_ext MALI_GRALLOC_INTFMT_AFRC_ROT_LAYOUT); cbn;
    destruct (for_planes _ _ _) as [l [e|a]]; cbn; by rewrite ?app_nil_r.
Qed.

Lemma get_alloc_type_afrc_success l t :
  (npln format ≤ length (clump_width (afrc alloc_type)))%nat →
  (npln format ≤ length (clump_height (afrc alloc_type)))%nat →
  get_alloc_type format_ext format_idx usage alloc_type = (l, inr t) →
  valid_coding_unit luma = true ∧ valid_coding_unit chroma = true
  ∧ primary_type t = AFRC
  ∧ (paging_tile_width (afrc t), paging_tile_height (afrc t))
    = afrc_paging_tile format_ext
  ∧ rgba_luma_coding_unit_bytes (afrc t) = luma
  ∧ chroma_coding_unit_bytes (afrc t) = chroma
  ∧ rgba_luma_plane_alignment (afrc t) = alignment_of_coding_unit luma
  ∧ chroma_plane_alignment (afrc t) = alignment_of_coding_unit chroma
  ∧ ∀ plane, (plane < npln format)%nat →
      clump_of (afrc t) (arr_get (ncmp format) plane)
      = Some (arr_get (clump_width (afrc t)) plane,
              arr_get (clump_height (afrc t)) plane).
Proof.
  intros Hlw Hlh Hget.
  destruct (valid_coding_unit luma && valid_coding_unit chroma) eqn:Hv.
  2:{ destruct (get_alloc_type_afrc_bad_unit Hv) as [l' Hbad]. congruence. }
  apply andb_true_iff in Hv as [Hl Hc].
  rewrite (get_alloc_type_afrc_run Hl Hc) in Hget. cbv zeta in Hget.
  match type of Hget with
  | context [for_planes ?b ?ps ?a0] => set (a := a0) in *
  end.
  assert (Hall : ∀ p, p ∈ seq 0 (npln format) →
                   is_Some (clump_of a (arr_get (ncmp format) p))).
  { intros p Hp. destruct (clump_of a (arr_get (ncmp format) p)) eqn:E; [by eexists|].
    destruct (for_planes_clump_fail format (seq 0 (npln format)) a) as [l' Hl'].
    { by exists p. }
    rewrite Hl' in Hget. discriminate. }
  destruct (for_planes_clump_ok format (seq 0 (npln format)) a (NoDup_seq _ _) Hall)
    as (a' & Hrun & H1 & H2 & H3 & H4 & H5 & H6 & H7 & H8 & Hin & _).
  rewrite Hrun in Hget. cbn in Hget. injection Hget as _ <-. cbn [afrc set_afrc].
  split; [done|]. split; [done|]. split; [done|].
  split; [rewrite H1, H2; subst a; cbn; by destruct (afrc_paging_tile format_ext)|].
  do 4 (split; [done|]).
  intros plane Hplane.
  assert (Hsame : ∀ n, clump_of a' n = clump_of a n).
  { intros n. unfold clump_of. by rewrite H1, H2. }
  rewrite Hsame. apply Hin.
  - apply elem_of_seq. lia.
  - subst a; cbn; lia.
  - subst a; cbn; lia.
Qed.

Lemma get_alloc_type_afrc_bad_components :
  (∃ plane, (plane < npln format)%nat
            ∧ let n := arr_get (ncmp format) plane in
              n ≠ 1 ∧ n ≠ 2 ∧ n ≠ 3 ∧ n ≠ 4) →
  ∃ l e, get_alloc_type format_ext format_idx usage alloc_type = (l, inl e).
Proof.
  intros (plane & Hplane & Hn1 & Hn2 & Hn3 & Hn4).
  destruct (valid_coding_unit luma && valid_coding_unit chroma) eqn:Hv.
  2:{ destruct (get_alloc_type_afrc_bad_unit Hv) as [l' Hbad]. by eexists _, _. }
  apply andb_true_iff in Hv as [Hl Hc].
  rewrite (get_alloc_type_afrc_run Hl Hc). cbv zeta.
  match goal with
  | |- context [for_planes ?b ?ps ?a0] =>
      destruct (for_planes_clump_fail format ps a0) as [l' Hl']
  end.
  { exists plane. split; [apply elem_of_seq; lia|].
    unfold clump_of.
    apply Z.eqb_neq in Hn1, Hn2, Hn3, Hn4. by rewrite Hn1, Hn2, Hn3, Hn4. }
  rewrite Hl'. cbn. by eexists _, _.
Qed.

Lemma get_alloc_type_afrc_good :
  valid_coding_unit luma = true → valid_coding_unit chroma = true →
  (∀ plane, (plane < npln format)%nat →
     let n := arr_get (ncmp format) plane in n = 1 ∨ n = 2 ∨ n = 3 ∨ n = 4) →
  ∃ t, get_alloc_type format_ext format_idx usage alloc_type = ([], inr t).
Proof.
  intros Hl Hc Hn.
  rewrite (get_alloc_type_afrc_run Hl Hc). cbv zeta.
  match goal with
  | |- context [for_planes ?b ?ps ?a0] =>
      destruct (for_planes_clump_ok format ps a0 (NoDup_seq _ _)) as (a' & Hrun & _)
  end.
  { intros p Hp. apply elem_of_seq in Hp. unfold clump_of.
    destruct (Hn p) as [-> | [-> | [-> | ->]]]; [lia|by eexists..]. }
  rewrite Hrun. cbn. by eexists.
Qed.

End Afrc.

(** C3: extra-wide block-compression without tiled headers is rejected by the
    selector with the failure that the spec calls InvalidEncodingCombination,
    for every format index, usage and dimension; the derivation then returns
    without a layout, and with this very failure whenever the format is
    recognised. *)
Theorem C3_extra_wide_without_tiled_headers_fails (descriptor : buffer_descriptor_t) :
  let usage := Z.lor (d_producer_usage descriptor) (d_consumer_usage descriptor) in
  let alloc_format :=
    mali_gralloc_select_format (d_hal_format descriptor)
      (d_format_type descriptor) usage in
  let format_ext := Z.land alloc_format MALI_GRALLOC_INTFMT_EXT_MASK in
  is_format_afbc format_ext = true →
  has_bits format_ext MALI_GRALLOC_INTFMT_AFBC_EXTRAWIDEBLK = true →
  has_bits format_ext MALI_GRALLOC_INTFMT_AFBC_TILED_HEADERS = false →
  (∀ format_idx usage' alloc_type, ∃ l,
      get_alloc_type format_ext format_idx usage' alloc_type
      = (l, inl Err_extra_wide_without_tiled_headers)
      ∧ last l = Some LOGE_extra_wide_without_tiled_headers)
  ∧ kind_of Err_extra_wide_without_tiled_headers = InvalidEncodingCombination
  ∧ ∃ l e, mali_gralloc_derive_format_and_size descriptor = (l, inl e)
      ∧ (alloc_format ≠ format_id UNDEFINED →
         is_Some (get_format_index
                    (Z.land alloc_format MALI_GRALLOC_INTFMT_FMT_MASK)) →
         e = Err_extra_wide_without_tiled_headers).
Proof.
  intros usage alloc_format format_ext Hafbc Hxw Htiled.
  assert (Hsel : ∀ format_idx usage' alloc_type, ∃ l,
      get_alloc_type format_ext format_idx usage' alloc_type
      = (l, inl Err_extra_wide_without_tiled_headers)
      ∧ last l = Some LOGE_extra_wide_without_tiled_headers).
  { intros format_idx usage' alloc_type. unfold get_alloc_type.
    rewrite Hafbc, Hxw, Htiled.
    destruct (is_yuv _ && has_bits _ _);
    destruct (bool_decide (1 < npln (format_at format_idx))%nat);
    destruct (has_bits format_ext MALI_GRALLOC_INTFMT_AFBC_WIDEBLK);
    cbn; eexists; split; reflexivity. }
  split; [exact Hsel|]. split; [reflexivity|].
  unfold mali_gralloc_derive_format_and_size. cbn [d_alloc_format set_alloc_format].
  fold usage. fold alloc_format.
  destruct (Z.eqb_spec alloc_format (format_id UNDEFINED)) as [Eu|Eu].
  { cbn. eexists _, _. split; [reflexivity|]. intros Hne. contradiction. }
  destruct (get_format_index _) as [format_idx|] eqn:Eidx.
  2:{ eexists _, _. split; [reflexivity|]. intros _ [? ?]. discriminate. }
  fold format_ext.
  destruct (Hsel format_idx usage alloc_type_zero) as (l & -> & _).
  cbn. eexists _, _. split; reflexivity.
Qed.

(** C5: in a fixed-rate-compressed request each of the two coding-unit fields
    must decode to 16, 24 or 32 bytes; otherwise the selector fails with the
    failure that the spec calls InvalidCodingUnitSize; on success the plane
    alignments stored for the size computation are 1024, 512 and 2048 bytes
    for 16, 24 and 32. *)
Theorem C5_afrc_coding_unit_sizes (format_ext : Z) (format_idx : nat) (usage : Z)
    (alloc_type : alloc_type_t) :
  let luma := afrc_coding_unit_bytes format_ext
                MALI_GRALLOC_INTFMT_AFRC_RGBA_CODING_UNIT_BYTES_SHIFT in
  let chroma := afrc_coding_unit_bytes format_ext
                  MALI_GRALLOC_INTFMT_AFRC_CHROMA_CODING_UNIT_BYTES_SHIFT in
  let align_for (cu a : Z) :=
    (cu = 16 ∧ a = 1024) ∨ (cu = 24 ∧ a = 512) ∨ (cu = 32 ∧ a = 2048) in
  is_format_afbc format_ext = false →
  is_format_afrc format_ext = true →
  (npln (format_at format_idx) ≤ length (clump_width (afrc alloc_type)))%nat →
  (npln (format_at format_idx) ≤ length (clump_height (afrc alloc_type)))%nat →
  (¬ (luma = 16 ∨ luma = 24 ∨ luma = 32)
   ∨ ¬ (chroma = 16 ∨ chroma = 24 ∨ chroma = 32) →
   ∃ l, get_alloc_type format_ext format_idx usage alloc_type
        = (l, inl Err_coding_unit_size)
        ∧ kind_of Err_coding_unit_size = InvalidCodingUnitSize)
  ∧ (∀ l t, get_alloc_type format_ext format_idx usage alloc_type = (l, inr t) →
       rgba_luma_coding_unit_bytes (afrc t) = luma
       ∧ chroma_coding_unit_bytes (afrc t) = chroma
       ∧ align_for luma (rgba_luma_plane_alignment (afrc t))
       ∧ align_for chroma (chroma_plane_alignment (afrc t))).
Proof.
  intros luma chroma align_for Hafbc Hafrc Hlw Hlh.
  assert (Hvalid : ∀ cu, valid_coding_unit cu = true →
                     align_for cu (alignment_of_coding_unit cu)).
  { intros cu. unfold valid_coding_unit, alignment_of_coding_unit, align_for.
    destruct (Z.eqb_spec cu 16); [auto|].
    destruct (Z.eqb_spec cu 24); [auto|].
    destruct (Z.eqb_spec cu 32); [auto|]. discriminate. }
  assert (Hinvalid : ∀ cu, ¬ (cu = 16 ∨ cu = 24 ∨ cu = 32) →
                       valid_coding_unit cu = false).
  { intros cu Hcu. unfold valid_coding_unit.
    destruct (Z.eqb_spec cu 16); [tauto|].
    destruct (Z.eqb_spec cu 24); [tauto|].
    destruct (Z.eqb_spec cu 32); [tauto|]. reflexivity. }
  split.
  - intros Hbad.
    destruct (get_alloc_type_afrc_bad_unit format_ext format_idx usage alloc_type
                Hafbc Hafrc) as [l Hl].
    { destruct Hbad as [Hb|Hb]; apply Hinvalid in Hb; fold luma chroma.
      - fold luma in Hb. by rewrite Hb.
      - fold chroma in Hb. rewrite Hb. apply andb_false_r. }
    exists l. by split.
  - intros l t Hget.
    destruct (get_alloc_type_afrc_success format_ext format_idx usage alloc_type
                Hafbc Hafrc l t Hlw Hlh Hget)
      as (Hl & Hc & _ & _ & El & Ec & Eal & Eac & _).
    rewrite Eal, Eac. auto.
Qed.

(** C6: a fixed-rate-compressed request that succeeds has the paging tile 8x8
    with the rotated-layout bit and 16x4 without it, and for every plane of
    the format the clump is the paging tile for 1 component, 8x4 for 2 and
    4x4 for 3 or 4; a plane with any other component count makes the selector
    fail; and with valid coding units and component counts it succeeds. *)
Theorem C6_afrc_paging_tile_and_clumps (format_ext : Z) (format_idx : nat)
    (usage : Z) (alloc_type : alloc_type_t) :
  let format := format_at format_idx in
  let luma := afrc_coding_unit_bytes format_ext
                MALI_GRALLOC_INTFMT_AFRC_RGBA_CODING_UNIT_BYTES_SHIFT in
  let chroma := afrc_coding_unit_bytes format_ext
                  MALI_GRALLOC_INTFMT_AFRC_CHROMA_CODING_UNIT_BYTES_SHIFT in
  is_format_afbc format_ext = false →
  is_format_afrc format_ext = true →
  (npln format ≤ length (clump_width (afrc alloc_type)))%nat →
  (npln format ≤ length (clump_height (afrc alloc_type)))%nat →
  (∀ l t, get_alloc_type format_ext format_idx usage alloc_type = (l, inr t) →
     is_afrc t = true
     ∧ (paging_tile_width (afrc t), paging_tile_height (afrc t))
       = (if has_bits format_ext MALI_GRALLOC_INTFMT_AFRC_ROT_LAYOUT
          then (8, 8) else (16, 4))
     ∧ ∀ plane, (plane < npln format)%nat →
         let n := arr_get (ncmp format) plane in
         let clump := (arr_get (clump_width (afrc t)) plane,
                       arr_get (clump_height (afrc t)) plane) in
         (n = 1 → clump = (paging_tile_width (afrc t), paging_tile_height (afrc t)))
         ∧ (n = 2 → clump = (8, 4))
         ∧ (n = 3 ∨ n = 4 → clump = (4, 4)))
  ∧ ((∃ plane, (plane < npln format)%nat
               ∧ let n := arr_get (ncmp format) plane in
                 n ≠ 1 ∧ n ≠ 2 ∧ n ≠ 3 ∧ n ≠ 4) →
     ∃ l e, get_alloc_type format_ext format_idx usage alloc_type = (l, inl e))
  ∧ ((luma = 16 ∨ luma = 24 ∨ luma = 32) →
     (chroma = 16 ∨ chroma = 24 ∨ chroma = 32) →
     (∀ plane, (plane < npln format)%nat →
        let n := arr_get (ncmp format) plane in n = 1 ∨ n = 2 ∨ n = 3 ∨ n = 4) →
     ∃ t, get_alloc_type format_ext format_idx usage alloc_type = ([], inr t)).
Proof.
  intros format luma chroma Hafbc Hafrc Hlw Hlh. split; [|split].
  - intros l t Hget.
    destruct (get_alloc_type_afrc_success format_ext format_idx usage alloc_type
                Hafbc Hafrc l t Hlw Hlh Hget)
      as (_ & _ & Hprim & Htile & _ & _ & _ & _ & Hclump).
    split; [unfold is_afrc; by rewrite Hprim|]. split; [exact Htile|].
    intros plane Hplane n clump. specialize (Hclump plane Hplane).
    fold format in Hclump. fold n in Hclump. fold clump in Hclump.
    unfold clump_of in Hclump.
    split; [|split].
    + intros ->. cbn in Hclump. congruence.
    + intros ->. cbn in Hclump. congruence.
    + intros [-> | ->]; cbn in Hclump; congruence.
  - apply get_alloc_type_afrc_bad_components; assumption.
  - intros Hl Hc Hn.
    apply get_alloc_type_afrc_good; try assumption.
    + unfold valid_coding_unit. fold luma.
      destruct Hl as [-> | [-> | ->]]; reflexivity.
    + unfold valid_coding_unit. fold chroma.
      destruct Hc as [-> | [-> | ->]]; reflexivity.
Qed.

End SelectorProperties.

Section SelectorWellFormed.
Context `{H : Headers}.

Lemma get_alloc_type_afbc_primary format_ext format_idx usage alloc_type l t :
  is_format_afbc format_ext = true →
  get_alloc_type format_ext format_idx usage alloc_type = (l, inr t) →
  is_afbc t = true
  ∧ (is_multi_plane t = true → is_tiled t = true).
Proof.
  intros Hafbc. unfold get_alloc_type. rewrite Hafbc, has_bits_lor.
  destruct (is_yuv _ && has_bits _ MALI_GRALLOC_INTFMT_AFBC_YUV_TRANSFORM);
  destruct (bool_decide (1 < npln (format_at format_idx))%nat);
  destruct (bool_decide (npln (format_at format_idx) = 1%nat));
  destruct (has_bits format_ext MALI_GRALLOC_INTFMT_AFBC_WIDEBLK);
  destruct (has_bits format_ext MALI_GRALLOC_INTFMT_AFBC_EXTRAWIDEBLK);
  destruct (has_bits format_ext MALI_GRALLOC_INTFMT_AFBC_TILED_HEADERS);
  destruct (has_bits format_ext MALI_GRALLOC_INTFMT_AFBC_DOUBLE_BODY);
  destruct (has_bits usage MALI_GRALLOC_USAGE_AFBC_PADDING);
  cbn; intros Hget; try discriminate; injection Hget as _ <-; cbn; auto.
Qed.

Lemma get_alloc_type_other_primary format_ext format_idx usage alloc_type l t :
  is_format_afbc format_ext = false →
  is_format_afrc format_ext = false →
  get_alloc_type format_ext format_idx usage alloc_type = (l, inr t) →
  is_afrc t = false ∧ is_afbc t = false.
Proof.
  intros Hafbc Hafrc. unfold get_alloc_type. rewrite Hafbc, Hafrc.
  destruct (is_format_block_linear format_ext); cbn;
    intros Hget; injection Hget as _ <-; done.
Qed.

Lemma get_alloc_type_wf format_ext format_idx usage alloc_type l t :
  (npln (format_at format_idx) ≤ length (clump_width (afrc alloc_type)))%nat →
  (npln (format_at format_idx) ≤ length (clump_height (afrc alloc_type)))%nat →
  get_alloc_type format_ext format_idx usage alloc_type = (l, inr t) →
  alloc_type_wf (format_at format_idx) t.
Proof.
  intros Hlw Hlh Hget Hafrc_t.
  destruct (is_format_afbc format_ext) eqn:Hafbc.
  { destruct (get_alloc_type_afbc_primary _ _ _ _ _ _ Hafbc Hget) as [Ht _].
    unfold is_afbc in Ht. unfold is_afrc in Hafrc_t.
    destruct (primary_type t); discriminate. }
  destruct (is_format_afrc format_ext) eqn:Hafrc.
  2:{ destruct (get_alloc_type_other_primary _ _ _ _ _ _ Hafbc Hafrc Hget).
      congruence. }
  destruct (get_alloc_type_afrc_success format_ext format_idx usage alloc_type
              Hafbc Hafrc l t Hlw Hlh Hget)
    as (Hl & Hc & _ & Htile & El & Ec & Eal & Eac & Hclump).
  rewrite El, Ec, Eal, Eac. split; [|done].
  unfold afrc_paging_tile in Htile.
  destruct (has_bits format_ext MALI_GRALLOC_INTFMT_AFRC_ROT_LAYOUT);
    injection Htile as -> ->; auto.
Qed.

End SelectorWellFormed.

(** ** Plane geometry *)

Lemma get_afbc_sb_size_cases t plane :
  is_afbc t = true →
  get_afbc_sb_size t plane = {| rect_width := 16; rect_height := 16 |}
  ∨ get_afbc_sb_size t plane = {| rect_width := 32; rect_height := 8 |}
  ∨ get_afbc_sb_size t plane = {| rect_width := 64; rect_height := 4 |}.
Proof.
  unfold get_afbc_sb_size, is_afbc. intros Ht.
  destruct (bool_decide (0 < plane)%nat && _ && _); [auto|].
  destruct (primary_type t); try discriminate; auto.
Qed.

Lemma get_afbc_sb_size_multi_plane t plane :
  is_afbc t = true → is_multi_plane t = true → (0 < plane)%nat →
  get_afbc_sb_size t plane = {| rect_width := 64; rect_height := 4 |}.
Proof.
  intros Ha Hm Hp. unfold get_afbc_sb_size.
  rewrite Ha, Hm, bool_decide_true by done. reflexivity.
Qed.

(** The AFBC alignments in closed form. *)
Lemma afbc_pixel_align_spec format t plane :
  is_afbc t = true →
  let sb := get_afbc_sb_size t plane in
  let k := if is_tiled t
           then (if arr_get (bpp_afbc format) plane >? 32 then 4 else 8)
           else 1 in
  let pad := if is_padded t && negb (is_yuv format) then 4 else 1 in
  let min_h := if bool_decide (primary_type t = AFBC_WIDEBLK) && negb (is_tiled t)
               then 16 else 1 in
  afbc_pixel_align format t plane
  = (Z.max k pad * rect_width sb, Z.max (k * rect_height sb) min_h).
Proof.
  intros Ht sb k pad min_h. unfold afbc_pixel_align. fold sb.
  assert (Hsb : (rect_width sb = 16 ∧ rect_height sb = 16)
                ∨ (rect_width sb = 32 ∧ rect_height sb = 8)
                ∨ (rect_width sb = 64 ∧ rect_height sb = 4)).
  { destruct (get_afbc_sb_size_cases t plane Ht) as [E|[E|E]];
      subst sb; rewrite E; cbn; auto. }
  subst k pad min_h. unfold HEADER_STRIDE_ALIGN_IN_SUPER_BLOCKS.
  destruct (is_tiled t), (is_padded t && negb (is_yuv format)),
    (arr_get (bpp_afbc format) plane >? 32),
    (bool_decide (primary_type t = AFBC_WIDEBLK));
    cbn [negb andb rect_width rect_height];
    rewrite ?max2_spec;
    destruct Hsb as [[-> ->]|[[-> ->]|[-> ->]]]; reflexivity.
Qed.

Lemma get_pixel_w_h_afbc_no_cpu width height format t plane :
  is_afbc t = true →
  let sb := get_afbc_sb_size t plane in
  let k := if is_tiled t
           then (if arr_get (bpp_afbc format) plane >? 32 then 4 else 8)
           else 1 in
  let pad := if is_padded t && negb (is_yuv format) then 4 else 1 in
  let min_h := if bool_decide (primary_type t = AFBC_WIDEBLK) && negb (is_tiled t)
               then 16 else 1 in
  let a_w := Z.max (Z.max k pad * rect_width sb) (tile_size format) in
  let a_h := Z.max (Z.max (k * rect_height sb) min_h) (tile_size format) in
  get_pixel_w_h width height format t plane false
  = (GRALLOC_ALIGN u32 (plane_w_h width height format plane).1 a_w,
     GRALLOC_ALIGN u32 (plane_w_h width height format plane).2 a_h)
  ∧ 16 ≤ Z.max k pad * rect_width sb ≤ 512
  ∧ 4 ≤ Z.max (k * rect_height sb) min_h ≤ 128
  ∧ rect_height sb ≤ Z.max (k * rect_height sb) min_h
  ∧ rect_height sb ≤ Z.max k pad * rect_width sb
  ∧ (k * rect_width sb | Z.max k pad * rect_width sb)
  ∧ (pad * rect_width sb | Z.max k pad * rect_width sb)
  ∧ (k * rect_height sb | Z.max (k * rect_height sb) min_h)
  ∧ (min_h | Z.max (k * rect_height sb) min_h)
  ∧ 256 ≤ (Z.max k pad * rect_width sb) * Z.max (k * rect_height sb) min_h.
Proof.
  intros Ht sb k pad min_h a_w a_h.
  unfold get_pixel_w_h, pixel_align. rewrite Ht.
  rewrite (afbc_pixel_align_spec format t plane Ht). fold sb k pad min_h.
  destruct (plane_w_h width height format plane) as [w1 h1]. cbn [fst snd].
  rewrite !max3_spec.
  assert (Hsb : (rect_width sb = 16 ∧ rect_height sb = 16)
                ∨ (rect_width sb = 32 ∧ rect_height sb = 8)
                ∨ (rect_width sb = 64 ∧ rect_height sb = 4)).
  { destruct (get_afbc_sb_size_cases t plane Ht) as [E|[E|E]];
      subst sb; rewrite E; cbn; auto. }
  assert (Hk : k = 1 ∨ k = 4 ∨ k = 8).
  { subst k. destruct (is_tiled t), (arr_get (bpp_afbc format) plane >? 32); auto. }
  assert (Hpad : pad = 1 ∨ pad = 4).
  { subst pad. destruct (is_padded t && negb (is_yuv format)); auto. }
  assert (Hmin : min_h = 1 ∨ (min_h = 16 ∧ k = 1)).
  { subst min_h k.
    destruct (bool_decide (primary_type t = AFBC_WIDEBLK)); [|auto].
    destruct (is_tiled t); auto. }
  assert (Hnum : 16 ≤ Z.max k pad * rect_width sb ≤ 512
    ∧ 4 ≤ Z.max (k * rect_height sb) min_h ≤ 128
    ∧ rect_height sb ≤ Z.max (k * rect_height sb) min_h
    ∧ rect_height sb ≤ Z.max k pad * rect_width sb
    ∧ (k * rect_width sb | Z.max k pad * rect_width sb)
    ∧ (pad * rect_width sb | Z.max k pad * rect_width sb)
    ∧ (k * rect_height sb | Z.max (k * rect_height sb) min_h)
    ∧ (min_h | Z.max (k * rect_height sb) min_h)
    ∧ 256 ≤ (Z.max k pad * rect_width sb) * Z.max (k * rect_height sb) min_h).
  { clearbody sb k pad min_h. clear a_w a_h.
    destruct Hsb as [[-> ->]|[[-> ->]|[-> ->]]];
      destruct Hk as [-> | [-> | ->]];
      destruct Hpad as [-> | ->];
      destruct Hmin as [-> | [-> ?]]; try discriminate;
      (split; [done|]); (split; [done|]); (split; [done|]); (split; [done|]);
      repeat split; try done; (apply Z.mod_divide; [done|reflexivity]). }
  split; [|exact Hnum].
  subst a_w a_h. destruct Hnum as (Hw & Hh & _).
  rewrite (Z.max_r 1 (Z.max k pad * rect_width sb)) by lia.
  rewrite (Z.max_r 1 (Z.max (k * rect_height sb) min_h)) by lia.
  reflexivity.
Qed.

(** C2, as the code has it: without CPU usage the allocation width of a
    block-compressed plane is its rounded, sub-sampled width aligned up to
    the superblock width times the headers-per-tile factor (4 or 8 with tiled
    headers, 1 without) and to 4 superblocks when padding is requested on a
    non-YUV format, and the height is aligned up to the superblock height times
    that factor, at least 16 for wide blocks without tiled headers. *)
Theorem C2_afbc_alignment_without_cpu_usage (width height : Z)
    (format : format_info_t) (t : alloc_type_t) (plane : nat) :
  let sb := get_afbc_sb_size t plane in
  let k := if is_tiled t
           then (if arr_get (bpp_afbc format) plane >? 32 then 4 else 8)
           else 1 in
  let pad := if is_padded t && negb (is_yuv format) then 4 else 1 in
  let min_h := if bool_decide (primary_type t = AFBC_WIDEBLK) && negb (is_tiled t)
               then 16 else 1 in
  let w1 := (plane_w_h width height format plane).1 in
  let h1 := (plane_w_h width height format plane).2 in
  let aw := (get_pixel_w_h width height format t plane false).1 in
  let ah := (get_pixel_w_h width height format t plane false).2 in
  is_afbc t = true →
  tile_size format ≤ rect_height sb →
  0 ≤ w1 < 2 ^ 32 - 512 →
  0 ≤ h1 < 2 ^ 32 - 128 →
  aw = round_up w1 (Z.max k pad * rect_width sb)
  ∧ ah = round_up h1 (Z.max (k * rect_height sb) min_h)
  ∧ w1 ≤ aw ∧ h1 ≤ ah
  ∧ (k * rect_width sb | aw) ∧ (pad * rect_width sb | aw)
  ∧ (k * rect_height sb | ah) ∧ (min_h | ah).
Proof.
  intros sb k pad min_h w1 h1 aw ah Ht Hts Hw1 Hh1.
  destruct (get_pixel_w_h_afbc_no_cpu width height format t plane Ht)
    as (Eq & Haw & Hah & Hsbh & Hsbw & D1 & D2 & D3 & D4 & _).
  fold sb k pad min_h in Eq, Haw, Hah, Hsbh, Hsbw, D1, D2, D3, D4.
  assert (Eaw : aw = round_up w1 (Z.max k pad * rect_width sb)).
  { subst aw. rewrite Eq. cbn [fst]. fold w1.
    rewrite Z.max_l by lia. apply GRALLOC_ALIGN_u32_exact; lia. }
  assert (Eah : ah = round_up h1 (Z.max (k * rect_height sb) min_h)).
  { subst ah. rewrite Eq. cbn [snd]. fold h1.
    rewrite Z.max_l by lia. apply GRALLOC_ALIGN_u32_exact; lia. }
  destruct (round_up_bounds w1 (Z.max k pad * rect_width sb)) as [Bw Dw]; [lia..|].
  destruct (round_up_bounds h1 (Z.max (k * rect_height sb) min_h)) as [Bh Dh];
    [lia..|].
  fold (round_up w1 (Z.max k pad * rect_width sb)) in Bw, Dw.
  fold (round_up h1 (Z.max (k * rect_height sb) min_h)) in Bh, Dh.
  rewrite <- Eaw in Bw, Dw. rewrite <- Eah in Bh, Dh.
  split; [done|]. split; [done|]. split; [lia|]. split; [lia|].
  repeat split; etrans; eassumption.
Qed.

(** C2 fails as stated: with CPU usage the superblock alignment is skipped.
    Basic (16x16) AFBC of a 100x100 RGBA_8888 buffer with CPU usage gets the
    allocation height 100, which is not a multiple of 16. *)
Lemma C2_counterexample :
  let t := set_primary_type alloc_type_zero AFBC in
  is_afbc t = true
  ∧ get_afbc_sb_size t 0 = {| rect_width := 16; rect_height := 16 |}
  ∧ get_pixel_w_h 100 100 Sample.fmt_rgba_8888 t 0 true = (112, 100)
  ∧ ¬ (16 | 100).
Proof.
  cbv zeta. split; [reflexivity|]. split; [reflexivity|]. split; [reflexivity|].
  intros [q Hq]. lia.
Qed.

(** C2 witness: a 100x100 RGBA_8888 buffer, basic AFBC without tiled headers
    and without CPU usage, is allocated as 112x112. *)
Lemma C2_witness :
  let t := set_primary_type alloc_type_zero AFBC in
  get_pixel_w_h 100 100 Sample.fmt_rgba_8888 t 0 false = (112, 112)
  ∧ (16 | (get_pixel_w_h 100 100 Sample.fmt_rgba_8888 t 0 false).1)
  ∧ (16 | (get_pixel_w_h 100 100 Sample.fmt_rgba_8888 t 0 false).2).
Proof.
  cbv zeta. split; [reflexivity|].
  pose proof (C2_afbc_alignment_without_cpu_usage 100 100 Sample.fmt_rgba_8888
                (set_primary_type alloc_type_zero AFBC) 0
                eq_refl ltac:(vm_compute; discriminate)
                ltac:(vm_compute; split; [discriminate|reflexivity])
                ltac:(vm_compute; split; [discriminate|reflexivity]))
    as (_ & _ & _ & _ & Dw & _ & Dh & _).
  split; [exact Dw | exact Dh].
Defined.

(** ** Size accumulation *)

Lemma pi_get_insert_eq (l : list plane_info_t) (i : nat) (x : plane_info_t) :
  (i < length l)%nat → pi_get (<[i := x]> l) i = x.
Proof. intros Hi. unfold pi_get. by rewrite list_lookup_insert_eq. Qed.

Lemma pi_get_insert_ne (l : list plane_info_t) (i j : nat) (x : plane_info_t) :
  i ≠ j → pi_get (<[i := x]> l) j = pi_get l j.
Proof. intros Hne. unfold pi_get. by rewrite list_lookup_insert_ne. Qed.

Lemma pi_get_ge (l : list plane_info_t) (i : nat) :
  (length l ≤ i)%nat → pi_get l i = plane_info_zero.
Proof. intros Hi. unfold pi_get. by rewrite lookup_ge_None_2. Qed.

Lemma u32_mod_8 x : u32 x mod 8 = x mod 8.
Proof.
  unfold u32. apply Z.mod_mod_divide. exists (2 ^ 29). reflexivity.
Qed.

Lemma c_divisor_nonzero d : d ≠ 0 → c_divisor d = Some tt.
Proof. intros Hd. unfold c_divisor. by apply Z.eqb_neq in Hd as ->. Qed.

Lemma c_divisor_Some d u : c_divisor d = Some u → d ≠ 0.
Proof. unfold c_divisor. destruct (Z.eqb_spec d 0); [discriminate|done]. Qed.

Lemma c_divisor_if (b : bool) d :
  d ≠ 0 → (if b then c_divisor d else Some tt) = Some tt.
Proof. intros Hd. destruct b; [by apply c_divisor_nonzero|done]. Qed.

Lemma get_pixel_w_h_divisors_ok format plane :
  ((0 < plane)%nat → hsub format ≠ 0 ∧ vsub format ≠ 0) →
  get_pixel_w_h_divisors format plane = Some tt.
Proof.
  intros Hsub. unfold get_pixel_w_h_divisors. case_bool_decide; [|done].
  destruct Hsub as [Hh Hv]; [done|]. by rewrite !c_divisor_nonzero.
Qed.

Lemma get_pixel_w_h_divisors_Some format plane u :
  get_pixel_w_h_divisors format plane = Some u →
  (0 < plane)%nat → hsub format ≠ 0 ∧ vsub format ≠ 0.
Proof.
  unfold get_pixel_w_h_divisors. intros Hrun Hplane.
  rewrite bool_decide_eq_true_2 in Hrun by done.
  destruct (c_divisor (hsub format)) as [[]|] eqn:Eh; [|discriminate].
  split; by eapply c_divisor_Some.
Qed.

Lemma subsampled_plane format plane :
  subsampling_wf format → (plane < npln format)%nat →
  (0 < plane)%nat → hsub format ≠ 0 ∧ vsub format ≠ 0.
Proof. intros Hsub Hplane Hpos. apply Hsub. lia. Qed.

Lemma calc_planes_total step planes :
  (∀ plane st, plane ∈ planes → is_Some (step plane st)) →
  ∀ st, is_Some (calc_planes step planes st).
Proof.
  induction planes as [|p planes IH]; intros Hstep st; cbn.
  - by eexists.
  - destruct (Hstep p st) as [st' ->]; [apply list_elem_of_here|]. cbn.
    apply IH. intros plane st0 Hin. apply Hstep. by apply list_elem_of_further.
Qed.

Section LayoutProperties.
Context `{H : Headers}.

(** Without CPU usage every plane of a block-compressed buffer gets through
    the assertions and divisions of the plane loop. *)
Lemma calc_plane_afbc_total width height t format has_hw_usage plane st :
  is_afbc t = true → tile_size format ≤ 16 →
  ((0 < plane)%nat → hsub format ≠ 0 ∧ vsub format ≠ 0) →
  is_Some (calc_plane width height t format false has_hw_usage plane st).
Proof.
  intros Ht Hts Hsub. unfold calc_plane.
  rewrite (get_pixel_w_h_divisors_ok _ _ Hsub). cbn [mbind option_bind].
  destruct (get_pixel_w_h_afbc_no_cpu (u32 width) (u32 height) format t plane Ht)
    as (Eq & Haw & _ & _ & _ & D1 & _).
  rewrite Eq. clear Eq.
  set (aw := GRALLOC_ALIGN u32 _ _). set (ah := GRALLOC_ALIGN u32 _ _).
  assert (Haw8 : (8 | aw)).
  { subst aw. rewrite Z.max_l by lia.
    etrans; [|apply GRALLOC_ALIGN_u32_divide; lia].
    etrans; [|exact D1].
    destruct (get_afbc_sb_size_cases t plane Ht) as [E|[E|E]]; rewrite E; cbn;
      destruct (is_tiled t); try destruct (_ >? 32);
      apply Z.mod_divide; done. }
  assert (Hafrc : is_afrc t = false).
  { unfold is_afbc in Ht. unfold is_afrc.
    destruct (primary_type t); try discriminate; reflexivity. }
  unfold calc_byte_stride. rewrite Hafrc, Ht.
  set (info := pi_get _ plane).
  assert (Hinfo : (8 | alloc_width info)).
  { subst info. destruct (decide (plane < length (cs_plane_info st))%nat).
    - rewrite pi_get_insert_eq by done. exact Haw8.
    - rewrite pi_get_ge by (rewrite length_insert; lia). by exists 0. }
  assert (Hmod : u32 (alloc_width info * arr_get (bpp_afbc format) plane) mod 8 = 0).
  { rewrite u32_mod_8. apply Z.mod_divide; [done|]. by apply Z.divide_mul_l. }
  rewrite Hmod. cbn.
  destruct (bool_decide (plane = 0%nat)); cbn; by eexists.
Qed.

Lemma calc_allocation_size_afbc_total width height t format has_hw_usage
    pixel_stride plane_info :
  is_afbc t = true → tile_size format ≤ 16 → subsampling_wf format →
  is_Some (calc_allocation_size width height t format false has_hw_usage
             pixel_stride plane_info).
Proof.
  intros Ht Hts Hsub. unfold calc_allocation_size. apply calc_planes_total.
  intros plane st Hin. apply calc_plane_afbc_total; [done..|].
  apply elem_of_seq in Hin. apply subsampled_plane; [done|lia].
Qed.

(** The selector on a front-buffer request with wide or extra-wide blocks. *)
Lemma get_alloc_type_front_buffer format_ext format_idx usage alloc_type :
  is_format_afbc format_ext = true →
  has_bits format_ext MALI_GRALLOC_INTFMT_AFBC_TILED_HEADERS = true →
  has_bits format_ext MALI_GRALLOC_INTFMT_AFBC_DOUBLE_BODY = true →
  has_bits format_ext MALI_GRALLOC_INTFMT_AFBC_WIDEBLK
  || has_bits format_ext MALI_GRALLOC_INTFMT_AFBC_EXTRAWIDEBLK = true →
  bool_decide (npln (format_at format_idx) = 1%nat)
  && has_bits format_ext MALI_GRALLOC_INTFMT_AFBC_WIDEBLK
  && has_bits format_ext MALI_GRALLOC_INTFMT_AFBC_EXTRAWIDEBLK = false →
  ∃ l t, get_alloc_type format_ext format_idx usage alloc_type = (l, inr t)
    ∧ LOGE_front_buffer_safe_with_wide_block ∈ l
    ∧ is_afbc t = true
    ∧ is_tiled t = true
    ∧ is_frontbuffer_safe t = true
    ∧ is_multi_plane t
      = bool_decide (1 < npln (format_at format_idx))%nat
        && has_bits format_ext MALI_GRALLOC_INTFMT_AFBC_EXTRAWIDEBLK.
Proof.
  intros Hafbc Htiled Hdb Hwide Hsingle. unfold get_alloc_type.
  rewrite Hafbc, Htiled, Hdb, has_bits_lor, Hwide.
  destruct (is_yuv _ && has_bits _ MALI_GRALLOC_INTFMT_AFBC_YUV_TRANSFORM);
  destruct (bool_decide (1 < npln (format_at format_idx))%nat);
  destruct (has_bits format_ext MALI_GRALLOC_INTFMT_AFBC_WIDEBLK);
  destruct (has_bits format_ext MALI_GRALLOC_INTFMT_AFBC_EXTRAWIDEBLK);
  try discriminate;
  cbn [negb andb orb] in *; rewrite ?andb_true_r, ?andb_false_r in *;
  try rewrite Hsingle;
  destruct (has_bits usage MALI_GRALLOC_USAGE_AFBC_PADDING);
  cbn; eexists _, _; (split; [reflexivity|]);
  (split; [set_solver|]); done.
Qed.

Lemma validate_format_afbc_ok format t descriptor :
  is_afbc t = true → afbc format = true →
  is_multi_plane t = bool_decide (1 < npln format)%nat →
  (id format =? format_id BLOB) && negb (d_height descriptor =? 1) = false →
  validate_format format t descriptor = ([], inr tt).
Proof.
  intros Ht Hafbc Hmulti Hblob. unfold validate_format.
  rewrite Ht, Hafbc, Hmulti, Hblob. cbn.
  destruct (bool_decide (npln format = 1%nat)) eqn:E1;
  destruct (bool_decide (1 < npln format)%nat) eqn:E2; cbn; try reflexivity.
  apply bool_decide_eq_true in E1, E2. lia.
Qed.

(** C4 fails as stated: basic AFBC without tiled headers on the two-plane NV12
    is downgraded to single-plane by the selector and then refused by the
    validation, so the derivation ends in [-EINVAL] and yields no layout. *)
Lemma C4_counterexample :
  let descriptor :=
    Sample.request 64 64 (Z.lor (Sample.sample_format_id NV12) Sample.INTFMT_AFBC_BASIC)
      Sample.USAGE_HW_TEXTURE 1 in
  (1 < npln Sample.fmt_nv12)%nat
  ∧ get_alloc_type (H:=Sample.headers) Sample.INTFMT_AFBC_BASIC 2 Sample.USAGE_HW_TEXTURE
      alloc_type_zero
    = ([LOGW_multi_plane_without_tiling],
       inr (set_primary_type alloc_type_zero AFBC))
  ∧ mali_gralloc_derive_format_and_size (H:=Sample.headers) descriptor
    = ([LOGW_multi_plane_without_tiling; LOGE_incompatible_plane_request false],
       inl Err_incompatible_plane_request)
  ∧ ¬ ∃ l d', mali_gralloc_derive_format_and_size (H:=Sample.headers) descriptor
              = (l, inr d').
Proof.
  cbv zeta. split; [cbn; lia|]. split; [reflexivity|].
  assert (E : mali_gralloc_derive_format_and_size (H:=Sample.headers)
                (Sample.request 64 64
                   (Z.lor (Sample.sample_format_id NV12) Sample.INTFMT_AFBC_BASIC)
                   Sample.USAGE_HW_TEXTURE 1)
              = ([LOGW_multi_plane_without_tiling;
                  LOGE_incompatible_plane_request false],
                 inl Err_incompatible_plane_request)) by (vm_compute; reflexivity).
  split; [exact E|]. intros (l & d' & Hd). rewrite E in Hd. discriminate.
Qed.

Lemma get_alloc_type_untiled_multi_plane format_ext format_idx usage alloc_type :
  (1 < npln (format_at format_idx))%nat →
  is_format_afbc format_ext = true →
  has_bits format_ext MALI_GRALLOC_INTFMT_AFBC_TILED_HEADERS = false →
  has_bits format_ext MALI_GRALLOC_INTFMT_AFBC_EXTRAWIDEBLK = false →
  ∃ l t, get_alloc_type format_ext format_idx usage alloc_type = (l, inr t)
    ∧ LOGW_multi_plane_without_tiling ∈ l
    ∧ is_afbc t = true
    ∧ is_multi_plane t = false.
Proof.
  intros Hnpln Hafbc Htiled Hxw. unfold get_alloc_type.
  rewrite Hafbc, Htiled, Hxw,
    (bool_decide_true (1 < npln (format_at format_idx))%nat) by done.
  rewrite (bool_decide_false (npln (format_at format_idx) = 1%nat)) by lia.
  destruct (is_yuv _ && has_bits _ MALI_GRALLOC_INTFMT_AFBC_YUV_TRANSFORM);
  destruct (has_bits format_ext MALI_GRALLOC_INTFMT_AFBC_WIDEBLK);
  destruct (has_bits usage MALI_GRALLOC_USAGE_AFBC_PADDING);
  cbn; eexists _, _; (split; [reflexivity|]); (split; [set_solver|]); done.
Qed.

Lemma validate_format_single_plane_afbc format t descriptor :
  (1 < npln format)%nat → is_afbc t = true → is_multi_plane t = false →
  ∃ l e, validate_format format t descriptor = (l, inl e)
    ∧ kind_of e = UnsupportedFormatForEncoding.
Proof.
  intros Hnpln Ht Hmulti. unfold validate_format. rewrite Ht, Hmulti.
  rewrite (bool_decide_true (1 < npln format)%nat) by done.
  rewrite andb_false_r.
  destruct (afbc format); cbn; eexists _, _; split; reflexivity.
Qed.

(** C4, as the code has it: for a multi-plane format a block-compression
    request without tiled headers (and without extra-wide blocks, which is
    the failure of C3) passes the selector, which logs the fall-back and
    clears [is_multi_plane]; the validation then refuses the single-plane type
    for the multi-plane format, so the derivation returns [-EINVAL] and yields
    no layout. *)
Theorem C4_untiled_multi_plane_is_downgraded_then_refused
    (descriptor : buffer_descriptor_t) (format_idx : nat) :
  let usage := Z.lor (d_producer_usage descriptor) (d_consumer_usage descriptor) in
  let alloc_format :=
    mali_gralloc_select_format (d_hal_format descriptor)
      (d_format_type descriptor) usage in
  let format_ext := Z.land alloc_format MALI_GRALLOC_INTFMT_EXT_MASK in
  let format := format_at format_idx in
  (1 < npln format)%nat →
  is_format_afbc format_ext = true →
  has_bits format_ext MALI_GRALLOC_INTFMT_AFBC_TILED_HEADERS = false →
  has_bits format_ext MALI_GRALLOC_INTFMT_AFBC_EXTRAWIDEBLK = false →
  (∃ l t, get_alloc_type format_ext format_idx usage alloc_type_zero = (l, inr t)
     ∧ LOGW_multi_plane_without_tiling ∈ l
     ∧ is_afbc t = true
     ∧ is_multi_plane t = false)
  ∧ (alloc_format ≠ format_id UNDEFINED →
     get_format_index (Z.land alloc_format MALI_GRALLOC_INTFMT_FMT_MASK)
     = Some format_idx →
     ∃ l e, mali_gralloc_derive_format_and_size descriptor = (l, inl e)
       ∧ kind_of e = UnsupportedFormatForEncoding).
Proof.
  intros usage alloc_format format_ext format Hnpln Hafbc Htiled Hxw.
  destruct (get_alloc_type_untiled_multi_plane format_ext format_idx usage
              alloc_type_zero Hnpln Hafbc Htiled Hxw)
    as (l & t & Hget & Hlog & Ht & Hmulti).
  split; [by exists l, t|].
  intros Hundef Hidx.
  unfold mali_gralloc_derive_format_and_size.
  cbn [d_alloc_format set_alloc_format]. fold usage. fold alloc_format.
  apply Z.eqb_neq in Hundef. rewrite Hundef, Hidx. fold format_ext.
  rewrite Hget. cbn [bind]. fold format.
  destruct (validate_format_single_plane_afbc format t
              (set_alloc_format descriptor alloc_format) Hnpln Ht Hmulti)
    as (l' & e & -> & Hkind).
  cbn. by eexists _, _.
Qed.

Lemma calc_planes_size_range step planes :
  (∀ plane st st', step plane st = Some st' → 0 ≤ cs_size st' < 2 ^ 64) →
  ∀ st st', 0 ≤ cs_size st < 2 ^ 64 →
    calc_planes step planes st = Some st' → 0 ≤ cs_size st' < 2 ^ 64.
Proof.
  intros Hstep. induction planes as [|p planes IH]; intros st st' Hst Hrun.
  - cbn in Hrun. by injection Hrun as <-.
  - cbn in Hrun. destruct (step p st) as [st1|] eqn:E1; [|discriminate].
    cbn in Hrun. eapply IH; [|exact Hrun]. by eapply Hstep.
Qed.

Lemma calc_allocation_size_size_range width height t format has_cpu_usage
    has_hw_usage pixel_stride plane_info st :
  calc_allocation_size width height t format has_cpu_usage has_hw_usage
    pixel_stride plane_info = Some st →
  0 ≤ cs_size st < 2 ^ 64.
Proof.
  unfold calc_allocation_size. apply calc_planes_size_range; [|cbn; lia].
  intros plane st0 st' Hstep. unfold calc_plane in Hstep.
  destruct (get_pixel_w_h_divisors _ _) as [[]|]; [|discriminate].
  cbn [mbind option_bind] in Hstep.
  destruct (get_pixel_w_h _ _ _ _ _ _) as [w h].
  destruct (calc_byte_stride _ _ _ _ _ _) as [stride|]; [|discriminate].
  cbn in Hstep.
  match type of Hstep with
  | context [mbind _ ?c] => destruct c as [ps|]; [|discriminate]
  end.
  cbn in Hstep.
  match type of Hstep with
  | context [mbind _ ?c] => destruct c as [[]|]; [|discriminate]
  end.
  cbn in Hstep.
  repeat match type of Hstep with
  | context [let '(_, _) := ?c in _] => destruct c
  end.
  injection Hstep as <-. cbn. unfold u64. apply Z.mod_pos_bound. lia.
Qed.

(** C7: a successful derivation returns the single-layer size of the plane
    loop unchanged for a layer count of 1 (or less).  For more layers it
    returns that size, aligned to 4096 bytes for a block-compressed format
    with tiled headers, to 128 bytes for a block-compressed format without
    them and not at all otherwise, times the layer count.  The arithmetic is
    that of [size_t]: the result is the product modulo 2^64, and it is the
    product of the rounded-up size and the layer count whenever that product
    is below 2^64. *)
Theorem C7_multi_layer_size (descriptor : buffer_descriptor_t)
    (l : list log_msg) (d' : buffer_descriptor_t) :
  mali_gralloc_derive_format_and_size descriptor = (l, inr d') →
  ∃ width height t format_idx has_cpu_usage has_hw_usage st,
    calc_allocation_size width height t (format_at format_idx) has_cpu_usage
      has_hw_usage (d_pixel_stride descriptor) (d_plane_info descriptor) = Some st
    ∧ d_plane_info d' = cs_plane_info st
    ∧ d_layer_count d' = d_layer_count descriptor
    ∧ let single := cs_size st in
      let layers := d_layer_count descriptor in
      let alignment :=
        if is_format_afbc (d_alloc_format d') then
          if has_bits (d_alloc_format d') MALI_GRALLOC_INTFMT_AFBC_TILED_HEADERS
          then 4096 else 128
        else 1 in
      (layers > 1 → d_size d' = u64 (GRALLOC_ALIGN u64 single alignment * layers))
      ∧ (layers > 1 → round_up single alignment * layers < 2 ^ 64 →
         d_size d' = round_up single alignment * layers
         ∧ single ≤ round_up single alignment < single + alignment
         ∧ (alignment | round_up single alignment))
      ∧ (layers ≤ 1 → d_size d' = single).
Proof.
  unfold mali_gralloc_derive_format_and_size.
  cbn [d_alloc_format set_alloc_format d_pixel_stride d_plane_info d_height].
  destruct (_ =? format_id UNDEFINED); [discriminate|].
  destruct (get_format_index _) as [format_idx|]; [|discriminate].
  destruct (get_alloc_type _ _ _ _) as [l1 [e|t]]; [discriminate|].
  cbn [bind].
  destruct (validate_format _ _ _) as [l2 [e|[]]]; [discriminate|].
  destruct (mali_gralloc_adjust_dimensions _ _ _ _) as [w h].
  match goal with
  | |- context [calc_allocation_size ?a ?b ?c ?d ?e ?f ?g ?i] =>
      destruct (calc_allocation_size a b c d e f g i) as [st|] eqn:Ecalc;
      [|discriminate]
  end.
  cbn. intros Hd. injection Hd as _ <-.
  eexists _, _, _, _, _, _, st. split; [exact Ecalc|].
  cbn [set_size set_layout set_alloc_format d_plane_info d_layer_count d_size
       d_alloc_format d_pixel_stride].
  split; [reflexivity|]. split; [reflexivity|].
  pose proof (calc_allocation_size_size_range _ _ _ _ _ _ _ _ _ Ecalc) as Hrange.
  set (af := mali_gralloc_select_format _ _ _).
  set (n := d_layer_count descriptor).
  set (alignment := if is_format_afbc af then _ else 1).
  assert (Hal : 1 ≤ alignment ≤ 4096).
  { subst alignment. destruct (is_format_afbc af); [destruct (has_bits af _)|]; lia. }
  assert (Esize : n > 1 →
    layer_size af n (cs_size st) = u64 (GRALLOC_ALIGN u64 (cs_size st) alignment * n)).
  { intros Hn. unfold layer_size. destruct (Z.gtb_spec n 1) as [_|?]; [|lia].
    subst alignment. destruct (is_format_afbc af); [destruct (has_bits af _)|];
      try reflexivity.
    unfold GRALLOC_ALIGN. replace (cs_size st + 1 - 1) with (cs_size st) by lia.
    rewrite (u64_small (cs_size st)) by lia.
    rewrite Z.div_1_r, Z.mul_1_r. by rewrite (u64_small (cs_size st)) by lia. }
  split; [exact Esize|]. split.
  - intros Hn Hfit. rewrite (Esize Hn).
    destruct (round_up_bounds (cs_size st) alignment) as [Hb Hdiv]; [lia..|].
    fold (round_up (cs_size st) alignment) in Hb, Hdiv.
    assert (2 * round_up (cs_size st) alignment
            ≤ round_up (cs_size st) alignment * n) by nia.
    rewrite GRALLOC_ALIGN_u64_exact by lia.
    fold (round_up (cs_size st) alignment).
    split; [apply u64_small; lia|]. split; [lia|exact Hdiv].
  - intros Hn. unfold layer_size.
    destruct (Z.gtb_spec n 1) as [?|_]; [lia|reflexivity].
Qed.

End LayoutProperties.

(** ** Stride alignment *)

Lemma gcd_loop_spec fuel : ∀ a b,
  0 ≤ a → 0 ≤ b → b < Z.of_nat fuel → gcd_loop fuel a b = Z.gcd a b.
Proof.
  induction fuel as [|fuel IH]; intros a b Ha Hb Hfuel; [lia|].
  cbn [gcd_loop]. destruct (Z.eqb_spec b 0) as [->|Hne].
  - rewrite Z.gcd_0_r. lia.
  - pose proof (Z.mod_pos_bound a b ltac:(lia)) as Hm.
    rewrite IH by lia. rewrite Z.gcd_comm, Z.gcd_mod by done.
    apply Z.gcd_comm.
Qed.

(** The loop of [gcd] computes the greatest common divisor. *)
Lemma gcd_spec a b : 0 ≤ a → 0 ≤ b → gcd a b = Z.gcd a b.
Proof.
  intros Ha Hb. unfold gcd. destruct (Z.eqb_spec a b) as [->|Hne].
  - rewrite Z.gcd_diag. lia.
  - destruct (Z.ltb_spec a b).
    + rewrite gcd_loop_spec by lia. apply Z.gcd_comm.
    + rewrite gcd_loop_spec by lia. reflexivity.
Qed.

Lemma lcm_bounds a b :
  0 ≤ a < 2 ^ 31 → 0 ≤ b < 2 ^ 31 → a * b < 2 ^ 32 →
  Z.max a b ≤ lcm a b ≤ Z.max (Z.max a b) (a * b).
Proof.
  intros Ha Hb Hab. unfold lcm.
  destruct (Z.eqb_spec a 0) as [->|Hna]; cbn [negb andb].
  { rewrite !s32_small, max2_spec, u32_small by lia. lia. }
  destruct (Z.eqb_spec b 0) as [->|Hnb]; cbn [negb andb].
  { rewrite !s32_small, max2_spec, u32_small by lia. lia. }
  rewrite u32_small by nia. rewrite gcd_spec by lia.
  pose proof (Z.gcd_nonneg a b) as Hg0.
  destruct (Z.gcd_divide_l a b) as [qa Hqa].
  destruct (Z.gcd_divide_r a b) as [qb Hqb].
  assert (Hg : 0 < Z.gcd a b).
  { destruct (Z.eq_dec (Z.gcd a b) 0) as [E|E]; [|lia].
    apply Z.gcd_eq_0 in E. lia. }
  set (g := Z.gcd a b) in *.
  assert (Hq : a * b / g = qa * b).
  { rewrite Hqa at 1. replace (qa * g * b) with (qa * b * g) by lia.
    by apply Z.div_mul; lia. }
  rewrite Hq.
  assert (0 < qa) by nia. assert (0 < qb) by nia.
  split.
  - apply Z.max_lub; [|nia].
    rewrite Hqb. rewrite Hqa at 1. nia.
  - etrans; [|apply Z.le_max_r]. nia.
Qed.

(** ** Bounds on the plane geometry *)

Lemma align_up_facts v b :
  1 ≤ v → 1 ≤ b → v + b ≤ 2 ^ 32 →
  Z.max v b ≤ GRALLOC_ALIGN u32 v b ≤ v + b - 1 ∧ (b | GRALLOC_ALIGN u32 v b).
Proof.
  intros Hv Hb Hfit.
  pose proof (GRALLOC_ALIGN_u32_bounds v b ltac:(lia) ltac:(lia) ltac:(lia)) as Hbd.
  pose proof (GRALLOC_ALIGN_u32_divide v b ltac:(lia)) as Hd.
  split; [|done]. destruct Hd as [q Hq].
  assert (1 ≤ q) by nia. split; [apply Z.max_lub; nia|lia].
Qed.

Lemma plane_w_h_bounds width height format plane :
  format_wf format → (plane < npln format)%nat →
  1 ≤ width ≤ MAX_DIM → 1 ≤ height ≤ MAX_DIM →
  1 ≤ (plane_w_h (u32 width) (u32 height) format plane).1 ≤ MAX_DIM + 15
  ∧ 1 ≤ (plane_w_h (u32 width) (u32 height) format plane).2 ≤ MAX_DIM + 15.
Proof.
  intros (_ & Haw & Hah & _ & _ & Hsub & _) Hplane Hw Hh.
  unfold MAX_DIM in *. unfold plane_w_h. cbn [fst snd].
  rewrite !u32_small by lia.
  destruct (align_up_facts width (align_w format)) as [Bw _]; [lia..|].
  destruct (align_up_facts height (align_h format)) as [Bh _]; [lia..|].
  set (w := GRALLOC_ALIGN u32 width _) in *.
  set (h := GRALLOC_ALIGN u32 height _) in *.
  destruct (bool_decide (0 < plane)%nat) eqn:Ep; [|lia].
  apply bool_decide_eq_true in Ep.
  destruct Hsub as [Hhs Hvs]; [lia|].
  split; split.
  - apply Z.div_le_lower_bound; lia.
  - etrans; [apply Z.div_le_upper_bound with (q := w); nia|lia].
  - apply Z.div_le_lower_bound; lia.
  - etrans; [apply Z.div_le_upper_bound with (q := h); nia|lia].
Qed.

Lemma clump_of_cases a n cw ch :
  (paging_tile_width a = 8 ∧ paging_tile_height a = 8)
  ∨ (paging_tile_width a = 16 ∧ paging_tile_height a = 4) →
  clump_of a n = Some (cw, ch) →
  (cw = 4 ∨ cw = 8 ∨ cw = 16) ∧ (ch = 4 ∨ ch = 8).
Proof.
  intros Htile. unfold clump_of.
  destruct (n =? 1).
  - intros [= <- <-]. destruct Htile as [[-> ->]|[-> ->]]; auto.
  - destruct (n =? 2); [intros [= <- <-]; auto|].
    destruct ((n =? 3) || (n =? 4)); [intros [= <- <-]; auto|discriminate].
Qed.

Lemma pixel_align_bounds format t plane has_cpu_usage :
  format_wf format → alloc_type_wf format t → (plane < npln format)%nat →
  (has_cpu_usage = true → primary_type t = UNCOMPRESSED) →
  let a_w := max3 1 (pixel_align format t plane has_cpu_usage).1 (tile_size format) in
  let a_h := max3 1 (pixel_align format t plane has_cpu_usage).2 (tile_size format) in
  1 ≤ a_w ≤ 512 ∧ 1 ≤ a_h ≤ 128
  ∧ (is_afbc t = true → 256 ≤ a_w * a_h)
  ∧ (is_afrc t = true →
     4 ≤ arr_get (clump_width (afrc t)) plane ≤ a_w
     ∧ 4 ≤ arr_get (clump_height (afrc t)) plane ≤ a_h)
  ∧ (is_block_linear t = true → 16 ≤ a_w ∧ 16 ≤ a_h).
Proof.
  intros (_ & _ & _ & Hcpu & Hts & _) Hwf Hplane Hunc a_w a_h.
  subst a_w a_h. rewrite !max3_spec. unfold pixel_align.
  destruct has_cpu_usage.
  { specialize (Hunc eq_refl). unfold is_afbc, is_afrc, is_block_linear.
    rewrite Hunc. cbn [fst snd]. repeat split; try lia; discriminate. }
  clear Hunc. destruct (is_afbc t) eqn:Ht.
  { destruct (get_pixel_w_h_afbc_no_cpu 0 0 format t plane Ht)
      as (_ & Haw & Hah & _ & _ & _ & _ & _ & _ & H256).
    rewrite (afbc_pixel_align_spec format t plane Ht). cbn [fst snd].
    assert (is_afrc t = false ∧ is_block_linear t = false) as [-> ->].
    { unfold is_afbc in Ht. unfold is_afrc, is_block_linear.
      destruct (primary_type t); try discriminate; done. }
    repeat split; try lia; try discriminate. intros _. nia. }
  destruct (is_afrc t) eqn:Hafrc.
  { destruct (Hwf Hafrc) as (Htile & _ & _ & _ & _ & Hclump).
    specialize (Hclump plane Hplane).
    destruct (clump_of_cases _ _ _ _ Htile Hclump) as [Hcw Hch].
    assert (is_block_linear t = false) as ->.
    { unfold is_afrc in Hafrc. unfold is_block_linear.
      apply bool_decide_eq_true in Hafrc. by rewrite Hafrc. }
    cbn [fst snd].
    destruct Htile as [[-> ->]|[-> ->]];
      destruct Hcw as [-> | [-> | ->]]; destruct Hch as [-> | ->];
      repeat split; try lia; try discriminate. }
  destruct (is_block_linear t); cbn [fst snd];
    repeat split; try lia; try discriminate.
Qed.

(** Allocation width and height of a plane, for requests of up to [MAX_DIM]
    pixels a side. *)
Lemma get_pixel_w_h_bounds width height format t plane has_cpu_usage :
  format_wf format → alloc_type_wf format t → (plane < npln format)%nat →
  (has_cpu_usage = true → primary_type t = UNCOMPRESSED) →
  1 ≤ width ≤ MAX_DIM → 1 ≤ height ≤ MAX_DIM →
  let w := (get_pixel_w_h (u32 width) (u32 height) format t plane has_cpu_usage).1 in
  let h := (get_pixel_w_h (u32 width) (u32 height) format t plane has_cpu_usage).2 in
  1 ≤ w ≤ 8718 ∧ 1 ≤ h ≤ 8334
  ∧ (is_afbc t = true → 256 ≤ w * h)
  ∧ (is_afrc t = true →
     4 ≤ arr_get (clump_width (afrc t)) plane ≤ w
     ∧ 4 ≤ arr_get (clump_height (afrc t)) plane ≤ h)
  ∧ (is_block_linear t = true → 16 ≤ w ∧ 16 ≤ h).
Proof.
  intros Hfwf Hwf Hplane Hunc Hw Hh w h.
  destruct (plane_w_h_bounds width height format plane Hfwf Hplane Hw Hh)
    as [Hw1 Hh1].
  destruct (pixel_align_bounds format t plane has_cpu_usage Hfwf Hwf Hplane Hunc)
    as (Haw & Hah & Hafbc & Hafrc & Hbl).
  subst w h. unfold get_pixel_w_h.
  destruct (plane_w_h _ _ _ _) as [w1 h1]. cbn [fst snd] in Hw1, Hh1.
  destruct (pixel_align _ _ _ _) as [paw pah]. cbn [fst snd] in *.
  unfold MAX_DIM in *.
  destruct (align_up_facts w1 (max3 1 paw (tile_size format))) as [Bw _]; [lia..|].
  destruct (align_up_facts h1 (max3 1 pah (tile_size format))) as [Bh _]; [lia..|].
  split; [lia|]. split; [lia|]. split; [|split].
  - intros Ht. specialize (Hafbc Ht). nia.
  - intros Ht. specialize (Hafrc Ht). lia.
  - intros Ht. specialize (Hbl Ht). lia.
Qed.

(** ** One plane of the size computation *)

Section PlaneStep.
Context `{H : Headers}.

(** The byte stride of an uncompressed plane.  [s0] is the byte stride of
    plane 0 as stored when a later plane is computed. *)
Lemma calc_byte_stride_uncompressed t format has_cpu_usage has_hw_usage plane pis
    stride :
  format_wf format → (plane < npln format)%nat → (plane < length pis)%nat →
  is_afbc t = false → is_afrc t = false → is_block_linear t = false →
  1 ≤ alloc_width (pi_get pis plane) ≤ 8718 →
  ((0 < plane)%nat →
   (id format =? format_id YV12) && has_hw_usage && has_cpu_usage = true →
   2 ≤ byte_stride (pi_get pis 0) ≤ 118896) →
  calc_byte_stride t format has_cpu_usage has_hw_usage plane pis = Some stride →
  1 ≤ stride ≤ 118896
  ∧ (plane = 0%nat →
     (id format =? format_id YV12) && has_hw_usage && has_cpu_usage = true →
     2 ≤ stride).
Proof.
  intros (_ & _ & _ & Hcpu & Hts & _ & Hbpp) Hplane Hlen Hafbc Hafrc Hbl Haw Hs0.
  destruct (Hbpp plane Hplane) as [Hb _].
  unfold calc_byte_stride. rewrite Hafbc, Hafrc, Hbl.
  set (aw := alloc_width (pi_get pis plane)) in *.
  set (b := arr_get (bpp format) plane) in *.
  rewrite (u32_small (aw * b)) by nia.
  destruct (aw * b mod 8 =? 0); [|discriminate]. cbn [c_assert mbind option_bind].
  assert (Hs : 1 ≤ aw * b / 8 ≤ 69744).
  { split; [apply Z.div_le_lower_bound; nia|apply Z.div_le_upper_bound; nia]. }
  set (s0 := aw * b / 8) in *.
  set (hw := if has_hw_usage then if is_yuv format then 128 else 64 else 0).
  assert (Hhw : 0 ≤ hw ≤ 128 ∧ (has_hw_usage = true → 64 ≤ hw)).
  { subst hw. destruct has_hw_usage, (is_yuv format); split; (lia || discriminate). }
  intros Hrun.
  assert (∃ cpu_align, 0 ≤ cpu_align ≤ 128 ∧
    (let stride_align := lcm hw cpu_align in
     let s1 := if negb (stride_align =? 0)
               then GRALLOC_ALIGN u32 (s0 * tile_size format) stride_align
                    / tile_size format
               else s0 in
     if (id format =? format_id YV12) && has_hw_usage && has_cpu_usage
     then update_yv12_stride plane
            (byte_stride (pi_get (<[plane := set_byte_stride (pi_get pis plane) s1]> pis) 0))
            stride_align
     else Some s1) = Some stride) as (ca & Hca & Hrun').
  { destruct has_cpu_usage.
    - destruct (Z.rem (b * align_w_cpu format) 8 =? 0); [|discriminate].
      cbn [c_assert mbind option_bind] in Hrun.
      rewrite c_divisor_if in Hrun by lia.
      cbn [mbind option_bind] in Hrun. eexists. split; [|exact Hrun].
      rewrite Z.quot_div_nonneg by nia.
      split; [apply Z.div_pos; nia|apply Z.div_le_upper_bound; nia].
    - cbn [mbind option_bind] in Hrun. rewrite c_divisor_if in Hrun by lia.
      cbn [mbind option_bind] in Hrun. exists 0. split; [lia|exact Hrun]. }
  clear Hrun. cbv zeta in Hrun'.
  pose proof (lcm_bounds hw ca ltac:(lia) ltac:(lia) ltac:(nia)) as Hlcm.
  set (sa := lcm hw ca) in *.
  assert (Hsa : 0 ≤ sa ≤ 16384).
  { split; [lia|]. etrans; [apply Hlcm|]. apply Z.max_lub; [lia|nia]. }
  set (s1 := if negb (sa =? 0) then _ else s0) in *.
  assert (Hs1 : s0 ≤ s1 ≤ s0 + sa).
  { subst s1. destruct (Z.eqb_spec sa 0) as [E|E]; cbn [negb]; [lia|].
    pose proof (GRALLOC_ALIGN_u32_bounds (s0 * tile_size format) sa
                  ltac:(nia) ltac:(lia) ltac:(nia)) as Hal.
    split; [apply Z.div_le_lower_bound; nia|apply Z.div_le_upper_bound; nia]. }
  destruct ((id format =? format_id YV12) && has_hw_usage && has_cpu_usage) eqn:Eyv.
  2:{ injection Hrun' as <-. split; [lia|]. discriminate. }
  assert (Hsa64 : 64 ≤ sa).
  { apply andb_true_iff in Eyv as [Eyv _]. apply andb_true_iff in Eyv as [_ Ehw].
    destruct Hhw as [_ Hhw]. specialize (Hhw Ehw). lia. }
  unfold update_yv12_stride in Hrun'.
  destruct (decide (plane = 0%nat)) as [->|Hne].
  - rewrite bool_decide_true in Hrun' by done.
    rewrite pi_get_insert_eq in Hrun' by done. cbn [byte_stride set_byte_stride] in Hrun'.
    injection Hrun' as <-. rewrite (u32_small (2 * sa)) by lia.
    destruct (align_up_facts s1 (2 * sa)) as [Hal _]; [lia..|].
    split; [lia|]. intros _ _. lia.
  - rewrite bool_decide_false in Hrun' by done.
    rewrite pi_get_insert_ne in Hrun' by done.
    specialize (Hs0 ltac:(lia) eq_refl).
    set (luma := byte_stride (pi_get pis 0)) in *.
    destruct (luma / 2 =? _); [|discriminate]. cbn in Hrun'.
    destruct (Z.land (luma / 2) 15 =? 0); [|discriminate]. cbn in Hrun'.
    injection Hrun' as <-.
    split; [|intros ->; lia].
    split; [apply Z.div_le_lower_bound; lia|apply Z.div_le_upper_bound; lia].
Qed.

Lemma calc_byte_stride_block_linear t format has_cpu_usage has_hw_usage plane pis
    stride :
  format_wf format → (plane < npln format)%nat →
  is_afbc t = false → is_afrc t = false → is_block_linear t = true →
  16 ≤ alloc_width (pi_get pis 0) ≤ 8718 →
  calc_byte_stride t format has_cpu_usage has_hw_usage plane pis = Some stride →
  1 ≤ stride ≤ 1114112.
Proof.
  intros (_ & Haw & Hah & _ & _ & Hsub & Hbpp) Hplane Hafbc Hafrc Hbl Hw0.
  destruct (Hbpp plane Hplane) as [Hb _].
  unfold calc_byte_stride. rewrite Hafbc, Hafrc, Hbl.
  destruct (_ mod 8 =? 0); [|discriminate]. cbn [c_assert mbind option_bind].
  match goal with
  | |- context [mbind _ ?c] => destruct c as [[]|]; [|discriminate]
  end.
  cbn [mbind option_bind].
  set (b := arr_get (bpp format) plane) in *.
  set (sh := if bool_decide (0 < plane)%nat then 16 / vsub format else 16).
  set (sw := if bool_decide (0 < plane)%nat then 16 / hsub format else 16).
  assert (Hsh : 1 ≤ sh ≤ 16 ∧ 1 ≤ sw ≤ 16).
  { subst sh sw. destruct (bool_decide (0 < plane)%nat) eqn:Ep; [|lia].
    apply bool_decide_eq_true in Ep. destruct Hsub as [Hh Hv]; [lia|].
    repeat split; (apply Z.div_le_lower_bound; lia)
                  || (apply Z.div_le_upper_bound; lia). }
  assert (Hss : 1 ≤ sh * sw ≤ 256) by nia.
  rewrite (u32_small (sh * sw * b)) by nia.
  assert (Hbpb : 1 ≤ sh * sw * b / 8 ≤ 2048).
  { split; [apply Z.div_le_lower_bound; nia|apply Z.div_le_upper_bound; nia]. }
  set (bpb := sh * sw * b / 8) in *.
  assert (Hnx : 1 ≤ alloc_width (pi_get pis 0) / 16 ≤ 544).
  { split; [apply Z.div_le_lower_bound; lia|].
    assert (alloc_width (pi_get pis 0) / 16 < 545); [|lia].
    apply Z.div_lt_upper_bound; lia. }
  set (nx := alloc_width (pi_get pis 0) / 16) in *.
  intros [= <-]. rewrite u32_small by nia. nia.
Qed.

Lemma afbc_sizes_bounds t format plane w h :
  format_wf format → (plane < npln format)%nat → is_afbc t = true →
  1 ≤ w ≤ 8718 → 1 ≤ h ≤ 8334 → 256 ≤ w * h →
  let sb_num := u32 (w * h) / AFBC_PIXELS_PER_BLOCK in
  let body := afbc_body_size t format plane sb_num in
  let header :=
    afbc_buffer_align (is_tiled t)
      (s32 (u32 (sb_num * AFBC_HEADER_BUFFER_BYTES_PER_BLOCKENTRY))) in
  0 ≤ body ∧ 16 ≤ header ∧ body + header ≤ MAX_PLANE_SIZE.
Proof.
  intros (_ & _ & _ & _ & _ & _ & Hbpp) Hplane Ht Hw Hh H256.
  destruct (Hbpp plane Hplane) as [_ Hb].
  unfold AFBC_PIXELS_PER_BLOCK, AFBC_HEADER_BUFFER_BYTES_PER_BLOCKENTRY,
    MAX_PLANE_SIZE.
  rewrite (u32_small (w * h)) by nia.
  assert (Hsb : 1 ≤ w * h / 256 ≤ 283812).
  { split; [apply Z.div_le_lower_bound; lia|apply Z.div_le_upper_bound; nia]. }
  set (sb_num := w * h / 256) in *. cbv zeta.
  rewrite (u32_small (sb_num * 16)), (s32_small (sb_num * 16)) by lia.
  destruct (afbc_buffer_align_bounds (is_tiled t) (sb_num * 16)) as [Hhd _];
    [lia..|].
  unfold afbc_body_size.
  set (b := arr_get (bpp_afbc format) plane) in *.
  assert (Hq : Z.quot (b * rect_width (get_afbc_sb_size t plane)
                         * rect_height (get_afbc_sb_size t plane)) 8 = 32 * b).
  { destruct (get_afbc_sb_size_cases t plane Ht) as [E|[E|E]]; rewrite E;
      cbn [rect_width rect_height]; rewrite Z.quot_div_nonneg by lia;
      symmetry; apply Z.div_unique_exact; lia. }
  rewrite Hq.
  destruct (GRALLOC_ALIGN_int_bounds (32 * b) 128) as [Hsbb _]; [lia..|].
  set (sb_bytes := GRALLOC_ALIGN_int (32 * b) 128) in *.
  rewrite (u32_small (sb_num * sb_bytes)), (s32_small (sb_num * sb_bytes)) by nia.
  set (body0 := sb_num * sb_bytes).
  assert (Hb0 : 0 ≤ body0 ≤ 617291100) by (subst body0; nia).
  set (body1 := if _ && _ then afbc_buffer_align (is_tiled t) body0 else body0).
  assert (Hb1 : 0 ≤ body1 ≤ 617295195).
  { subst body1. destruct (_ && _); [|lia].
    destruct (afbc_buffer_align_bounds (is_tiled t) body0) as [? _]; lia. }
  destruct (is_frontbuffer_safe t).
  - destruct (afbc_buffer_align_bounds (is_tiled t) body1) as [Hbb _]; [lia..|].
    rewrite s32_small by lia. lia.
  - lia.
Qed.

Lemma afrc_body_bounds w h cw ch cu :
  4 ≤ cw ≤ w → w ≤ 8718 → 4 ≤ ch ≤ h → h ≤ 8334 →
  valid_coding_unit cu = true →
  1 ≤ s32 (u32 (w / cw * (h / ch) * cu)) ≤ MAX_PLANE_SIZE.
Proof.
  intros Hcw Hw Hch Hh Hcu. unfold MAX_PLANE_SIZE.
  assert (Hcu' : 16 ≤ cu ≤ 32).
  { unfold valid_coding_unit in Hcu.
    destruct (Z.eqb_spec cu 16); [lia|]. destruct (Z.eqb_spec cu 24); [lia|].
    destruct (Z.eqb_spec cu 32); [lia|]. discriminate. }
  assert (Hs : 1 ≤ w / cw ≤ 2180).
  { split; [apply Z.div_le_lower_bound; lia|apply Z.div_le_upper_bound; nia]. }
  assert (Ht : 1 ≤ h / ch ≤ 2084).
  { split; [apply Z.div_le_lower_bound; lia|apply Z.div_le_upper_bound; nia]. }
  set (s := w / cw) in *. set (u := h / ch) in *.
  assert (Hsu : 1 ≤ s * u ≤ 4543120) by nia.
  rewrite u32_small, s32_small by nia. nia.
Qed.

(** The record of a plane after the three stores into [plane_info[plane]]. *)
Lemma plane_info_stores (pis0 : list plane_info_t) plane w h stride off :
  (plane < length pis0)%nat →
  let pis1 := <[plane := set_alloc_w_h (pi_get pis0 plane) w h]> pis0 in
  let pis2 := <[plane := set_byte_stride (pi_get pis1 plane) stride]> pis1 in
  let pisf :=
    if bool_decide (0 < plane)%nat
    then <[plane := set_offset
                      (set_byte_stride (set_alloc_w_h (pi_get pis0 plane) w h)
                         stride) off]> pis2
    else pis2 in
  pi_get pis1 plane = set_alloc_w_h (pi_get pis0 plane) w h
  ∧ pi_get pis2 plane
    = set_byte_stride (set_alloc_w_h (pi_get pis0 plane) w h) stride
  ∧ (∀ q, q ≠ plane → pi_get pis1 q = pi_get pis0 q)
  ∧ (∀ q, q ≠ plane → pi_get pis2 q = pi_get pis0 q)
  ∧ length pisf = length pis0
  ∧ (∀ q, q ≠ plane → pi_get pisf q = pi_get pis0 q)
  ∧ pi_get pisf plane
    = {| offset := if bool_decide (0 < plane)%nat then off
                   else offset (pi_get pis0 plane);
         byte_stride := stride; alloc_width := w; alloc_height := h |}.
Proof.
  intros Hlen pis1 pis2 pisf.
  assert (E1 : pi_get pis1 plane = set_alloc_w_h (pi_get pis0 plane) w h).
  { subst pis1. by apply pi_get_insert_eq. }
  assert (L1 : length pis1 = length pis0) by (subst pis1; apply length_insert).
  assert (E2 : pi_get pis2 plane
               = set_byte_stride (set_alloc_w_h (pi_get pis0 plane) w h) stride).
  { subst pis2. rewrite pi_get_insert_eq by lia. by rewrite E1. }
  assert (L2 : length pis2 = length pis0).
  { subst pis2. rewrite length_insert. exact L1. }
  assert (N1 : ∀ q, q ≠ plane → pi_get pis1 q = pi_get pis0 q).
  { intros q Hq. subst pis1. by apply pi_get_insert_ne. }
  assert (N2 : ∀ q, q ≠ plane → pi_get pis2 q = pi_get pis0 q).
  { intros q Hq. subst pis2. rewrite pi_get_insert_ne by done. by apply N1. }
  do 4 (split; [done|]).
  subst pisf. destruct (bool_decide (0 < plane)%nat).
  - split; [by rewrite length_insert|]. split.
    + intros q Hq. rewrite pi_get_insert_ne by done. by apply N2.
    + rewrite pi_get_insert_eq by lia. reflexivity.
  - split; [done|]. split; [done|]. rewrite E2. reflexivity.
Qed.

Lemma cpu_usage_uncompressed t has_cpu_usage :
  (has_cpu_usage = true → primary_type t = UNCOMPRESSED) →
  has_cpu_usage = true →
  is_afbc t = false ∧ is_afrc t = false ∧ is_block_linear t = false.
Proof.
  intros Hunc Hcpu. specialize (Hunc Hcpu).
  unfold is_afbc, is_afrc, is_block_linear. by rewrite Hunc.
Qed.

Lemma calc_plane_step width height t format has_cpu_usage has_hw_usage plane st st' :
  format_wf format → alloc_type_wf format t →
  (plane < npln format)%nat → (plane < length (cs_plane_info st))%nat →
  (has_cpu_usage = true → primary_type t = UNCOMPRESSED) →
  1 ≤ width ≤ MAX_DIM → 1 ≤ height ≤ MAX_DIM →
  0 ≤ cs_size st ≤ 3 * (MAX_PLANE_SIZE + 2047) →
  ((0 < plane)%nat →
   plane0_inv t format has_cpu_usage has_hw_usage (cs_plane_info st)) →
  calc_plane width height t format has_cpu_usage has_hw_usage plane st = Some st' →
  ∃ off body header,
    cs_sizes st' = cs_sizes st ++ [(body, header)]
    ∧ 0 ≤ body ∧ 0 ≤ header ∧ 1 ≤ body + header ≤ MAX_PLANE_SIZE
    ∧ cs_size st ≤ off ≤ cs_size st + 2047
    ∧ cs_size st' = off + body + header
    ∧ length (cs_plane_info st') = length (cs_plane_info st)
    ∧ (∀ q, q ≠ plane →
         pi_get (cs_plane_info st') q = pi_get (cs_plane_info st) q)
    ∧ offset (pi_get (cs_plane_info st') plane)
      = (if bool_decide (0 < plane)%nat then off
         else offset (pi_get (cs_plane_info st) plane))
    ∧ (plane = 0%nat →
       plane0_inv t format has_cpu_usage has_hw_usage (cs_plane_info st')).
Proof.
  intros Hfwf Hwf Hplane Hlen Hunc Hwidth Hheight Hsize Hinv Hrun.
  unfold calc_plane in Hrun.
  destruct (get_pixel_w_h_divisors _ _) as [[]|]; [|discriminate].
  cbn [mbind option_bind] in Hrun.
  pose proof (get_pixel_w_h_bounds width height format t plane has_cpu_usage
                Hfwf Hwf Hplane Hunc Hwidth Hheight)
    as (Hw & Hh & Hfafbc & Hfafrc & Hfbl).
  destruct (get_pixel_w_h _ _ _ _ _ _) as [w h]. cbn [fst snd] in *.
  destruct (calc_byte_stride _ _ _ _ _ _) as [stride|] eqn:Es; [|discriminate].
  cbn [mbind option_bind] in Hrun.
  match type of Hrun with
  | (?c ≫= _) = _ => destruct c as [ps|]; [|discriminate]
  end.
  cbn [mbind option_bind] in Hrun.
  match type of Hrun with
  | (?c ≫= _) = _ => destruct c as [[]|]; [|discriminate]
  end.
  cbn [mbind option_bind] in Hrun.
  destruct (plane_info_stores (cs_plane_info st) plane w h stride 0 Hlen)
    as (E1 & E2 & N1 & N2 & _).
  cbv zeta in E1, E2, N1, N2.
  rewrite E2 in Hrun.
  cbn [alloc_width alloc_height byte_stride set_byte_stride set_alloc_w_h] in Hrun.
  assert (Hyv : (id format =? format_id YV12) && has_hw_usage && has_cpu_usage = true →
                is_afbc t = false ∧ is_afrc t = false ∧ is_block_linear t = false).
  { intros Eyv. apply andb_true_iff in Eyv as [_ Ecpu].
    by apply cpu_usage_uncompressed with has_cpu_usage. }
  unfold MAX_PLANE_SIZE in *.
  (* what is left to show once the sizes of the plane are bounded *)
  assert (Hfinish : ∀ size' body header,
    cs_size st ≤ size' ≤ cs_size st + 2047 →
    0 ≤ body → 0 ≤ header → 1 ≤ body + header ≤ 1300000000 →
    (plane = 0%nat →
     (is_block_linear t = true → 16 ≤ w ∧ 16 ≤ h)
     ∧ ((id format =? format_id YV12) && has_hw_usage && has_cpu_usage = true →
        2 ≤ stride ≤ 118896)) →
    st' = {| cs_plane_info :=
               if bool_decide (0 < plane)%nat
               then <[plane := set_offset
                                 (set_byte_stride
                                    (set_alloc_w_h (pi_get (cs_plane_info st) plane) w h)
                                    stride) (u32 size')]>
                      (<[plane := set_byte_stride
                                    (pi_get
                                       (<[plane := set_alloc_w_h
                                                     (pi_get (cs_plane_info st) plane)
                                                     w h]> (cs_plane_info st))
                                       plane) stride]>
                         (<[plane := set_alloc_w_h (pi_get (cs_plane_info st) plane)
                                       w h]> (cs_plane_info st)))
               else <[plane := set_byte_stride
                                 (pi_get
                                    (<[plane := set_alloc_w_h
                                                  (pi_get (cs_plane_info st) plane)
                                                  w h]> (cs_plane_info st))
                                    plane) stride]>
                      (<[plane := set_alloc_w_h (pi_get (cs_plane_info st) plane)
                                    w h]> (cs_plane_info st));
             cs_size := u64 (size' + s32 (body + header));
             cs_pixel_stride := ps;
             cs_sizes := cs_sizes st ++ [(body, header)] |} →
    ∃ off body header,
      cs_sizes st' = cs_sizes st ++ [(body, header)]
      ∧ 0 ≤ body ∧ 0 ≤ header ∧ 1 ≤ body + header ≤ 1300000000
      ∧ cs_size st ≤ off ≤ cs_size st + 2047
      ∧ cs_size st' = off + body + header
      ∧ length (cs_plane_info st') = length (cs_plane_info st)
      ∧ (∀ q, q ≠ plane →
           pi_get (cs_plane_info st') q = pi_get (cs_plane_info st) q)
      ∧ offset (pi_get (cs_plane_info st') plane)
        = (if bool_decide (0 < plane)%nat then off
           else offset (pi_get (cs_plane_info st) plane))
      ∧ (plane = 0%nat →
         plane0_inv t format has_cpu_usage has_hw_usage (cs_plane_info st'))).
  { intros size' body header Hs' Hb Hhd Hbh Hp0 ->.
    destruct (plane_info_stores (cs_plane_info st) plane w h stride (u32 size') Hlen)
      as (_ & _ & _ & _ & Lf & Nf & Ef).
    cbv zeta in Lf, Nf, Ef. rewrite (u32_small size') in Lf, Nf, Ef |- * by lia.
    exists size', body, header. cbn [cs_sizes cs_size cs_plane_info].
    rewrite s32_small, u64_small by lia.
    split; [reflexivity|]. do 5 (split; [lia|]).
    split; [exact Lf|]. split; [exact Nf|].
    rewrite Ef. cbn [offset]. split; [done|].
    intros ->. specialize (Hp0 eq_refl) as [Hbl Hyvs].
    unfold plane0_inv. cbn [cs_plane_info]. rewrite Ef.
    cbn [alloc_width alloc_height byte_stride].
    split; [|exact Hyvs]. intros Ebl. specialize (Hbl Ebl). lia. }
  destruct (is_afbc t) eqn:Ht.
  { (* block-compressed *)
    destruct (afbc_sizes_bounds t format plane w h Hfwf Hplane Ht Hw Hh
                (Hfafbc eq_refl)) as (Hb & Hhd & Hsum).
    cbv zeta in Hb, Hhd, Hsum. unfold MAX_PLANE_SIZE in Hsum.
    injection Hrun as Hst. symmetry in Hst.
    eapply Hfinish; [..|exact Hst]; try lia.
    intros _. split.
    - intros Ebl. exfalso. unfold is_afbc in Ht. unfold is_block_linear in Ebl.
      apply bool_decide_eq_true in Ebl. rewrite Ebl in Ht. discriminate.
    - intros Eyv. destruct (Hyv Eyv) as (? & _). congruence. }
  destruct (is_afrc t) eqn:Hafrc.
  { (* fixed-rate-compressed *)
    destruct (Hwf Hafrc) as (_ & Hvl & Hvc & Eal & Eac & _).
    destruct (Hfafrc eq_refl) as [Hcw Hch].
    set (alignment := if bool_decide (plane = 0%nat)
                      then rgba_luma_plane_alignment (afrc t)
                      else chroma_plane_alignment (afrc t)) in *.
    set (cu := if bool_decide (plane = 0%nat)
               then rgba_luma_coding_unit_bytes (afrc t)
               else chroma_coding_unit_bytes (afrc t)) in *.
    assert (Hcu : valid_coding_unit cu = true).
    { subst cu. by destruct (bool_decide (plane = 0%nat)). }
    assert (Hal : 1 ≤ alignment ≤ 2048).
    { subst alignment. destruct (bool_decide (plane = 0%nat));
        [rewrite Eal|rewrite Eac]; unfold alignment_of_coding_unit;
        repeat destruct (_ =? _); lia. }
    pose proof (GRALLOC_ALIGN_u64_bounds (cs_size st) alignment
                  ltac:(lia) ltac:(lia) ltac:(lia)) as Hoff.
    pose proof (afrc_body_bounds w h _ _ cu Hcw ltac:(lia) Hch ltac:(lia) Hcu)
      as Hbody.
    unfold MAX_PLANE_SIZE in Hbody.
    injection Hrun as Hst. symmetry in Hst.
    eapply Hfinish; [..|exact Hst]; try lia.
    intros _. split.
    - intros Ebl. exfalso. unfold is_afrc in Hafrc. unfold is_block_linear in Ebl.
      apply bool_decide_eq_true in Ebl. rewrite Ebl in Hafrc. discriminate.
    - intros Eyv. destruct (Hyv Eyv) as (_ & ? & _). congruence. }
  destruct (is_block_linear t) eqn:Hbl.
  { (* block-linear *)
    assert (Hcpu : has_cpu_usage = false).
    { destruct has_cpu_usage; [|done].
      destruct (cpu_usage_uncompressed t true Hunc eq_refl) as (_ & _ & ?).
      congruence. }
    destruct (Hfbl eq_refl) as [Hw16 Hh16].
    assert (H0 : 16 ≤ alloc_width
                        (pi_get (<[plane := set_alloc_w_h
                                              (pi_get (cs_plane_info st) plane) w h]>
                                   (cs_plane_info st)) 0) ≤ 8718
                 ∧ 16 ≤ alloc_height
                          (pi_get
                             (<[plane := set_byte_stride
                                           (pi_get
                                              (<[plane := set_alloc_w_h
                                                   (pi_get (cs_plane_info st) plane)
                                                   w h]> (cs_plane_info st))
                                              plane) stride]>
                                (<[plane := set_alloc_w_h
                                              (pi_get (cs_plane_info st) plane) w h]>
                                   (cs_plane_info st))) 0) ≤ 8334).
    { destruct (decide (plane = 0%nat)) as [->|Hne].
      - rewrite E2, E1. cbn. lia.
      - rewrite N1, N2 by done.
        destruct Hinv as [Hinv _]; [lia|]. by apply Hinv. }
    destruct H0 as [Hw0 Hh0].
    pose proof (calc_byte_stride_block_linear _ _ _ _ _ _ _ Hfwf Hplane Ht Hafrc
                  Hbl Hw0 Es) as Hstride.
    match type of Hrun with
    | context [stride * ?n] => set (ny := n) in *
    end.
    assert (Hny : 1 ≤ ny ≤ 520).
    { subst ny. split; [apply Z.div_le_lower_bound; lia|].
      match goal with |- ?x / 16 ≤ _ => assert (x / 16 < 521); [|lia] end.
      apply Z.div_lt_upper_bound; lia. }
    clearbody ny.
    injection Hrun as Hst. symmetry in Hst.
    assert (Hbody : 1 ≤ stride * ny ≤ 579338240) by nia.
    rewrite (u32_small (stride * ny)), (s32_small (stride * ny)) in Hst by lia.
    eapply Hfinish; [..|exact Hst]; try lia.
    intros _. split; [done|]. rewrite Hcpu, andb_false_r. discriminate. }
  (* uncompressed *)
  assert (Hw1 : 1 ≤ alloc_width
                      (pi_get (<[plane := set_alloc_w_h
                                            (pi_get (cs_plane_info st) plane) w h]>
                                 (cs_plane_info st)) plane) ≤ 8718).
  { rewrite E1. cbn. lia. }
  assert (Hlen1 : (plane < length (<[plane := set_alloc_w_h
                                              (pi_get (cs_plane_info st) plane) w h]>
                                    (cs_plane_info st)))%nat).
  { by rewrite length_insert. }
  assert (Hs0 : (0 < plane)%nat →
                (id format =? format_id YV12) && has_hw_usage && has_cpu_usage = true →
                2 ≤ byte_stride
                      (pi_get (<[plane := set_alloc_w_h
                                            (pi_get (cs_plane_info st) plane) w h]>
                                 (cs_plane_info st)) 0) ≤ 118896).
  { intros Hp Eyv. rewrite N1 by lia. destruct Hinv as [_ Hinv]; [lia|].
    by apply Hinv. }
  destruct (calc_byte_stride_uncompressed _ _ _ _ _ _ _ Hfwf Hplane Hlen1 Ht Hafrc
              Hbl Hw1 Hs0 Es) as [Hstride Hstride0].
  injection Hrun as Hst. symmetry in Hst.
  assert (Hbody : 1 ≤ stride * h ≤ 990879264) by nia.
  rewrite (u32_small (stride * h)), (s32_small (stride * h)) in Hst by lia.
  eapply Hfinish; [..|exact Hst]; try lia.
  intros ->. split; [discriminate|]. intros Eyv.
  specialize (Hstride0 eq_refl Eyv). lia.
Qed.

End PlaneStep.

(** ** The layout invariant *)

Section LayoutInvariant.
Context `{H : Headers}.

Lemma sum_bodies_snoc st st' body header :
  cs_sizes st' = cs_sizes st ++ [(body, header)] →
  sum_bodies st' = sum_bodies st + body.
Proof.
  unfold sum_bodies. intros ->. rewrite fmap_app. cbn.
  induction (fst <$> cs_sizes st) as [|x l IH]; cbn; lia.
Qed.

Lemma layout_inv_step width height t format has_cpu_usage has_hw_usage len k st st' :
  format_wf format → alloc_type_wf format t →
  (k < npln format)%nat → (npln format ≤ len)%nat →
  (has_cpu_usage = true → primary_type t = UNCOMPRESSED) →
  1 ≤ width ≤ MAX_DIM → 1 ≤ height ≤ MAX_DIM →
  layout_inv t format has_cpu_usage has_hw_usage len k st →
  calc_plane width height t format has_cpu_usage has_hw_usage k st = Some st' →
  layout_inv t format has_cpu_usage has_hw_usage len (S k) st'.
Proof.
  intros Hfwf Hwf Hk Hlen Hunc Hw Hh (IL & IS & Isz & I0 & Ipl & Iord & Isum & Ip0) Hrun.
  assert (Hk3 : (k ≤ 3)%nat).
  { destruct Hfwf as [Hn _]. unfold MAX_PLANES in Hn. lia. }
  destruct (calc_plane_step width height t format has_cpu_usage has_hw_usage k st st'
              Hfwf Hwf Hk ltac:(lia) Hunc Hw Hh ltac:(unfold MAX_PLANE_SIZE in *; lia)
              Ip0 Hrun)
    as (off & body & header & Esz & Hb & Hhd & Hbh & Hoff & Esize & EL & Eother
        & Eoff & Ep0).
  assert (Hold : ∀ i, (i < k)%nat →
            plane_offset st' i = plane_offset st i
            ∧ plane_body st' i = plane_body st i
            ∧ plane_header st' i = plane_header st i).
  { intros i Hi. unfold plane_offset, plane_body, plane_header.
    rewrite Eother by lia. rewrite Esz, lookup_app_l by lia. done. }
  assert (Hnew : plane_body st' k = body ∧ plane_header st' k = header).
  { unfold plane_body, plane_header. rewrite Esz, <- IS.
    by rewrite list_lookup_middle. }
  destruct Hnew as [Eb Eh].
  assert (Hoffk : plane_offset st' k = if bool_decide (0 < k)%nat then off else 0).
  { unfold plane_offset. rewrite Eoff.
    destruct (bool_decide (0 < k)%nat) eqn:E; [done|].
    apply bool_decide_eq_false in E. assert (k = 0%nat) as -> by lia. exact I0. }
  assert (Hoffk' : cs_size st * (if bool_decide (0 < k)%nat then 1 else 0)
                   ≤ plane_offset st' k ≤ off).
  { rewrite Hoffk. destruct (bool_decide (0 < k)%nat); lia. }
  unfold layout_inv. split; [lia|]. split; [rewrite Esz, length_app; cbn; lia|].
  split; [unfold MAX_PLANE_SIZE in *; lia|].
  split.
  { destruct (decide (k = 0%nat)) as [->|Hne].
    - rewrite Hoffk. by rewrite bool_decide_false by lia.
    - destruct (Hold 0%nat) as [-> _]; [lia|]. exact I0. }
  split.
  { intros i Hi. destruct (decide (i = k)) as [->|Hne].
    - rewrite Eb, Eh. destruct (bool_decide (0 < k)%nat); lia.
    - destruct (Hold i) as (-> & -> & ->); [lia|].
      specialize (Ipl i ltac:(lia)). lia. }
  split.
  { intros i j Hij. destruct (Hold i) as (-> & -> & ->); [lia|].
    destruct (decide (j = k)) as [->|Hne].
    - specialize (Ipl i ltac:(lia)).
      rewrite bool_decide_true in Hoffk' by lia. lia.
    - destruct (Hold j) as (-> & _); [lia|]. apply Iord. lia. }
  split.
  { rewrite (sum_bodies_snoc st st' body header Esz). lia. }
  intros _. destruct (decide (k = 0%nat)) as [->|Hne]; [by apply Ep0|].
  specialize (Ip0 ltac:(lia)). unfold plane0_inv in *.
  rewrite Eother by lia. exact Ip0.
Qed.

Lemma layout_inv_loop width height t format has_cpu_usage has_hw_usage len n :
  format_wf format → alloc_type_wf format t → (npln format ≤ len)%nat →
  (has_cpu_usage = true → primary_type t = UNCOMPRESSED) →
  1 ≤ width ≤ MAX_DIM → 1 ≤ height ≤ MAX_DIM →
  ∀ k st st', (k + n ≤ npln format)%nat →
    layout_inv t format has_cpu_usage has_hw_usage len k st →
    calc_planes (calc_plane width height t format has_cpu_usage has_hw_usage)
      (seq k n) st = Some st' →
    layout_inv t format has_cpu_usage has_hw_usage len (k + n) st'.
Proof.
  intros Hfwf Hwf Hlen Hunc Hw Hh.
  induction n as [|n IH]; intros k st st' Hkn Hinv Hrun.
  - cbn in Hrun. injection Hrun as <-. by rewrite Nat.add_0_r.
  - cbn [seq calc_planes] in Hrun.
    destruct (calc_plane _ _ _ _ _ _ k st) as [st1|] eqn:E1; [|discriminate].
    cbn [mbind option_bind] in Hrun.
    replace (k + S n)%nat with (S k + n)%nat by lia.
    apply (IH (S k) st1 st'); [lia| |exact Hrun].
    exact (layout_inv_step width height t format has_cpu_usage has_hw_usage len k
             st st1 Hfwf Hwf ltac:(lia) Hlen Hunc Hw Hh Hinv E1).
Qed.

Lemma layout_inv_init t format has_cpu_usage has_hw_usage pixel_stride
    (plane_info : list plane_info_t) :
  layout_inv t format has_cpu_usage has_hw_usage (length plane_info) 0
    {| cs_plane_info := <[0%nat := set_offset (pi_get plane_info 0) 0]> plane_info;
       cs_size := 0; cs_pixel_stride := pixel_stride; cs_sizes := [] |}.
Proof.
  unfold layout_inv, plane_offset, sum_bodies. cbn.
  split; [apply length_insert|]. split; [done|]. split; [lia|]. split.
  { destruct plane_info as [|p ps]; reflexivity. }
  split; [intros i Hi; lia|]. split; [intros i j Hij; lia|].
  split; [lia|]. intros Hk. lia.
Qed.

(** C1, as the code has it: for a type answered by the selector, a catalogue
    entry within the ranges of [format_wf], a request of at most [MAX_DIM]
    by [MAX_DIM] pixels and CPU usage only with the uncompressed encoding,
    every computed layout has plane 0 at offset 0, strictly increasing plane
    offsets, pairwise disjoint [offset, offset + body + header) ranges, and a
    total size of at least the sum of the plane body sizes. *)
Theorem C1_layout_invariants (format_ext : Z) (format_idx : nat) (usage : Z)
    (l : list log_msg) (t : alloc_type_t) (width height : Z)
    (has_cpu_usage has_hw_usage : bool) (pixel_stride : Z)
    (plane_info : list plane_info_t) (st : calc_state) :
  let format := format_at format_idx in
  get_alloc_type format_ext format_idx usage alloc_type_zero = (l, inr t) →
  format_wf format →
  length plane_info = MAX_PLANES →
  1 ≤ width ≤ MAX_DIM → 1 ≤ height ≤ MAX_DIM →
  (has_cpu_usage = true → primary_type t = UNCOMPRESSED) →
  calc_allocation_size width height t format has_cpu_usage has_hw_usage
    pixel_stride plane_info = Some st →
  plane_offset st 0 = 0
  ∧ (∀ i j, (i < j < npln format)%nat → plane_offset st i < plane_offset st j)
  ∧ (∀ i j, (i < npln format)%nat → (j < npln format)%nat → i ≠ j →
       ∀ x, ¬ (plane_offset st i ≤ x
                 < plane_offset st i + plane_body st i + plane_header st i
               ∧ plane_offset st j ≤ x
                 < plane_offset st j + plane_body st j + plane_header st j))
  ∧ sum_bodies st ≤ cs_size st.
Proof.
  intros format Hget Hfwf Hlen Hw Hh Hunc Hcalc.
  assert (Hwf : alloc_type_wf format t).
  { destruct Hfwf as [Hn _]. eapply get_alloc_type_wf; [| |exact Hget]; exact Hn. }
  unfold calc_allocation_size in Hcalc.
  pose proof (layout_inv_loop width height t format has_cpu_usage has_hw_usage
                (length plane_info) (npln format) Hfwf Hwf
                ltac:(destruct Hfwf as [Hn _]; lia) Hunc Hw Hh 0%nat _ st
                ltac:(lia)
                (layout_inv_init t format has_cpu_usage has_hw_usage pixel_stride
                   plane_info) Hcalc)
    as (_ & _ & _ & I0 & Ipl & Iord & Isum & _).
  cbn [Nat.add] in Ipl, Iord.
  split; [exact I0|]. split; [|split; [|exact Isum]].
  - intros i j Hij. specialize (Ipl i ltac:(lia)). specialize (Iord i j Hij). lia.
  - intros i j Hi Hj Hne x [Hxi Hxj].
    destruct (decide (i < j)%nat).
    + specialize (Iord i j ltac:(lia)). lia.
    + specialize (Iord j i ltac:(lia)). lia.
Qed.

End LayoutInvariant.

(** ** The fourcc lookup *)

Section DrmProperties.
Context `{H : Headers}.

(** No entry of the table carries the code that is reserved for AFBC RGB565. *)
Lemma table_has_no_BGR565 (k : Z) (entry : table_entry) :
  table !! k = Some entry → fourcc entry ≠ DRM_FORMAT_BGR565.
Proof.
  intros Hk. unfold table in Hk. apply elem_of_list_to_map_2 in Hk.
  unfold table_init in Hk.
  repeat (apply elem_of_cons in Hk as [Hk|Hk];
          [injection Hk as _ ->; cbn [fourcc]; vm_compute; discriminate|]).
  by apply elem_of_nil in Hk.
Qed.

Lemma table_has_RGB_565 : is_Some (table !! format_id RGB_565).
Proof.
  destruct (table !! format_id RGB_565) as [e|] eqn:E; [by eexists|].
  unfold table in E. apply not_elem_of_list_to_map_2 in E.
  exfalso. apply E. unfold table_init. cbn [fmap list_fmap fst].
  do 3 right. left.
Qed.

(** C8: the fourcc is looked up by the internal format alone.  For every
    internal format other than RGB_565 the answer is the same for all
    handles of that format, whatever their encoding bits; for RGB_565 the
    answer is BGR565 with AFBC and the (different) code of the table entry
    without it; and a format that is not in the table gives
    DRM_FORMAT_INVALID. *)
Theorem C8_fourcc_lookup (hnd hnd' : private_handle_t) :
  let internal_format := get_internal_format_from_gralloc_format (alloc_format hnd) in
  (table !! internal_format = None →
   drm_fourcc_from_handle hnd = DRM_FORMAT_INVALID)
  ∧ (∀ entry, table !! internal_format = Some entry →
       internal_format ≠ format_id RGB_565 ∨ is_format_afbc (alloc_format hnd) = false →
       drm_fourcc_from_handle hnd = fourcc entry)
  ∧ (internal_format ≠ format_id RGB_565 →
     get_internal_format_from_gralloc_format (alloc_format hnd') = internal_format →
     drm_fourcc_from_handle hnd' = drm_fourcc_from_handle hnd)
  ∧ (internal_format = format_id RGB_565 →
     get_internal_format_from_gralloc_format (alloc_format hnd') = internal_format →
     is_format_afbc (alloc_format hnd) = true →
     is_format_afbc (alloc_format hnd') = false →
     drm_fourcc_from_handle hnd = DRM_FORMAT_BGR565
     ∧ drm_fourcc_from_handle hnd' ≠ drm_fourcc_from_handle hnd).
Proof.
  intros internal_format. unfold drm_fourcc_from_handle. fold internal_format.
  split; [|split; [|split]].
  - intros ->. reflexivity.
  - intros entry -> Hcase.
    destruct Hcase as [Hne| ->]; [|reflexivity].
    apply Z.eqb_neq in Hne. rewrite Hne. by rewrite andb_false_r.
  - intros Hne ->. apply Z.eqb_neq in Hne. rewrite Hne.
    rewrite !andb_false_r. reflexivity.
  - intros Heq -> Hafbc Hafbc'.
    destruct table_has_RGB_565 as [entry Hentry].
    rewrite Heq, Hentry, Hafbc, Hafbc', Z.eqb_refl. cbn.
    split; [reflexivity|]. by apply (table_has_no_BGR565 (format_id RGB_565)).
Qed.

End DrmProperties.

(** ** The DRM modifier *)

Section ModifierProperties.
Context `{H : Headers} `{F : FormatHeaders}.

Lemma afrc_cu_size_switch_P0 block_size wrap modifier :
  afrc_cu_size_switch block_size wrap AFRC_FORMAT_MOD_CU_SIZE_P0 modifier
  = (if cu_size_class wrap block_size =? 0 then modifier
     else Z.lor modifier (cu_size_class wrap block_size)).
Proof.
  unfold afrc_cu_size_switch, cu_size_class.
  destruct (block_size =? wrap MALI_GRALLOC_INTFMT_AFRC_CODING_UNIT_BYTES_32);
    [reflexivity|].
  destruct (block_size =? wrap MALI_GRALLOC_INTFMT_AFRC_CODING_UNIT_BYTES_24);
    [reflexivity|].
  destruct (block_size =? wrap MALI_GRALLOC_INTFMT_AFRC_CODING_UNIT_BYTES_16);
    reflexivity.
Qed.

Lemma afrc_cu_size_switch_P12 block_size wrap modifier :
  afrc_cu_size_switch block_size wrap AFRC_FORMAT_MOD_CU_SIZE_P12 modifier
  = (if cu_size_class wrap block_size =? 0 then modifier
     else Z.lor modifier (Z.shiftl (cu_size_class wrap block_size) 4)).
Proof.
  unfold afrc_cu_size_switch, cu_size_class.
  destruct (block_size =? wrap MALI_GRALLOC_INTFMT_AFRC_CODING_UNIT_BYTES_32);
    [reflexivity|].
  destruct (block_size =? wrap MALI_GRALLOC_INTFMT_AFRC_CODING_UNIT_BYTES_24);
    [reflexivity|].
  destruct (block_size =? wrap MALI_GRALLOC_INTFMT_AFRC_CODING_UNIT_BYTES_16);
    reflexivity.
Qed.

Lemma cu_size_class_cases wrap block_size :
  cu_size_class wrap block_size = 0 ∨ cu_size_class wrap block_size = 1
  ∨ cu_size_class wrap block_size = 2 ∨ cu_size_class wrap block_size = 3.
Proof. unfold cu_size_class. repeat case_match; auto. Qed.

(** X1: the modifier of an AFBC handle, decoded.  Whatever other encoding
    bits the format carries, the modifier has vendor ARM and type AFBC; its
    block-size field is 32x8 for wide blocks (32x8_64x4 on a multi-plane
    handle), else 64x4 for extra-wide blocks, else 16x16; each of the bits
    YTR, SPLIT, SPARSE, TILED, DB, BCH and USM is set exactly when the
    internal format has the corresponding bit; and no other bit is set. *)
Theorem X1_afbc_modifier_decodes (hnd : private_handle_t)
    (hnd_is_multi_plane : bool) :
  let fmt := alloc_format hnd in
  let m := drm_modifier_from_handle hnd hnd_is_multi_plane in
  is_format_afbc fmt = true →
  Z.shiftr m 56 = DRM_FORMAT_MOD_VENDOR_ARM
  ∧ Z.land (Z.shiftr m 52) 0xf = DRM_FORMAT_MOD_ARM_TYPE_AFBC
  ∧ Z.land m AFBC_FORMAT_MOD_BLOCK_SIZE_MASK
    = (if has_bits fmt MALI_GRALLOC_INTFMT_AFBC_WIDEBLK then
         if hnd_is_multi_plane then AFBC_FORMAT_MOD_BLOCK_SIZE_32x8_64x4
         else AFBC_FORMAT_MOD_BLOCK_SIZE_32x8
       else if has_bits fmt MALI_GRALLOC_INTFMT_AFBC_EXTRAWIDEBLK
       then AFBC_FORMAT_MOD_BLOCK_SIZE_64x4
       else AFBC_FORMAT_MOD_BLOCK_SIZE_16x16)
  ∧ has_bits m AFBC_FORMAT_MOD_YTR
    = has_bits fmt MALI_GRALLOC_INTFMT_AFBC_YUV_TRANSFORM
  ∧ has_bits m AFBC_FORMAT_MOD_SPLIT
    = has_bits fmt MALI_GRALLOC_INTFMT_AFBC_SPLITBLK
  ∧ has_bits m AFBC_FORMAT_MOD_SPARSE
    = has_bits fmt MALI_GRALLOC_INTFMT_AFBC_SPARSE
  ∧ has_bits m AFBC_FORMAT_MOD_TILED
    = has_bits fmt MALI_GRALLOC_INTFMT_AFBC_TILED_HEADERS
  ∧ has_bits m AFBC_FORMAT_MOD_DB
    = has_bits fmt MALI_GRALLOC_INTFMT_AFBC_DOUBLE_BODY
  ∧ has_bits m AFBC_FORMAT_MOD_BCH
    = has_bits fmt MALI_GRALLOC_INTFMT_AFBC_BCH
  ∧ has_bits m AFBC_FORMAT_MOD_USM
    = has_bits fmt MALI_GRALLOC_INTFMT_AFBC_USM
  ∧ Z.land m 0x00ffffffffffe280 = 0.
Proof.
  intros fmt m Hafbc. subst m.
  unfold drm_modifier_from_handle, get_afbc_modifier_tags. fold fmt.
  rewrite Hafbc. cbn [negb].
  destruct (has_bits fmt MALI_GRALLOC_INTFMT_AFBC_SPLITBLK),
    (has_bits fmt MALI_GRALLOC_INTFMT_AFBC_TILED_HEADERS),
    (has_bits fmt MALI_GRALLOC_INTFMT_AFBC_DOUBLE_BODY),
    (has_bits fmt MALI_GRALLOC_INTFMT_AFBC_BCH),
    (has_bits fmt MALI_GRALLOC_INTFMT_AFBC_YUV_TRANSFORM),
    (has_bits fmt MALI_GRALLOC_INTFMT_AFBC_SPARSE),
    (has_bits fmt MALI_GRALLOC_INTFMT_AFBC_USM),
    (has_bits fmt MALI_GRALLOC_INTFMT_AFBC_WIDEBLK),
    (has_bits fmt MALI_GRALLOC_INTFMT_AFBC_EXTRAWIDEBLK),
    hnd_is_multi_plane;
    vm_compute; repeat split; reflexivity.
Qed.

(** X2: the modifier of an AFRC handle, decoded.  For a handle that is AFRC
    and not AFBC, with a base format of the table, the modifier has vendor
    ARM and type AFRC; the scan-layout bit is set exactly when the
    rotated-layout bit of the internal modifier is clear; for a multi-plane
    handle of a YUV format the P0 and P12 fields hold the size classes of the
    luma and chroma coding units; otherwise P0 holds the class of the RGBA
    coding unit and P12 is empty; and no other bit is set. *)
Theorem X2_afrc_modifier_decodes (hnd : private_handle_t)
    (hnd_is_multi_plane : bool) (entry : table_entry) :
  let fmt := alloc_format hnd in
  let internal_modifier := get_modifier_from_gralloc_format fmt in
  let field wrap :=
    Z.land internal_modifier (wrap MALI_GRALLOC_INTFMT_AFRC_CODING_UNIT_BYTES_MASK) in
  let planar := colormodel_eqb (colormodel entry) yuv && hnd_is_multi_plane in
  let m := drm_modifier_from_handle hnd hnd_is_multi_plane in
  is_format_afbc fmt = false →
  is_format_afrc fmt = true →
  table !! get_internal_format_from_gralloc_format fmt = Some entry →
  Z.shiftr m 56 = DRM_FORMAT_MOD_VENDOR_ARM
  ∧ Z.land (Z.shiftr m 52) 0xf = DRM_FORMAT_MOD_ARM_TYPE_AFRC
  ∧ has_bits m AFRC_FORMAT_MOD_LAYOUT_SCAN
    = negb (has_bits internal_modifier MALI_GRALLOC_INTFMT_AFRC_ROT_LAYOUT)
  ∧ Z.land m AFRC_FORMAT_MOD_CU_SIZE_MASK
    = (if planar
       then cu_size_class MALI_GRALLOC_INTFMT_AFRC_LUMA_CODING_UNIT_BYTES
              (field MALI_GRALLOC_INTFMT_AFRC_LUMA_CODING_UNIT_BYTES)
       else cu_size_class MALI_GRALLOC_INTFMT_AFRC_RGBA_CODING_UNIT_BYTES
              (field MALI_GRALLOC_INTFMT_AFRC_RGBA_CODING_UNIT_BYTES))
  ∧ Z.land (Z.shiftr m 4) AFRC_FORMAT_MOD_CU_SIZE_MASK
    = (if planar
       then cu_size_class MALI_GRALLOC_INTFMT_AFRC_CHROMA_CODING_UNIT_BYTES
              (field MALI_GRALLOC_INTFMT_AFRC_CHROMA_CODING_UNIT_BYTES)
       else 0)
  ∧ Z.land m 0x00dffffffffffe00 = 0.
Proof.
  intros fmt internal_modifier field planar m Hafbc Hafrc Hentry. subst m.
  unfold drm_modifier_from_handle, get_afrc_modifier_tags. fold fmt.
  rewrite Hafbc, Hafrc, Hentry. cbn [negb]. fold internal_modifier planar.
  rewrite !afrc_cu_size_switch_P0, !afrc_cu_size_switch_P12.
  subst field. cbn beta.
  destruct (cu_size_class_cases MALI_GRALLOC_INTFMT_AFRC_LUMA_CODING_UNIT_BYTES
              (Z.land internal_modifier
                 (MALI_GRALLOC_INTFMT_AFRC_LUMA_CODING_UNIT_BYTES
                    MALI_GRALLOC_INTFMT_AFRC_CODING_UNIT_BYTES_MASK)))
    as [-> | [-> | [-> | ->]]];
  destruct (cu_size_class_cases MALI_GRALLOC_INTFMT_AFRC_CHROMA_CODING_UNIT_BYTES
              (Z.land internal_modifier
                 (MALI_GRALLOC_INTFMT_AFRC_CHROMA_CODING_UNIT_BYTES
                    MALI_GRALLOC_INTFMT_AFRC_CODING_UNIT_BYTES_MASK)))
    as [-> | [-> | [-> | ->]]];
  destruct (cu_size_class_cases MALI_GRALLOC_INTFMT_AFRC_RGBA_CODING_UNIT_BYTES
              (Z.land internal_modifier
                 (MALI_GRALLOC_INTFMT_AFRC_RGBA_CODING_UNIT_BYTES
                    MALI_GRALLOC_INTFMT_AFRC_CODING_UNIT_BYTES_MASK)))
    as [-> | [-> | [-> | ->]]];
  destruct (has_bits internal_modifier MALI_GRALLOC_INTFMT_AFRC_ROT_LAYOUT),
    planar; vm_compute; repeat split; reflexivity.
Qed.

(** X3: which handles get the linear modifier.  [drm_modifier_from_handle]
    answers 0 exactly for a handle that is not AFBC and is either AFRC with
    a base format outside the table, or neither AFRC nor block-linear; a
    block-linear handle that is neither AFBC nor AFRC gets the generic 16x16
    tile modifier, which is vendor code 4 with value 2. *)
Theorem X3_linear_modifier (hnd : private_handle_t) (hnd_is_multi_plane : bool) :
  let fmt := alloc_format hnd in
  let m := drm_modifier_from_handle hnd hnd_is_multi_plane in
  (m = 0 ↔
   is_format_afbc fmt = false
   ∧ (if is_format_afrc fmt
      then table !! get_internal_format_from_gralloc_format fmt = None
      else is_format_block_linear fmt = false))
  ∧ (is_format_afbc fmt = false → is_format_afrc fmt = false →
     is_format_block_linear fmt = true →
     m = DRM_FORMAT_MOD_GENERIC_16_16_TILE ∧ m = 4 * 2 ^ 56 + 2).
Proof.
  intros fmt m.
  destruct (is_format_afbc fmt) eqn:Hafbc.
  - (* AFBC: the vendor code makes the modifier non-zero *)
    assert (Hm : Z.testbit m 59 = true).
    { subst m. unfold drm_modifier_from_handle, get_afbc_modifier_tags.
      fold fmt. rewrite Hafbc. cbn [negb].
      unfold DRM_FORMAT_MOD_ARM_AFBC, DRM_FORMAT_MOD_ARM_CODE, fourcc_mod_code.
      rewrite Z.lor_spec. replace (Z.testbit (u64 _) 59) with true; [done|].
      vm_compute. reflexivity. }
    split; [|intros; discriminate].
    split; [|intros [? _]; discriminate].
    intros Hz. rewrite Hz in Hm. by rewrite Z.bits_0 in Hm.
  - destruct (is_format_afrc fmt) eqn:Hafrc.
    + split; [|intros; discriminate].
      destruct (table !! get_internal_format_from_gralloc_format fmt)
        as [entry|] eqn:Hentry.
      * assert (Hm : Z.testbit m 59 = true).
        { subst m. unfold drm_modifier_from_handle, get_afrc_modifier_tags.
          fold fmt. rewrite Hafbc, Hafrc, Hentry. cbn [negb].
          unfold DRM_FORMAT_MOD_ARM_AFRC, DRM_FORMAT_MOD_ARM_CODE, fourcc_mod_code.
          rewrite Z.lor_spec. replace (Z.testbit (u64 _) 59) with true; [done|].
          vm_compute. reflexivity. }
        split; [|intros [_ ?]; discriminate].
        intros Hz. rewrite Hz in Hm. by rewrite Z.bits_0 in Hm.
      * subst m. unfold drm_modifier_from_handle, get_afrc_modifier_tags.
        fold fmt. rewrite Hafbc, Hafrc, Hentry. done.
    + subst m. unfold drm_modifier_from_handle. fold fmt.
      rewrite Hafbc, Hafrc.
      destruct (is_format_block_linear fmt).
      * split; [|intros _ _ _; split; [reflexivity|vm_compute; reflexivity]].
        split; [intros Hz; vm_compute in Hz; discriminate|intros [_ ?]; discriminate].
      * split; [|intros; discriminate]. done.
Qed.

End ModifierProperties.

(** ** The AFBC header initialisation *)

Lemma memcpy_words_spec (buf : list Z) (pos : nat) (src : list Z) :
  (pos + length src ≤ length buf)%nat →
  memcpy_words buf pos src
  = Some (take pos buf ++ src ++ drop (pos + length src) buf).
Proof.
  intros Hlen. unfold memcpy_words. rewrite bool_decide_eq_true_2 by done.
  f_equal.
  rewrite <- (take_drop pos buf) at 1.
  assert (Hp : length (take pos buf) = pos) by (rewrite length_take; lia).
  rewrite <- Hp at 1.
  rewrite <- (Nat.add_0_r (length (take pos buf))).
  rewrite list_inserts_app_r. f_equal.
  rewrite <- (take_drop (length src) (drop pos buf)) at 1.
  rewrite list_inserts_0_r by (rewrite length_take, length_drop; lia).
  by rewrite drop_drop.
Qed.

Lemma write_headers_spec (n : nat) (header : list Z) : ∀ (pos : nat) (buf : list Z),
  (pos + n * length header ≤ length buf)%nat →
  write_headers n header pos buf
  = Some (take pos buf ++ concat (replicate n header)
            ++ drop (pos + n * length header) buf).
Proof.
  induction n as [|n IH]; intros pos buf Hlen; cbn [write_headers].
  - cbn. rewrite Nat.add_0_r. by rewrite take_drop.
  - rewrite memcpy_words_spec by lia. cbn [mbind option_bind].
    set (buf1 := take pos buf ++ header ++ drop (pos + length header) buf).
    assert (Hl1 : length buf1 = length buf).
    { subst buf1. rewrite !length_app, length_take, length_drop. lia. }
    rewrite IH by lia. f_equal.
    assert (Ht : take (pos + length header) buf1 = take pos buf ++ header).
    { subst buf1. rewrite app_assoc.
      rewrite take_app_length'; [done|]. rewrite length_app, length_take. lia. }
    assert (Hd : drop (pos + length header + n * length header) buf1
                 = drop (pos + S n * length header) buf).
    { subst buf1. rewrite app_assoc.
      rewrite drop_app_ge by (rewrite length_app, length_take; lia).
      rewrite drop_drop. f_equal. rewrite length_app, length_take. lia. }
    rewrite Ht, Hd. cbn [replicate concat]. by rewrite <- !app_assoc.
Qed.

Lemma write_headers_short (n : nat) (header : list Z) : ∀ (pos : nat) (buf : list Z),
  (0 < n)%nat → (0 < length header)%nat →
  (length buf < pos + n * length header)%nat →
  write_headers n header pos buf = None.
Proof.
  induction n as [|n IH]; intros pos buf Hn Hk Hlen; [lia|].
  cbn [write_headers]. unfold memcpy_words.
  case_bool_decide as Hfit; [|done]. cbn [mbind option_bind].
  destruct n as [|n]; [lia|].
  apply IH; [lia|done|]. rewrite length_inserts. lia.
Qed.

Section InitAfbcProperties.
Context `{H : Headers} `{F : FormatHeaders}.

Lemma init_afbc_n_headers_exact (w h : Z) :
  0 ≤ w → 0 ≤ h → w * h < 2 ^ 31 →
  init_afbc_n_headers w h = w * h / 256 ∧ 0 ≤ w * h / 256 < 2 ^ 23.
Proof.
  intros Hw Hh Hwh. unfold init_afbc_n_headers, AFBC_PIXELS_PER_BLOCK.
  assert (0 ≤ w * h) by nia.
  rewrite s32_small by lia. rewrite Z.quot_div_nonneg by lia.
  assert (0 ≤ w * h / 256 < 2 ^ 23).
  { split; [apply Z.div_pos; lia|]. apply Z.div_lt_upper_bound; lia. }
  rewrite u32_small by lia. done.
Qed.

Lemma init_afbc_body_offset_exact (alloc_format w h : Z) :
  0 ≤ w → 0 ≤ h → w * h < 2 ^ 31 →
  let is_tiled :=
    Z.land alloc_format MALI_GRALLOC_INTFMT_AFBC_TILED_HEADERS
    =? MALI_GRALLOC_INTFMT_AFBC_TILED_HEADERS in
  let alignment := if is_tiled then 4096 else 1024 in
  init_afbc_body_offset alloc_format w h
  = round_up (16 * (w * h / 256)) alignment.
Proof.
  intros Hw Hh Hwh is_tiled alignment. unfold init_afbc_body_offset.
  destruct (init_afbc_n_headers_exact w h Hw Hh Hwh) as [-> Hn].
  fold is_tiled. unfold AFBC_HEADER_BUFFER_BYTES_PER_BLOCKENTRY.
  rewrite u32_small, s32_small by lia.
  unfold afbc_buffer_align, round_up. subst alignment.
  destruct is_tiled; rewrite GRALLOC_ALIGN_int_exact by lia;
    f_equal; f_equal; lia.
Qed.

(** The buffer that [init_afbc] leaves, for an area below 2^31 pixels. *)
Lemma init_afbc_contents (buf : list Z) (alloc_format : Z)
    (is_multi_plane : bool) (w h : Z) :
  let n := Z.to_nat (w * h / 256) in
  let tiled_all :=
    Z.land alloc_format MALI_GRALLOC_INTFMT_AFBC_TILED_HEADERS
    =? MALI_GRALLOC_INTFMT_AFBC_TILED_HEADERS in
  let alignment := if tiled_all then 4096 else 1024 in
  let body_offset := round_up (16 * (w * h / 256)) alignment in
  let base_format := u32 (Z.land alloc_format MALI_GRALLOC_INTFMT_FMT_MASK) in
  let header :=
    if is_subsampled_yuv base_format && negb is_multi_plane
    then [body_offset + 2 ^ 28; 0x80200040; 0x1004000; 0x20080]
    else if has_bits alloc_format MALI_GRALLOC_INTFMT_AFBC_TILED_HEADERS
    then [0; 0; 0; 0]
    else [body_offset; 0x1; 0x10000; 0x0] in
  0 ≤ w → 0 ≤ h → w * h < 2 ^ 31 →
  init_afbc_body_offset alloc_format w h = body_offset
  ∧ 16 * Z.of_nat n ≤ body_offset
  ∧ ((4 * n ≤ length buf)%nat →
     init_afbc buf alloc_format is_multi_plane w h
     = Some (concat (replicate n header) ++ drop (4 * n) buf))
  ∧ ((length buf < 4 * n)%nat →
     init_afbc buf alloc_format is_multi_plane w h = None).
Proof.
  intros n tiled_all alignment body_offset base_format header Hw Hh Hwh.
  destruct (init_afbc_n_headers_exact w h Hw Hh Hwh) as [En Hn].
  pose proof (init_afbc_body_offset_exact alloc_format w h Hw Hh Hwh) as Eb.
  cbv zeta in Eb. fold tiled_all alignment body_offset in Eb.
  assert (Hb : 16 * (w * h / 256) ≤ body_offset < 16 * (w * h / 256) + 4096).
  { subst body_offset. unfold round_up.
    pose proof (round_up_bounds (16 * (w * h / 256)) alignment) as Hr.
    subst alignment. destruct tiled_all; lia. }
  assert (Hhd : default [] (init_afbc_headers alloc_format w h
                              !! init_afbc_layout alloc_format is_multi_plane)
                = header).
  { unfold init_afbc_headers, init_afbc_layout. rewrite Eb.
    fold base_format. subst header.
    rewrite (u32_small body_offset) by lia.
    rewrite u32_small by (change (Z.shiftl 1 28) with (2 ^ 28); lia).
    destruct (is_subsampled_yuv base_format && negb is_multi_plane);
      [reflexivity|].
    destruct (has_bits alloc_format MALI_GRALLOC_INTFMT_AFBC_TILED_HEADERS);
      reflexivity. }
  assert (Hlen : length header = 4%nat).
  { subst header. repeat case_match; reflexivity. }
  split; [exact Eb|]. split; [subst n; lia|].
  unfold init_afbc. rewrite En, Hhd. fold n. clearbody n header. split.
  - intros Hfit. rewrite write_headers_spec by lia.
    rewrite Hlen. cbn [take app].
    replace (0 + n * 4)%nat with (4 * n)%nat by lia. reflexivity.
  - intros Hshort. apply write_headers_short; lia.
Qed.

(** X4: [init_afbc] writes one header per 256 pixels.  For a buffer of
    [w] x [h] pixels with [w * h] below 2^31 it writes [w * h / 256] copies of
    one 16-byte header entry from the start of the buffer and leaves the rest
    as it was; a buffer shorter than the entries has no defined result.  The
    body offset stored in the entries is the size of all entries rounded up
    to 1024 bytes, or to 4096 with tiled headers, so the entries end before
    it.  The entry is the one of subsampled YUV in a single plane, else the
    zeroed one of tiled headers, else the one of the other formats. *)
Theorem X4_init_afbc_writes_headers (buf : list Z) (alloc_format : Z)
    (is_multi_plane : bool) (w h : Z) :
  let n := Z.to_nat (w * h / 256) in
  let tiled_all :=
    Z.land alloc_format MALI_GRALLOC_INTFMT_AFBC_TILED_HEADERS
    =? MALI_GRALLOC_INTFMT_AFBC_TILED_HEADERS in
  let alignment := if tiled_all then 4096 else 1024 in
  let body_offset := round_up (16 * (w * h / 256)) alignment in
  let base_format := u32 (Z.land alloc_format MALI_GRALLOC_INTFMT_FMT_MASK) in
  let header :=
    if is_subsampled_yuv base_format && negb is_multi_plane
    then [body_offset + 2 ^ 28; 0x80200040; 0x1004000; 0x20080]
    else if has_bits alloc_format MALI_GRALLOC_INTFMT_AFBC_TILED_HEADERS
    then [0; 0; 0; 0]
    else [body_offset; 0x1; 0x10000; 0x0] in
  0 ≤ w → 0 ≤ h → w * h < 2 ^ 31 →
  init_afbc_body_offset alloc_format w h = body_offset
  ∧ 16 * Z.of_nat n ≤ body_offset
  ∧ ((4 * n ≤ length buf)%nat →
     init_afbc buf alloc_format is_multi_plane w h
     = Some (concat (replicate n header) ++ drop (4 * n) buf))
  ∧ ((length buf < 4 * n)%nat →
     init_afbc buf alloc_format is_multi_plane w h = None).
Proof. apply init_afbc_contents. Qed.

End InitAfbcProperties.


(** ** Strides of uncompressed planes *)

Lemma lcm_value a b :
  0 < a → 0 < b → a * b < 2 ^ 32 → lcm a b = Z.lcm a b.
Proof.
  intros Ha Hb Hab. unfold lcm.
  destruct (Z.eqb_spec a 0); [lia|]. destruct (Z.eqb_spec b 0); [lia|].
  cbn [negb andb]. rewrite u32_small by nia. rewrite gcd_spec by lia.
  unfold Z.lcm.
  pose proof (Z.gcd_nonneg a b) as Hg0.
  destruct (Z.gcd_divide_r a b) as [qb Hqb].
  assert (Hg : 0 < Z.gcd a b).
  { destruct (Z.eq_dec (Z.gcd a b) 0) as [E|E]; [|lia].
    apply Z.gcd_eq_0 in E. lia. }
  set (g := Z.gcd a b) in *.
  assert (Hbg : b / g = qb).
  { rewrite Hqb at 1. apply Z.div_mul. lia. }
  rewrite Hbg. assert (0 < qb) by nia.
  rewrite Z.abs_eq by nia.
  rewrite Hqb at 1. replace (a * (qb * g)) with (a * qb * g) by lia.
  apply Z.div_mul. lia.
Qed.

Lemma lcm_zero_r a : 0 ≤ a < 2 ^ 31 → lcm a 0 = a.
Proof.
  intros Ha. unfold lcm. rewrite Z.eqb_refl, andb_false_r.
  rewrite !s32_small, max2_spec, u32_small by lia. lia.
Qed.

Lemma lcm_zero_l a : 0 ≤ a < 2 ^ 31 → lcm 0 a = a.
Proof.
  intros Ha. unfold lcm. rewrite Z.eqb_refl. cbn [negb andb].
  rewrite !s32_small, max2_spec, u32_small by lia. lia.
Qed.

Lemma lcm_divide a b :
  0 ≤ a < 2 ^ 31 → 0 ≤ b < 2 ^ 31 → a * b < 2 ^ 32 →
  (a ≠ 0 → (a | lcm a b)) ∧ (b ≠ 0 → (b | lcm a b)).
Proof.
  intros Ha Hb Hab.
  destruct (Z.eq_dec a 0) as [->|Hna].
  { rewrite lcm_zero_l by lia. split; [done|]. intros _. reflexivity. }
  destruct (Z.eq_dec b 0) as [->|Hnb].
  { rewrite lcm_zero_r by lia. split; [|done]. intros _. reflexivity. }
  rewrite lcm_value by lia.
  split; intros _; [apply Z.divide_lcm_l|apply Z.divide_lcm_r].
Qed.

Lemma s32_high a : 2 ^ 31 ≤ a < 2 ^ 32 → s32 a = a - 2 ^ 32.
Proof.
  intros Ha. unfold s32.
  replace (a + 2 ^ 31) with (a - 2 ^ 31 + 1 * 2 ^ 32) by lia.
  rewrite Z.mod_add by lia. rewrite Z.mod_small by lia. lia.
Qed.

(** With a zero argument [lcm] goes through the [int] overload of [max]: an
    argument of 2^31 or more is negative there, and the answer is 0. *)
Lemma lcm_zero_high a : 2 ^ 31 ≤ a < 2 ^ 32 → lcm a 0 = 0 ∧ lcm 0 a = 0.
Proof.
  intros Ha. unfold lcm. rewrite Z.eqb_refl, andb_false_r. cbn [negb andb].
  rewrite (s32_small 0), s32_high, !max2_spec by lia.
  rewrite Z.max_r, Z.max_l by lia. done.
Qed.

(** X8: [gcd] and [lcm] on 32-bit values.  The loop of [gcd] terminates with
    the greatest common divisor.  [lcm] is the least common multiple when
    both arguments are non-zero and their product fits in 32 bits, and when
    the product does not fit it divides the wrapped product.  With a zero
    argument it answers the larger argument as [int]: the other argument
    when that is below 2^31, so that a missing alignment does not cancel the
    other one, and 0 when it is 2^31 or more. *)
Theorem X8_gcd_and_lcm (a b : Z) :
  0 ≤ a < 2 ^ 32 → 0 ≤ b < 2 ^ 32 →
  gcd a b = Z.gcd a b
  ∧ (0 < a → 0 < b → a * b < 2 ^ 32 →
     lcm a b = Z.lcm a b ∧ (a | lcm a b) ∧ (b | lcm a b))
  ∧ lcm a 0 = (if a <? 2 ^ 31 then a else 0)
  ∧ lcm 0 a = (if a <? 2 ^ 31 then a else 0)
  ∧ (0 < a → 0 < b → lcm a b = (a * b) mod 2 ^ 32 / Z.gcd a b).
Proof.
  intros Ha Hb. split; [apply gcd_spec; lia|]. split; [|split; [|split]].
  - intros Ha0 Hb0 Hab. rewrite lcm_value by lia.
    split; [reflexivity|]. split; [apply Z.divide_lcm_l|apply Z.divide_lcm_r].
  - destruct (Z.ltb_spec a (2 ^ 31)); [apply lcm_zero_r; lia|].
    apply lcm_zero_high. lia.
  - destruct (Z.ltb_spec a (2 ^ 31)); [apply lcm_zero_l; lia|].
    apply lcm_zero_high. lia.
  - intros Ha0 Hb0. unfold lcm.
    destruct (Z.eqb_spec a 0); [lia|]. destruct (Z.eqb_spec b 0); [lia|].
    cbn [negb andb]. rewrite gcd_spec by lia. reflexivity.
Qed.

Section LinearStride.
Context `{H : Headers}.

(** The byte stride of an uncompressed plane: it holds a row of the plane,
    and it is a multiple of the alignments that the usages ask for. *)
Lemma calc_byte_stride_linear t format has_cpu_usage has_hw_usage plane pis stride :
  format_wf format → (plane < npln format)%nat → (plane < length pis)%nat →
  is_afbc t = false → is_afrc t = false → is_block_linear t = false →
  1 ≤ alloc_width (pi_get pis plane) ≤ 8718 →
  calc_byte_stride t format has_cpu_usage has_hw_usage plane pis = Some stride →
  let aw := alloc_width (pi_get pis plane) in
  let b := arr_get (bpp format) plane in
  let hw_align := if is_yuv format then 128 else 64 in
  let cpu_align := b * align_w_cpu format / 8 in
  let special :=
    (id format =? format_id YV12) && has_hw_usage && has_cpu_usage in
  (aw * b) mod 8 = 0
  ∧ (has_cpu_usage = true → (b * align_w_cpu format) mod 8 = 0 ∧ 1 ≤ cpu_align)
  ∧ (tile_size format = 1 → has_hw_usage = true → (hw_align | stride))
  ∧ (tile_size format = 1 → has_cpu_usage = true → (cpu_align | stride))
  ∧ (plane = 0%nat ∨ special = false → aw * b ≤ stride * 8 ∧ 0 ≤ stride < 2 ^ 28)
  ∧ (plane = 0%nat → special = true → (2 * lcm hw_align cpu_align | stride)).
Proof.
  intros (_ & _ & _ & Hcpu & Hts & _ & Hbpp) Hplane Hlen Hafbc Hafrc Hbl Haw.
  destruct (Hbpp plane Hplane) as [Hb _].
  unfold calc_byte_stride. rewrite Hafbc, Hafrc, Hbl.
  intros Hrun. cbv zeta. revert Hrun.
  set (aw := alloc_width (pi_get pis plane)) in *.
  set (b := arr_get (bpp format) plane) in *.
  set (hw_align := if is_yuv format then 128 else 64).
  set (cpu_align := b * align_w_cpu format / 8).
  set (special := (id format =? format_id YV12) && has_hw_usage && has_cpu_usage).
  rewrite (u32_small (aw * b)) by (subst aw b; nia).
  destruct (Z.eqb_spec (aw * b mod 8) 0) as [Emod|]; [|discriminate].
  cbn [c_assert mbind option_bind].
  assert (Hs : 1 ≤ aw * b / 8 ≤ 69744).
  { subst aw b. split; [apply Z.div_le_lower_bound; nia|apply Z.div_le_upper_bound; nia]. }
  assert (Es0 : aw * b = aw * b / 8 * 8).
  { pose proof (Z.div_mod (aw * b) 8 ltac:(lia)). lia. }
  set (s0 := aw * b / 8) in *.
  set (hw := if has_hw_usage then if is_yuv format then 128 else 64 else 0).
  assert (Hhw : 0 ≤ hw ≤ 128 ∧ (has_hw_usage = true → hw = hw_align ∧ 64 ≤ hw)).
  { subst hw hw_align. destruct has_hw_usage, (is_yuv format);
      split; (lia || discriminate || (intros _; lia)). }
  intros Hrun.
  assert (∃ ca, 0 ≤ ca ≤ 128
    ∧ (has_cpu_usage = true →
       (b * align_w_cpu format) mod 8 = 0 ∧ ca = cpu_align ∧ 1 ≤ ca)
    ∧ (let stride_align := lcm hw ca in
       let s1 := if negb (stride_align =? 0)
                 then GRALLOC_ALIGN u32 (s0 * tile_size format) stride_align
                      / tile_size format
                 else s0 in
       if special
       then update_yv12_stride plane
              (byte_stride (pi_get (<[plane := set_byte_stride (pi_get pis plane) s1]> pis) 0))
              stride_align
       else Some s1) = Some stride) as (ca & Hca & Hcac & Hrun').
  { destruct has_cpu_usage.
    - destruct (Z.eqb_spec (Z.rem (b * align_w_cpu format) 8) 0) as [Er|];
        [|discriminate].
      cbn [c_assert mbind option_bind] in Hrun.
      rewrite c_divisor_if in Hrun by lia.
      cbn [mbind option_bind] in Hrun.
      eexists. split; [|split; [|exact Hrun]].
      + rewrite Z.quot_div_nonneg by (subst b; nia).
        split; [apply Z.div_pos; subst b; nia|apply Z.div_le_upper_bound; subst b; nia].
      + intros _. rewrite Z.rem_mod_nonneg in Er by (subst b; nia).
        rewrite Z.quot_div_nonneg by (subst b; nia).
        split; [exact Er|]. split; [reflexivity|].
        subst cpu_align. apply Z.div_le_lower_bound; subst b; nia.
    - cbn [mbind option_bind] in Hrun. rewrite c_divisor_if in Hrun by lia.
      cbn [mbind option_bind] in Hrun.
      exists 0. split; [lia|]. split; [discriminate|exact Hrun]. }
  clear Hrun. cbv zeta in Hrun'.
  destruct (lcm_divide hw ca ltac:(lia) ltac:(lia) ltac:(nia)) as [Dhw Dca].
  pose proof (lcm_bounds hw ca ltac:(lia) ltac:(lia) ltac:(nia)) as Hlcm.
  set (sa := lcm hw ca) in *.
  assert (Hsa : 0 ≤ sa ≤ 16384).
  { split; [lia|]. etrans; [apply Hlcm|]. apply Z.max_lub; [lia|nia]. }
  set (s1 := if negb (sa =? 0) then _ else s0) in *.
  assert (Hs1 : s0 ≤ s1 ≤ s0 + sa).
  { subst s1. destruct (Z.eqb_spec sa 0) as [E|E]; cbn [negb]; [lia|].
    pose proof (GRALLOC_ALIGN_u32_bounds (s0 * tile_size format) sa
                  ltac:(nia) ltac:(lia) ltac:(nia)) as Hal.
    split; [apply Z.div_le_lower_bound; nia|apply Z.div_le_upper_bound; nia]. }
  assert (Ds1 : tile_size format = 1 → sa ≠ 0 → (sa | s1)).
  { intros Ets Hne. subst s1. destruct (Z.eqb_spec sa 0) as [E|E]; [done|].
    cbn [negb]. rewrite Ets, Z.div_1_r. apply GRALLOC_ALIGN_u32_divide. lia. }
  assert (Hgoal : ∀ s, (sa ≠ 0 → tile_size format = 1 → (sa | s)) →
            (tile_size format = 1 → has_hw_usage = true → (hw_align | s))
            ∧ (tile_size format = 1 → has_cpu_usage = true → (cpu_align | s))).
  { intros s Hdiv. split.
    - intros Ets Ehw. destruct Hhw as [_ Hhw]. destruct (Hhw Ehw) as [Ehwa Hhw64].
      rewrite <- Ehwa. etrans; [apply Dhw; lia|]. apply Hdiv; [lia|done].
    - intros Ets Ecpu. destruct (Hcac Ecpu) as (_ & Eca & Hca1).
      rewrite <- Eca. etrans; [apply Dca; lia|]. apply Hdiv; [lia|done]. }
  split; [exact Emod|]. split; [intros Ecpu; destruct (Hcac Ecpu) as (? & <- & ?); done|].
  enough (Hboth :
    ((tile_size format = 1 → has_hw_usage = true → (hw_align | stride))
     ∧ (tile_size format = 1 → has_cpu_usage = true → (cpu_align | stride)))
    ∧ (plane = 0%nat ∨ special = false → aw * b ≤ stride * 8 ∧ 0 ≤ stride < 2 ^ 28)
      ∧ (plane = 0%nat → special = true → (2 * lcm hw_align cpu_align | stride)))
    by (destruct Hboth as [[? ?] [? ?]]; done).
  destruct special eqn:Eyv.
  2:{ injection Hrun' as <-. split; [apply Hgoal; auto|].
      split; [intros _; lia|]. intros _ [=]. }
  assert (Esa : sa = lcm hw_align cpu_align).
  { apply andb_true_iff in Eyv as [Eyv Ecpu]. apply andb_true_iff in Eyv as [_ Ehw].
    destruct Hhw as [_ Hhw]. destruct (Hhw Ehw) as [<- _].
    destruct (Hcac Ecpu) as (_ & <- & _). reflexivity. }
  assert (Hsa64 : 64 ≤ sa).
  { apply andb_true_iff in Eyv as [Eyv _]. apply andb_true_iff in Eyv as [_ Ehw].
    destruct Hhw as [_ Hhw]. destruct (Hhw Ehw). lia. }
  unfold update_yv12_stride in Hrun'.
  destruct (decide (plane = 0%nat)) as [->|Hne].
  - rewrite bool_decide_true in Hrun' by done.
    rewrite pi_get_insert_eq in Hrun' by done. cbn [byte_stride set_byte_stride] in Hrun'.
    injection Hrun' as <-. rewrite (u32_small (2 * sa)) by lia.
    destruct (align_up_facts s1 (2 * sa)) as [Hal Hdiv]; [lia..|].
    split.
    + apply Hgoal. intros _ _. etrans; [|exact Hdiv]. exists 2. lia.
    + split; [intros _; lia|]. intros _ _. rewrite <- Esa. exact Hdiv.
  - rewrite bool_decide_false in Hrun' by done.
    rewrite pi_get_insert_ne in Hrun' by done.
    set (luma := byte_stride (pi_get pis 0)) in *.
    destruct (Z.eqb_spec (luma / 2) (GRALLOC_ALIGN u32 (luma / 2) sa)) as [Eal|];
      [|discriminate].
    cbn in Hrun'.
    destruct (Z.land (luma / 2) 15 =? 0); [|discriminate]. cbn in Hrun'.
    injection Hrun' as <-.
    split.
    + apply Hgoal. intros _ _. rewrite Eal. apply GRALLOC_ALIGN_u32_divide. lia.
    + split; [intros [?|?]; [done|discriminate]|]. intros ?. done.
Qed.

End LinearStride.

(** ** What one step of the plane loop stores *)

Section PlaneShape.
Context `{H : Headers}.

(** An iteration that returns has passed its divisions. *)
Lemma calc_plane_Some_divisors width height t format has_cpu_usage has_hw_usage
    plane st st' :
  calc_plane width height t format has_cpu_usage has_hw_usage plane st = Some st' →
  calc_plane_divisors t format has_cpu_usage plane = Some tt.
Proof.
  unfold calc_plane, calc_plane_divisors, is_cpu_accessible.
  destruct (get_pixel_w_h_divisors format plane) as [[]|]; [|discriminate].
  cbn [mbind option_bind].
  destruct (get_pixel_w_h _ _ _ _ _ _) as [aw ah].
  destruct (calc_byte_stride _ _ _ _ _ _) as [stride|]; [|discriminate].
  cbn [mbind option_bind].
  set (g := if negb (is_afbc t) && is_afrc t then _ else Some tt).
  destruct g as [[]|].
  2:{ intros Hrun. exfalso. revert Hrun.
      match goal with |- (?c ≫= _) = _ → _ => destruct c; discriminate end. }
  destruct (bool_decide (plane = 0%nat)); cbn [andb]; [|reflexivity].
  destruct (negb (is_afbc t) && negb (is_afrc t) && negb (is_block_linear t)
            && has_cpu_usage); [|reflexivity].
  destruct (c_divisor (arr_get (bpp format) plane)) as [[]|];
    [reflexivity|discriminate].
Qed.

(** One iteration whose divisors are not zero, as an equation. *)
Lemma calc_plane_eq width height t format has_cpu_usage has_hw_usage plane st :
  (plane < length (cs_plane_info st))%nat →
  calc_plane_divisors t format has_cpu_usage plane = Some tt →
  let pis := cs_plane_info st in
  let old := pi_get pis plane in
  let aw := (get_pixel_w_h (u32 width) (u32 height) format t plane has_cpu_usage).1 in
  let ah := (get_pixel_w_h (u32 width) (u32 height) format t plane has_cpu_usage).2 in
  calc_plane width height t format has_cpu_usage has_hw_usage plane st
  = (stride ← calc_byte_stride t format has_cpu_usage has_hw_usage plane
                (<[plane := set_alloc_w_h old aw ah]> pis);
     pixel_stride ←
       (if bool_decide (plane = 0%nat) then
          if negb (is_afbc t) && negb (is_afrc t) && negb (is_block_linear t)
             && has_cpu_usage
          then
            c_assert (u32 (stride * 8) mod arr_get (bpp format) plane =? 0);;
            Some (s32 (u32 (stride * 8) / arr_get (bpp format) plane))
          else Some 0
        else Some (cs_pixel_stride st));
     let sb_num := u32 (aw * ah) / AFBC_PIXELS_PER_BLOCK in
     let size :=
       if is_afbc t then cs_size st
       else if is_afrc t then
         GRALLOC_ALIGN u64 (cs_size st)
           (if bool_decide (plane = 0%nat)
            then rgba_luma_plane_alignment (afrc t)
            else chroma_plane_alignment (afrc t))
       else cs_size st in
     let body_size :=
       if is_afbc t then afbc_body_size t format plane sb_num
       else if is_afrc t then
         s32 (u32 (aw / arr_get (clump_width (afrc t)) plane
                   * (ah / arr_get (clump_height (afrc t)) plane)
                   * (if bool_decide (plane = 0%nat)
                      then rgba_luma_coding_unit_bytes (afrc t)
                      else chroma_coding_unit_bytes (afrc t))))
       else if is_block_linear t then
         s32 (u32 (stride
                   * ((if bool_decide (plane = 0%nat) then ah
                       else alloc_height (pi_get pis 0)) / 16)))
       else s32 (u32 (stride * ah)) in
     let header_size :=
       if is_afbc t then
         afbc_buffer_align (is_tiled t)
           (s32 (u32 (sb_num * AFBC_HEADER_BUFFER_BYTES_PER_BLOCKENTRY)))
       else 0 in
     Some {| cs_plane_info :=
               <[plane := stored_info old plane (u32 size) stride aw ah]> pis;
             cs_size := u64 (size + s32 (body_size + header_size));
             cs_pixel_stride := pixel_stride;
             cs_sizes := cs_sizes st ++ [(body_size, header_size)] |}).
Proof.
  intros Hlen Hdiv pis old aw ah. unfold calc_plane.
  unfold calc_plane_divisors, is_cpu_accessible in Hdiv.
  destruct (get_pixel_w_h_divisors format plane) as [[]|]; [|discriminate].
  cbn [mbind option_bind] in Hdiv. cbn [mbind option_bind].
  match type of Hdiv with
  | (?c ≫= _) = _ => destruct c as [[]|] eqn:Ebpp; [|discriminate]
  end.
  cbn [mbind option_bind] in Hdiv. rewrite Hdiv.
  subst aw ah. destruct (get_pixel_w_h _ _ _ _ _ _) as [aw ah]. cbn [fst snd].
  fold pis. fold old.
  destruct (calc_byte_stride _ _ _ _ _ _) as [stride|]; [|reflexivity].
  cbn [mbind option_bind].
  destruct (plane_info_stores pis plane aw ah stride 0 Hlen)
    as (E1 & E2 & N1 & N2 & _).
  cbv zeta in E1, E2, N1, N2. fold old in E1, E2.
  rewrite E2.
  cbn [alloc_width alloc_height byte_stride set_byte_stride set_alloc_w_h].
  match goal with
  | |- (?c ≫= _) = (?d ≫= _) => replace d with c; [destruct c as [ps|]|]
  end; [|reflexivity|].
  2:{ destruct (bool_decide (plane = 0%nat)); [|reflexivity].
      cbn [andb] in Ebpp.
      destruct (negb (is_afbc t) && negb (is_afrc t)
                && negb (is_block_linear t) && has_cpu_usage); [|reflexivity].
      by rewrite Ebpp. }
  cbn [mbind option_bind].
  assert (E0 : alloc_height
                 (pi_get (<[plane:=set_byte_stride (pi_get (<[plane:=set_alloc_w_h old aw ah]> pis) plane) stride]>
                            (<[plane:=set_alloc_w_h old aw ah]> pis)) 0)
               = if bool_decide (plane = 0%nat) then ah
                 else alloc_height (pi_get pis 0)).
  { case_bool_decide as Hp.
    - subst plane. rewrite E2. reflexivity.
    - rewrite N2 by done. reflexivity. }
  rewrite E0. rewrite E1.
  rewrite !list_insert_insert_eq. unfold stored_info.
  assert (Hb : bool_decide (0 < plane)%nat = negb (bool_decide (plane = 0%nat))).
  { do 2 case_bool_decide; simpl; lia || done. }
  rewrite !Hb.
  destruct (bool_decide (plane = 0%nat)); cbn [negb];
    destruct (is_afbc t); [| destruct (is_afrc t); [| destruct (is_block_linear t)]
                           | | destruct (is_afrc t); [| destruct (is_block_linear t)]];
    cbn [fst snd]; rewrite ?list_insert_insert_eq; reflexivity.
Qed.

(** The byte stride reads the plane-info array only at the allocation width
    of the plane itself and, for the planes after the first, at the
    allocation width and byte stride of plane 0. *)
Lemma calc_byte_stride_ext t format has_cpu_usage has_hw_usage plane
    (pis pis' : list plane_info_t) :
  (plane < length pis)%nat → (plane < length pis')%nat →
  alloc_width (pi_get pis plane) = alloc_width (pi_get pis' plane) →
  ((0 < plane)%nat →
   alloc_width (pi_get pis 0) = alloc_width (pi_get pis' 0)
   ∧ byte_stride (pi_get pis 0) = byte_stride (pi_get pis' 0)) →
  calc_byte_stride t format has_cpu_usage has_hw_usage plane pis
  = calc_byte_stride t format has_cpu_usage has_hw_usage plane pis'.
Proof.
  intros Hlen Hlen' Hw H0. unfold calc_byte_stride.
  assert (Hw0 : alloc_width (pi_get pis 0) = alloc_width (pi_get pis' 0)).
  { destruct plane; [exact Hw|]. apply H0. lia. }
  rewrite Hw, Hw0.
  destruct (is_afrc t); [reflexivity|].
  destruct (is_afbc t); [reflexivity|].
  destruct (is_block_linear t); [reflexivity|].
  match goal with
  | |- (?c ≫= _) = _ => destruct c; [|reflexivity]
  end.
  cbn [mbind option_bind].
  match goal with
  | |- (?c ≫= _) = _ => destruct c as [cpu_align|]; [|reflexivity]
  end.
  cbn [mbind option_bind].
  match goal with
  | |- (?c ≫= _) = _ => destruct c as [[]|]; [|reflexivity]
  end.
  cbn [mbind option_bind].
  destruct ((id format =? format_id YV12) && has_hw_usage && has_cpu_usage);
    [|reflexivity].
  f_equal. destruct plane as [|p].
  - rewrite !pi_get_insert_eq by done. reflexivity.
  - rewrite !pi_get_insert_ne by done. apply H0. lia.
Qed.

End PlaneShape.


Section LoopFrame.
Context `{H : Headers}.

Lemma pi_get_lookup (l l' : list plane_info_t) (q : nat) :
  l !! q = l' !! q → pi_get l q = pi_get l' q.
Proof. unfold pi_get. by intros ->. Qed.

(** A generic invariant rule for the plane loop. *)
Lemma calc_planes_inv (P : nat → calc_state → Prop)
    (step : nat → calc_state → option calc_state) (n : nat) :
  ∀ k st st',
    P k st →
    (∀ i s s', (k ≤ i < k + n)%nat → P i s → step i s = Some s' → P (S i) s') →
    calc_planes step (seq k n) st = Some st' →
    P (k + n)%nat st'.
Proof.
  induction n as [|n IH]; intros k st st' HP Hstep Hrun; cbn in Hrun.
  - injection Hrun as <-. by rewrite Nat.add_0_r.
  - destruct (step k st) as [s1|] eqn:E1; [|discriminate].
    cbn [mbind option_bind] in Hrun.
    replace (k + S n)%nat with (S k + n)%nat by lia.
    eapply IH; [|..|exact Hrun].
    + eapply Hstep; [|exact HP|exact E1]. lia.
    + intros i s s' Hi. apply Hstep. lia.
Qed.

(** One iteration leaves the other records alone and keeps the length. *)
Lemma calc_plane_frame width height t format has_cpu_usage has_hw_usage plane st st' :
  (plane < length (cs_plane_info st))%nat →
  calc_plane width height t format has_cpu_usage has_hw_usage plane st = Some st' →
  length (cs_plane_info st') = length (cs_plane_info st)
  ∧ (∀ q, q ≠ plane → cs_plane_info st' !! q = cs_plane_info st !! q)
  ∧ length (cs_sizes st') = S (length (cs_sizes st))
  ∧ (∀ q, (q < length (cs_sizes st))%nat → cs_sizes st' !! q = cs_sizes st !! q).
Proof.
  intros Hlen Hrun.
  pose proof (calc_plane_Some_divisors _ _ _ _ _ _ _ _ _ Hrun) as Hdiv.
  rewrite calc_plane_eq in Hrun by done. cbv zeta in Hrun.
  destruct (calc_byte_stride _ _ _ _ _ _) as [stride|]; [|discriminate].
  cbn [mbind option_bind] in Hrun.
  match type of Hrun with
  | (?c ≫= _) = _ => destruct c as [ps|]; [|discriminate]
  end.
  cbn [mbind option_bind] in Hrun. injection Hrun as <-.
  cbn [cs_plane_info cs_sizes]. rewrite length_insert, length_app. cbn [length].
  split; [done|]. split; [|split; [lia|]].
  - intros q Hq. by rewrite list_lookup_insert_ne.
  - intros q Hq. by rewrite lookup_app_l.
Qed.

Lemma calc_plane_agree width height t format has_cpu_usage has_hw_usage k
    st1 st2 st1' :
  agree_upto k st1 st2 →
  (k < length (cs_plane_info st1))%nat →
  calc_plane width height t format has_cpu_usage has_hw_usage k st1 = Some st1' →
  ∃ st2',
    calc_plane width height t format has_cpu_usage has_hw_usage k st2 = Some st2'
    ∧ agree_upto (S k) st1' st2'.
Proof.
  intros (Hsize & Hsizes & Hlen & Hlow & Hps & Hoff) Hk Hrun.
  assert (Hk2 : (k < length (cs_plane_info st2))%nat) by lia.
  pose proof (calc_plane_Some_divisors _ _ _ _ _ _ _ _ _ Hrun) as Hdiv.
  rewrite calc_plane_eq in Hrun by done. rewrite calc_plane_eq by done.
  cbv zeta in Hrun. cbv zeta.
  set (aw := (get_pixel_w_h (u32 width) (u32 height) format t k has_cpu_usage).1) in *.
  set (ah := (get_pixel_w_h (u32 width) (u32 height) format t k has_cpu_usage).2) in *.
  assert (H0 : (0 < k)%nat →
               pi_get (cs_plane_info st1) 0 = pi_get (cs_plane_info st2) 0).
  { intros Hpos. apply pi_get_lookup, Hlow, Hpos. }
  rewrite <- (calc_byte_stride_ext t format has_cpu_usage has_hw_usage k
                (<[k := set_alloc_w_h (pi_get (cs_plane_info st1) k) aw ah]>
                   (cs_plane_info st1))).
  2: by rewrite length_insert. 2: by rewrite length_insert.
  2: { rewrite !pi_get_insert_eq by done. reflexivity. }
  2: { intros Hpos. rewrite !pi_get_insert_ne by lia. by rewrite H0. }
  destruct (calc_byte_stride _ _ _ _ _ _) as [stride|]; [|discriminate].
  cbn [mbind option_bind] in Hrun. cbn [mbind option_bind].
  assert (Hstored : ∀ off,
    stored_info (pi_get (cs_plane_info st1) k) k off stride aw ah
    = stored_info (pi_get (cs_plane_info st2) k) k off stride aw ah).
  { intros off. unfold stored_info.
    destruct (bool_decide (0 < k)%nat) eqn:Epos; [reflexivity|].
    apply bool_decide_eq_false in Epos.
    assert (k = 0%nat) as -> by lia. by rewrite Hoff. }
  assert (Hh0 : (if bool_decide (k = 0%nat) then ah
                 else alloc_height (pi_get (cs_plane_info st1) 0))
                = (if bool_decide (k = 0%nat) then ah
                   else alloc_height (pi_get (cs_plane_info st2) 0))).
  { destruct (bool_decide (k = 0%nat)) eqn:Ek; [reflexivity|].
    apply bool_decide_eq_false in Ek. rewrite H0 by lia. reflexivity. }
  assert (Hpix : (if bool_decide (k = 0%nat) then
                    if negb (is_afbc t) && negb (is_afrc t)
                       && negb (is_block_linear t) && has_cpu_usage
                    then
                      c_assert (u32 (stride * 8) mod arr_get (bpp format) k =? 0);;
                      Some (s32 (u32 (stride * 8) / arr_get (bpp format) k))
                    else Some 0
                  else Some (cs_pixel_stride st1))
                 = (if bool_decide (k = 0%nat) then
                      if negb (is_afbc t) && negb (is_afrc t)
                         && negb (is_block_linear t) && has_cpu_usage
                      then
                        c_assert (u32 (stride * 8) mod arr_get (bpp format) k =? 0);;
                        Some (s32 (u32 (stride * 8) / arr_get (bpp format) k))
                      else Some 0
                    else Some (cs_pixel_stride st2))).
  { destruct (bool_decide (k = 0%nat)) eqn:Ek; [reflexivity|].
    apply bool_decide_eq_false in Ek. rewrite Hps by lia. reflexivity. }
  rewrite <- Hpix, <- Hh0, <- Hsize, <- Hsizes.
  match type of Hrun with
  | (?c ≫= _) = _ => destruct c as [ps|]; [|discriminate]
  end.
  cbn [mbind option_bind] in Hrun. cbn [mbind option_bind].
  injection Hrun as <-. eexists. split; [reflexivity|].
  unfold agree_upto. cbn [cs_size cs_sizes cs_plane_info cs_pixel_stride].
  rewrite !length_insert. rewrite <- Hstored.
  split; [done|]. split; [done|]. split; [done|].
  split; [|split; [done|]].
  - intros q Hq. destruct (decide (q = k)) as [->|Hne].
    + by rewrite !list_lookup_insert_eq by lia.
    + rewrite !list_lookup_insert_ne by done. apply Hlow. lia.
  - destruct (decide (k = 0%nat)) as [->|Hne].
    + by rewrite !pi_get_insert_eq by lia.
    + rewrite !pi_get_insert_ne by done. exact Hoff.
Qed.

Lemma calc_planes_agree width height t format has_cpu_usage has_hw_usage n :
  ∀ k st1 st2 st1',
    agree_upto k st1 st2 →
    (k + n ≤ length (cs_plane_info st1))%nat →
    calc_planes (calc_plane width height t format has_cpu_usage has_hw_usage)
      (seq k n) st1 = Some st1' →
    ∃ st2',
      calc_planes (calc_plane width height t format has_cpu_usage has_hw_usage)
        (seq k n) st2 = Some st2'
      ∧ agree_upto (k + n) st1' st2'
      ∧ (∀ q, (k + n ≤ q)%nat →
           cs_plane_info st1' !! q = cs_plane_info st1 !! q
           ∧ cs_plane_info st2' !! q = cs_plane_info st2 !! q).
Proof.
  induction n as [|n IH]; intros k st1 st2 st1' Hag Hlen Hrun; cbn in Hrun.
  - injection Hrun as <-. exists st2. rewrite Nat.add_0_r. cbn. done.
  - destruct (calc_plane _ _ _ _ _ _ k st1) as [s1|] eqn:E1; [|discriminate].
    cbn [mbind option_bind] in Hrun.
    destruct (calc_plane_agree _ _ _ _ _ _ k st1 st2 s1 Hag ltac:(lia) E1)
      as (s2 & E2 & Hag').
    destruct (calc_plane_frame _ _ _ _ _ _ k st1 s1 ltac:(lia) E1) as (L1 & F1 & _).
    assert (Hlen2 : length (cs_plane_info st2) = length (cs_plane_info st1)).
    { symmetry. apply Hag. }
    destruct (calc_plane_frame _ _ _ _ _ _ k st2 s2 ltac:(lia) E2) as (L2 & F2 & _).
    destruct (IH (S k) s1 s2 st1' Hag' ltac:(lia) Hrun) as (st2' & R2 & Hag'' & Fr).
    exists st2'. cbn. rewrite E2. cbn [mbind option_bind].
    replace (k + S n)%nat with (S k + n)%nat by lia.
    split; [exact R2|]. split; [exact Hag''|].
    intros q Hq. destruct (Fr q Hq) as [Fa Fb].
    rewrite Fa, Fb. split; [apply F1|apply F2]; lia.
Qed.

Lemma calc_allocation_size_length width height t format has_cpu_usage has_hw_usage
    pixel_stride (plane_info : list plane_info_t) st :
  (npln format ≤ length plane_info)%nat →
  calc_allocation_size width height t format has_cpu_usage has_hw_usage
    pixel_stride plane_info = Some st →
  length (cs_plane_info st) = length plane_info.
Proof.
  intros Hlen Hrun. unfold calc_allocation_size in Hrun.
  revert Hrun.
  apply (calc_planes_inv
           (λ _ s, length (cs_plane_info s) = length plane_info)
           (calc_plane width height t format has_cpu_usage has_hw_usage)
           (npln format) 0%nat);
    [cbn; by rewrite length_insert|].
  intros i s s' Hi Hs Hstep.
  destruct (calc_plane_frame _ _ _ _ _ _ i s s' ltac:(lia) Hstep) as (L & _).
  lia.
Qed.

(** Laying a buffer out again, over the plane records and the pixel stride
    that the first run left, gives the same layout. *)
Lemma calc_allocation_size_rerun width height t format has_cpu_usage has_hw_usage
    pixel_stride (plane_info : list plane_info_t) st :
  (npln format ≤ length plane_info)%nat →
  calc_allocation_size width height t format has_cpu_usage has_hw_usage
    pixel_stride plane_info = Some st →
  calc_allocation_size width height t format has_cpu_usage has_hw_usage
    (cs_pixel_stride st) (cs_plane_info st) = Some st.
Proof.
  intros Hlen Hrun. unfold calc_allocation_size in *.
  set (init1 := {| cs_plane_info := <[0%nat := set_offset (pi_get plane_info 0) 0]> plane_info;
                   cs_size := 0; cs_pixel_stride := pixel_stride; cs_sizes := [] |}) in *.
  set (init2 := {| cs_plane_info :=
                     <[0%nat := set_offset (pi_get (cs_plane_info st) 0) 0]> (cs_plane_info st);
                   cs_size := 0; cs_pixel_stride := cs_pixel_stride st; cs_sizes := [] |}).
  assert (Hl1 : (0 + npln format ≤ length (cs_plane_info init1))%nat).
  { subst init1. cbn [cs_plane_info]. rewrite length_insert. lia. }
  assert (Hself : agree_upto 0 init1 init1).
  { unfold agree_upto. repeat split; try done. }
  destruct (calc_planes_agree _ _ _ _ _ _ _ 0%nat init1 init1 st Hself Hl1 Hrun)
    as (st0 & R0 & _ & Fr0).
  rewrite Hrun in R0. injection R0 as <-.
  assert (Hlst : length (cs_plane_info st) = length plane_info).
  { eapply calc_allocation_size_length; [exact Hlen|].
    unfold calc_allocation_size. exact Hrun. }
  assert (Hag : agree_upto 0 init1 init2).
  { unfold agree_upto. subst init1 init2.
    cbn [cs_size cs_sizes cs_plane_info cs_pixel_stride].
    rewrite !length_insert.
    split; [done|]. split; [done|]. split; [done|].
    split; [intros q Hq; lia|]. split; [lia|].
    destruct (decide (0 < length plane_info)%nat) as [Hpos|Hz].
    - rewrite !pi_get_insert_eq by lia. reflexivity.
    - rewrite !pi_get_ge by (rewrite length_insert; lia). reflexivity. }
  destruct (calc_planes_agree _ _ _ _ _ _ _ 0%nat init1 init2 st Hag Hl1 Hrun)
    as (st2 & R2 & (Hsize & Hsizes & Hl & Hlow & Hps & _) & Fr).
  rewrite R2. f_equal.
  assert (Hpis : cs_plane_info st2 = cs_plane_info st).
  { apply list_eq. intros q.
    destruct (decide (q < npln format)%nat) as [Hq|Hq].
    - symmetry. apply Hlow. lia.
    - destruct (Fr q ltac:(lia)) as [Fa Fb]. rewrite Fb.
      subst init2. cbn [cs_plane_info].
      destruct (decide (q = 0%nat)) as [->|Hne].
      + (* no plane at all: the first run only cleared the offset of plane 0 *)
        rewrite Fa. subst init1. cbn [cs_plane_info].
        destruct (decide (0 < length plane_info)%nat) as [Hpos|Hz].
        * rewrite !list_lookup_insert_eq by lia.
          rewrite (pi_get_lookup (cs_plane_info st)
                     (<[0%nat := set_offset (pi_get plane_info 0) 0]> plane_info))
            by exact Fa.
          rewrite pi_get_insert_eq by lia. reflexivity.
        * assert (cs_plane_info st = []) as Enil by (apply nil_length_inv; lia).
          assert (plane_info = []) as Enil' by (apply nil_length_inv; lia).
          rewrite Enil, Enil'. reflexivity.
      + by rewrite list_lookup_insert_ne. }
  assert (Hpx : cs_pixel_stride st2 = cs_pixel_stride st).
  { destruct (decide (0 < npln format)%nat) as [Hpos|Hz].
    - symmetry. apply Hps. lia.
    - assert (npln format = 0%nat) as Hn by lia. rewrite Hn in R2. cbn in R2.
      injection R2 as <-. reflexivity. }
  destruct st2, st. cbn in *. congruence.
Qed.

End LoopFrame.


(** ** Alignment of the planes of a compressed buffer *)

Lemma mod_pow2_divide (b y M : Z) : 0 < M → (b | M) → (b | y) → (b | y mod M).
Proof.
  intros HM HbM Hby. rewrite Z.mod_eq by lia.
  apply Z.divide_sub_r; [done|]. by apply Z.divide_mul_l.
Qed.

Lemma u32_divide b y : (b | 2 ^ 32) → (b | y) → (b | u32 y).
Proof. intros. unfold u32. apply mod_pow2_divide; [lia|done..]. Qed.

Lemma u64_divide b y : (b | 2 ^ 64) → (b | y) → (b | u64 y).
Proof. intros. unfold u64. apply mod_pow2_divide; [lia|done..]. Qed.

Lemma s32_divide b y : (b | 2 ^ 32) → (b | y) → (b | s32 y).
Proof.
  intros Hb Hy. unfold s32.
  replace ((y + 2 ^ 31) mod 2 ^ 32 - 2 ^ 31)
    with (y - 2 ^ 32 * ((y + 2 ^ 31) / 2 ^ 32))
    by (rewrite Z.mod_eq by lia; lia).
  apply Z.divide_sub_r; [done|]. by apply Z.divide_mul_l.
Qed.

Lemma GRALLOC_ALIGN_int_divide v b :
  (b | 2 ^ 32) → (b | GRALLOC_ALIGN_int v b).
Proof.
  intros Hb. unfold GRALLOC_ALIGN_int. apply s32_divide; [done|].
  apply Z.divide_factor_r.
Qed.

Lemma GRALLOC_ALIGN_u64_divide v b : 0 < b → (b | GRALLOC_ALIGN u64 v b).
Proof. intros Hb. unfold GRALLOC_ALIGN, u64. by apply align_mod_divide. Qed.

Lemma afbc_alignment_pow2 is_tiled :
  (afbc_alignment is_tiled | 2 ^ 32) ∧ (afbc_alignment is_tiled | 2 ^ 64)
  ∧ 0 < afbc_alignment is_tiled.
Proof.
  unfold afbc_alignment. destruct is_tiled.
  - split; [exists (2 ^ 20); lia|]. split; [exists (2 ^ 52); lia|lia].
  - split; [exists (2 ^ 22); lia|]. split; [exists (2 ^ 54); lia|lia].
Qed.

Lemma afbc_buffer_align_divide is_tiled size :
  (afbc_alignment is_tiled | afbc_buffer_align is_tiled size).
Proof.
  unfold afbc_buffer_align, afbc_alignment. destruct is_tiled.
  - apply (GRALLOC_ALIGN_int_divide size (4 * 1024)). exists (2 ^ 20). lia.
  - apply GRALLOC_ALIGN_int_divide. exists (2 ^ 22). lia.
Qed.

Section CompressedAlignment.
Context `{H : Headers}.

Lemma afbc_body_size_divide t format plane sb_num :
  (1 < npln format)%nat → (plane < 2)%nat →
  (afbc_alignment (is_tiled t) | afbc_body_size t format plane sb_num).
Proof.
  intros Hn Hp. unfold afbc_body_size.
  rewrite !bool_decide_eq_true_2 by done. cbn [andb].
  destruct (afbc_alignment_pow2 (is_tiled t)) as (H32 & _ & _).
  destruct (is_frontbuffer_safe t); [|apply afbc_buffer_align_divide].
  apply s32_divide; [done|].
  apply Z.divide_add_r; apply afbc_buffer_align_divide.
Qed.

Lemma plane_lookups_snoc (st : calc_state) (sizes : list (Z * Z)) body header p :
  plane_header {| cs_plane_info := cs_plane_info st; cs_size := cs_size st;
                  cs_pixel_stride := cs_pixel_stride st;
                  cs_sizes := sizes ++ [(body, header)] |} p
  = if decide (p < length sizes)%nat
    then (default (0, 0) (sizes !! p)).2
    else if decide (p = length sizes) then header else 0.
Proof.
  unfold plane_header. cbn [cs_sizes].
  destruct (decide (p < length sizes)%nat) as [Hlt|Hge].
  - by rewrite lookup_app_l.
  - rewrite lookup_app_r by lia.
    destruct (decide (p = length sizes)) as [->|Hne].
    + by rewrite Nat.sub_diag.
    + destruct (p - length sizes)%nat as [|d] eqn:Ed; [lia|]. reflexivity.
Qed.

(** X6: AFBC header and body buffers are aligned.  In a block-compressed
    layout every header size is a multiple of 1024 bytes (4096 with tiled
    headers), and planes 0, 1 and 2 start at multiples of that alignment,
    so that each of these planes has its header buffer and its body buffer
    aligned.
    This holds for every request, wrap-around included. *)
Theorem X6_afbc_buffers_are_aligned (width height : Z) (t : alloc_type_t)
    (format : format_info_t) (has_cpu_usage has_hw_usage : bool)
    (pixel_stride : Z) (plane_info : list plane_info_t) (st : calc_state) :
  let alignment := if is_tiled t then 4096 else 1024 in
  is_afbc t = true →
  (npln format ≤ length plane_info)%nat →
  calc_allocation_size width height t format has_cpu_usage has_hw_usage
    pixel_stride plane_info = Some st →
  ∀ p, (p < npln format)%nat →
    (alignment | plane_header st p)
    ∧ ((p ≤ 2)%nat →
       (alignment | plane_offset st p)
       ∧ (alignment | plane_offset st p + plane_header st p)).
Proof.
  intros alignment Hafbc Hlen Hrun.
  change alignment with (afbc_alignment (is_tiled t)). clear alignment.
  destruct (afbc_alignment_pow2 (is_tiled t)) as (H32 & H64 & Hpos).
  set (A := afbc_alignment (is_tiled t)) in *.
  set (P := λ (k : nat) (s : calc_state),
         length (cs_sizes s) = k
         ∧ length (cs_plane_info s) = length plane_info
         ∧ plane_offset s 0 = 0
         ∧ ((k ≤ 2)%nat → (1 < npln format)%nat → (A | cs_size s))
         ∧ (∀ p, (p < k)%nat → (A | plane_header s p))
         ∧ (∀ p, (p < k)%nat → (p ≤ 2)%nat → (A | plane_offset s p))).
  assert (Hfinal : P (0 + npln format)%nat st).
  { unfold calc_allocation_size in Hrun. revert Hrun.
    apply (calc_planes_inv P).
    - unfold P, plane_offset. cbn [cs_sizes cs_plane_info cs_size].
      rewrite length_insert.
      split; [done|]. split; [done|]. split.
      { destruct plane_info as [|x xs]; [reflexivity|].
        rewrite pi_get_insert_eq by (cbn; lia). reflexivity. }
      split; [intros; apply Z.divide_0_r|]. split; intros; lia.
    - intros k s s' Hk (Ls & Lp & Hoff0 & Hsize & Hhdr & Hoffs) Hstep.
      pose proof (calc_plane_Some_divisors _ _ _ _ _ _ _ _ _ Hstep) as Hdiv.
      rewrite calc_plane_eq in Hstep by (lia || exact Hdiv). cbv zeta in Hstep.
      rewrite Hafbc in Hstep.
      destruct (calc_byte_stride _ _ _ _ _ _) as [stride|]; [|discriminate].
      cbn [mbind option_bind] in Hstep.
      match type of Hstep with
      | (?c ≫= _) = _ => destruct c as [ps|]; [|discriminate]
      end.
      cbn [mbind option_bind] in Hstep. injection Hstep as <-.
      unfold P. cbn [cs_sizes cs_plane_info cs_size].
      rewrite length_app, length_insert. cbn [length].
      split; [lia|]. split; [done|].
      assert (Hget : ∀ p,
        plane_offset
          {| cs_plane_info :=
               <[k := stored_info (pi_get (cs_plane_info s) k) k (u32 (cs_size s))
                        stride
                        (get_pixel_w_h (u32 width) (u32 height) format t k
                           has_cpu_usage).1
                        (get_pixel_w_h (u32 width) (u32 height) format t k
                           has_cpu_usage).2]> (cs_plane_info s);
             cs_size := 0; cs_pixel_stride := 0; cs_sizes := [] |} p
        = if decide (p = k)
          then (if bool_decide (0 < k)%nat then u32 (cs_size s)
                else plane_offset s k)
          else plane_offset s p).
      { intros p. unfold plane_offset. cbn [cs_plane_info].
        destruct (decide (p = k)) as [->|Hne].
        - rewrite pi_get_insert_eq by lia. reflexivity.
        - by rewrite pi_get_insert_ne. }
      unfold plane_offset in Hget |- *. cbn [cs_plane_info] in Hget |- *.
      split.
      { rewrite Hget. destruct (decide (0%nat = k)) as [<-|Hne]; [|exact Hoff0].
        rewrite bool_decide_eq_false_2 by lia. exact Hoff0. }
      split.
      { intros Hk2 Hn. apply u64_divide; [done|].
        apply Z.divide_add_r; [apply Hsize; lia|].
        apply s32_divide; [done|].
        apply Z.divide_add_r; [|apply afbc_buffer_align_divide].
        apply afbc_body_size_divide; [done|lia]. }
      split.
      { intros p Hp.
        pose proof (plane_lookups_snoc s (cs_sizes s)) as Hsn.
        unfold plane_header in Hsn |- *. cbn [cs_sizes] in Hsn |- *.
        rewrite Hsn.
        destruct (decide (p < length (cs_sizes s))%nat) as [Hlt|Hge].
        - apply (Hhdr p). lia.
        - destruct (decide (p = length (cs_sizes s))) as [_|?]; [|lia].
          apply afbc_buffer_align_divide. }
      intros p Hp Hp2. rewrite Hget.
      destruct (decide (p = k)) as [->|Hne]; [|apply Hoffs; lia].
      case_bool_decide as Hkpos.
      + apply u32_divide; [done|]. apply Hsize; lia.
      + assert (k = 0%nat) as -> by lia. unfold plane_offset in Hoff0.
        rewrite Hoff0. apply Z.divide_0_r. }
  destruct Hfinal as (_ & _ & _ & _ & Hhdr & Hoffs).
  intros p Hp. split; [apply Hhdr; lia|].
  intros Hp2. split; [apply Hoffs; lia|].
  apply Z.divide_add_r; [apply Hoffs|apply Hhdr]; lia.
Qed.

Lemma alignment_of_coding_unit_pow2 cu :
  (alignment_of_coding_unit cu | 2 ^ 32) ∧ 0 < alignment_of_coding_unit cu.
Proof.
  unfold alignment_of_coding_unit. repeat case_match.
  - split; [exists (2 ^ 22); lia|lia].
  - split; [exists (2 ^ 23); lia|lia].
  - split; [exists (2 ^ 21); lia|lia].
Qed.

(** X7: AFRC planes start at their alignment.  In a fixed-rate-compressed
    layout that the selector accepted, plane 0 starts at offset 0 and every
    later plane starts at a multiple of the chroma plane alignment, which is
    1024, 512 or 2048 bytes for coding units of 16, 24 or 32 bytes.  This
    holds for every request, wrap-around included. *)
Theorem X7_afrc_planes_are_aligned (format_ext : Z) (format_idx : nat)
    (usage : Z) (l : list log_msg) (t : alloc_type_t) (width height : Z)
    (has_cpu_usage has_hw_usage : bool) (pixel_stride : Z)
    (plane_info : list plane_info_t) (st : calc_state) :
  let format := format_at format_idx in
  let cu := chroma_coding_unit_bytes (afrc t) in
  get_alloc_type format_ext format_idx usage alloc_type_zero = (l, inr t) →
  is_afrc t = true →
  (npln format ≤ MAX_PLANES)%nat →
  (npln format ≤ length plane_info)%nat →
  calc_allocation_size width height t format has_cpu_usage has_hw_usage
    pixel_stride plane_info = Some st →
  plane_offset st 0 = 0
  ∧ chroma_plane_alignment (afrc t)
    = (if cu =? 16 then 1024 else if cu =? 24 then 512 else 2048)
  ∧ ∀ p, (0 < p < npln format)%nat →
      (chroma_plane_alignment (afrc t) | plane_offset st p).
Proof.
  intros format cu Htype Hafrc Hmax Hlen Hrun.
  pose proof (get_alloc_type_wf format_ext format_idx usage alloc_type_zero l t
                Hmax Hmax Htype Hafrc) as (_ & _ & _ & _ & Eal & _).
  fold cu in Eal.
  destruct (alignment_of_coding_unit_pow2 cu) as [H32 Hpos].
  rewrite <- Eal in H32, Hpos.
  set (A := chroma_plane_alignment (afrc t)) in *.
  assert (Hnafbc : is_afbc t = false).
  { unfold is_afrc in Hafrc. apply bool_decide_eq_true in Hafrc.
    unfold is_afbc. by rewrite Hafrc. }
  set (P := λ (k : nat) (s : calc_state),
         length (cs_plane_info s) = length plane_info
         ∧ plane_offset s 0 = 0
         ∧ (∀ p, (0 < p < k)%nat → (A | plane_offset s p))).
  assert (Hfinal : P (0 + npln format)%nat st).
  { unfold calc_allocation_size in Hrun. revert Hrun.
    apply (calc_planes_inv P).
    - unfold P, plane_offset. cbn [cs_plane_info]. rewrite length_insert.
      split; [done|]. split; [|intros; lia].
      destruct plane_info as [|x xs]; [reflexivity|].
      rewrite pi_get_insert_eq by (cbn; lia). reflexivity.
    - intros k s s' Hk (Lp & Hoff0 & Hoffs) Hstep.
      pose proof (calc_plane_Some_divisors _ _ _ _ _ _ _ _ _ Hstep) as Hdiv.
      rewrite calc_plane_eq in Hstep by (lia || exact Hdiv). cbv zeta in Hstep.
      rewrite Hnafbc, Hafrc in Hstep.
      destruct (calc_byte_stride _ _ _ _ _ _) as [stride|]; [|discriminate].
      cbn [mbind option_bind] in Hstep.
      match type of Hstep with
      | (?c ≫= _) = _ => destruct c as [ps|]; [|discriminate]
      end.
      cbn [mbind option_bind] in Hstep. injection Hstep as <-.
      unfold P, plane_offset in *. cbn [cs_plane_info].
      rewrite length_insert. split; [done|]. split.
      + destruct (decide (k = 0%nat)) as [->|Hne].
        * rewrite pi_get_insert_eq by lia. unfold stored_info. cbn [offset].
          rewrite bool_decide_eq_false_2 by lia. exact Hoff0.
        * rewrite pi_get_insert_ne by done. exact Hoff0.
      + intros p Hp. destruct (decide (p = k)) as [->|Hne].
        * rewrite pi_get_insert_eq by lia. unfold stored_info. cbn [offset].
          rewrite bool_decide_eq_true_2 by lia.
          rewrite bool_decide_eq_false_2 by lia.
          apply u32_divide; [done|]. by apply GRALLOC_ALIGN_u64_divide.
        * rewrite pi_get_insert_ne by done. apply Hoffs. lia. }
  destruct Hfinal as (_ & Hoff0 & Hoffs).
  split; [exact Hoff0|]. split; [|intros p Hp; apply Hoffs; lia].
  subst A. rewrite Eal. reflexivity.
Qed.

End CompressedAlignment.

(** ** Deriving a layout twice *)

Section DeriveAgain.
Context `{H : Headers}.

Lemma validate_format_ext format t (d1 d2 : buffer_descriptor_t) :
  d_height d1 = d_height d2 →
  validate_format format t d1 = validate_format format t d2.
Proof. intros E. unfold validate_format. by rewrite E. Qed.

(** A successful derivation writes the four result fields only, and
    deriving again from its result gives the same messages and result. *)
Lemma mali_gralloc_derive_format_and_size_rerun (descriptor d' : buffer_descriptor_t)
    (l : list log_msg) :
  (∀ format_idx,
     (npln (format_at format_idx) ≤ length (d_plane_info descriptor))%nat) →
  mali_gralloc_derive_format_and_size descriptor = (l, inr d') →
  d_width d' = d_width descriptor
  ∧ d_height d' = d_height descriptor
  ∧ d_hal_format d' = d_hal_format descriptor
  ∧ d_format_type d' = d_format_type descriptor
  ∧ d_producer_usage d' = d_producer_usage descriptor
  ∧ d_consumer_usage d' = d_consumer_usage descriptor
  ∧ d_layer_count d' = d_layer_count descriptor
  ∧ length (d_plane_info d') = length (d_plane_info descriptor)
  ∧ mali_gralloc_derive_format_and_size d' = (l, inr d').
Proof.
  intros Hnpln. unfold mali_gralloc_derive_format_and_size at 1.
  cbn [d_alloc_format set_alloc_format d_pixel_stride d_plane_info d_height].
  destruct (_ =? format_id UNDEFINED) eqn:Eundef; [discriminate|].
  destruct (get_format_index _) as [format_idx|] eqn:Eidx; [|discriminate].
  destruct (get_alloc_type _ _ _ _) as [l1 [e|t]] eqn:Etype; [discriminate|].
  cbn [bind].
  destruct (validate_format _ _ _) as [l2 [e|[]]] eqn:Evalid; [discriminate|].
  destruct (mali_gralloc_adjust_dimensions _ _ _ _) as [w h] eqn:Eadj.
  match goal with
  | |- context [calc_allocation_size ?a ?b ?c ?d ?e ?f ?g ?i] =>
      destruct (calc_allocation_size a b c d e f g i) as [st|] eqn:Ecalc;
      [|discriminate]
  end.
  cbn. intros Hd. injection Hd as <- <-.
  cbn [set_size set_layout set_alloc_format d_width d_height d_hal_format
       d_format_type d_producer_usage d_consumer_usage d_layer_count
       d_plane_info d_size d_alloc_format d_pixel_stride].
  do 7 (split; [reflexivity|]).
  pose proof (calc_allocation_size_rerun _ _ _ _ _ _ _ _ _
                (Hnpln format_idx) Ecalc) as Eagain.
  split.
  { eapply calc_allocation_size_length; [apply (Hnpln format_idx)|exact Ecalc]. }
  unfold mali_gralloc_derive_format_and_size.
  cbn [set_size set_layout set_alloc_format d_width d_height d_hal_format
       d_format_type d_producer_usage d_consumer_usage d_layer_count
       d_plane_info d_size d_alloc_format d_pixel_stride].
  rewrite Eundef, Eidx, Etype. cbn [bind].
  erewrite validate_format_ext; [rewrite Evalid|reflexivity].
  rewrite Eadj, Eagain. cbn. reflexivity.
Qed.

(** X5: deriving the layout is idempotent and leaves the request alone.  A
    successful derivation only writes the four result fields of the
    descriptor, and a second derivation on the descriptor it returned
    succeeds with the same messages and the same descriptor: the plane
    records and the pixel stride left by the first run are not read. *)
Theorem X5_derive_is_idempotent (descriptor d' : buffer_descriptor_t)
    (l : list log_msg) :
  (∀ format_idx,
     (npln (format_at format_idx) ≤ length (d_plane_info descriptor))%nat) →
  mali_gralloc_derive_format_and_size descriptor = (l, inr d') →
  d_width d' = d_width descriptor
  ∧ d_height d' = d_height descriptor
  ∧ d_hal_format d' = d_hal_format descriptor
  ∧ d_format_type d' = d_format_type descriptor
  ∧ d_producer_usage d' = d_producer_usage descriptor
  ∧ d_consumer_usage d' = d_consumer_usage descriptor
  ∧ d_layer_count d' = d_layer_count descriptor
  ∧ length (d_plane_info d') = length (d_plane_info descriptor)
  ∧ mali_gralloc_derive_format_and_size d' = (l, inr d').
Proof. apply mali_gralloc_derive_format_and_size_rerun. Qed.

End DeriveAgain.


(** ** The finished layout, plane by plane *)

Section FinishedLayout.
Context `{H : Headers}.

Variables (width height : Z) (t : alloc_type_t) (format : format_info_t)
  (has_cpu_usage has_hw_usage : bool).

Lemma calc_allocation_size_planes pixel_stride (plane_info : list plane_info_t) st :
  (npln format ≤ length plane_info)%nat →
  calc_allocation_size width height t format has_cpu_usage has_hw_usage
    pixel_stride plane_info = Some st →
  length (cs_plane_info st) = length plane_info
  ∧ length (cs_sizes st) = npln format
  ∧ ((0 < npln format)%nat → pixel_stride_done t format has_cpu_usage st)
  ∧ ∀ plane, (plane < npln format)%nat →
      plane_done width height t format has_cpu_usage has_hw_usage (length plane_info) plane st.
Proof.
  intros Hlen Hrun.
  set (P := λ (k : nat) (s : calc_state),
         length (cs_plane_info s) = length plane_info
         ∧ length (cs_sizes s) = k
         ∧ ((0 < k)%nat → pixel_stride_done t format has_cpu_usage s)
         ∧ ∀ plane, (plane < k)%nat → plane_done width height t format has_cpu_usage has_hw_usage (length plane_info) plane s).
  assert (Hfinal : P (0 + npln format)%nat st).
  { unfold calc_allocation_size in Hrun. revert Hrun.
    apply (calc_planes_inv P).
    - unfold P. cbn [cs_plane_info cs_sizes]. rewrite length_insert.
      split; [done|]. split; [done|]. split; intros; lia.
    - intros k s s' Hk (Lp & Ls & Hpx & Hdone) Hstep.
      pose proof (calc_plane_Some_divisors _ _ _ _ _ _ _ _ _ Hstep) as Hdiv.
      rewrite calc_plane_eq in Hstep by (lia || exact Hdiv). cbv zeta in Hstep.
      set (aw := (get_pixel_w_h (u32 width) (u32 height) format t k has_cpu_usage).1) in *.
      set (ah := (get_pixel_w_h (u32 width) (u32 height) format t k has_cpu_usage).2) in *.
      set (old := pi_get (cs_plane_info s) k) in *.
      destruct (calc_byte_stride _ _ _ _ _ _) as [stride|] eqn:Es; [|discriminate].
      cbn [mbind option_bind] in Hstep.
      match type of Hstep with
      | (?c ≫= _) = _ => destruct c as [ps|] eqn:Eps; [|discriminate]
      end.
      cbn [mbind option_bind] in Hstep. injection Hstep as <-.
      unfold P. cbn [cs_plane_info cs_sizes cs_pixel_stride].
      rewrite length_insert, length_app. cbn [length].
      split; [done|]. split; [lia|]. split.
      + (* the pixel stride *)
        intros _. unfold pixel_stride_done. cbn [cs_plane_info cs_pixel_stride].
        destruct (decide (k = 0%nat)) as [->|Hne].
        * rewrite pi_get_insert_eq by lia. unfold stored_info. cbn [byte_stride].
          rewrite bool_decide_eq_true_2 in Eps by done.
          unfold is_cpu_accessible.
          destruct (negb (is_afbc t) && negb (is_afrc t)
                    && negb (is_block_linear t) && has_cpu_usage).
          -- destruct (Z.eqb_spec (u32 (stride * 8) mod arr_get (bpp format) 0) 0)
               as [E|E]; [|discriminate].
             cbn in Eps. injection Eps as <-. done.
          -- by injection Eps as <-.
        * rewrite pi_get_insert_ne by done.
          rewrite bool_decide_eq_false_2 in Eps by done. injection Eps as <-.
          apply Hpx. lia.
      + intros plane Hplane. destruct (decide (plane = k)) as [->|Hne].
        * (* the plane of this iteration *)
          unfold plane_done. cbn [cs_plane_info cs_sizes]. fold aw ah.
          exists (<[k := set_alloc_w_h old aw ah]> (cs_plane_info s)), stride.
          eexists.
          rewrite length_insert. split; [done|].
          rewrite !pi_get_insert_eq by lia. split; [reflexivity|].
          split; [intros Hpos; rewrite !pi_get_insert_ne by lia; reflexivity|].
          split; [exact Es|]. split; [reflexivity|].
          rewrite lookup_app_r by lia. rewrite Ls, Nat.sub_diag. cbn [lookup list_lookup].
          f_equal. unfold plane_body_size, plane_header_size. f_equal.
          destruct (is_afbc t); [reflexivity|]. destruct (is_afrc t); [reflexivity|].
          destruct (is_block_linear t); [|reflexivity].
          do 3 f_equal. destruct (decide (k = 0%nat)) as [->|Hk0].
          -- rewrite bool_decide_eq_true_2 by done.
             rewrite pi_get_insert_eq by lia. reflexivity.
          -- rewrite bool_decide_eq_false_2 by done.
             rewrite pi_get_insert_ne by done. reflexivity.
        * (* an earlier plane *)
          destruct (Hdone plane ltac:(lia)) as (pis & st0 & off & L & Ew & E0 & Ec & Ei & Esz).
          unfold plane_done. cbn [cs_plane_info cs_sizes].
          exists pis, st0, off. split; [done|]. split; [done|].
          assert (Hk0 : k ≠ 0%nat) by lia.
          rewrite !pi_get_insert_ne by done.
          split; [exact E0|]. split; [exact Ec|]. split; [exact Ei|].
          rewrite lookup_app_l by lia. exact Esz. }
  destruct Hfinal as (L & Ls & Hpx & Hdone). done.
Qed.

End FinishedLayout.

(** ** The superblock of the planes after the first *)

Section Superblock.
Context `{H : Headers}.

(** C9, as the code has it: for a multi-plane block-compressed type that the
    selector answered, headers are tiled and every plane after the first
    takes the 64x4 superblock, whatever the primary superblock class.  Its
    body size is the number of superblocks times the size of a 64x4
    superblock, rounded up to 128 bytes.  For a format whose sub-sampling
    factors are not zero, so that the divisions of [get_pixel_w_h] are
    defined: without CPU usage its allocation width and height are the
    sub-sampled width and height rounded up to 64 and 4 pixels times the
    headers-per-tile factor (4 above 32 bits per pixel, else 8), and its
    byte stride is that of this width; with CPU usage the superblock does
    not enter the alignment: the width is aligned to [align_w_cpu] and the
    tile size of the format, the height to the tile size only. *)
Theorem C9_multi_plane_uses_extra_wide_superblock (format_ext : Z)
    (format_idx : nat) (usage : Z) (alloc_type : alloc_type_t)
    (l : list log_msg) (t : alloc_type_t) (plane : nat) :
  is_format_afbc format_ext = true →
  get_alloc_type format_ext format_idx usage alloc_type = (l, inr t) →
  is_multi_plane t = true →
  (0 < plane)%nat →
  is_afbc t = true ∧ is_tiled t = true
  ∧ get_afbc_sb_size t plane = {| rect_width := 64; rect_height := 4 |}
  ∧ ∀ format : format_info_t,
      let b := arr_get (bpp_afbc format) plane in
      let k := if b >? 32 then 4 else 8 in
      afbc_pixel_align format t plane = (k * 64, k * 4)
      ∧ (∀ sb_num,
           let sb_bytes := GRALLOC_ALIGN_int (Z.quot (b * 64 * 4) 8) 128 in
           let body := s32 (u32 (sb_num * sb_bytes)) in
           let body :=
             if bool_decide (1 < npln format)%nat && bool_decide (plane < 2)%nat
             then afbc_buffer_align true body else body in
           afbc_body_size t format plane sb_num
           = if is_frontbuffer_safe t
             then s32 (body + afbc_buffer_align true body) else body)
      ∧ (∀ width height,
           let w1 := (plane_w_h width height format plane).1 in
           let h1 := (plane_w_h width height format plane).2 in
           let aw := (get_pixel_w_h width height format t plane false).1 in
           let ah := (get_pixel_w_h width height format t plane false).2 in
           hsub format ≠ 0 → vsub format ≠ 0 → tile_size format ≤ 16 →
           (k * 64 | aw) ∧ (k * 4 | ah)
           ∧ (0 ≤ w1 < 2 ^ 32 - 512 → aw = round_up w1 (k * 64))
           ∧ (0 ≤ h1 < 2 ^ 32 - 32 → ah = round_up h1 (k * 4))
           ∧ ∀ has_cpu_usage has_hw_usage pis,
               alloc_width (pi_get pis plane) = aw →
               calc_byte_stride t format has_cpu_usage has_hw_usage plane pis
               = Some (u32 (aw * b) / 8))
      ∧ (∀ width height,
           let w1 := (plane_w_h width height format plane).1 in
           let h1 := (plane_w_h width height format plane).2 in
           hsub format ≠ 0 → vsub format ≠ 0 →
           get_pixel_w_h width height format t plane true
           = (GRALLOC_ALIGN u32 w1 (max3 1 (align_w_cpu format) (tile_size format)),
              GRALLOC_ALIGN u32 h1 (max3 1 1 (tile_size format)))).
Proof.
  intros Hfmt Hget Hmulti Hplane.
  destruct (get_alloc_type_afbc_primary _ _ _ _ _ _ Hfmt Hget) as [Ht Htiled].
  specialize (Htiled Hmulti).
  pose proof (get_afbc_sb_size_multi_plane t plane Ht Hmulti Hplane) as Hsb.
  assert (Hafrc : is_afrc t = false).
  { unfold is_afbc in Ht. unfold is_afrc.
    destruct (primary_type t); try discriminate; reflexivity. }
  split; [done|]. split; [done|]. split; [done|].
  intros format b k.
  assert (Hk : k = 4 ∨ k = 8) by (subst k; destruct (b >? 32); auto).
  assert (Hal : afbc_pixel_align format t plane = (k * 64, k * 4)).
  { rewrite (afbc_pixel_align_spec format t plane Ht). rewrite Hsb, Htiled.
    cbn [rect_width rect_height negb]. rewrite andb_false_r. fold b k.
    destruct (is_padded t && negb (is_yuv format));
      destruct Hk as [-> | ->]; reflexivity. }
  split; [exact Hal|]. split; [|split].
  - intros sb_num. unfold afbc_body_size. rewrite Hsb, Htiled.
    cbn [rect_width rect_height]. fold b.
    destruct (is_frontbuffer_safe t); reflexivity.
  - intros width height w1 h1 aw ah _ _ Hts.
    assert (Eq : get_pixel_w_h width height format t plane false
                 = (GRALLOC_ALIGN u32 w1 (k * 64), GRALLOC_ALIGN u32 h1 (k * 4))).
    { unfold get_pixel_w_h, pixel_align. rewrite Ht, Hal. subst w1 h1.
      destruct (plane_w_h width height format plane) as [w1 h1]. cbn [fst snd].
      rewrite !max3_spec.
      replace (Z.max (Z.max 1 (k * 64)) (tile_size format)) with (k * 64) by lia.
      replace (Z.max (Z.max 1 (k * 4)) (tile_size format)) with (k * 4) by lia.
      reflexivity. }
    assert (Eaw : aw = GRALLOC_ALIGN u32 w1 (k * 64)) by (subst aw; by rewrite Eq).
    assert (Eah : ah = GRALLOC_ALIGN u32 h1 (k * 4)) by (subst ah; by rewrite Eq).
    assert (Daw : (k * 64 | aw))
      by (rewrite Eaw; apply GRALLOC_ALIGN_u32_divide; lia).
    split; [exact Daw|].
    split; [rewrite Eah; apply GRALLOC_ALIGN_u32_divide; lia|].
    split; [|split].
    + intros Hw1. rewrite Eaw. unfold round_up.
      apply GRALLOC_ALIGN_u32_exact; lia.
    + intros Hh1. rewrite Eah. unfold round_up.
      apply GRALLOC_ALIGN_u32_exact; lia.
    + intros has_cpu_usage has_hw_usage pis Hpis.
      unfold calc_byte_stride. rewrite Hafrc, Ht, Hpis. fold b.
      assert (Hmod : u32 (aw * b) mod 8 = 0).
      { rewrite u32_mod_8. apply Z.mod_divide; [done|].
        apply Z.divide_mul_l. etrans; [|exact Daw].
        destruct Hk as [-> | ->]; [by exists 32|by exists 64]. }
      rewrite Hmod. reflexivity.
  - intros width height w1 h1 _ _. unfold get_pixel_w_h, pixel_align. subst w1 h1.
    by destruct (plane_w_h width height format plane).
Qed.

End Superblock.

(** ** Offsets and total size *)

Section Offsets.
Context `{H : Headers}.

Lemma running_size_snoc sizes body header :
  running_size (sizes ++ [(body, header)])
  = u64 (running_size sizes + s32 (body + header)).
Proof. unfold running_size. by rewrite foldl_app. Qed.

(** The offsets and the total size of a layout whose encoding does not align
    its planes: each plane after the first starts at the running size, and
    the total is the running size after the last plane. *)
Lemma calc_allocation_size_offsets width height t format has_cpu_usage
    has_hw_usage pixel_stride (plane_info : list plane_info_t) st :
  is_afrc t = false →
  (npln format ≤ length plane_info)%nat →
  calc_allocation_size width height t format has_cpu_usage has_hw_usage
    pixel_stride plane_info = Some st →
  length (cs_sizes st) = npln format
  ∧ cs_size st = running_size (cs_sizes st)
  ∧ plane_offset st 0 = 0
  ∧ ∀ plane, (0 < plane < npln format)%nat →
      plane_offset st plane = u32 (running_size (take plane (cs_sizes st))).
Proof.
  intros Hafrc Hlen Hrun.
  set (P := λ (k : nat) (s : calc_state),
         length (cs_sizes s) = k
         ∧ length (cs_plane_info s) = length plane_info
         ∧ cs_size s = running_size (cs_sizes s)
         ∧ plane_offset s 0 = 0
         ∧ ∀ plane, (0 < plane < k)%nat →
             plane_offset s plane
             = u32 (running_size (take plane (cs_sizes s)))).
  assert (Hfinal : P (0 + npln format)%nat st).
  { unfold calc_allocation_size in Hrun. revert Hrun.
    apply (calc_planes_inv P).
    - unfold P, plane_offset. cbn [cs_sizes cs_plane_info cs_size].
      rewrite length_insert.
      split; [done|]. split; [done|]. split; [done|]. split.
      { destruct plane_info as [|x xs]; [reflexivity|].
        rewrite pi_get_insert_eq by (cbn; lia). reflexivity. }
      intros; lia.
    - intros k s s' Hk (Ls & Lp & Hsize & Hoff0 & Hoffs) Hstep.
      pose proof (calc_plane_Some_divisors _ _ _ _ _ _ _ _ _ Hstep) as Hdiv.
      rewrite calc_plane_eq in Hstep by (lia || exact Hdiv). cbv zeta in Hstep.
      rewrite Hafrc in Hstep.
      destruct (calc_byte_stride _ _ _ _ _ _) as [stride|]; [|discriminate].
      cbn [mbind option_bind] in Hstep.
      match type of Hstep with
      | (?c ≫= _) = _ => destruct c as [ps|]; [|discriminate]
      end.
      cbn [mbind option_bind] in Hstep.
      assert (Esize : (if is_afbc t then cs_size s else cs_size s) = cs_size s)
        by (by destruct (is_afbc t)).
      rewrite Esize in Hstep. injection Hstep as <-.
      unfold P. cbn [cs_sizes cs_plane_info cs_size].
      rewrite length_app, length_insert. cbn [length].
      split; [lia|]. split; [done|].
      split; [by rewrite running_size_snoc, Hsize|].
      assert (Hget : ∀ p stride aw ah,
        offset (pi_get (<[k := stored_info (pi_get (cs_plane_info s) k) k
                                  (u32 (cs_size s)) stride aw ah]>
                          (cs_plane_info s)) p)
        = if decide (p = k)
          then (if bool_decide (0 < k)%nat then u32 (cs_size s)
                else plane_offset s k)
          else plane_offset s p).
      { intros p stride' aw ah. unfold plane_offset.
        destruct (decide (p = k)) as [->|Hne].
        - rewrite pi_get_insert_eq by lia. reflexivity.
        - by rewrite pi_get_insert_ne. }
      unfold plane_offset in Hget, Hoff0, Hoffs |- *. cbn [cs_plane_info].
      split.
      { rewrite Hget. destruct (decide (0%nat = k)) as [<-|Hne]; [|exact Hoff0].
        rewrite bool_decide_eq_false_2 by lia. exact Hoff0. }
      intros p Hp. rewrite Hget.
      destruct (decide (p = k)) as [->|Hne].
      + rewrite bool_decide_eq_true_2 by lia.
        rewrite take_app_length' by done. by rewrite Hsize.
      + rewrite take_app_le by lia. apply Hoffs. lia. }
  destruct Hfinal as (Ls & _ & Hsize & Hoff0 & Hoffs).
  split; [exact Ls|]. split; [exact Hsize|]. split; [exact Hoff0|].
  intros plane Hplane. apply Hoffs. lia.
Qed.

End Offsets.


(** ** Front-buffer rendering with wide blocks *)

Section FrontBuffer.
Context `{H : Headers}.

(** The selector on a front-buffer request for a one-plane format that
    carries both the wide and the extra-wide bit. *)
Lemma get_alloc_type_front_buffer_single format_ext format_idx usage alloc_type :
  is_format_afbc format_ext = true →
  has_bits format_ext MALI_GRALLOC_INTFMT_AFBC_TILED_HEADERS = true →
  has_bits format_ext MALI_GRALLOC_INTFMT_AFBC_DOUBLE_BODY = true →
  npln (format_at format_idx) = 1%nat →
  has_bits format_ext MALI_GRALLOC_INTFMT_AFBC_WIDEBLK = true →
  has_bits format_ext MALI_GRALLOC_INTFMT_AFBC_EXTRAWIDEBLK = true →
  ∃ l, get_alloc_type format_ext format_idx usage alloc_type
       = (l, inl Err_multiplane_with_single_plane_format)
    ∧ LOGE_front_buffer_safe_with_wide_block ∈ l.
Proof.
  intros Hafbc Htiled Hdb Hnpln Hwide Hxw. unfold get_alloc_type.
  rewrite Hafbc, Htiled, Hdb, has_bits_lor, Hwide, Hxw, Hnpln.
  destruct (is_yuv _ && has_bits _ MALI_GRALLOC_INTFMT_AFBC_YUV_TRANSFORM);
    cbn; eexists; (split; [reflexivity|set_solver]).
Qed.

(** The body size of a front-buffer safe plane: the body and its aligned
    copy. *)
Lemma afbc_body_size_front_buffer t format plane sb_num :
  is_frontbuffer_safe t = true →
  let single := afbc_body_size (set_is_frontbuffer_safe t false) format plane sb_num in
  afbc_body_size t format plane sb_num
  = s32 (single + afbc_buffer_align (is_tiled t) single).
Proof. intros Hfb. unfold afbc_body_size. rewrite Hfb. reflexivity. Qed.

(** C10, as the code has it: with tiled headers and the double-body flag,
    wide or extra-wide blocks make the selector log an error, which is not a
    failure by itself.  The selector fails when a one-plane format carries
    both the wide and the extra-wide bit, and otherwise answers with
    [is_frontbuffer_safe] set.  The derivation then fails for a one-plane
    format with both bits (in the selector) and for a format of several
    planes without the extra-wide bit (the selector has made it
    single-plane, which the validation refuses).  In the other cases, for a
    format that supports block compression and a request without CPU usage,
    it returns the layout of the size computation: every plane has the
    allocation size of [get_pixel_w_h], the byte stride of that width, a
    header of 16 bytes per superblock and a body that holds the single body
    and its aligned copy; the planes follow one another from offset 0, and
    the size of a layer is the running size after the last plane. *)
Theorem C10_front_buffer_with_wide_blocks_is_not_an_error
    (descriptor : buffer_descriptor_t) (format_idx : nat) :
  let usage := Z.lor (d_producer_usage descriptor) (d_consumer_usage descriptor) in
  let alloc_format :=
    mali_gralloc_select_format (d_hal_format descriptor)
      (d_format_type descriptor) usage in
  let format_ext := Z.land alloc_format MALI_GRALLOC_INTFMT_EXT_MASK in
  let format := format_at format_idx in
  let wide := has_bits format_ext MALI_GRALLOC_INTFMT_AFBC_WIDEBLK in
  let extra_wide := has_bits format_ext MALI_GRALLOC_INTFMT_AFBC_EXTRAWIDEBLK in
  let both_on_one_plane := bool_decide (npln format = 1%nat) && wide && extra_wide in
  let downgraded := bool_decide (1 < npln format)%nat && negb extra_wide in
  let dims :=
    mali_gralloc_adjust_dimensions alloc_format usage
      (s32 (d_width descriptor)) (s32 (d_height descriptor)) in
  let has_hw_usage :=
    has_bits usage
      (Z.lnot (Z.lor GRALLOC_USAGE_PRIVATE_MASK
                 (Z.lor GRALLOC_USAGE_SW_READ_MASK GRALLOC_USAGE_SW_WRITE_MASK))) in
  is_format_afbc format_ext = true →
  has_bits format_ext MALI_GRALLOC_INTFMT_AFBC_TILED_HEADERS = true →
  has_bits format_ext MALI_GRALLOC_INTFMT_AFBC_DOUBLE_BODY = true →
  wide || extra_wide = true →
  (∃ l, LOGE_front_buffer_safe_with_wide_block ∈ l
     ∧ if both_on_one_plane
       then get_alloc_type format_ext format_idx usage alloc_type_zero
            = (l, inl Err_multiplane_with_single_plane_format)
       else ∃ t, get_alloc_type format_ext format_idx usage alloc_type_zero
                 = (l, inr t)
              ∧ is_afbc t = true ∧ is_tiled t = true
              ∧ is_frontbuffer_safe t = true
              ∧ is_multi_plane t
                = bool_decide (1 < npln format)%nat && extra_wide)
  ∧ (alloc_format ≠ format_id UNDEFINED →
     get_format_index (Z.land alloc_format MALI_GRALLOC_INTFMT_FMT_MASK)
     = Some format_idx →
     (both_on_one_plane = true →
      ∃ l, mali_gralloc_derive_format_and_size descriptor
           = (l, inl Err_multiplane_with_single_plane_format))
     ∧ (downgraded = true →
        ∃ l e, mali_gralloc_derive_format_and_size descriptor = (l, inl e)
          ∧ kind_of e = UnsupportedFormatForEncoding)
     ∧ (both_on_one_plane = false → downgraded = false →
        afbc format = true →
        (id format =? format_id BLOB) && negb (d_height descriptor =? 1) = false →
        has_bits usage
          (Z.lor GRALLOC_USAGE_SW_READ_MASK GRALLOC_USAGE_SW_WRITE_MASK) = false →
        tile_size format ≤ 16 → subsampling_wf format →
        (npln format ≤ length (d_plane_info descriptor))%nat →
        ∃ l t d' st,
          mali_gralloc_derive_format_and_size descriptor = (l, inr d')
          ∧ LOGE_front_buffer_safe_with_wide_block ∈ l
          ∧ get_alloc_type format_ext format_idx usage alloc_type_zero = (l, inr t)
          ∧ calc_allocation_size dims.1 dims.2 t format false has_hw_usage
              (d_pixel_stride descriptor) (d_plane_info descriptor) = Some st
          ∧ d_plane_info d' = cs_plane_info st
          ∧ d_size d'
            = layer_size alloc_format (d_layer_count descriptor) (cs_size st)
          ∧ ((0 < npln format)%nat → d_pixel_stride d' = 0)
          ∧ length (cs_sizes st) = npln format
          ∧ cs_size st = running_size (cs_sizes st)
          ∧ ∀ plane, (plane < npln format)%nat →
              let aw := (get_pixel_w_h (u32 dims.1) (u32 dims.2) format t plane
                           false).1 in
              let ah := (get_pixel_w_h (u32 dims.1) (u32 dims.2) format t plane
                           false).2 in
              let sb_num := u32 (aw * ah) / AFBC_PIXELS_PER_BLOCK in
              let single :=
                afbc_body_size (set_is_frontbuffer_safe t false) format plane
                  sb_num in
              alloc_width (pi_get (d_plane_info d') plane) = aw
              ∧ alloc_height (pi_get (d_plane_info d') plane) = ah
              ∧ byte_stride (pi_get (d_plane_info d') plane)
                = u32 (aw * arr_get (bpp_afbc format) plane) / 8
              ∧ offset (pi_get (d_plane_info d') plane)
                = (if bool_decide (plane = 0%nat) then 0
                   else u32 (running_size (take plane (cs_sizes st))))
              ∧ plane_body st plane
                = s32 (single + afbc_buffer_align true single)
              ∧ plane_header st plane
                = afbc_buffer_align true
                    (s32 (u32 (sb_num * AFBC_HEADER_BUFFER_BYTES_PER_BLOCKENTRY))))).
Proof.
  intros usage alloc_format format_ext format wide extra_wide both_on_one_plane
    downgraded dims has_hw_usage Hafbc Htiled Hdb Hwide.
  (* the selector *)
  assert (Hsel :
    (both_on_one_plane = true →
     ∃ l, get_alloc_type format_ext format_idx usage alloc_type_zero
          = (l, inl Err_multiplane_with_single_plane_format)
       ∧ LOGE_front_buffer_safe_with_wide_block ∈ l)
    ∧ (both_on_one_plane = false →
       ∃ l t, get_alloc_type format_ext format_idx usage alloc_type_zero
              = (l, inr t)
         ∧ LOGE_front_buffer_safe_with_wide_block ∈ l
         ∧ is_afbc t = true ∧ is_tiled t = true
         ∧ is_frontbuffer_safe t = true
         ∧ is_multi_plane t
           = bool_decide (1 < npln format)%nat && extra_wide)).
  { split.
    - intros Hboth. unfold both_on_one_plane in Hboth.
      apply andb_true_iff in Hboth as [Hboth Hxw].
      apply andb_true_iff in Hboth as [Hone Hw].
      apply bool_decide_eq_true in Hone.
      by apply get_alloc_type_front_buffer_single.
    - intros Hboth.
      destruct (get_alloc_type_front_buffer format_ext format_idx usage
                  alloc_type_zero Hafbc Htiled Hdb Hwide Hboth)
        as (l & t & Hget & Hlog & Ht & Htl & Hfb & Hmulti).
      by exists l, t. }
  destruct Hsel as [Hfail Hok].
  split.
  { destruct both_on_one_plane eqn:Eboth.
    - destruct (Hfail eq_refl) as (l & Hget & Hlog). by exists l.
    - destruct (Hok eq_refl) as (l & t & Hget & Hlog & Hrest).
      exists l. split; [done|]. by exists t. }
  intros Hundef Hidx.
  assert (Hstart : ∀ (r : M alloc_type_t),
    get_alloc_type format_ext format_idx usage alloc_type_zero = r →
    mali_gralloc_derive_format_and_size descriptor
    = (let* alloc_type := r in
       run validate_format format alloc_type
             (set_alloc_format descriptor alloc_format) in
       let '(alloc_width, alloc_height) := dims in
       let* st :=
         of_assert
           (calc_allocation_size alloc_width alloc_height alloc_type format
              (has_bits usage
                 (Z.lor GRALLOC_USAGE_SW_READ_MASK GRALLOC_USAGE_SW_WRITE_MASK))
              has_hw_usage (d_pixel_stride descriptor)
              (d_plane_info descriptor)) in
       let descriptor :=
         set_layout (set_alloc_format descriptor alloc_format)
           (cs_pixel_stride st) (cs_size st) (cs_plane_info st) in
       ret (set_size descriptor
              (layer_size (d_alloc_format descriptor)
                 (d_layer_count descriptor) (d_size descriptor))))).
  { intros r <-. unfold mali_gralloc_derive_format_and_size.
    cbn [d_alloc_format set_alloc_format d_pixel_stride d_plane_info].
    fold usage. fold alloc_format.
    apply Z.eqb_neq in Hundef. rewrite Hundef, Hidx. reflexivity. }
  split; [|split].
  - intros Hboth. destruct (Hfail Hboth) as (l & Hget & _).
    exists l. rewrite (Hstart _ Hget). reflexivity.
  - intros Hdown. unfold downgraded in Hdown.
    apply andb_true_iff in Hdown as [Hnpln Hxw].
    apply bool_decide_eq_true in Hnpln. apply negb_true_iff in Hxw.
    assert (Hboth : both_on_one_plane = false).
    { unfold both_on_one_plane. rewrite Hxw. apply andb_false_r. }
    destruct (Hok Hboth) as (l & t & Hget & _ & Ht & _ & _ & Hmulti).
    rewrite Hxw, andb_false_r in Hmulti.
    destruct (validate_format_single_plane_afbc format t
                (set_alloc_format descriptor alloc_format) Hnpln Ht Hmulti)
      as (l' & e & Hval & Hkind).
    exists (l ++ l'), e. split; [|exact Hkind].
    rewrite (Hstart _ Hget). cbn [bind]. rewrite Hval. reflexivity.
  - intros Hboth Hdown Hsup Hblob Hcpu Hts Hsub Hlen.
    destruct (Hok Hboth) as (l & t & Hget & Hlog & Ht & Htl & Hfb & Hmulti).
    assert (Hmulti' : is_multi_plane t = bool_decide (1 < npln format)%nat).
    { rewrite Hmulti. unfold downgraded in Hdown.
      destruct (bool_decide (1 < npln format)%nat); [|reflexivity].
      cbn [andb] in *. apply negb_false_iff in Hdown. by rewrite Hdown. }
    destruct (calc_allocation_size_afbc_total dims.1 dims.2 t format
                has_hw_usage (d_pixel_stride descriptor)
                (d_plane_info descriptor) Ht Hts Hsub) as [st Hst].
    destruct (calc_allocation_size_planes dims.1 dims.2 t format false
                has_hw_usage (d_pixel_stride descriptor)
                (d_plane_info descriptor) st Hlen Hst)
      as (_ & _ & Hps & Hplanes).
    eexists l, t, _, st.
    split.
    { rewrite (Hstart _ Hget). cbn [bind].
      rewrite (validate_format_afbc_ok format t _ Ht Hsup Hmulti') by exact Hblob.
      rewrite Hcpu. destruct dims as [w h]. cbn [fst snd] in Hst.
      rewrite Hst. cbn. rewrite !app_nil_r. reflexivity. }
    split; [exact Hlog|]. split; [exact Hget|]. split; [exact Hst|].
    cbn [set_size set_layout set_alloc_format d_plane_info d_size
         d_alloc_format d_layer_count d_pixel_stride].
    split; [reflexivity|]. split; [reflexivity|].
    split.
    { intros Hpos. specialize (Hps Hpos). unfold pixel_stride_done in Hps.
      unfold is_cpu_accessible in Hps. rewrite Ht in Hps. exact Hps. }
    assert (Hafrc : is_afrc t = false).
    { unfold is_afbc in Ht. unfold is_afrc.
      destruct (primary_type t); try discriminate; reflexivity. }
    destruct (calc_allocation_size_offsets dims.1 dims.2 t format false
                has_hw_usage (d_pixel_stride descriptor)
                (d_plane_info descriptor) st Hafrc Hlen Hst)
      as (Hsizes_len & Hsize & Hoff0 & Hoffs).
    split; [exact Hsizes_len|]. split; [exact Hsize|].
    intros plane Hplane.
    destruct (Hplanes plane Hplane)
      as (pis & stride & off & _ & Hpis & _ & Hstride & Hinfo & Hsizes).
    cbv zeta in Hpis, Hinfo, Hsizes.
    split; [by rewrite Hinfo|]. split; [by rewrite Hinfo|].
    split.
    { rewrite Hinfo. cbn [byte_stride].
      unfold calc_byte_stride in Hstride. rewrite Hafrc, Ht, Hpis in Hstride.
      destruct (c_assert _) as [[]|]; [|discriminate].
      cbn [mbind option_bind] in Hstride. by injection Hstride as <-. }
    split.
    { change (offset (pi_get (cs_plane_info st) plane))
        with (plane_offset st plane).
      destruct (decide (plane = 0%nat)) as [->|Hne].
      - by rewrite bool_decide_eq_true_2.
      - rewrite bool_decide_eq_false_2 by done. apply Hoffs. lia. }
    unfold plane_body, plane_header. rewrite Hsizes.
    unfold default, from_option, Datatypes.id. cbn [fst snd].
    unfold plane_body_size, plane_header_size. rewrite Ht.
    split; [|by rewrite Htl].
    rewrite (afbc_body_size_front_buffer t format plane _ Hfb). cbv zeta.
    by rewrite Htl.
Qed.

End FrontBuffer.


(** ** Uncompressed layouts *)

Section LinearLayout.
Context `{H : Headers}.

Lemma uncompressed_type t :
  primary_type t = UNCOMPRESSED →
  is_afbc t = false ∧ is_afrc t = false ∧ is_block_linear t = false
  ∧ ∀ format, alloc_type_wf format t.
Proof.
  intros E. unfold is_afbc, is_afrc, is_block_linear, alloc_type_wf. rewrite E.
  split; [reflexivity|]. split; [reflexivity|]. split; [reflexivity|].
  intros format Hafrc. unfold is_afrc in Hafrc. rewrite E in Hafrc.
  apply bool_decide_eq_true in Hafrc. discriminate.
Qed.

(** The allocation size of plane 0 covers the request; that of a later plane
    covers the sub-sampled request when the rounding granularity of the
    format is a multiple of the sub-sampling factor. *)
Lemma get_pixel_w_h_covers width height format t plane has_cpu_usage :
  format_wf format → alloc_type_wf format t → (plane < npln format)%nat →
  (has_cpu_usage = true → primary_type t = UNCOMPRESSED) →
  1 ≤ width ≤ MAX_DIM → 1 ≤ height ≤ MAX_DIM →
  let w := (get_pixel_w_h (u32 width) (u32 height) format t plane has_cpu_usage).1 in
  let h := (get_pixel_w_h (u32 width) (u32 height) format t plane has_cpu_usage).2 in
  (plane = 0%nat → width ≤ w ∧ height ≤ h)
  ∧ ((0 < plane)%nat → (hsub format | align_w format) → width ≤ w * hsub format)
  ∧ ((0 < plane)%nat → (vsub format | align_h format) → height ≤ h * vsub format).
Proof.
  intros Hfwf Hwf Hplane Hunc Hw Hh w h.
  destruct (plane_w_h_bounds width height format plane Hfwf Hplane Hw Hh)
    as [Hw1 Hh1].
  destruct (pixel_align_bounds format t plane has_cpu_usage Hfwf Hwf Hplane Hunc)
    as (Haw & Hah & _).
  assert (Hcover :
    let w1 := (plane_w_h (u32 width) (u32 height) format plane).1 in
    let h1 := (plane_w_h (u32 width) (u32 height) format plane).2 in
    (plane = 0%nat → width ≤ w1 ∧ height ≤ h1)
    ∧ ((0 < plane)%nat → (hsub format | align_w format) → width ≤ w1 * hsub format)
    ∧ ((0 < plane)%nat → (vsub format | align_h format) → height ≤ h1 * vsub format)).
  { destruct Hfwf as (_ & Halw & Halh & _ & _ & Hsub & _).
    unfold MAX_DIM in *. unfold plane_w_h. cbn [fst snd].
    rewrite !u32_small by lia.
    destruct (align_up_facts width (align_w format)) as [Bw Dw]; [lia..|].
    destruct (align_up_facts height (align_h format)) as [Bh Dh]; [lia..|].
    set (wa := GRALLOC_ALIGN u32 width _) in *.
    set (ha := GRALLOC_ALIGN u32 height _) in *.
    split; [|split].
    - intros ->. rewrite !bool_decide_eq_false_2 by lia. lia.
    - intros Hp Hdiv. rewrite bool_decide_eq_true_2 by lia.
      destruct Hsub as [Hhs _]; [lia|].
      assert (Hd : (hsub format | wa)) by (etrans; [exact Hdiv|exact Dw]).
      destruct Hd as [q Hq]. rewrite Hq, Z.div_mul by lia. lia.
    - intros Hp Hdiv. rewrite bool_decide_eq_true_2 by lia.
      destruct Hsub as [_ Hvs]; [lia|].
      assert (Hd : (vsub format | ha)) by (etrans; [exact Hdiv|exact Dh]).
      destruct Hd as [q Hq]. rewrite Hq, Z.div_mul by lia. lia. }
  cbv zeta in Hcover. subst w h. unfold get_pixel_w_h.
  destruct (plane_w_h _ _ _ _) as [w1 h1]. cbn [fst snd] in *.
  destruct (pixel_align _ _ _ _) as [paw pah]. cbn [fst snd] in *.
  unfold MAX_DIM in *.
  destruct (align_up_facts w1 (max3 1 paw (tile_size format))) as [Bw _]; [lia..|].
  destruct (align_up_facts h1 (max3 1 pah (tile_size format))) as [Bh _]; [lia..|].
  destruct Hcover as (C0 & Cw & Ch).
  destruct Hfwf as (_ & _ & _ & _ & _ & Hsub & _).
  split; [|split].
  - intros Hp. specialize (C0 Hp). lia.
  - intros Hp Hdiv. specialize (Cw Hp Hdiv). destruct Hsub as [Hhs _]; [lia|]. nia.
  - intros Hp Hdiv. specialize (Ch Hp Hdiv). destruct Hsub as [_ Hvs]; [lia|]. nia.
Qed.

Section Linear.
Variables (width height : Z) (t : alloc_type_t) (format : format_info_t)
  (has_cpu_usage has_hw_usage : bool) (pixel_stride : Z)
  (plane_info : list plane_info_t) (st : calc_state).
Hypothesis Hfwf : format_wf format.
Hypothesis Hunc : primary_type t = UNCOMPRESSED.
Hypothesis Hwidth : 1 ≤ width ≤ MAX_DIM.
Hypothesis Hheight : 1 ≤ height ≤ MAX_DIM.
Hypothesis Hlen : (npln format ≤ length plane_info)%nat.
Hypothesis Hrun :
  calc_allocation_size width height t format has_cpu_usage has_hw_usage
    pixel_stride plane_info = Some st.

(** What the finished layout holds for a plane of an uncompressed buffer. *)
Lemma linear_plane plane :
  (plane < npln format)%nat →
  let info := pi_get (cs_plane_info st) plane in
  let b := arr_get (bpp format) plane in
  let special :=
    (id format =? format_id YV12) && has_hw_usage && has_cpu_usage in
  (alloc_width info, alloc_height info)
  = get_pixel_w_h (u32 width) (u32 height) format t plane has_cpu_usage
  ∧ 1 ≤ alloc_width info ≤ 8718 ∧ 1 ≤ alloc_height info ≤ 8334
  ∧ 8 ≤ b ≤ 64
  ∧ (tile_size format = 1 → has_hw_usage = true →
     ((if is_yuv format then 128 else 64) | byte_stride info))
  ∧ (tile_size format = 1 → has_cpu_usage = true →
     (b * align_w_cpu format / 8 | byte_stride info))
  ∧ (plane = 0%nat ∨ special = false →
     alloc_width info * b ≤ byte_stride info * 8
     ∧ 1 ≤ byte_stride info ≤ 118896
     ∧ plane_body st plane = byte_stride info * alloc_height info).
Proof.
  intros Hplane.
  destruct (uncompressed_type t Hunc) as (Hafbc & Hafrc & Hbl & Hwf).
  destruct (calc_allocation_size_planes _ _ _ _ _ _ _ _ _ Hlen Hrun)
    as (_ & _ & _ & Hdone).
  destruct (Hdone plane Hplane) as (pis & stride & off & L & Ew & _ & Ec & Ei & Esz).
  pose proof (get_pixel_w_h_bounds width height format t plane has_cpu_usage
                Hfwf (Hwf format) Hplane (λ _, Hunc) Hwidth Hheight)
    as (Bw & Bh & _).
  cbv zeta in Bw, Bh.
  destruct (calc_byte_stride_linear t format has_cpu_usage has_hw_usage plane pis
              stride Hfwf Hplane ltac:(lia) Hafbc Hafrc Hbl
              ltac:(rewrite Ew; exact Bw) Ec)
    as (_ & _ & Dhw & Dcpu & Hrow & _).
  cbv zeta. rewrite Ei. cbn [alloc_width alloc_height byte_stride].
  rewrite Ew in Hrow.
  destruct Hfwf as (_ & _ & _ & _ & _ & _ & Hbpp).
  destruct (Hbpp plane Hplane) as [Hb _].
  split; [by destruct (get_pixel_w_h _ _ _ _ _ _)|].
  split; [exact Bw|]. split; [exact Bh|]. split; [exact Hb|].
  split; [exact Dhw|]. split; [exact Dcpu|].
  intros Hcase. specialize (Hrow Hcase). split; [apply Hrow|].
  assert (Hst : 1 ≤ stride ≤ 118896).
  { eapply (calc_byte_stride_uncompressed t format has_cpu_usage has_hw_usage
              plane pis stride); try done; [lia|by rewrite Ew|].
    intros Hpos Esp. destruct Hcase as [->|Hcase]; [lia|].
    cbv zeta in Hcase. rewrite Esp in Hcase. discriminate. }
  split; [exact Hst|].
  unfold plane_body. rewrite Esz. cbn [default fst].
  unfold plane_body_size. rewrite Hafbc, Hafrc, Hbl.
  rewrite u32_small, s32_small by nia. reflexivity.
Qed.

End Linear.

(** X9: byte strides of an uncompressed buffer meet the usage alignments.
    For a format whose tile size is 1, on requests of up to 8192 pixels a
    side, the byte stride of every plane is a multiple of 64 bytes (128 for a
    YUV format) when a hardware usage is present, and a multiple of the byte
    size of [align_w_cpu] pixels when a CPU usage is present. *)
Theorem X9_linear_strides_are_aligned (width height : Z) (t : alloc_type_t)
    (format : format_info_t) (has_cpu_usage has_hw_usage : bool)
    (pixel_stride : Z) (plane_info : list plane_info_t) (st : calc_state) :
  format_wf format →
  primary_type t = UNCOMPRESSED →
  tile_size format = 1 →
  1 ≤ width ≤ MAX_DIM → 1 ≤ height ≤ MAX_DIM →
  (npln format ≤ length plane_info)%nat →
  calc_allocation_size width height t format has_cpu_usage has_hw_usage
    pixel_stride plane_info = Some st →
  ∀ plane, (plane < npln format)%nat →
    let stride := byte_stride (pi_get (cs_plane_info st) plane) in
    let b := arr_get (bpp format) plane in
    (has_hw_usage = true → ((if is_yuv format then 128 else 64) | stride))
    ∧ (has_cpu_usage = true → (b * align_w_cpu format / 8 | stride)).
Proof.
  intros Hfwf Hunc Hts Hw Hh Hlen Hrun plane Hplane.
  destruct (linear_plane width height t format has_cpu_usage has_hw_usage
              pixel_stride plane_info st Hfwf Hunc Hw Hh Hlen Hrun plane Hplane)
    as (_ & _ & _ & _ & Dhw & Dcpu & _).
  cbv zeta. split; [apply Dhw|apply Dcpu]; exact Hts.
Qed.

(** X10: the pixel stride handed to CPU clients.  The pixel stride is 0
    unless the buffer is uncompressed and has a CPU usage.  For such a
    buffer, on requests of up to 8192 pixels a side, it is the byte stride of
    plane 0 counted in pixels, it is at least the requested width, and for a
    format of tile size 1 it is a multiple of [align_w_cpu]. *)
Theorem X10_pixel_stride (width height : Z) (t : alloc_type_t)
    (format : format_info_t) (has_cpu_usage has_hw_usage : bool)
    (pixel_stride : Z) (plane_info : list plane_info_t) (st : calc_state) :
  let stride0 := byte_stride (pi_get (cs_plane_info st) 0) in
  let bpp0 := arr_get (bpp format) 0 in
  (0 < npln format ≤ length plane_info)%nat →
  calc_allocation_size width height t format has_cpu_usage has_hw_usage
    pixel_stride plane_info = Some st →
  (is_afbc t || is_afrc t || is_block_linear t || negb has_cpu_usage = true →
   cs_pixel_stride st = 0)
  ∧ (primary_type t = UNCOMPRESSED → has_cpu_usage = true →
     format_wf format → 1 ≤ width ≤ MAX_DIM → 1 ≤ height ≤ MAX_DIM →
     cs_pixel_stride st * bpp0 = stride0 * 8
     ∧ width ≤ cs_pixel_stride st
     ∧ (tile_size format = 1 → (align_w_cpu format | cs_pixel_stride st))).
Proof.
  intros stride0 bpp0 Hn Hrun.
  destruct (calc_allocation_size_planes width height t format has_cpu_usage
              has_hw_usage pixel_stride plane_info st ltac:(lia) Hrun)
    as (_ & _ & Hpx & _).
  specialize (Hpx ltac:(lia)). unfold pixel_stride_done in Hpx.
  fold stride0 bpp0 in Hpx. split.
  - intros Hc. unfold is_cpu_accessible in Hpx.
    destruct (is_afbc t), (is_afrc t), (is_block_linear t), has_cpu_usage;
      cbn in Hc, Hpx; try done.
  - intros Hunc Hcpu Hfwf Hw Hh.
    destruct (uncompressed_type t Hunc) as (Hafbc & Hafrc & Hbl & Hwf).
    unfold is_cpu_accessible in Hpx. rewrite Hafbc, Hafrc, Hbl, Hcpu in Hpx.
    cbn [negb andb] in Hpx. destruct Hpx as [Hmod ->].
    destruct (linear_plane width height t format has_cpu_usage has_hw_usage
                pixel_stride plane_info st Hfwf Hunc Hw Hh ltac:(lia) Hrun
                0%nat ltac:(lia))
      as (Edims & Bw & _ & Hb & _ & Dcpu & Hrow).
    cbv zeta in Edims, Bw, Hb, Dcpu, Hrow.
    destruct (Hrow ltac:(by left)) as (Hfit & Hst & _).
    fold stride0 bpp0 in Hfit, Hst, Hb, Dcpu.
    rewrite u32_small in Hmod |- * by lia.
    assert (Eq : stride0 * 8 = stride0 * 8 / bpp0 * bpp0).
    { pose proof (Z.div_mod (stride0 * 8) bpp0 ltac:(lia)). lia. }
    assert (Hq : 0 ≤ stride0 * 8 / bpp0 ≤ 118896).
    { split; [apply Z.div_pos; lia|]. apply Z.div_le_upper_bound; nia. }
    rewrite s32_small by lia.
    split; [lia|].
    destruct (get_pixel_w_h_covers width height format t 0%nat has_cpu_usage
                Hfwf (Hwf format) ltac:(lia) (λ _, Hunc) Hw Hh) as (Hcov & _).
    cbv zeta in Hcov. rewrite <- Edims in Hcov. cbn [fst snd] in Hcov.
    specialize (Hcov eq_refl).
    split; [nia|].
    intros Hts. rewrite Hcpu in Dcpu. specialize (Dcpu Hts eq_refl).
    destruct (calc_allocation_size_planes width height t format has_cpu_usage
              has_hw_usage pixel_stride plane_info st ltac:(lia) Hrun)
      as (_ & _ & _ & Hdone).
    destruct (Hdone 0%nat ltac:(lia)) as (pis & stride & off & L & Ew & _ & Ec & Ei & _).
    pose proof (get_pixel_w_h_bounds width height format t 0%nat has_cpu_usage
                  Hfwf (Hwf format) ltac:(lia) (λ _, Hunc) Hw Hh) as (Bw0 & _).
    cbv zeta in Bw0.
    destruct (calc_byte_stride_linear t format has_cpu_usage has_hw_usage 0%nat pis
                stride Hfwf ltac:(lia) ltac:(lia) Hafbc Hafrc Hbl
                ltac:(rewrite Ew; exact Bw0) Ec)
      as (_ & Hca & _).
    cbv zeta in Hca. destruct (Hca Hcpu) as [Hcmod Hc1]. fold bpp0 in Hcmod, Hc1.
    destruct Hfwf as (_ & _ & _ & Hawc & _).
    set (awc := align_w_cpu format) in *.
    assert (Ec8 : bpp0 * awc = bpp0 * awc / 8 * 8).
    { pose proof (Z.div_mod (bpp0 * awc) 8 ltac:(lia)). lia. }
    destruct Dcpu as [k Hk].
    exists k.
    set (q := stride0 * 8 / bpp0) in *. set (c := bpp0 * awc / 8) in *.
    assert (q * bpp0 = k * awc * bpp0) by nia. nia.
Qed.

(** X11: a plane of an uncompressed buffer has room for its pixels.  On
    requests of up to 8192 pixels a side, for plane 0 and, outside the YV12
    case with CPU and hardware usage, for every plane: the allocation size
    covers the (sub-sampled) request, a row of the allocation width fits in
    the byte stride, the body is the byte stride times the allocation
    height, and the body lies inside the buffer. *)
Theorem X11_linear_planes_hold_their_pixels (width height : Z) (t : alloc_type_t)
    (format : format_info_t) (has_cpu_usage has_hw_usage : bool)
    (pixel_stride : Z) (plane_info : list plane_info_t) (st : calc_state)
    (plane : nat) :
  let info := pi_get (cs_plane_info st) plane in
  let b := arr_get (bpp format) plane in
  format_wf format →
  primary_type t = UNCOMPRESSED →
  1 ≤ width ≤ MAX_DIM → 1 ≤ height ≤ MAX_DIM →
  (npln format ≤ length plane_info)%nat →
  calc_allocation_size width height t format has_cpu_usage has_hw_usage
    pixel_stride plane_info = Some st →
  (plane < npln format)%nat →
  plane = 0%nat
  ∨ (id format =? format_id YV12) && has_hw_usage && has_cpu_usage = false →
  (plane = 0%nat → width ≤ alloc_width info ∧ height ≤ alloc_height info)
  ∧ ((0 < plane)%nat → (hsub format | align_w format) →
     width ≤ alloc_width info * hsub format)
  ∧ ((0 < plane)%nat → (vsub format | align_h format) →
     height ≤ alloc_height info * vsub format)
  ∧ alloc_width info * b ≤ byte_stride info * 8
  ∧ plane_body st plane = byte_stride info * alloc_height info
  ∧ 0 ≤ plane_offset st plane
  ∧ plane_offset st plane + plane_body st plane ≤ cs_size st.
Proof.
  intros info b Hfwf Hunc Hw Hh Hlen Hrun Hplane Hcase.
  destruct (uncompressed_type t Hunc) as (Hafbc & Hafrc & Hbl & Hwf).
  destruct (linear_plane width height t format has_cpu_usage has_hw_usage
              pixel_stride plane_info st Hfwf Hunc Hw Hh Hlen Hrun plane Hplane)
    as (Edims & _ & _ & _ & _ & _ & Hrow).
  cbv zeta in Edims, Hrow. fold info b in Edims, Hrow.
  destruct (Hrow Hcase) as (Hfit & _ & Ebody).
  destruct (get_pixel_w_h_covers width height format t plane has_cpu_usage
              Hfwf (Hwf format) Hplane (λ _, Hunc) Hw Hh) as (C0 & Cw & Ch).
  cbv zeta in C0, Cw, Ch. rewrite <- Edims in C0, Cw, Ch. cbn [fst snd] in C0, Cw, Ch.
  split; [exact C0|]. split; [exact Cw|]. split; [exact Ch|].
  split; [exact Hfit|]. split; [exact Ebody|].
  assert (Hinv : layout_inv t format has_cpu_usage has_hw_usage (length plane_info)
                   (0 + npln format) st).
  { unfold calc_allocation_size in Hrun.
    exact (layout_inv_loop width height t format has_cpu_usage has_hw_usage
             (length plane_info) (npln format) Hfwf (Hwf format) Hlen
             (λ _, Hunc) Hw Hh 0%nat _ st ltac:(lia)
             (layout_inv_init t format has_cpu_usage has_hw_usage pixel_stride
                plane_info) Hrun). }
  destruct Hinv as (_ & _ & _ & _ & Hin & _).
  destruct (Hin plane ltac:(lia)) as (_ & Hhd & _ & Hoff & Hend).
  split; [exact Hoff|]. lia.
Qed.

End LinearLayout.


(** ** The header area of an AFBC plane *)

Section HeaderArea.
Context `{H : Headers} `{F : FormatHeaders}.

Lemma afbc_type_wf t format : is_afbc t = true → alloc_type_wf format t.
Proof.
  intros Hafbc Hafrc. unfold is_afrc in Hafrc. apply bool_decide_eq_true in Hafrc.
  unfold is_afbc in Hafbc. rewrite Hafrc in Hafbc. discriminate.
Qed.

(** X12: [init_afbc] fills the header area that the layout reserved.  For a
    plane of a block-compressed layout (no CPU usage, up to 8192 pixels a
    side) and an internal format whose tiled-headers bit agrees with the
    layout, [init_afbc] called with the allocation size of the plane computes
    the header size of the plane as its body offset, and its entries end
    within the header area.  On a buffer that holds the header area it
    writes one entry per superblock and leaves the rest as it was.  The
    entries hold the header size of the plane as their body offset, with bit
    28 in the entry of subsampled YUV in a single plane; the entry of the
    other formats is all zero with tiled headers and holds no body offset. *)
Theorem X12_init_afbc_fills_the_header_area (width height : Z) (t : alloc_type_t)
    (format : format_info_t) (has_hw_usage : bool) (pixel_stride : Z)
    (plane_info : list plane_info_t) (st : calc_state) (plane : nat)
    (alloc_format : Z) :
  let info := pi_get (cs_plane_info st) plane in
  let aw := alloc_width info in
  let ah := alloc_height info in
  let header := plane_header st plane in
  let n := Z.to_nat (aw * ah / 256) in
  let base_format := u32 (Z.land alloc_format MALI_GRALLOC_INTFMT_FMT_MASK) in
  format_wf format →
  is_afbc t = true →
  1 ≤ width ≤ MAX_DIM → 1 ≤ height ≤ MAX_DIM →
  (plane < npln format ≤ length plane_info)%nat →
  calc_allocation_size width height t format false has_hw_usage
    pixel_stride plane_info = Some st →
  (Z.land alloc_format MALI_GRALLOC_INTFMT_AFBC_TILED_HEADERS
   =? MALI_GRALLOC_INTFMT_AFBC_TILED_HEADERS) = is_tiled t →
  init_afbc_body_offset alloc_format aw ah = header
  ∧ 16 * Z.of_nat n ≤ header
  ∧ ∀ (buf : list Z) (is_multi_plane : bool),
      header ≤ 4 * Z.of_nat (length buf) →
      let entry :=
        if is_subsampled_yuv base_format && negb is_multi_plane
        then [header + 2 ^ 28; 0x80200040; 0x1004000; 0x20080]
        else if has_bits alloc_format MALI_GRALLOC_INTFMT_AFBC_TILED_HEADERS
        then [0; 0; 0; 0]
        else [header; 0x1; 0x10000; 0x0] in
      init_afbc buf alloc_format is_multi_plane aw ah
      = Some (concat (replicate n entry) ++ drop (4 * n) buf).
Proof.
  intros info aw ah header n base_format Hfwf Hafbc Hw Hh Hplane Hrun Htiled.
  destruct (calc_allocation_size_planes width height t format false has_hw_usage
              pixel_stride plane_info st ltac:(lia) Hrun) as (_ & _ & _ & Hdone).
  destruct (Hdone plane ltac:(lia)) as (pis & stride & off & _ & _ & _ & _ & Ei & Esz).
  pose proof (get_pixel_w_h_bounds width height format t plane false
                Hfwf (afbc_type_wf t format Hafbc) ltac:(lia)
                ltac:(discriminate) Hw Hh) as (Bw & Bh & _).
  cbv zeta in Bw, Bh.
  assert (Eaw : aw = (get_pixel_w_h (u32 width) (u32 height) format t plane false).1).
  { subst aw info. rewrite Ei. reflexivity. }
  assert (Eah : ah = (get_pixel_w_h (u32 width) (u32 height) format t plane false).2).
  { subst ah info. rewrite Ei. reflexivity. }
  rewrite <- Eaw in Bw, Esz. rewrite <- Eah in Bh, Esz.
  subst n. clearbody aw ah.
  assert (Hwh : 0 ≤ aw * ah < 2 ^ 31) by nia.
  destruct (init_afbc_n_headers_exact aw ah ltac:(lia) ltac:(lia) ltac:(lia))
    as [En Hn].
  assert (Ehdr : header
                 = afbc_buffer_align (is_tiled t) (16 * (aw * ah / 256))).
  { subst header. unfold plane_header. rewrite Esz.
    unfold default, from_option, Datatypes.id. cbn [snd].
    unfold plane_header_size. rewrite Hafbc.
    unfold AFBC_PIXELS_PER_BLOCK, AFBC_HEADER_BUFFER_BYTES_PER_BLOCKENTRY.
    rewrite (u32_small (aw * ah)) by lia.
    assert (Hx : 0 ≤ aw * ah / 256 * 16 < 2 ^ 31) by lia.
    rewrite (u32_small (aw * ah / 256 * 16)) by lia.
    rewrite s32_small by lia. f_equal. lia. }
  assert (Eoff : init_afbc_body_offset alloc_format aw ah = header).
  { unfold init_afbc_body_offset. rewrite Htiled, En, Ehdr.
    unfold AFBC_HEADER_BUFFER_BYTES_PER_BLOCKENTRY.
    rewrite u32_small, s32_small by lia. f_equal. lia. }
  clearbody header.
  split; [exact Eoff|].
  assert (Hfit : 16 * Z.of_nat (Z.to_nat (aw * ah / 256)) ≤ header).
  { destruct (init_afbc_contents [] alloc_format false aw ah
                ltac:(lia) ltac:(lia) ltac:(lia)) as (Eb & Hle & _).
    rewrite <- Eoff, Eb. exact Hle. }
  split; [exact Hfit|].
  intros buf is_multi_plane Hbuf.
  destruct (init_afbc_contents buf alloc_format is_multi_plane aw ah
              ltac:(lia) ltac:(lia) ltac:(lia)) as (Eb & _ & Hok & _).
  rewrite Eoff in Eb. rewrite <- Eb in Hok. fold base_format in Hok.
  apply Hok. lia.
Qed.

End HeaderArea.


(** ** The selector on AFBC and on uncompressed formats *)

Section Selection.
Context `{H : Headers}.

(** X13: the answer of the selector for an AFBC format, as a function of the
    bits.  The selector fails, with an invalid-combination error, exactly
    when extra-wide blocks come without tiled headers or when a one-plane
    format carries both the wide and the extra-wide bit.  Otherwise it
    succeeds: wide wins over extra-wide for the superblock of plane 0, the
    layout is multi-plane only for a format of several planes with tiled
    headers and the extra-wide bit, it is front-buffer safe only with tiled
    headers and double body, and padding follows the usage. *)
Theorem X13_afbc_selection (format_ext : Z) (format_idx : nat) (usage : Z)
    (alloc_type : alloc_type_t) :
  let format := format_at format_idx in
  let wide := has_bits format_ext MALI_GRALLOC_INTFMT_AFBC_WIDEBLK in
  let extra_wide := has_bits format_ext MALI_GRALLOC_INTFMT_AFBC_EXTRAWIDEBLK in
  let tiled := has_bits format_ext MALI_GRALLOC_INTFMT_AFBC_TILED_HEADERS in
  let double_body := has_bits format_ext MALI_GRALLOC_INTFMT_AFBC_DOUBLE_BODY in
  is_format_afbc format_ext = true →
  if (extra_wide && negb tiled)
     || (bool_decide (npln format = 1%nat) && wide && extra_wide)
  then ∃ l e, get_alloc_type format_ext format_idx usage alloc_type = (l, inl e)
         ∧ kind_of e = InvalidEncodingCombination
  else ∃ l, get_alloc_type format_ext format_idx usage alloc_type
            = (l, inr {| primary_type :=
                           if wide then AFBC_WIDEBLK
                           else if extra_wide then AFBC_EXTRAWIDEBLK else AFBC;
                         is_multi_plane :=
                           bool_decide (1 < npln format)%nat && tiled && extra_wide;
                         is_tiled := tiled;
                         is_padded :=
                           has_bits usage MALI_GRALLOC_USAGE_AFBC_PADDING;
                         is_frontbuffer_safe := tiled && double_body;
                         afrc := afrc alloc_type |}).
Proof.
  intros format wide extra_wide tiled double_body Hafbc.
  unfold get_alloc_type. rewrite Hafbc, has_bits_lor.
  fold format wide extra_wide tiled double_body.
  destruct (is_yuv _ && has_bits _ MALI_GRALLOC_INTFMT_AFBC_YUV_TRANSFORM);
  destruct (bool_decide (1 < npln format)%nat);
  destruct (bool_decide (npln format = 1%nat));
  destruct wide, extra_wide, tiled, double_body,
    (has_bits usage MALI_GRALLOC_USAGE_AFBC_PADDING);
  cbn; eexists; try (eexists; split; reflexivity); reflexivity.
Qed.

(** The selector on a format that is neither AFBC nor AFRC always succeeds
    and logs nothing. *)
Lemma get_alloc_type_linear (format_ext : Z) (format_idx : nat) (usage : Z)
    (alloc_type : alloc_type_t) :
  is_format_afbc format_ext = false →
  is_format_afrc format_ext = false →
  get_alloc_type format_ext format_idx usage alloc_type
  = ([], inr {| primary_type :=
                  if is_format_block_linear format_ext then BLOCK_LINEAR
                  else UNCOMPRESSED;
                is_multi_plane :=
                  bool_decide (1 < npln (format_at format_idx))%nat;
                is_tiled := false; is_padded := false;
                is_frontbuffer_safe := false; afrc := afrc alloc_type |}).
Proof.
  intros Hafbc Hafrc. unfold get_alloc_type. rewrite Hafbc, Hafrc.
  destruct (is_format_block_linear format_ext); reflexivity.
Qed.

End Selection.


(** ** What a derivation answers *)

Section DeriveProperties.
Context `{H : Headers}.

Lemma validate_format_success format t descriptor l :
  validate_format format t descriptor = (l, inr tt) →
  l = [] ∧ encoding_supported format t
  ∧ (id format = format_id BLOB → d_height descriptor = 1).
Proof.
  unfold validate_format, encoding_supported.
  destruct (is_afbc t).
  - destruct (afbc format); cbn; [|discriminate].
    destruct (bool_decide (npln format = 1%nat)) eqn:E1;
    destruct (bool_decide (1 < npln format)%nat) eqn:E2;
    destruct (is_multi_plane t); cbn; try discriminate;
    destruct (Z.eqb_spec (id format) (format_id BLOB)) as [Eb|Eb];
    destruct (Z.eqb_spec (d_height descriptor) 1) as [Eh|Eh]; cbn;
    try discriminate; intros [= <-];
    try apply bool_decide_eq_true in E1; try apply bool_decide_eq_false in E1;
    try apply bool_decide_eq_true in E2; try apply bool_decide_eq_false in E2;
    repeat split; try done; try lia.
  - destruct (is_afrc t); [|destruct (is_block_linear t)].
    + destruct (afrc_supported format); cbn; [|discriminate].
      destruct (Z.eqb_spec (id format) (format_id BLOB)) as [Eb|Eb];
      destruct (Z.eqb_spec (d_height descriptor) 1) as [Eh|Eh]; cbn;
      try discriminate; intros [= <-]; done.
    + destruct (block_linear format); cbn; [|discriminate].
      destruct (Z.eqb_spec (id format) (format_id BLOB)) as [Eb|Eb];
      destruct (Z.eqb_spec (d_height descriptor) 1) as [Eh|Eh]; cbn;
      try discriminate; intros [= <-]; done.
    + destruct (linear format); cbn; [|discriminate].
      destruct (Z.eqb_spec (id format) (format_id BLOB)) as [Eb|Eb];
      destruct (Z.eqb_spec (d_height descriptor) 1) as [Eh|Eh]; cbn;
      try discriminate; intros [= <-]; done.
Qed.

(** X14: what a successful derivation guarantees.  When the derivation
    returns 0, the internal format it stored is the selected one and is not
    UNDEFINED, its base format is in the catalogue, the selector accepted
    its encoding bits, the catalogue entry supports the encoding that was
    chosen (for AFBC: the entry allows AFBC, and the layout is multi-plane
    exactly when the format has several planes), and a BLOB has height 1. *)
Theorem X14_derive_answers_supported_encodings (descriptor d' : buffer_descriptor_t)
    (l : list log_msg) :
  let usage := Z.lor (d_producer_usage descriptor) (d_consumer_usage descriptor) in
  let alloc_format :=
    mali_gralloc_select_format (d_hal_format descriptor)
      (d_format_type descriptor) usage in
  mali_gralloc_derive_format_and_size descriptor = (l, inr d') →
  d_alloc_format d' = alloc_format
  ∧ alloc_format ≠ format_id UNDEFINED
  ∧ ∃ format_idx t,
      get_format_index (Z.land alloc_format MALI_GRALLOC_INTFMT_FMT_MASK)
      = Some format_idx
      ∧ get_alloc_type (Z.land alloc_format MALI_GRALLOC_INTFMT_EXT_MASK)
          format_idx usage alloc_type_zero = (l, inr t)
      ∧ encoding_supported (format_at format_idx) t
      ∧ (id (format_at format_idx) = format_id BLOB → d_height descriptor = 1).
Proof.
  intros usage alloc_format.
  unfold mali_gralloc_derive_format_and_size.
  cbn [d_alloc_format set_alloc_format d_pixel_stride d_plane_info d_height].
  fold usage. fold alloc_format.
  destruct (Z.eqb_spec alloc_format (format_id UNDEFINED)) as [|Hne]; [discriminate|].
  destruct (get_format_index _) as [format_idx|] eqn:Eidx; [|discriminate].
  destruct (get_alloc_type _ _ _ _) as [l1 [e|t]] eqn:Etype; [discriminate|].
  cbn [bind].
  destruct (validate_format _ _ _) as [l2 [e|[]]] eqn:Evalid; [discriminate|].
  apply validate_format_success in Evalid as (-> & Hsup & Hblob).
  destruct (mali_gralloc_adjust_dimensions _ _ _ _) as [w h].
  match goal with
  | |- context [calc_allocation_size ?a ?b ?c ?d ?e ?f ?g ?i] =>
      destruct (calc_allocation_size a b c d e f g i) as [st|]; [|discriminate]
  end.
  cbn. intros Hd. injection Hd as <- <-.
  cbn [set_size set_layout set_alloc_format d_alloc_format].
  split; [reflexivity|]. split; [exact Hne|].
  exists format_idx, t. rewrite !app_nil_r. done.
Qed.

(** X15: a BLOB needs height 1.  When the selected format is in the
    catalogue as BLOB and the requested height is not 1, the derivation
    returns an error before any layout is computed; when the format is
    selected without encoding bits and the entry allows the uncompressed
    encoding, the error is the height error and its message is the only one
    logged. *)
Theorem X15_blob_needs_height_one (descriptor : buffer_descriptor_t)
    (format_idx : nat) :
  let usage := Z.lor (d_producer_usage descriptor) (d_consumer_usage descriptor) in
  let alloc_format :=
    mali_gralloc_select_format (d_hal_format descriptor)
      (d_format_type descriptor) usage in
  let format_ext := Z.land alloc_format MALI_GRALLOC_INTFMT_EXT_MASK in
  get_format_index (Z.land alloc_format MALI_GRALLOC_INTFMT_FMT_MASK)
  = Some format_idx →
  id (format_at format_idx) = format_id BLOB →
  d_height descriptor ≠ 1 →
  ∃ l e,
    mali_gralloc_derive_format_and_size descriptor = (l, inl e)
    ∧ e ≠ Assertion_failed
    ∧ (alloc_format ≠ format_id UNDEFINED →
       is_format_afbc format_ext = false → is_format_afrc format_ext = false →
       is_format_block_linear format_ext = false →
       linear (format_at format_idx) = true →
       e = Err_blob_height ∧ kind_of e = InvalidDimensions
       ∧ l = [LOGE_blob_height]).
Proof.
  intros usage alloc_format format_ext Hidx Hblob Hheight.
  unfold mali_gralloc_derive_format_and_size.
  cbn [d_alloc_format set_alloc_format d_pixel_stride d_plane_info d_height].
  fold usage. fold alloc_format. fold format_ext.
  destruct (Z.eqb_spec alloc_format (format_id UNDEFINED)) as [Eu|Hne].
  { eexists _, _. split; [reflexivity|]. split; [discriminate|]. done. }
  rewrite Hidx.
  destruct (get_alloc_type _ _ _ _) as [l1 [e|t]] eqn:Etype.
  { cbn. exists l1, e. split; [reflexivity|]. split.
    - intros ->. revert Etype. unfold get_alloc_type.
      clear. intros Etype.
      destruct (is_format_afbc format_ext).
      + revert Etype. rewrite has_bits_lor.
        repeat (match goal with
                | |- context [if ?b then _ else _] => destruct b
                | |- context [when ?b _] => destruct b
                end; cbn); intros [=].
      + destruct (is_format_afrc format_ext).
        * revert Etype. cbn.
          destruct (afrc_plane_alignment_requirement _) as [la [ea|a]] eqn:Ea.
          { unfold afrc_plane_alignment_requirement in Ea.
            repeat case_match; discriminate. }
          cbn. destruct (a =? 0); cbn; [intros [=]|].
          destruct (afrc_plane_alignment_requirement
                      (afrc_coding_unit_bytes format_ext
                         MALI_GRALLOC_INTFMT_AFRC_CHROMA_CODING_UNIT_BYTES_SHIFT))
            as [lb [eb|b]] eqn:Eb.
          { unfold afrc_plane_alignment_requirement in Eb.
            repeat case_match; discriminate. }
          cbn. destruct (b =? 0); cbn; [intros [=]|].
          match goal with
          | |- context [for_planes ?f ?p ?a] =>
              destruct (for_planes f p a) as [lc [ec|c]] eqn:Ec
          end; cbn; [|intros [=]].
          intros [= _ ->].
          assert (Hfp : ∀ planes a0 l0,
                    for_planes (afrc_clump (format_at format_idx)) planes a0
                    ≠ (l0, inl Assertion_failed)).
          { clear. induction planes as [|p planes IH]; intros a0 l0; cbn; [done|].
            pose proof (afrc_clump_spec (format_at format_idx) p a0) as Hs.
            destruct (clump_of _ _) as [[w h]|]; rewrite Hs; cbn.
            - destruct (for_planes _ planes _) as [l' [e'|a']] eqn:E'; cbn; [|done].
              intros [= _ ->]. by eapply IH.
            - discriminate. }
          by eapply Hfp.
        * destruct (is_format_block_linear format_ext); discriminate.
    - intros _ Hafbc Hafrc Hbl _.
      rewrite get_alloc_type_linear in Etype by done. discriminate. }
  cbn [bind].
  assert (Hv : ∃ l2 e2, validate_format (format_at format_idx) t
                          (set_alloc_format descriptor alloc_format) = (l2, inl e2)
                        ∧ e2 ≠ Assertion_failed
                        ∧ (is_afbc t = false → is_afrc t = false →
                           is_block_linear t = false →
                           linear (format_at format_idx) = true →
                           l2 = [LOGE_blob_height] ∧ e2 = Err_blob_height)).
  { unfold validate_format. cbn [d_height set_alloc_format].
    rewrite Hblob, Z.eqb_refl.
    destruct (Z.eqb_spec (d_height descriptor) 1) as [|_]; [done|].
    destruct (is_afbc t); [|destruct (is_afrc t); [|destruct (is_block_linear t)]].
    - destruct (afbc _); cbn.
      + destruct (_ || _); cbn; eexists _, _; (split; [reflexivity|]);
          (split; [discriminate|]); discriminate.
      + eexists _, _. split; [reflexivity|]. split; discriminate.
    - destruct (afrc_supported _); cbn;
        eexists _, _; (split; [reflexivity|]); (split; discriminate).
    - destruct (block_linear _); cbn;
        eexists _, _; (split; [reflexivity|]); (split; discriminate).
    - destruct (linear _) eqn:El; cbn;
        eexists _, _; (split; [reflexivity|]); (split; [discriminate|]).
      + intros _ _ _ _. done.
      + intros _ _ _ [=]. }
  destruct Hv as (l2 & e2 & -> & Hna & Hlin). cbn.
  eexists _, _. split; [reflexivity|]. split; [exact Hna|].
  intros _ Hafbc Hafrc Hbl Hl.
  rewrite get_alloc_type_linear in Etype by done.
  rewrite Hbl in Etype. injection Etype as <- <-.
  destruct (Hlin eq_refl eq_refl eq_refl Hl) as [-> ->]. done.
Qed.

End DeriveProperties.


(** ** The YV12 strides *)

(** X16: the two calls of [update_yv12_stride] fit together.  For a stride
    alignment that is a positive multiple of 16, the luma call rounds the
    luma stride up to a multiple of twice the alignment, and the chroma call
    on that result passes both assertions and answers half of it, a multiple
    of the alignment and of 16.  A chroma call on a luma stride whose half
    is not a multiple of 16 fails its assertion. *)
Theorem X16_yv12_strides_fit_together (luma_stride stride_align : Z) :
  0 < stride_align → (16 | stride_align) →
  0 ≤ luma_stride → luma_stride + 2 * stride_align < 2 ^ 32 →
  (∃ luma,
     update_yv12_stride 0 luma_stride stride_align = Some luma
     ∧ luma_stride ≤ luma < luma_stride + 2 * stride_align
     ∧ (2 * stride_align | luma)
     ∧ ∀ plane, (0 < plane)%nat →
         update_yv12_stride plane luma stride_align = Some (luma / 2)
         ∧ 2 * (luma / 2) = luma
         ∧ (stride_align | luma / 2) ∧ (16 | luma / 2))
  ∧ (∀ plane, (0 < plane)%nat → Z.land (luma_stride / 2) 15 ≠ 0 →
       update_yv12_stride plane luma_stride stride_align = None).
Proof.
  intros Hpos H16 Hluma Hfit. split.
  - unfold update_yv12_stride at 1. rewrite bool_decide_eq_true_2 by done.
    eexists. split; [reflexivity|].
    rewrite (u32_small (2 * stride_align)) by lia.
    pose proof (GRALLOC_ALIGN_u32_bounds luma_stride (2 * stride_align)
                  ltac:(lia) ltac:(lia) ltac:(lia)) as Hb.
    pose proof (GRALLOC_ALIGN_u32_divide luma_stride (2 * stride_align)
                  ltac:(lia)) as [k Hk].
    set (luma := GRALLOC_ALIGN u32 luma_stride (2 * stride_align)) in *.
    split; [exact Hb|]. split; [by exists k|].
    intros plane Hplane.
    assert (Ehalf : luma / 2 = k * stride_align).
    { rewrite Hk. replace (k * (2 * stride_align)) with (k * stride_align * 2) by lia.
      apply Z.div_mul. lia. }
    assert (Hk0 : 0 ≤ k) by nia.
    assert (Dal : (stride_align | luma / 2)) by (rewrite Ehalf; by exists k).
    assert (D16 : (16 | luma / 2)) by (etrans; [exact H16|exact Dal]).
    unfold update_yv12_stride. rewrite bool_decide_eq_false_2 by lia.
    assert (Eal : GRALLOC_ALIGN u32 (luma / 2) stride_align = luma / 2).
    { rewrite GRALLOC_ALIGN_u32_exact by nia.
      apply round_up_fixed; [lia|exact Dal]. }
    rewrite Eal, Z.eqb_refl. cbn [c_assert mbind option_bind].
    assert (E15 : Z.land (luma / 2) 15 = 0).
    { change 15 with (Z.ones 4). rewrite Z.land_ones by lia.
      destruct D16 as [q ->]. change (2 ^ 4) with 16. apply Z_mod_mult. }
    rewrite E15. cbn. split; [reflexivity|]. split; [lia|done].
  - intros plane Hplane H15. unfold update_yv12_stride.
    rewrite bool_decide_eq_false_2 by lia.
    destruct (_ =? GRALLOC_ALIGN _ _ _); cbn; [|reflexivity].
    destruct (Z.eqb_spec (Z.land (luma_stride / 2) 15) 0); [done|reflexivity].
Qed.


(** ** Layouts that never fail an assertion *)

Lemma calc_planes_total_inv (P : nat → calc_state → Prop)
    (step : nat → calc_state → option calc_state) (n : nat) :
  ∀ k st,
    P k st →
    (∀ i s, (k ≤ i < k + n)%nat → P i s → ∃ s', step i s = Some s' ∧ P (S i) s') →
    ∃ st', calc_planes step (seq k n) st = Some st' ∧ P (k + n)%nat st'.
Proof.
  induction n as [|n IH]; intros k st HP Hstep; cbn.
  - exists st. by rewrite Nat.add_0_r.
  - destruct (Hstep k st ltac:(lia) HP) as (s1 & -> & HP1). cbn.
    destruct (IH (S k) s1 HP1) as (st' & Hrun & HP').
    { intros i s Hi. apply Hstep. lia. }
    exists st'. split; [exact Hrun|]. by replace (k + S n)%nat with (S k + n)%nat by lia.
Qed.

Section Totality.
Context `{H : Headers}.

(** The clumps and the paging tile of a type that the selector answered
    are not zero. *)
Lemma afrc_divisors format t plane :
  alloc_type_wf format t → is_afrc t = true → (plane < npln format)%nat →
  arr_get (clump_width (afrc t)) plane ≠ 0
  ∧ arr_get (clump_height (afrc t)) plane ≠ 0
  ∧ paging_tile_width (afrc t) ≠ 0.
Proof.
  intros Hwf Ht Hplane.
  destruct (Hwf Ht) as (Htile & _ & _ & _ & _ & Hclump).
  destruct (clump_of_cases _ _ _ _ Htile (Hclump plane Hplane)) as [Hcw Hch].
  split_and!; [lia|lia|]. destruct Htile as [[-> _]|[-> _]]; lia.
Qed.

Lemma calc_plane_afrc_total width height t format has_cpu_usage has_hw_usage plane st :
  is_afrc t = true → alloc_type_wf format t → (plane < npln format)%nat →
  ((0 < plane)%nat → hsub format ≠ 0 ∧ vsub format ≠ 0) →
  is_Some (calc_plane width height t format has_cpu_usage has_hw_usage plane st).
Proof.
  intros Ht Hwf Hplane Hsub. unfold calc_plane.
  rewrite (get_pixel_w_h_divisors_ok _ _ Hsub). cbn [mbind option_bind].
  destruct (afrc_divisors format t plane Hwf Ht Hplane) as (Hcw & Hch & Hptw).
  destruct (get_pixel_w_h _ _ _ _ _ _) as [w h].
  unfold calc_byte_stride. rewrite Ht.
  rewrite !c_divisor_nonzero by done. cbn [mbind option_bind].
  assert (Hafbc : is_afbc t = false).
  { unfold is_afrc in Ht. apply bool_decide_eq_true in Ht.
    unfold is_afbc. by rewrite Ht. }
  rewrite Hafbc. cbn [negb andb].
  destruct (bool_decide (plane = 0%nat)); cbn [mbind option_bind];
    rewrite !c_divisor_nonzero by done; cbn; by eexists.
Qed.

Lemma calc_plane_block_linear_total width height t format has_hw_usage plane st :
  is_block_linear t = true → tile_size format ≤ 16 →
  ((0 < plane)%nat → hsub format ≠ 0 ∧ vsub format ≠ 0) →
  is_Some (calc_plane width height t format false has_hw_usage plane st).
Proof.
  intros Ht Hts Hsub. unfold calc_plane.
  rewrite (get_pixel_w_h_divisors_ok _ _ Hsub). cbn [mbind option_bind].
  assert (Hafbc : is_afbc t = false ∧ is_afrc t = false).
  { unfold is_block_linear in Ht. apply bool_decide_eq_true in Ht.
    unfold is_afbc, is_afrc. by rewrite Ht. }
  destruct Hafbc as [Hafbc Hafrc].
  assert (Haw8 : (8 | (get_pixel_w_h (u32 width) (u32 height) format t plane false).1)).
  { unfold get_pixel_w_h. destruct (plane_w_h _ _ _ _) as [w1 h1].
    unfold pixel_align. rewrite Hafbc, Hafrc, Ht. cbn [fst snd].
    rewrite max3_spec. replace (Z.max (Z.max 1 16) (tile_size format)) with 16 by lia.
    etrans; [|apply GRALLOC_ALIGN_u32_divide; lia]. by exists 2. }
  destruct (get_pixel_w_h _ _ _ _ _ _) as [aw ah]. cbn [fst] in Haw8.
  unfold calc_byte_stride. rewrite Hafrc, Hafbc, Ht.
  set (info := pi_get _ plane).
  assert (Hinfo : (8 | alloc_width info)).
  { subst info. destruct (decide (plane < length (cs_plane_info st))%nat).
    - rewrite pi_get_insert_eq by done. exact Haw8.
    - rewrite pi_get_ge by (rewrite length_insert; lia). by exists 0. }
  assert (Hmod : u32 (alloc_width info * arr_get (bpp format) plane) mod 8 = 0).
  { rewrite u32_mod_8. apply Z.mod_divide; [done|]. by apply Z.divide_mul_l. }
  rewrite Hmod. cbn [Z.eqb c_assert mbind option_bind].
  assert (Hguard : (if bool_decide (0 < plane)%nat
                    then c_divisor (vsub format);; c_divisor (hsub format)
                    else Some tt) = Some tt).
  { case_bool_decide; [|done]. destruct Hsub as [Hh Hv]; [done|].
    by rewrite !c_divisor_nonzero. }
  rewrite Hguard. cbn.
  destruct (bool_decide (plane = 0%nat)); cbn; by eexists.
Qed.

(** X17: compressed and tiled layouts never fail an assertion or a
    division.  For a catalogue entry whose fields lie in the usual ranges
    and, for AFRC, a type with the paging tile and clumps that the selector
    sets, the size computation returns a layout for every width and height,
    wrap-around included: for an AFRC buffer with any usage, and for an AFBC
    or block-linear buffer without CPU usage. *)
Theorem X17_compressed_layouts_are_total (width height : Z) (t : alloc_type_t)
    (format : format_info_t) (has_cpu_usage has_hw_usage : bool)
    (pixel_stride : Z) (plane_info : list plane_info_t) :
  format_wf format → alloc_type_wf format t →
  is_afrc t = true
  ∨ ((is_afbc t = true ∨ is_block_linear t = true) ∧ has_cpu_usage = false) →
  ∃ st,
    calc_allocation_size width height t format has_cpu_usage has_hw_usage
      pixel_stride plane_info = Some st.
Proof.
  intros Hfwf Hwf Hcase.
  assert (Hsub : ∀ plane, (plane < npln format)%nat → (0 < plane)%nat →
                 hsub format ≠ 0 ∧ vsub format ≠ 0).
  { intros plane Hplane Hpos.
    destruct Hfwf as (_ & _ & _ & _ & _ & Hs & _). destruct Hs; lia. }
  assert (Hts : tile_size format ≤ 16) by (destruct Hfwf as (_ & _ & _ & _ & ? & _); lia).
  unfold calc_allocation_size.
  enough (Hs : is_Some (calc_planes
                          (calc_plane width height t format has_cpu_usage has_hw_usage)
                          (seq 0 (npln format))
                          {| cs_plane_info :=
                               <[0%nat := set_offset (pi_get plane_info 0) 0]> plane_info;
                             cs_size := 0; cs_pixel_stride := pixel_stride;
                             cs_sizes := [] |}))
    by (destruct Hs as [st Hs]; by exists st).
  apply calc_planes_total. intros plane st Hin.
  apply elem_of_seq in Hin.
  destruct Hcase as [Hafrc|([Hafbc|Hbl] & ->)].
  - apply calc_plane_afrc_total; [done|done|lia|apply Hsub; lia].
  - apply calc_plane_afbc_total; [done|done|apply Hsub; lia].
  - apply calc_plane_block_linear_total; [done|done|apply Hsub; lia].
Qed.

(** The byte stride of an uncompressed plane is computed without a failing
    assertion when the pixel size is a whole number of bytes and, in the
    YV12 case, plane 0 left a luma stride that is a multiple of twice the
    stride alignment. *)
Lemma calc_byte_stride_linear_total t format has_cpu_usage has_hw_usage plane pis :
  format_wf format → (plane < npln format)%nat → (plane < length pis)%nat →
  is_afbc t = false → is_afrc t = false → is_block_linear t = false →
  (8 | arr_get (bpp format) plane) →
  ((0 < plane)%nat →
   (id format =? format_id YV12) && has_hw_usage && has_cpu_usage = true →
   0 ≤ byte_stride (pi_get pis 0) < 2 ^ 31
   ∧ (2 * lcm (if is_yuv format then 128 else 64)
              (arr_get (bpp format) plane * align_w_cpu format / 8)
      | byte_stride (pi_get pis 0))) →
  is_Some (calc_byte_stride t format has_cpu_usage has_hw_usage plane pis).
Proof.
  intros (_ & _ & _ & Hcpu & Hts & _ & Hbpp) Hplane Hlen Hafbc Hafrc Hbl D8 Hluma.
  destruct (Hbpp plane Hplane) as [Hb _].
  unfold calc_byte_stride. rewrite Hafbc, Hafrc, Hbl.
  set (b := arr_get (bpp format) plane) in *.
  assert (Hmod : u32 (alloc_width (pi_get pis plane) * b) mod 8 = 0).
  { rewrite u32_mod_8. apply Z.mod_divide; [done|]. by apply Z.divide_mul_r. }
  rewrite Hmod. cbn [Z.eqb c_assert mbind option_bind].
  assert (Hrem : Z.rem (b * align_w_cpu format) 8 = 0).
  { rewrite Z.rem_mod_nonneg by nia. apply Z.mod_divide; [done|].
    by apply Z.divide_mul_l. }
  set (hw := if has_hw_usage then if is_yuv format then 128 else 64 else 0).
  destruct ((id format =? format_id YV12) && has_hw_usage && has_cpu_usage) eqn:Eyv.
  2:{ destruct has_cpu_usage; [rewrite Hrem|];
        cbn [Z.eqb c_assert mbind option_bind];
        rewrite c_divisor_if by lia; cbn; by eexists. }
  apply andb_true_iff in Eyv as [Eyv Ecpu]. apply andb_true_iff in Eyv as [_ Ehw].
  rewrite Ecpu, Hrem. cbn [Z.eqb c_assert mbind option_bind].
  rewrite c_divisor_if by lia. cbn [mbind option_bind].
  rewrite Z.quot_div_nonneg by nia.
  subst hw. rewrite Ehw.
  set (hw := if is_yuv format then 128 else 64) in *.
  set (ca := b * align_w_cpu format / 8) in *.
  assert (Hca : 1 ≤ ca ≤ 128).
  { subst ca. split; [apply Z.div_le_lower_bound; nia|apply Z.div_le_upper_bound; nia]. }
  assert (Hhw : 64 ≤ hw ≤ 128 ∧ (64 | hw)).
  { subst hw. destruct (is_yuv format); split; try lia; [by exists 2|by exists 1]. }
  destruct (lcm_divide hw ca ltac:(lia) ltac:(lia) ltac:(nia)) as [Dhw _].
  pose proof (lcm_bounds hw ca ltac:(lia) ltac:(lia) ltac:(nia)) as Hlcm.
  set (sa := lcm hw ca) in *.
  assert (Hsa : 64 ≤ sa ≤ 16384).
  { split; [lia|]. etrans; [apply Hlcm|]. apply Z.max_lub; [lia|nia]. }
  unfold update_yv12_stride.
  destruct (decide (plane = 0%nat)) as [->|Hne].
  - rewrite bool_decide_eq_true_2 by done. by eexists.
  - rewrite bool_decide_eq_false_2 by done.
    rewrite pi_get_insert_ne by done.
    destruct (Hluma ltac:(lia) eq_refl) as [Hl [k Hk]].
    fold b ca hw sa in Hk.
    set (luma := byte_stride (pi_get pis 0)) in *.
    assert (Ehalf : luma / 2 = k * sa).
    { rewrite Hk. replace (k * (2 * sa)) with (k * sa * 2) by lia.
      apply Z.div_mul. lia. }
    assert (Dal : (sa | luma / 2)) by (rewrite Ehalf; by exists k).
    assert (Hhalf : 0 ≤ luma / 2 < 2 ^ 30).
    { split; [apply Z.div_pos; lia|apply Z.div_lt_upper_bound; lia]. }
    assert (Eal : GRALLOC_ALIGN u32 (luma / 2) sa = luma / 2).
    { rewrite GRALLOC_ALIGN_u32_exact by lia.
      apply round_up_fixed; [lia|exact Dal]. }
    rewrite Eal, Z.eqb_refl. cbn [c_assert mbind option_bind].
    assert (E15 : Z.land (luma / 2) 15 = 0).
    { change 15 with (Z.ones 4). rewrite Z.land_ones by lia.
      change (2 ^ 4) with 16. apply Z.mod_divide; [done|].
      etrans; [|exact Dal]. etrans; [|apply Dhw; lia].
      destruct Hhw as [_ [q Hq]]. exists (4 * q). lia. }
    rewrite E15. cbn. by eexists.
Qed.

(** The divisors of an uncompressed plane are not zero. *)
Lemma calc_plane_divisors_linear t format has_cpu_usage plane :
  format_wf format → (plane < npln format)%nat → is_afrc t = false →
  calc_plane_divisors t format has_cpu_usage plane = Some tt.
Proof.
  intros (_ & _ & _ & _ & _ & Hsub & Hbpp) Hplane Hafrc.
  unfold calc_plane_divisors.
  rewrite get_pixel_w_h_divisors_ok by (intros; destruct Hsub; lia).
  cbn [mbind option_bind].
  destruct (Hbpp plane Hplane) as [Hb _].
  rewrite c_divisor_if by lia. cbn [mbind option_bind].
  by rewrite Hafrc, andb_false_r.
Qed.

(** X18: uncompressed layouts of byte-sized pixels never fail an assertion.
    For a format of tile size 1 whose planes all have a whole number of
    bytes per pixel, on requests of up to 8192 pixels a side, the size
    computation returns a layout with any combination of CPU and hardware
    usage; in the YV12 case with both usages this needs all planes to have
    the same pixel size, as YV12 has. *)
Theorem X18_linear_layouts_are_total (width height : Z) (t : alloc_type_t)
    (format : format_info_t) (has_cpu_usage has_hw_usage : bool)
    (pixel_stride : Z) (plane_info : list plane_info_t) :
  format_wf format →
  primary_type t = UNCOMPRESSED →
  tile_size format = 1 →
  (∀ plane, (plane < npln format)%nat → (8 | arr_get (bpp format) plane)) →
  ((id format =? format_id YV12) && has_hw_usage && has_cpu_usage = true →
   ∀ plane, (plane < npln format)%nat →
     arr_get (bpp format) plane = arr_get (bpp format) 0) →
  1 ≤ width ≤ MAX_DIM → 1 ≤ height ≤ MAX_DIM →
  (npln format ≤ length plane_info)%nat →
  ∃ st,
    calc_allocation_size width height t format has_cpu_usage has_hw_usage
      pixel_stride plane_info = Some st.
Proof.
  intros Hfwf Hunc Hts Hb8 Hsame Hw Hh Hlen.
  destruct (uncompressed_type t Hunc) as (Hafbc & Hafrc & Hbl & Hwf).
  set (special := (id format =? format_id YV12) && has_hw_usage && has_cpu_usage) in *.
  set (sa0 := lcm (if is_yuv format then 128 else 64)
                  (arr_get (bpp format) 0 * align_w_cpu format / 8)).
  set (P := λ (k : nat) (s : calc_state),
         layout_inv t format has_cpu_usage has_hw_usage (length plane_info) k s
         ∧ ((0 < k)%nat → special = true →
            (2 * sa0 | byte_stride (pi_get (cs_plane_info s) 0)))).
  unfold calc_allocation_size.
  destruct (calc_planes_total_inv P
              (calc_plane width height t format has_cpu_usage has_hw_usage)
              (npln format) 0%nat
              {| cs_plane_info :=
                   <[0%nat := set_offset (pi_get plane_info 0) 0]> plane_info;
                 cs_size := 0; cs_pixel_stride := pixel_stride; cs_sizes := [] |})
    as (st & Hrun & _); [| |by exists st].
  { split; [apply layout_inv_init|]. intros; lia. }
  intros k s Hk [Hinv Hdiv].
  pose proof Hinv as (Ls & _ & _ & _ & _ & _ & _ & Hp0).
  pose proof (get_pixel_w_h_bounds width height format t k has_cpu_usage
                Hfwf (Hwf format) ltac:(lia) (λ _, Hunc) Hw Hh) as (Bw & _).
  cbv zeta in Bw.
  assert (Hsome : ∃ s', calc_plane width height t format has_cpu_usage
                          has_hw_usage k s = Some s').
  { rewrite calc_plane_eq;
      [|lia|apply calc_plane_divisors_linear; [done|lia|done]].
    cbv zeta.
    set (aw := (get_pixel_w_h (u32 width) (u32 height) format t k has_cpu_usage).1) in *.
    set (ah := (get_pixel_w_h (u32 width) (u32 height) format t k has_cpu_usage).2) in *.
    set (pis := <[k := set_alloc_w_h (pi_get (cs_plane_info s) k) aw ah]>
                  (cs_plane_info s)).
    assert (Eaw : alloc_width (pi_get pis k) = aw).
    { subst pis. rewrite pi_get_insert_eq by lia. reflexivity. }
    destruct (calc_byte_stride_linear_total t format has_cpu_usage has_hw_usage k pis
                Hfwf ltac:(lia) ltac:(subst pis; rewrite length_insert; lia)
                Hafbc Hafrc Hbl (Hb8 k ltac:(lia))) as [stride Es].
    { intros Hpos Esp. subst pis. rewrite pi_get_insert_ne by lia.
      destruct (Hp0 Hpos) as [_ Hs0]. specialize (Hs0 Esp).
      split; [lia|]. rewrite (Hsame Esp k ltac:(lia)). by apply Hdiv. }
    rewrite Es. cbn [mbind option_bind].
    destruct (calc_byte_stride_linear t format has_cpu_usage has_hw_usage k pis stride
                Hfwf ltac:(lia) ltac:(subst pis; rewrite length_insert; lia)
                Hafbc Hafrc Hbl ltac:(rewrite Eaw; exact Bw) Es)
      as (_ & Hca & _ & Dcpu & Hrow & _).
    cbv zeta in Hca, Dcpu, Hrow.
    destruct (decide (k = 0%nat)) as [->|Hk0].
    - rewrite bool_decide_eq_true_2 by done. rewrite Hafbc, Hafrc, Hbl.
      cbn [negb andb]. destruct has_cpu_usage eqn:Ecpu; [|cbn; by eexists].
      destruct (Hca eq_refl) as [Hcmod Hc1].
      destruct (Hrow ltac:(by left)) as [_ Hst].
      destruct (Dcpu Hts eq_refl) as [q Hq].
      destruct Hfwf as (_ & _ & _ & Hawc & _ & _ & Hbpp).
      destruct (Hbpp 0%nat ltac:(lia)) as [Hb _].
      set (b := arr_get (bpp format) 0) in *.
      assert (Ec8 : b * align_w_cpu format = b * align_w_cpu format / 8 * 8).
      { pose proof (Z.div_mod (b * align_w_cpu format) 8 ltac:(lia)). lia. }
      assert (Hm : u32 (stride * 8) mod b = 0).
      { rewrite u32_small by lia. apply Z.mod_divide; [lia|].
        exists (q * align_w_cpu format).
        set (c := b * align_w_cpu format / 8) in *. nia. }
      rewrite Hm. cbn. by eexists.
    - rewrite bool_decide_eq_false_2 by done. cbn. by eexists. }
  destruct Hsome as [s' Hs']. exists s'. split; [exact Hs'|].
  split.
  { exact (layout_inv_step width height t format has_cpu_usage has_hw_usage
             (length plane_info) k s s' Hfwf (Hwf format) ltac:(lia) Hlen
             (λ _, Hunc) Hw Hh Hinv Hs'). }
  intros _ Esp.
  pose proof (calc_plane_Some_divisors _ _ _ _ _ _ _ _ _ Hs') as Hdivisors.
  rewrite calc_plane_eq in Hs' by (lia || exact Hdivisors). cbv zeta in Hs'.
  destruct (calc_byte_stride _ _ _ _ _ _) as [stride|] eqn:Es; [|discriminate].
  cbn [mbind option_bind] in Hs'.
  match type of Hs' with
  | (?c ≫= _) = _ => destruct c as [ps|]; [|discriminate]
  end.
  cbn [mbind option_bind] in Hs'. injection Hs' as <-. cbn [cs_plane_info].
  destruct (decide (k = 0%nat)) as [->|Hk0].
  - rewrite pi_get_insert_eq by lia. unfold stored_info. cbn [byte_stride].
    match type of Es with
    | calc_byte_stride _ _ _ _ _ ?pis = _ =>
        assert (Hl0 : (0 < length pis)%nat) by (rewrite length_insert; lia);
        assert (Hw0 : 1 ≤ alloc_width (pi_get pis 0) ≤ 8718)
          by (rewrite pi_get_insert_eq by lia; exact Bw);
        destruct (calc_byte_stride_linear t format has_cpu_usage has_hw_usage
                    0%nat pis stride Hfwf ltac:(lia) Hl0 Hafbc Hafrc Hbl Hw0 Es)
          as (_ & _ & _ & _ & _ & Hd0)
    end.
    cbv zeta in Hd0. by apply Hd0.
  - rewrite pi_get_insert_ne by done. apply Hdiv; [lia|exact Esp].
Qed.

End Totality.
(** ** Buffer identifiers *)

Lemma lor_high_low (a c : Z) :
  0 ≤ a → 0 ≤ c < 2 ^ 32 → Z.lor (a * 2 ^ 32) c = a * 2 ^ 32 + c.
Proof.
  intros Ha Hc.
  assert (Hl : Z.land (a * 2 ^ 32) c = 0).
  { apply Z.bits_inj'. intros i Hi. rewrite Z.land_spec, Z.bits_0.
    destruct (Z.lt_ge_cases i 32) as [Hlt|Hge].
    - rewrite Z.mul_pow2_bits_low by lia. reflexivity.
    - destruct (Z.eq_dec c 0) as [->|Hne];
        [rewrite Z.bits_0; apply andb_false_r|].
      rewrite (Z.bits_above_log2 c i); [apply andb_false_r|lia|].
      apply Z.log2_lt_pow2; [lia|].
      apply Z.lt_le_trans with (2 ^ 32); [apply Hc|].
      apply Z.pow_le_mono_r; lia. }
  rewrite <- (Z.lxor_lor _ _ Hl). symmetry. by apply Z.add_nocarry_lxor.
Qed.

Lemma getUniqueId_value (pid counter : Z) :
  0 ≤ counter < 2 ^ 32 →
  getUniqueId pid counter
  = (pid mod 2 ^ 32 * 2 ^ 32 + counter, (counter + 1) mod 2 ^ 32).
Proof.
  intros Hc. unfold getUniqueId, u32, u64. f_equal.
  rewrite Z.shiftl_mul_pow2 by lia.
  assert (E : (pid mod 2 ^ 64 * 2 ^ 32) mod 2 ^ 64 = pid mod 2 ^ 32 * 2 ^ 32).
  { change (2 ^ 64) with (2 ^ 32 * 2 ^ 32).
    rewrite Z.mul_mod_distr_r by lia. f_equal.
    rewrite Z.mod_mod_divide; [|by exists (2 ^ 32)].
    reflexivity. }
  rewrite E. apply lor_high_low; [|done].
  apply Z.mod_pos_bound. lia.
Qed.

Lemma unique_ids_lookup (pid : Z) (n : nat) : ∀ (counter : Z) (i : nat),
  0 ≤ counter < 2 ^ 32 → (i < n)%nat →
  unique_ids pid counter n !! i
  = Some (pid mod 2 ^ 32 * 2 ^ 32 + (counter + Z.of_nat i) mod 2 ^ 32).
Proof.
  induction n as [|n IH]; intros counter i Hc Hi; [lia|].
  cbn [unique_ids]. rewrite getUniqueId_value by done.
  destruct i as [|i]; cbn [lookup list_lookup].
  - rewrite Z.add_0_r, (Z.mod_small counter) by lia. reflexivity.
  - rewrite IH; [|apply Z.mod_pos_bound; lia|lia].
    do 2 f_equal. rewrite Zplus_mod_idemp_l. f_equal. lia.
Qed.

(** X19: buffer identifiers.  An identifier carries the low 32 bits of the
    process id in its high half and the counter in its low half.  Among
    successive calls in one process, two calls return the same identifier
    exactly when their positions differ by a multiple of 2^32: the
    identifiers of fewer than 2^32 successive allocations are pairwise
    different, and the identifier repeats after 2^32 calls. *)
Theorem X19_buffer_identifiers (pid counter : Z) (n i j : nat) :
  0 ≤ counter < 2 ^ 32 → (i < n)%nat → (j < n)%nat →
  (getUniqueId pid counter).1 = pid mod 2 ^ 32 * 2 ^ 32 + counter
  ∧ (unique_ids pid counter n !! i = unique_ids pid counter n !! j
     ↔ Z.of_nat i mod 2 ^ 32 = Z.of_nat j mod 2 ^ 32).
Proof.
  intros Hc Hi Hj. split; [by rewrite getUniqueId_value|].
  rewrite !unique_ids_lookup by done.
  split.
  - intros [= E].
    assert (E' : (counter + Z.of_nat i) mod 2 ^ 32
                 = (counter + Z.of_nat j) mod 2 ^ 32) by lia.
    replace (Z.of_nat i) with (counter + Z.of_nat i - counter) by lia.
    replace (Z.of_nat j) with (counter + Z.of_nat j - counter) by lia.
    rewrite <- (Zminus_mod_idemp_l (counter + Z.of_nat i)), E'.
    rewrite Zminus_mod_idemp_l. reflexivity.
  - intros E. do 2 f_equal.
    rewrite <- (Zplus_mod_idemp_r (Z.of_nat i)), E, Zplus_mod_idemp_r.
    reflexivity.
Qed.
(** ** The allocation loop *)

Section AllocateFacts.
Context `{H : Headers}.
Variable allocator_allocate : nat → bool.
Variable gralloc_shared_memory_allocate : nat → bool.
Variable pid : Z.

Local Notation "'body'" :=
  (allocate_body allocator_allocate gralloc_shared_memory_allocate pid).
Local Notation "'loop'" :=
  (allocate_loop allocator_allocate gralloc_shared_memory_allocate pid).

Lemma omap_logs {A} (f : event → option A) (l : list log_msg) :
  (∀ m, f (ev_log m) = None) → omap f (map ev_log l) = [].
Proof.
  intros Hf. induction l as [|m l IH]; [done|]. cbn. by rewrite Hf.
Qed.

Local Ltac trace_simpl :=
  unfold allocated, freed, shared_memory_freed, deleted, callbacks;
  rewrite ?omap_app, ?omap_logs by done; cbn.

(** The events of one iteration. *)
Lemma allocate_body_events (i : nat) (s : loop_state) (ev : list event)
    (r : loop_exit) :
  body i s = (ev, r) →
  callbacks ev = [] ∧ deleted ev = []
  ∧ shared_memory_freed ev = freed ev
  ∧ match r with
    | Next s' =>
        ls_grallocBuffers s'
        = ls_grallocBuffers s
          ++ [{| hnd_id := i;
                 backing_store_id := (getUniqueId pid (ls_counter s)).1 |}]
        ∧ ls_counter s' = (getUniqueId pid (ls_counter s)).2
        ∧ allocated ev = [i] ∧ freed ev = []
    | Break error s' =>
        error ≠ Error.NONE
        ∧ ls_grallocBuffers s' = ls_grallocBuffers s
        ∧ freed ev = allocated ev
        ∧ (allocated ev = [] ∨ allocated ev = [i])
    | Abort => allocated ev = [] ∧ freed ev = []
    end.
Proof.
  unfold allocate_body, mali_gralloc_buffer_allocate.
  destruct (mali_gralloc_derive_format_and_size _) as [l [e|d]].
  - destruct e; intros [= <- <-]; trace_simpl; intuition congruence.
  - destruct (allocator_allocate i).
    + destruct (getUniqueId pid (ls_counter s)) as [id c] eqn:Eid.
      destruct (gralloc_shared_memory_allocate i); cbn [negb].
      * destruct (ls_stride s =? 0).
        { intros [= <- <-]; trace_simpl; intuition congruence. }
        destruct (ls_stride s =? d_pixel_stride d); cbn [negb];
          intros [= <- <-]; trace_simpl; intuition congruence.
      * intros [= <- <-]; trace_simpl; intuition congruence.
    + intros [= <- <-]; trace_simpl; intuition congruence.
Qed.

(** The events of the loop: the handles it has created are those in
    [grallocBuffers], then at most one that it has released itself. *)
Lemma allocate_loop_events (iterations : list nat) :
  ∀ (s : loop_state) (ev : list event) (r : loop_exit),
  loop iterations s = (ev, r) →
  callbacks ev = [] ∧ deleted ev = []
  ∧ shared_memory_freed ev = freed ev
  ∧ ∃ (m : nat) (extra : list nat),
      let new := zip_with Build_buffer_handle (take m iterations)
                   (unique_ids pid (ls_counter s) m) in
      (m ≤ length iterations)%nat
      ∧ allocated ev = take m iterations ++ extra
      ∧ freed ev = extra
      ∧ (take m iterations ++ extra) `prefix_of` iterations
      ∧ match r with
        | Next s' => ls_grallocBuffers s' = ls_grallocBuffers s ++ new
                     ∧ extra = [] ∧ m = length iterations
        | Break error s' =>
            error ≠ Error.NONE
            ∧ ls_grallocBuffers s' = ls_grallocBuffers s ++ new
        | Abort => True
        end.
Proof.
  induction iterations as [|i iterations IH]; intros s ev r.
  { intros [= <- <-]. repeat split; try done.
    exists 0%nat, []. cbn. rewrite app_nil_r. by repeat split. }
  cbn [allocate_loop].
  destruct (body i s) as [ev1 r1] eqn:Ebody.
  apply allocate_body_events in Ebody as (Hcb & Hdel & Hshm & Hr).
  destruct r1 as [s1|error s1|].
  - destruct (loop iterations s1) as [ev2 r2] eqn:Eloop.
    apply IH in Eloop as (Hcb2 & Hdel2 & Hshm2 & m & extra & Hm & Hal & Hfr
                          & Hpre & Hr2).
    destruct Hr as (Hbuf & Hcnt & Hal1 & Hfr1).
    intros [= <- <-].
    unfold callbacks, deleted, shared_memory_freed, freed, allocated in *.
    rewrite !omap_app, Hcb, Hcb2, Hdel, Hdel2, Hshm, Hshm2, Hal1, Hfr1, Hal, Hfr.
    repeat split; try done.
    exists (S m), extra. cbn [take unique_ids length].
    destruct (getUniqueId pid (ls_counter s)) as [id c] eqn:Eid.
    cbn [fst snd] in *. subst c. cbn [zip_with].
    repeat split; [lia|by apply prefix_cons|].
    destruct r2 as [s2|e2 s2|]; [| |done].
    + destruct Hr2 as (-> & -> & ->). by rewrite Hbuf, <- app_assoc.
    + destruct Hr2 as [Hne ->]. by rewrite Hbuf, <- app_assoc.
  - intros [= <- <-]. destruct Hr as (Hne & Hbuf & Hfr & Hal).
    split_and!; try done.
    exists 0%nat, (allocated ev1). cbn.
    split_and!; [lia|done|done| |done|by rewrite app_nil_r].
    destruct Hal as [->| ->]; [apply prefix_nil|].
    by apply prefix_cons, prefix_nil.
  - intros [= <- <-]. destruct Hr as (Hal & Hfr).
    split_and!; try done.
    exists 0%nat, []. cbn. rewrite Hal, Hfr.
    split_and!; [lia|done|done|apply prefix_nil|done].
Qed.


(** The release of [grallocBuffers] at the end of [allocate]. *)
Lemma release_events (buffers : list buffer_handle) :
  let ev := flat_map (λ buffer,
              (mali_gralloc_buffer_free (Some buffer)).1
              ++ [ev_native_handle_delete (hnd_id buffer)]) buffers in
  callbacks ev = [] ∧ allocated ev = []
  ∧ freed ev = map hnd_id buffers
  ∧ shared_memory_freed ev = map hnd_id buffers
  ∧ deleted ev = map hnd_id buffers.
Proof.
  induction buffers as [|b buffers (IH1 & IH2 & IH3 & IH4 & IH5)]; [done|].
  cbn. cbn in IH1, IH2, IH3, IH4, IH5.
  unfold callbacks, allocated, freed, shared_memory_freed, deleted in *.
  cbn. by rewrite IH1, IH2, IH3, IH4, IH5.
Qed.

Lemma handles_ids (iterations : list nat) (counter : Z) (m : nat) :
  (m ≤ length iterations)%nat →
  map hnd_id (zip_with Build_buffer_handle (take m iterations)
                (unique_ids pid counter m))
  = take m iterations.
Proof.
  intros Hm. apply fmap_zip_with_l; [done|].
  rewrite length_take.
  assert (length (unique_ids pid counter m) = m); [|lia].
  clear Hm. revert counter.
  induction m as [|m IH]; intros counter; [done|].
  cbn [unique_ids]. destruct (getUniqueId pid counter) as [id c].
  cbn. by rewrite IH.
Qed.

(** X20: [GrallocAllocator::allocate] releases what it has allocated.  In a
    run that no [assert] aborts, the callback is called exactly once.  Every
    handle that the back end created is given to [allocator_free] and to
    [gralloc_shared_memory_free] exactly once, and no other handle is.  The
    handles passed to the callback exist and have not been released when it
    is called; they are released and deleted after it, and nothing is
    created after it.  With an error the callback gets no buffer.  A handle
    released before the callback, because its shared memory could not be
    allocated or its stride differed, is never given to
    [native_handle_delete]. *)
Theorem X20_allocate_releases_its_handles
    (decoded : option buffer_descriptor_t) (count : nat) (counter : Z)
    (tr : list event) (counter' : Z) :
  GrallocAllocator_allocate allocator_allocate gralloc_shared_memory_allocate
    pid decoded count counter = (tr, Some counter') →
  ∃ pre post error stride buffers,
    tr = pre ++ [ev_hidl_cb error stride buffers] ++ post
    ∧ callbacks pre = [] ∧ callbacks post = []
    ∧ NoDup (allocated tr)
    ∧ freed tr ≡ₚ allocated tr
    ∧ shared_memory_freed tr = freed tr
    ∧ allocated post = []
    ∧ deleted pre = [] ∧ deleted post = freed post
    ∧ (∀ hnd, hnd ∈ freed pre → hnd ∉ deleted tr)
    ∧ (error ≠ Error.NONE → buffers = [])
    ∧ (∀ hnd, hnd ∈ buffers →
         hnd_id hnd ∈ allocated pre ∧ (hnd_id hnd ∉ freed pre)
         ∧ hnd_id hnd ∈ freed post).
Proof.
  destruct decoded as [descriptor|]; cbn [GrallocAllocator_allocate].
  2:{ intros [= <- <-]. exists [], [], Error.BAD_DESCRIPTOR, 0, [].
      cbn. split_and!; try done; try apply NoDup_nil_2.
      all: intros hnd Hin; by apply elem_of_nil in Hin. }
  unfold allocate.
  destruct (loop (seq 0 count) _) as [ev r] eqn:Eloop.
  apply allocate_loop_events in Eloop
    as (Hcb & Hdel & Hshm & m & extra & Hm & Hal & Hfr & Hpre & Hr).
  cbn [ls_grallocBuffers ls_counter app] in Hr.
  assert (Hnd : NoDup (take m (seq 0 count) ++ extra)).
  { destruct Hpre as [k Hk].
    pose proof (NoDup_seq 0 count) as Hseq. rewrite Hk in Hseq.
    by apply NoDup_app in Hseq as [? _]. }
  assert (Hfin : ∀ error s,
    ls_grallocBuffers s
    = zip_with Build_buffer_handle (take m (seq 0 count))
        (unique_ids pid counter m) →
    (error = Error.NONE → extra = []) →
    ∃ pre post error' stride buffers,
      ev ++ allocate_finish error s
      = pre ++ [ev_hidl_cb error' stride buffers] ++ post
      ∧ callbacks pre = [] ∧ callbacks post = []
      ∧ NoDup (allocated (ev ++ allocate_finish error s))
      ∧ freed (ev ++ allocate_finish error s)
        ≡ₚ allocated (ev ++ allocate_finish error s)
      ∧ shared_memory_freed (ev ++ allocate_finish error s)
        = freed (ev ++ allocate_finish error s)
      ∧ allocated post = []
      ∧ deleted pre = [] ∧ deleted post = freed post
      ∧ (∀ hnd, hnd ∈ freed pre
           → hnd ∉ deleted (ev ++ allocate_finish error s))
      ∧ (error' ≠ Error.NONE → buffers = [])
      ∧ (∀ hnd, hnd ∈ buffers →
           hnd_id hnd ∈ allocated pre ∧ (hnd_id hnd ∉ freed pre)
           ∧ hnd_id hnd ∈ freed post)).
  { intros error s Hbuf Hext. unfold allocate_finish.
    eexists ev, _, error, _, _. split; [reflexivity|].
    destruct (release_events (ls_grallocBuffers s))
      as (Rcb & Ral & Rfr & Rshm & Rdel).
    cbn zeta in Rcb, Ral, Rfr, Rshm, Rdel.
    assert (Hids : map hnd_id (ls_grallocBuffers s) = take m (seq 0 count))
      by (rewrite Hbuf; apply handles_ids; lia).
    rewrite Hids in Rfr, Rshm, Rdel.
    assert (Eal : ∀ e st b tl, allocated (ev ++ ev_hidl_cb e st b :: tl)
                               = allocated ev ++ allocated tl)
      by (intros; unfold allocated; by rewrite omap_app).
    assert (Efr : ∀ e st b tl, freed (ev ++ ev_hidl_cb e st b :: tl)
                               = freed ev ++ freed tl)
      by (intros; unfold freed; by rewrite omap_app).
    assert (Eshm : ∀ e st b tl,
              shared_memory_freed (ev ++ ev_hidl_cb e st b :: tl)
              = shared_memory_freed ev ++ shared_memory_freed tl)
      by (intros; unfold shared_memory_freed; by rewrite omap_app).
    assert (Edel : ∀ e st b tl, deleted (ev ++ ev_hidl_cb e st b :: tl)
                                = deleted ev ++ deleted tl)
      by (intros; unfold deleted; by rewrite omap_app).
    rewrite Eal, Efr, Eshm, Edel, Ral, Rfr, Rshm, Rdel, Hal, Hfr, Hshm, Hdel,
      Hfr, app_nil_r.
    split_and!; try done.
    - apply Permutation_app_comm.
    - intros hnd Hin. cbn [app]. apply NoDup_app in Hnd as (_ & Hdisj & _).
      intros Hin'. by apply (Hdisj hnd).
    - intros Hne. by destruct error.
    - intros hnd Hin.
      destruct error; try by apply elem_of_nil in Hin.
      rewrite Hext by done. rewrite app_nil_r, <- Hids.
      split_and!; [|apply not_elem_of_nil|]; by apply (list_elem_of_fmap_2 hnd_id). }
  destruct r as [s|error s|]; [| |discriminate].
  - destruct Hr as (Hbuf & Hext & _). intros [= <- <-]. by apply Hfin.
  - destruct Hr as (Hne & Hbuf). intros [= <- <-]. by apply Hfin.
Qed.


Local Notation "'ok' i" :=
  (allocator_allocate i && gralloc_shared_memory_allocate i)
  (at level 10, i at level 9).

(** The loop on a descriptor whose derivation succeeds and reproduces
    itself: it stops at the first call of the back end that fails, and the
    strides never differ. *)
Lemma allocate_loop_answer (d1 : buffer_descriptor_t) (l : list log_msg) :
  mali_gralloc_derive_format_and_size d1 = (l, inr d1) →
  ∀ (n a : nat) (s : loop_state) (ev : list event) (r : loop_exit),
  mali_gralloc_derive_format_and_size (ls_descriptor s) = (l, inr d1) →
  ls_stride s = 0 ∨ ls_stride s = d_pixel_stride d1 →
  loop (seq a n) s = (ev, r) →
  ((∀ i, (a ≤ i < a + n)%nat → ok i = true) →
     ∃ s', r = Next s'
           ∧ ls_stride s'
             = match n with O => ls_stride s | _ => d_pixel_stride d1 end)
  ∧ (∀ k, (a ≤ k < a + n)%nat →
       (∀ i, (a ≤ i < k)%nat → ok i = true) → ok k = false →
       ∃ s', r = Break (if allocator_allocate k then Error.UNSUPPORTED
                        else Error.NO_RESOURCES) s'
             ∧ ls_stride s'
               = if decide (k = a) then ls_stride s else d_pixel_stride d1).
Proof.
  intros Hd1. induction n as [|n IH]; intros a s ev r Hd Hstride.
  { intros [= <- <-]. split; [by exists s|]. intros k Hk. lia. }
  cbn [seq allocate_loop].
  unfold allocate_body at 1, mali_gralloc_buffer_allocate. rewrite Hd.
  destruct (allocator_allocate a) eqn:Ea.
  2:{ intros [= <- <-]. split.
      - intros Hok. specialize (Hok a ltac:(lia)). by rewrite Ea in Hok.
      - intros k Hk Hbefore Hfail. destruct (decide (k = a)) as [->|Hne].
        + rewrite Ea. by eexists.
        + specialize (Hbefore a ltac:(lia)). by rewrite Ea in Hbefore. }
  destruct (getUniqueId pid (ls_counter s)) as [id c].
  destruct (gralloc_shared_memory_allocate a) eqn:Es; cbn [negb].
  2:{ intros [= <- <-]. split.
      - intros Hok. specialize (Hok a ltac:(lia)). by rewrite Ea, Es in Hok.
      - intros k Hk Hbefore Hfail. destruct (decide (k = a)) as [->|Hne].
        + rewrite Ea. by eexists.
        + specialize (Hbefore a ltac:(lia)). by rewrite Ea, Es in Hbefore. }
  assert (Hnext : ∀ s1 ev1,
    ls_descriptor s1 = d1 → ls_stride s1 = d_pixel_stride d1 →
    (let '(ev', r) := loop (seq (S a) n) s1 in (ev1 ++ ev', r)) = (ev, r) →
    ((∀ i, (a ≤ i < a + S n)%nat → ok i = true) →
       ∃ s', r = Next s' ∧ ls_stride s' = d_pixel_stride d1)
    ∧ (∀ k, (a ≤ k < a + S n)%nat →
         (∀ i, (a ≤ i < k)%nat → ok i = true) → ok k = false →
         ∃ s', r = Break (if allocator_allocate k then Error.UNSUPPORTED
                          else Error.NO_RESOURCES) s'
               ∧ ls_stride s'
                 = if decide (k = a) then ls_stride s
                   else d_pixel_stride d1)).
  { intros s1 ev1 Hdesc Hs1.
    destruct (loop (seq (S a) n) s1) as [ev2 r2] eqn:Eloop.
    intros [= <- <-].
    apply IH in Eloop as [IHok IHfail];
      [|by rewrite Hdesc|by right].
    split.
    - intros Hok. destruct IHok as (s' & -> & Hs'); [intros i Hi; apply Hok; lia|].
      exists s'. split; [done|]. rewrite Hs'. by destruct n.
    - intros k Hk Hbefore Hfail. destruct (decide (k = a)) as [->|Hne].
      { by rewrite Ea, Es in Hfail. }
      destruct (IHfail k) as (s' & -> & Hs');
        [lia|intros i Hi; apply Hbefore; lia|done|].
      exists s'. split; [done|]. rewrite Hs', Hs1. by destruct (decide _). }
  destruct (ls_stride s =? 0) eqn:E0.
  { by apply Hnext. }
  destruct Hstride as [Hz|Hp]; [rewrite Hz in E0; discriminate|].
  replace (ls_stride s =? d_pixel_stride d1) with true
    by (symmetry; by apply Z.eqb_eq).
  cbn [negb]. by apply Hnext.
Qed.


Lemma callbacks_finish (ev : list event) (error : Error.t) (s : loop_state) :
  callbacks ev = [] →
  callbacks (ev ++ allocate_finish error s)
  = [(error, u32 (ls_stride s),
      match error with Error.NONE => ls_grallocBuffers s | _ => [] end)].
Proof.
  intros Hev. unfold allocate_finish.
  destruct (release_events (ls_grallocBuffers s)) as (Rcb & _).
  cbn zeta in Rcb. unfold callbacks in *. rewrite omap_app, Hev.
  match goal with
  | |- [] ++ omap ?f (?c :: ?rel) = _ =>
      change (omap f (c :: rel)) with (omap f ([c] ++ rel))
  end.
  by rewrite omap_app, Rcb.
Qed.

(** X21: the answer of [allocate].  Without buffers to allocate the callback
    gets [NONE], stride 0 and no buffer.  When the derivation rejects the
    descriptor the callback gets [NO_RESOURCES], stride 0 and no buffer, and
    the back end is not called; when an [assert] of the derivation fails
    nothing is called.  When
    the derivation succeeds, the answer is decided by the first call of the
    back end that fails: none gives [NONE] with the [count] handles and the
    derived pixel stride, a failing [allocator_allocate] gives
    [NO_RESOURCES], a failing shared memory allocation gives [UNSUPPORTED];
    the stride of an error is that of the buffers allocated before it.  The
    strides of two buffers never differ. *)
Theorem X21_allocate_answer (descriptor : buffer_descriptor_t) (count : nat)
    (counter : Z) :
  (∀ format_idx,
     (npln (format_at format_idx) ≤ length (d_plane_info descriptor))%nat) →
  let answer := allocate allocator_allocate gralloc_shared_memory_allocate pid
               descriptor count counter in
  (count = 0%nat → answer = ([ev_hidl_cb Error.NONE 0 []], Some counter))
  ∧ (∀ l e, (0 < count)%nat →
       mali_gralloc_derive_format_and_size descriptor = (l, inl e) →
       (e = Assertion_failed → answer = (map ev_log l, None))
       ∧ (e ≠ Assertion_failed →
          answer
          = (map ev_log l
             ++ [ev_LOGE_buffer_allocation_failed;
                 ev_hidl_cb Error.NO_RESOURCES 0 []], Some counter)))
  ∧ (∀ l d1,
       mali_gralloc_derive_format_and_size descriptor = (l, inr d1) →
       let stride (k : nat) :=
         u32 (match k with O => 0 | _ => d_pixel_stride d1 end) in
       ((∀ i, (i < count)%nat → ok i = true) →
          callbacks answer.1
          = [(Error.NONE, stride count, handles pid counter count)])
       ∧ (∀ k, (k < count)%nat →
            (∀ i, (i < k)%nat → ok i = true) → ok k = false →
            callbacks answer.1
            = [(if allocator_allocate k then Error.UNSUPPORTED
                else Error.NO_RESOURCES, stride k, [])])).
Proof.
  intros Hnpln answer. split_and!.
  - intros ->. reflexivity.
  - intros l e Hcount Hd. subst answer. unfold allocate.
    destruct count as [|count]; [lia|].
    cbn [seq allocate_loop]. unfold allocate_body, mali_gralloc_buffer_allocate.
    cbn [ls_descriptor]. rewrite Hd.
    split; [by intros ->|intros Hne].
    assert (Hcase : ∀ (A : Type) (x y : A),
              match e with Assertion_failed => x | _ => y end = y)
      by (intros; by destruct e).
    rewrite Hcase. cbn [ls_counter]. unfold allocate_finish.
    cbn [ls_grallocBuffers ls_stride flat_map]. by rewrite <- app_assoc.
  - intros l d1 Hd stride.
    destruct (mali_gralloc_derive_format_and_size_rerun descriptor d1 l
                Hnpln Hd) as (_ & _ & _ & _ & _ & _ & _ & _ & Hd1).
    subst answer. unfold allocate.
    destruct (loop (seq 0 count) _) as [ev r] eqn:Eloop.
    pose proof (allocate_loop_events _ _ _ _ Eloop)
      as (Hcb & _ & _ & m & extra & Hm & _ & _ & _ & Hr).
    apply (allocate_loop_answer d1 l Hd1) in Eloop as [Hok Hfail];
      [|done|by left].
    cbn [ls_stride ls_grallocBuffers ls_counter app] in *.
    split.
    + intros Hall. destruct Hok as (s' & -> & Hs');
        [intros i Hi; apply Hall; lia|].
      destruct Hr as (Hbuf & _ & ->). cbn [fst].
      rewrite callbacks_finish by done. rewrite Hbuf, Hs'.
      rewrite length_seq, firstn_all2 by (rewrite length_seq; lia).
      unfold stride, handles. by destruct count.
    + intros k Hk Hbefore Hbad.
      destruct (Hfail k) as (s' & -> & Hs');
        [lia|intros i Hi; apply Hbefore; lia|done|].
      cbn [fst]. rewrite callbacks_finish by done. rewrite Hs'.
      unfold stride.
      destruct (decide (k = 0%nat)) as [->|Hne].
      * by destruct (allocator_allocate 0).
      * destruct k; [done|]. by destruct (allocator_allocate (S k)).
Qed.

(** X22: the buffers of one answer have different identifiers.  The values
    of [backing_store_id] of the handles passed to the callback are pairwise
    different, and each carries the low 32 bits of the process id in its
    high half. *)
Theorem X22_delivered_identifiers_differ (descriptor : buffer_descriptor_t)
    (count : nat) (counter : Z) (error : Error.t) (stride : Z)
    (buffers : list buffer_handle) :
  0 ≤ counter < 2 ^ 32 → Z.of_nat count < 2 ^ 32 →
  (error, stride, buffers)
  ∈ callbacks (allocate allocator_allocate gralloc_shared_memory_allocate
                 pid descriptor count counter).1 →
  NoDup (map backing_store_id buffers)
  ∧ ∀ hnd, hnd ∈ buffers → backing_store_id hnd / 2 ^ 32 = pid mod 2 ^ 32.
Proof.
  intros Hc Hcount. unfold allocate.
  destruct (loop (seq 0 count) _) as [ev r] eqn:Eloop.
  apply allocate_loop_events in Eloop
    as (Hcb & _ & _ & m & extra & Hm & _ & _ & _ & Hr).
  cbn [ls_stride ls_grallocBuffers ls_counter app] in *.
  rewrite length_seq in Hm.
  assert (Hids : ∀ s,
    ls_grallocBuffers s
    = zip_with Build_buffer_handle (take m (seq 0 count))
        (unique_ids pid counter m) →
    ∀ e, (error, stride, buffers) ∈ callbacks (ev ++ allocate_finish e s) →
    NoDup (map backing_store_id buffers)
    ∧ ∀ hnd, hnd ∈ buffers → backing_store_id hnd / 2 ^ 32 = pid mod 2 ^ 32).
  { intros s Hbuf e. rewrite callbacks_finish by done.
    intros Hin. apply list_elem_of_singleton in Hin. injection Hin as -> -> ->.
    assert (Hnone : NoDup (map backing_store_id []) ∧
              ∀ hnd, hnd ∈ @nil buffer_handle →
                     backing_store_id hnd / 2 ^ 32 = pid mod 2 ^ 32).
    { split; [apply NoDup_nil_2|]. intros hnd Hin. by apply elem_of_nil in Hin. }
    destruct e; try done. clear Hnone.
    assert (Hlen : length (unique_ids pid counter m) = m).
    { clear. revert counter. induction m as [|m IH]; intros counter; [done|].
      cbn [unique_ids]. destruct (getUniqueId pid counter) as [id c].
      cbn. by rewrite IH. }
    assert (Hmap : map backing_store_id (ls_grallocBuffers s)
                   = unique_ids pid counter m).
    { rewrite Hbuf. apply fmap_zip_with_r; [done|].
      rewrite length_take, length_seq. lia. }
    split.
    - rewrite Hmap. apply NoDup_alt. intros i j x Hi Hj.
      assert (i < m)%nat by (apply lookup_lt_Some in Hi; lia).
      assert (j < m)%nat by (apply lookup_lt_Some in Hj; lia).
      rewrite (unique_ids_lookup pid m counter i) in Hi by done.
      rewrite (unique_ids_lookup pid m counter j) in Hj by done.
      assert (E : (counter + Z.of_nat i) mod 2 ^ 32
                  = (counter + Z.of_nat j) mod 2 ^ 32)
        by (injection Hi; injection Hj; lia).
      assert (E' : (counter + Z.of_nat i - counter) mod 2 ^ 32
                   = (counter + Z.of_nat j - counter) mod 2 ^ 32)
        by (by rewrite <- Zminus_mod_idemp_l, E, Zminus_mod_idemp_l).
      replace (counter + Z.of_nat i - counter) with (Z.of_nat i) in E' by lia.
      replace (counter + Z.of_nat j - counter) with (Z.of_nat j) in E' by lia.
      rewrite !Z.mod_small in E' by lia. lia.
    - intros hnd Hin.
      apply (list_elem_of_fmap_2 backing_store_id) in Hin.
      change (backing_store_id hnd ∈ map backing_store_id (ls_grallocBuffers s))
        in Hin.
      rewrite Hmap in Hin. apply list_elem_of_lookup in Hin as [i Hi].
      assert (i < m)%nat by (apply lookup_lt_Some in Hi; lia).
      rewrite (unique_ids_lookup pid m counter i) in Hi by done.
      injection Hi as <-.
      rewrite Z.div_add_l by lia. rewrite Z.div_small; [lia|].
      apply Z.mod_pos_bound. lia. }
  destruct r as [s|e s|]; cbn [fst].
  - destruct Hr as (Hbuf & _). by apply Hids.
  - destruct Hr as (_ & Hbuf). by apply Hids.
  - rewrite Hcb. intros Hin. by apply elem_of_nil in Hin.
Qed.

End AllocateFacts.

(** * The statements at concrete requests

    All examples run on the sample headers of [Sample]. *)

Section Examples.
Import Sample.
Local Existing Instance Sample.headers.

Lemma fmt_nv12_wf : format_wf fmt_nv12.
Proof.
  unfold format_wf, MAX_PLANES. cbn.
  repeat split; try lia; destruct plane as [|[|plane]]; cbn; lia.
Defined.

Lemma fmt_rgba_8888_wf : format_wf fmt_rgba_8888.
Proof.
  unfold format_wf, MAX_PLANES. cbn.
  repeat split; try lia; destruct plane as [|plane]; cbn; lia.
Defined.

(** C1 fails as stated.  (a) An uncompressed 65536x65536 NV12 buffer is laid
    out successfully (the derivation returns 0), but the luma body size 2^32
    wraps to 0 in 32 bits and both planes get offset 0.  (b) An 8x8 NV12
    buffer with multi-plane AFBC and CPU usage skips the superblock
    alignment, holds no superblock, and again both planes get offset 0. *)
Lemma C1_counterexample :
  (1 < npln fmt_nv12)%nat
  ∧ (∃ d', mali_gralloc_derive_format_and_size
             (request 65536 65536 (sample_format_id NV12) USAGE_HW_TEXTURE 1)
           = ([], inr d')
       ∧ offset (pi_get (d_plane_info d') 0) = 0
       ∧ offset (pi_get (d_plane_info d') 1) = 0)
  ∧ (∃ l t st,
       get_alloc_type 0 2 USAGE_HW_TEXTURE alloc_type_zero = (l, inr t)
       ∧ calc_allocation_size 65536 65536 t fmt_nv12 false true 0 planes0 = Some st
       ∧ cs_sizes st = [(0, 0); (- 2 ^ 31, 0)]
       ∧ plane_offset st 0 = 0 ∧ plane_offset st 1 = 0
       ∧ ¬ plane_offset st 0 < plane_offset st 1)
  ∧ (∃ l t st,
       get_alloc_type
         (Z.lor INTFMT_AFBC_BASIC
            (Z.lor INTFMT_AFBC_TILED_HEADERS INTFMT_AFBC_EXTRAWIDEBLK)) 2
         USAGE_SW_READ_OFTEN alloc_type_zero = (l, inr t)
       ∧ calc_allocation_size 8 8 t fmt_nv12 true false 0 planes0 = Some st
       ∧ cs_sizes st = [(0, 0); (0, 0)]
       ∧ plane_offset st 0 = 0 ∧ plane_offset st 1 = 0
       ∧ ¬ plane_offset st 0 < plane_offset st 1).
Proof.
  split; [cbn; lia|]. split; [|split].
  - eexists. split; [vm_compute; reflexivity|]. split; reflexivity.
  - eexists _, _, _. split; [vm_compute; reflexivity|].
    split; [vm_compute; reflexivity|]. split; [reflexivity|].
    split; [reflexivity|]. split; [reflexivity|]. vm_compute. discriminate.
  - eexists _, _, _. split; [vm_compute; reflexivity|].
    split; [vm_compute; reflexivity|]. split; [reflexivity|].
    split; [reflexivity|]. split; [reflexivity|]. vm_compute. discriminate.
Qed.

(** C1 witness: 8x8 NV12 with multi-plane AFBC and hardware usage only. *)
Lemma C1_witness :
  ∃ st,
    calc_allocation_size 8 8
      (set_is_tiled (set_primary_type (set_is_multi_plane alloc_type_zero true)
                       AFBC_EXTRAWIDEBLK) true)
      fmt_nv12 false true 0 planes0 = Some st
    ∧ plane_offset st 0 = 0
    ∧ plane_offset st 1 = 20480
    ∧ sum_bodies st ≤ cs_size st.
Proof.
  eexists. split; [vm_compute; reflexivity|].
  split; [reflexivity|]. split; [reflexivity|].
  refine (proj2 (proj2 (proj2
    (C1_layout_invariants (H:=headers)
       (Z.lor INTFMT_AFBC_BASIC (Z.lor INTFMT_AFBC_TILED_HEADERS INTFMT_AFBC_EXTRAWIDEBLK)) 2
       USAGE_HW_TEXTURE _ _ 8 8 false true 0 planes0 _
       _ fmt_nv12_wf eq_refl _ _ _ _)))).
  - vm_compute. reflexivity.
  - unfold MAX_DIM. lia.
  - unfold MAX_DIM. lia.
  - discriminate.
  - vm_compute. reflexivity.
Defined.

(** C3 witness: extra-wide AFBC of RGBA_8888 without tiled headers. *)
Lemma C3_witness :
  ∃ l, mali_gralloc_derive_format_and_size
         (request 64 64
            (Z.lor (sample_format_id RGBA_8888)
               (Z.lor INTFMT_AFBC_BASIC INTFMT_AFBC_EXTRAWIDEBLK))
            USAGE_HW_TEXTURE 1)
       = (l, inl Err_extra_wide_without_tiled_headers).
Proof.
  destruct (C3_extra_wide_without_tiled_headers_fails (H:=headers)
              (request 64 64
                 (Z.lor (sample_format_id RGBA_8888)
                    (Z.lor INTFMT_AFBC_BASIC INTFMT_AFBC_EXTRAWIDEBLK))
                 USAGE_HW_TEXTURE 1) ltac:(vm_compute; reflexivity) ltac:(vm_compute; reflexivity) ltac:(vm_compute; reflexivity))
    as (_ & _ & l & e & Hd & He).
  exists l. rewrite Hd. rewrite He; [reflexivity|discriminate|by eexists].
Defined.

(** C4 witness: basic AFBC of NV12 without tiled headers. *)
Lemma C4_witness :
  ∃ l e, mali_gralloc_derive_format_and_size
           (request 64 64 (Z.lor (sample_format_id NV12) INTFMT_AFBC_BASIC)
              USAGE_HW_TEXTURE 1)
         = (l, inl e)
         ∧ kind_of e = UnsupportedFormatForEncoding.
Proof.
  destruct (C4_untiled_multi_plane_is_downgraded_then_refused (H:=headers)
              (request 64 64 (Z.lor (sample_format_id NV12) INTFMT_AFBC_BASIC)
                 USAGE_HW_TEXTURE 1) 2
              ltac:(cbn; lia) ltac:(vm_compute; reflexivity) ltac:(vm_compute; reflexivity) ltac:(vm_compute; reflexivity))
    as (_ & Hd).
  apply Hd; [discriminate|reflexivity].
Defined.

(** C5 witness: AFRC of RGBA_8888 with both coding-unit fields 0, that is 16
    bytes, and with the chroma field 3, that is 40 bytes. *)
Lemma C5_witness :
  (∃ l t, get_alloc_type INTFMT_AFRC_BASIC 0 USAGE_HW_TEXTURE alloc_type_zero
          = (l, inr t)
          ∧ rgba_luma_coding_unit_bytes (afrc t) = 16
          ∧ rgba_luma_plane_alignment (afrc t) = 1024)
  ∧ (∃ l, get_alloc_type (Z.lor INTFMT_AFRC_BASIC (bit 46 + bit 47)) 0
            USAGE_HW_TEXTURE alloc_type_zero
          = (l, inl Err_coding_unit_size)).
Proof.
  split.
  - destruct (C5_afrc_coding_unit_sizes (H:=headers) INTFMT_AFRC_BASIC 0 USAGE_HW_TEXTURE
                alloc_type_zero ltac:(vm_compute; reflexivity) ltac:(vm_compute; reflexivity) ltac:(cbn; lia) ltac:(cbn; lia))
      as [_ Hok].
    eexists _, _. split; [vm_compute; reflexivity|].
    destruct (Hok _ _ ltac:(vm_compute; reflexivity)) as (El & _ & Hal & _).
    split; [exact El|].
    destruct Hal as [[_ Ha]|[[Hc _]|[Hc _]]]; [exact Ha|discriminate..].
  - destruct (C5_afrc_coding_unit_sizes (H:=headers) (Z.lor INTFMT_AFRC_BASIC (bit 46 + bit 47))
                0 USAGE_HW_TEXTURE alloc_type_zero ltac:(vm_compute; reflexivity) ltac:(vm_compute; reflexivity)
                ltac:(cbn; lia) ltac:(cbn; lia))
      as [Hbad _].
    destruct Hbad as (l & Hl & _); [|by exists l].
    right. vm_compute. intros [E|[E|E]]; discriminate.
Defined.

(** C6 witness: AFRC of NV12 (1 and 2 components) without the rotated layout. *)
Lemma C6_witness :
  ∃ l t, get_alloc_type INTFMT_AFRC_BASIC 2
           USAGE_HW_TEXTURE alloc_type_zero = (l, inr t)
    ∧ (paging_tile_width (afrc t), paging_tile_height (afrc t)) = (16, 4)
    ∧ (arr_get (clump_width (afrc t)) 0, arr_get (clump_height (afrc t)) 0) = (16, 4)
    ∧ (arr_get (clump_width (afrc t)) 1, arr_get (clump_height (afrc t)) 1) = (8, 4).
Proof.
  destruct (C6_afrc_paging_tile_and_clumps (H:=headers)
              INTFMT_AFRC_BASIC 2
              USAGE_HW_TEXTURE alloc_type_zero ltac:(vm_compute; reflexivity) ltac:(vm_compute; reflexivity)
              ltac:(cbn; lia) ltac:(cbn; lia))
    as (Hok & _ & _).
  eexists _, _. split; [vm_compute; reflexivity|].
  destruct (Hok _ _ ltac:(vm_compute; reflexivity)) as (_ & Htile & Hclump).
  split; [exact Htile|].
  destruct (Hclump 0%nat ltac:(cbn; lia)) as (H1 & _ & _).
  destruct (Hclump 1%nat ltac:(cbn; lia)) as (_ & H2 & _).
  split; [rewrite (H1 eq_refl); exact Htile|exact (H2 eq_refl)].
Defined.

(** C7 witness: two layers of a 64x64 RGBA_8888 buffer with basic AFBC; one
    layer takes 17408 bytes, a multiple of 128. *)
Lemma C7_witness :
  ∃ d', mali_gralloc_derive_format_and_size
          (request 64 64 (Z.lor (sample_format_id RGBA_8888) INTFMT_AFBC_BASIC)
             USAGE_HW_TEXTURE 2)
        = ([], inr d')
    ∧ d_size d' = 2 * 17408.
Proof.
  eexists. split; [vm_compute; reflexivity|].
  destruct (C7_multi_layer_size (H:=headers)
              (request 64 64 (Z.lor (sample_format_id RGBA_8888) INTFMT_AFBC_BASIC)
                 USAGE_HW_TEXTURE 2) _ _ ltac:(vm_compute; reflexivity))
    as (w & h & t & idx & cpu & hw & st & _ & _ & _ & _).
  reflexivity.
Defined.

(** C8 witness: RGB_565 with and without AFBC. *)
Lemma C8_witness :
  drm_fourcc_from_handle
    {| alloc_format := Z.lor (sample_format_id RGB_565) INTFMT_AFBC_BASIC |}
  = DRM_FORMAT_BGR565
  ∧ drm_fourcc_from_handle {| alloc_format := sample_format_id RGB_565 |}
    ≠ DRM_FORMAT_BGR565.
Proof.
  destruct (C8_fourcc_lookup (H:=headers)
              {| alloc_format := Z.lor (sample_format_id RGB_565) INTFMT_AFBC_BASIC |}
              {| alloc_format := sample_format_id RGB_565 |})
    as (_ & _ & _ & Hrgb).
  destruct Hrgb as [E Hne]; try reflexivity.
  split; [exact E|]. by rewrite <- E.
Defined.

(** C9 fails as stated.  NV12 with extra-wide multi-plane AFBC, tiled headers
    and CPU usage is answered by the selector, and the superblock of plane 1
    is 64x4, but the allocation size of plane 1 of a 76x76 buffer is 48x38:
    the width is aligned to [align_w_cpu] (16) and the height, with tile
    size 1, is left as it is, so neither is a multiple of the superblock.
    Without CPU usage the same plane is 512x64. *)
Lemma C9_counterexample :
  format_at 2 = fmt_nv12
  ∧ ∃ l t st,
      get_alloc_type
        (Z.lor INTFMT_AFBC_BASIC
           (Z.lor INTFMT_AFBC_TILED_HEADERS INTFMT_AFBC_EXTRAWIDEBLK)) 2
        USAGE_SW_READ_OFTEN alloc_type_zero = (l, inr t)
      ∧ is_afbc t = true ∧ is_multi_plane t = true
      ∧ get_afbc_sb_size t 1 = {| rect_width := 64; rect_height := 4 |}
      ∧ get_pixel_w_h 76 76 fmt_nv12 t 1 true = (48, 38)
      ∧ ¬ (64 | 48) ∧ ¬ (4 | 38)
      ∧ get_pixel_w_h 76 76 fmt_nv12 t 1 false = (512, 64)
      ∧ calc_allocation_size 76 76 t fmt_nv12 true false 0 planes0 = Some st
      ∧ alloc_width (pi_get (cs_plane_info st) 1) = 48
      ∧ alloc_height (pi_get (cs_plane_info st) 1) = 38
      ∧ byte_stride (pi_get (cs_plane_info st) 1) = 96.
Proof.
  split; [reflexivity|].
  eexists _, _, _. split; [vm_compute; reflexivity|].
  split; [reflexivity|]. split; [reflexivity|]. split; [reflexivity|].
  split; [vm_compute; reflexivity|].
  split; [intros [q Hq]; lia|]. split; [intros [q Hq]; lia|].
  split; [vm_compute; reflexivity|].
  split; [vm_compute; reflexivity|]. split; [reflexivity|].
  split; reflexivity.
Qed.

(** C9 witness: plane 1 of NV12 with extra-wide multi-plane AFBC and tiled
    headers, for hardware usage only. *)
Lemma C9_witness :
  ∃ l t,
    get_alloc_type
      (Z.lor INTFMT_AFBC_BASIC
         (Z.lor INTFMT_AFBC_TILED_HEADERS INTFMT_AFBC_EXTRAWIDEBLK)) 2
      USAGE_HW_TEXTURE alloc_type_zero = (l, inr t)
    ∧ is_afbc t = true ∧ is_tiled t = true
    ∧ get_afbc_sb_size t 1 = {| rect_width := 64; rect_height := 4 |}
    ∧ afbc_pixel_align fmt_nv12 t 1 = (512, 32)
    ∧ (512 | (get_pixel_w_h 76 76 fmt_nv12 t 1 false).1)
    ∧ (32 | (get_pixel_w_h 76 76 fmt_nv12 t 1 false).2).
Proof.
  destruct (get_alloc_type
              (Z.lor INTFMT_AFBC_BASIC
                 (Z.lor INTFMT_AFBC_TILED_HEADERS INTFMT_AFBC_EXTRAWIDEBLK)) 2
              USAGE_HW_TEXTURE alloc_type_zero)
    as [l [e|t]] eqn:Ht; [vm_compute in Ht; discriminate|].
  assert (Hmulti : is_multi_plane t = true).
  { vm_compute in Ht. injection Ht as <- <-. reflexivity. }
  destruct (C9_multi_plane_uses_extra_wide_superblock (H:=headers)
              (Z.lor INTFMT_AFBC_BASIC
                 (Z.lor INTFMT_AFBC_TILED_HEADERS INTFMT_AFBC_EXTRAWIDEBLK)) 2
              USAGE_HW_TEXTURE alloc_type_zero l t 1
              ltac:(vm_compute; reflexivity) Ht Hmulti ltac:(lia))
    as (Hafbc & Htiled & Hsb & Hformat).
  destruct (Hformat fmt_nv12) as (Halign & _ & Hsize & _).
  destruct (Hsize 76 76 ltac:(vm_compute; discriminate)
              ltac:(vm_compute; discriminate) ltac:(vm_compute; discriminate)) as (Hw & Hh & _).
  exists l, t. split; [reflexivity|]. split; [exact Hafbc|].
  split; [exact Htiled|]. split; [exact Hsb|]. split; [exact Halign|].
  split; [exact Hw|exact Hh].
Defined.

(** C10 fails as stated.  (a) RGBA_8888, a one-plane format, with tiled
    headers, the double-body flag and both the wide and the extra-wide bit:
    the selector logs the error and fails, and so does the derivation.
    (b) NV12 with tiled headers, the double-body flag and the wide bit: the
    selector succeeds with [is_frontbuffer_safe] set but has made the type
    single-plane, and the derivation fails in the validation: no layout is
    produced. *)
Lemma C10_counterexample :
  (∃ l, get_alloc_type
          (Z.lor INTFMT_AFBC_BASIC
             (Z.lor INTFMT_AFBC_TILED_HEADERS
                (Z.lor INTFMT_AFBC_DOUBLE_BODY
                   (Z.lor INTFMT_AFBC_WIDEBLK INTFMT_AFBC_EXTRAWIDEBLK)))) 0
          USAGE_HW_TEXTURE alloc_type_zero
        = (l, inl Err_multiplane_with_single_plane_format)
     ∧ LOGE_front_buffer_safe_with_wide_block ∈ l)
  ∧ (∃ l, mali_gralloc_derive_format_and_size
            (request 64 64
               (Z.lor (sample_format_id RGBA_8888)
                  (Z.lor INTFMT_AFBC_BASIC
                     (Z.lor INTFMT_AFBC_TILED_HEADERS
                        (Z.lor INTFMT_AFBC_DOUBLE_BODY
                           (Z.lor INTFMT_AFBC_WIDEBLK
                              INTFMT_AFBC_EXTRAWIDEBLK)))))
               USAGE_HW_TEXTURE 1)
          = (l, inl Err_multiplane_with_single_plane_format))
  ∧ (∃ l t, get_alloc_type
              (Z.lor INTFMT_AFBC_BASIC
                 (Z.lor INTFMT_AFBC_TILED_HEADERS
                    (Z.lor INTFMT_AFBC_DOUBLE_BODY INTFMT_AFBC_WIDEBLK))) 2
              USAGE_HW_TEXTURE alloc_type_zero
            = (l, inr t)
       ∧ LOGE_front_buffer_safe_with_wide_block ∈ l
       ∧ is_frontbuffer_safe t = true ∧ is_multi_plane t = false)
  ∧ (∃ l, mali_gralloc_derive_format_and_size
            (request 64 64
               (Z.lor (sample_format_id NV12)
                  (Z.lor INTFMT_AFBC_BASIC
                     (Z.lor INTFMT_AFBC_TILED_HEADERS
                        (Z.lor INTFMT_AFBC_DOUBLE_BODY INTFMT_AFBC_WIDEBLK))))
               USAGE_HW_TEXTURE 1)
          = (l, inl Err_incompatible_plane_request)).
Proof.
  split; [|split; [|split]].
  - eexists. split; [vm_compute; reflexivity|]. set_solver.
  - eexists. vm_compute. reflexivity.
  - eexists _, _. split; [vm_compute; reflexivity|].
    split; [set_solver|]. split; reflexivity.
  - eexists. vm_compute. reflexivity.
Qed.

(** C10 witness: a 64x64 RGBA_8888 buffer with tiled headers, the double-body
    flag and wide blocks, for hardware usage only. *)
Lemma C10_witness :
  ∃ l t d' st,
    mali_gralloc_derive_format_and_size
      (request 64 64
         (Z.lor (sample_format_id RGBA_8888)
            (Z.lor INTFMT_AFBC_BASIC
               (Z.lor INTFMT_AFBC_TILED_HEADERS
                  (Z.lor INTFMT_AFBC_DOUBLE_BODY INTFMT_AFBC_WIDEBLK))))
         USAGE_HW_TEXTURE 1)
    = (l, inr d')
    ∧ LOGE_front_buffer_safe_with_wide_block ∈ l
    ∧ get_alloc_type
        (Z.lor INTFMT_AFBC_BASIC
           (Z.lor INTFMT_AFBC_TILED_HEADERS
              (Z.lor INTFMT_AFBC_DOUBLE_BODY INTFMT_AFBC_WIDEBLK))) 0
        USAGE_HW_TEXTURE alloc_type_zero = (l, inr t)
    ∧ calc_allocation_size 64 64 t fmt_rgba_8888 false true 0 planes0 = Some st
    ∧ d_plane_info d' = cs_plane_info st
    ∧ d_size d' = cs_size st
    ∧ d_pixel_stride d' = 0.
Proof.
  destruct (C10_front_buffer_with_wide_blocks_is_not_an_error (H:=headers)
              (request 64 64
                 (Z.lor (sample_format_id RGBA_8888)
                    (Z.lor INTFMT_AFBC_BASIC
                       (Z.lor INTFMT_AFBC_TILED_HEADERS
                          (Z.lor INTFMT_AFBC_DOUBLE_BODY INTFMT_AFBC_WIDEBLK))))
                 USAGE_HW_TEXTURE 1) 0
              ltac:(vm_compute; reflexivity) ltac:(vm_compute; reflexivity)
              ltac:(vm_compute; reflexivity) ltac:(vm_compute; reflexivity))
    as (_ & Hderive).
  destruct (Hderive ltac:(vm_compute; discriminate)
              ltac:(vm_compute; reflexivity)) as (_ & _ & Hlayout).
  destruct (Hlayout ltac:(vm_compute; reflexivity)
              ltac:(vm_compute; reflexivity) ltac:(vm_compute; reflexivity)
              ltac:(vm_compute; reflexivity) ltac:(vm_compute; reflexivity)
              ltac:(vm_compute; discriminate)
              ltac:(intros Hn; vm_compute in Hn; lia)
              ltac:(vm_compute; lia))
    as (l & t & d' & st & Hd & Hlog & Hget & Hcalc & Hinfo & Hsize & Hps & _).
  exists l, t, d', st. split; [exact Hd|]. split; [exact Hlog|].
  split; [exact Hget|]. split; [exact Hcalc|]. split; [exact Hinfo|].
  split; [exact Hsize|]. apply Hps. vm_compute. lia.
Defined.

(** The table is not injective: with distinct identifiers for the internal
    P010 and the Android P010 format, both map to DRM_FORMAT_P010. *)
Lemma two_keys_one_fourcc :
  format_id P010 ≠ format_id HAL_PIXEL_FORMAT_YCBCR_P010
  ∧ drm_fourcc_from_handle {| alloc_format := format_id P010 |}
    = drm_fourcc_from_handle
        {| alloc_format := format_id HAL_PIXEL_FORMAT_YCBCR_P010 |}.
Proof. split; [discriminate|vm_compute; reflexivity]. Qed.

End Examples.

(** * The further properties at concrete inputs

    All examples run on the sample headers of [Sample] and [SampleFormats]. *)

Section MoreExamples.
Import Sample SampleFormats.
Local Existing Instance Sample.headers.
Local Existing Instance SampleFormats.format_headers.

Lemma sample_npln (format_idx : nat) :
  (npln (format_at format_idx) ≤ MAX_PLANES)%nat.
Proof.
  unfold format_at, MAX_PLANES.
  do 5 (destruct format_idx as [|format_idx]; [vm_compute; lia|]).
  vm_compute. lia.
Qed.

(** X1 witness: RGBA_8888 with AFBC and tiled headers. *)
Lemma X1_witness :
  Z.shiftr
    (drm_modifier_from_handle
       {| alloc_format :=
            Z.lor (sample_format_id RGBA_8888)
              (Z.lor INTFMT_AFBC_BASIC INTFMT_AFBC_TILED_HEADERS) |} false) 56
  = DRM_FORMAT_MOD_VENDOR_ARM.
Proof.
  exact (proj1 (X1_afbc_modifier_decodes (H:=headers) (F:=format_headers)
                  {| alloc_format :=
                       Z.lor (sample_format_id RGBA_8888)
                         (Z.lor INTFMT_AFBC_BASIC INTFMT_AFBC_TILED_HEADERS) |}
                  false ltac:(vm_compute; reflexivity))).
Defined.

(** X2 witness: multi-plane NV12 with AFRC. *)
Lemma X2_witness :
  Z.land
    (Z.shiftr
       (drm_modifier_from_handle
          {| alloc_format := Z.lor (sample_format_id NV12) INTFMT_AFRC_BASIC |}
          true) 52) 0xf
  = DRM_FORMAT_MOD_ARM_TYPE_AFRC.
Proof.
  exact (proj1 (proj2 (X2_afrc_modifier_decodes (H:=headers) (F:=format_headers)
                  {| alloc_format :=
                       Z.lor (sample_format_id NV12) INTFMT_AFRC_BASIC |}
                  true {| fourcc := DRM_FORMAT_NV12; colormodel := yuv |}
                  ltac:(vm_compute; reflexivity) ltac:(vm_compute; reflexivity)
                  ltac:(vm_compute; reflexivity)))).
Defined.

(** X4 witness: the two headers of a 32x16 RGBA_8888 buffer. *)
Lemma X4_witness :
  init_afbc (replicate 8 7) (sample_format_id RGBA_8888) false 32 16
  = Some [1024; 1; 65536; 0; 1024; 1; 65536; 0].
Proof.
  destruct (X4_init_afbc_writes_headers (H:=headers) (F:=format_headers) (replicate 8 7)
              (sample_format_id RGBA_8888) false 32 16
              ltac:(lia) ltac:(lia) ltac:(lia)) as (_ & _ & Hok & _).
  rewrite Hok by (vm_compute; lia). vm_compute. reflexivity.
Defined.

(** X5 witness: a 64x64 RGBA_8888 request. *)
Lemma X5_witness :
  ∃ l d',
    mali_gralloc_derive_format_and_size
      (request 64 64 (sample_format_id RGBA_8888) USAGE_HW_TEXTURE 1)
    = (l, inr d')
    ∧ mali_gralloc_derive_format_and_size d' = (l, inr d').
Proof.
  destruct (mali_gralloc_derive_format_and_size
              (request 64 64 (sample_format_id RGBA_8888) USAGE_HW_TEXTURE 1))
    as [l [e|d']] eqn:Hd; [vm_compute in Hd; discriminate|].
  exists l, d'. split; [reflexivity|].
  by destruct (X5_derive_is_idempotent (H:=headers)
                (request 64 64 (sample_format_id RGBA_8888) USAGE_HW_TEXTURE 1)
                d' l sample_npln Hd)
    as (_ & _ & _ & _ & _ & _ & _ & _ & Hre).
Defined.

(** X6 witness: basic AFBC of a 64x64 RGBA_8888 buffer. *)
Lemma X6_witness :
  ∃ st,
    calc_allocation_size 64 64 (set_primary_type alloc_type_zero AFBC)
      fmt_rgba_8888 false true 0 planes0 = Some st
    ∧ (1024 | plane_header st 0).
Proof.
  destruct (calc_allocation_size 64 64 (set_primary_type alloc_type_zero AFBC)
              fmt_rgba_8888 false true 0 planes0)
    as [st|] eqn:Hcalc; [|vm_compute in Hcalc; discriminate].
  exists st. split; [reflexivity|].
  exact (proj1 (X6_afbc_buffers_are_aligned (H:=headers) 64 64
                  (set_primary_type alloc_type_zero AFBC) fmt_rgba_8888
                  false true 0 planes0 st eq_refl ltac:(vm_compute; lia) Hcalc
                  0%nat ltac:(vm_compute; lia))).
Defined.

(** X7 witness: AFRC of a 64x64 NV12 buffer. *)
Lemma X7_witness :
  ∃ l t st,
    get_alloc_type INTFMT_AFRC_BASIC 2 USAGE_HW_TEXTURE alloc_type_zero
    = (l, inr t)
    ∧ calc_allocation_size 64 64 t fmt_nv12 false true 0 planes0 = Some st
    ∧ (chroma_plane_alignment (afrc t) | plane_offset st 1).
Proof.
  destruct (get_alloc_type INTFMT_AFRC_BASIC 2 USAGE_HW_TEXTURE alloc_type_zero)
    as [l [e|t]] eqn:Ht; [vm_compute in Ht; discriminate|].
  destruct (calc_allocation_size 64 64 t fmt_nv12 false true 0 planes0)
    as [st|] eqn:Hcalc.
  2:{ vm_compute in Ht. injection Ht as <- <-. vm_compute in Hcalc.
      discriminate. }
  exists l, t, st. split; [reflexivity|]. split; [exact Hcalc|].
  assert (Hafrc : is_afrc t = true).
  { clear Hcalc. vm_compute in Ht. injection Ht as <- <-. reflexivity. }
  destruct (X7_afrc_planes_are_aligned (H:=headers) INTFMT_AFRC_BASIC 2 USAGE_HW_TEXTURE
              l t 64 64 false true 0 planes0 st Ht Hafrc
              ltac:(vm_compute; lia) ltac:(vm_compute; lia) Hcalc) as (_ & _ & Hal).
  apply Hal. vm_compute. lia.
Defined.

(** X8 witness: the least common multiple of 2^31 and 0, which is 0, and
    of 12 and 18. *)
Lemma X8_witness :
  lcm 2147483648 0 = 0 ∧ lcm 0 2147483648 = 0
  ∧ gcd 12 18 = 6 ∧ lcm 12 18 = 36 ∧ lcm 12 0 = 12.
Proof.
  destruct (X8_gcd_and_lcm 2147483648 0 ltac:(lia) ltac:(lia))
    as (_ & _ & Hhigh & Hhigh' & _).
  destruct (X8_gcd_and_lcm 12 18 ltac:(lia) ltac:(lia))
    as (Hgcd & Hlcm & _).
  destruct (Hlcm ltac:(lia) ltac:(lia) ltac:(lia)) as (Hlcm' & _).
  destruct (X8_gcd_and_lcm 12 0 ltac:(lia) ltac:(lia))
    as (_ & _ & Hlow & _).
  split; [exact Hhigh|]. split; [exact Hhigh'|]. split; [exact Hgcd|].
  split; [exact Hlcm'|exact Hlow].
Defined.

(** X9 witness: a linear 64x64 RGBA_8888 buffer for the CPU and the GPU. *)
Lemma X9_witness :
  ∃ st,
    calc_allocation_size 64 64 alloc_type_zero fmt_rgba_8888 true true 0
      planes0 = Some st
    ∧ (64 | byte_stride (pi_get (cs_plane_info st) 0)).
Proof.
  destruct (calc_allocation_size 64 64 alloc_type_zero fmt_rgba_8888 true true
              0 planes0) as [st|] eqn:Hcalc;
    [|vm_compute in Hcalc; discriminate].
  exists st. split; [reflexivity|].
  assert (Hwf : format_wf fmt_rgba_8888).
  { unfold format_wf, MAX_PLANES. cbn.
    repeat split; try lia; destruct plane as [|plane]; cbn; lia. }
  exact (proj1 (X9_linear_strides_are_aligned (H:=headers) 64 64 alloc_type_zero
                  fmt_rgba_8888 true true 0 planes0 st Hwf eq_refl eq_refl
                  ltac:(unfold MAX_DIM; lia) ltac:(unfold MAX_DIM; lia)
                  ltac:(vm_compute; lia) Hcalc 0%nat ltac:(vm_compute; lia)) eq_refl).
Defined.

(** X10 witness: the same linear buffer; its pixel stride times the 32 bits
    of a pixel is the byte stride in bits. *)
Lemma X10_witness :
  ∃ st,
    calc_allocation_size 64 64 alloc_type_zero fmt_rgba_8888 true true 0
      planes0 = Some st
    ∧ cs_pixel_stride st * 32 = byte_stride (pi_get (cs_plane_info st) 0) * 8.
Proof.
  destruct (calc_allocation_size 64 64 alloc_type_zero fmt_rgba_8888 true true
              0 planes0) as [st|] eqn:Hcalc;
    [|vm_compute in Hcalc; discriminate].
  exists st. split; [reflexivity|].
  destruct (X10_pixel_stride (H:=headers) 64 64 alloc_type_zero fmt_rgba_8888
              true true 0 planes0 st ltac:(vm_compute; lia) Hcalc)
    as [_ Hlin].
  apply Hlin; [reflexivity|reflexivity|apply fmt_rgba_8888_wf|..];
    unfold MAX_DIM; lia.
Defined.

(** X11 witness: the luma plane of a linear 64x64 NV12 buffer. *)
Lemma X11_witness :
  ∃ st,
    calc_allocation_size 64 64 alloc_type_zero fmt_nv12 true true 0 planes0
    = Some st
    ∧ 64 ≤ alloc_width (pi_get (cs_plane_info st) 0).
Proof.
  destruct (calc_allocation_size 64 64 alloc_type_zero fmt_nv12 true true 0
              planes0) as [st|] eqn:Hcalc;
    [|vm_compute in Hcalc; discriminate].
  exists st. split; [reflexivity|].
  destruct (X11_linear_planes_hold_their_pixels (H:=headers) 64 64
              alloc_type_zero fmt_nv12 true true 0 planes0 st 0
              fmt_nv12_wf eq_refl ltac:(unfold MAX_DIM; lia)
              ltac:(unfold MAX_DIM; lia) ltac:(vm_compute; lia) Hcalc
              ltac:(vm_compute; lia) (or_introl eq_refl)) as [Hluma _].
  by apply Hluma.
Defined.

(** X12 witness: the header area of a 64x64 RGBA_8888 buffer with AFBC and
    tiled headers; the entries written are all zero. *)
Lemma X12_witness :
  ∃ st,
    calc_allocation_size 64 64
      (set_is_tiled (set_primary_type alloc_type_zero AFBC) true)
      fmt_rgba_8888 false true 0 planes0 = Some st
    ∧ let aw := alloc_width (pi_get (cs_plane_info st) 0) in
      let ah := alloc_height (pi_get (cs_plane_info st) 0) in
      let n := Z.to_nat (aw * ah / 256) in
      let buf := replicate (Z.to_nat (plane_header st 0)) 7 in
      let alloc_format :=
        Z.lor (sample_format_id RGBA_8888)
          (Z.lor INTFMT_AFBC_BASIC INTFMT_AFBC_TILED_HEADERS) in
      init_afbc_body_offset alloc_format aw ah = plane_header st 0
      ∧ 16 * Z.of_nat n ≤ plane_header st 0
      ∧ init_afbc buf alloc_format false aw ah
        = Some (concat (replicate n [0; 0; 0; 0]) ++ drop (4 * n) buf).
Proof.
  destruct (calc_allocation_size 64 64
              (set_is_tiled (set_primary_type alloc_type_zero AFBC) true)
              fmt_rgba_8888 false true 0 planes0)
    as [st|] eqn:Hcalc; [|vm_compute in Hcalc; discriminate].
  exists st. split; [reflexivity|]. intros aw ah n buf alloc_format.
  destruct (X12_init_afbc_fills_the_header_area (H:=headers)
              (F:=format_headers) 64 64
              (set_is_tiled (set_primary_type alloc_type_zero AFBC) true)
              fmt_rgba_8888 true 0 planes0 st 0 alloc_format
              fmt_rgba_8888_wf eq_refl ltac:(unfold MAX_DIM; lia)
              ltac:(unfold MAX_DIM; lia) ltac:(vm_compute; lia) Hcalc
              ltac:(vm_compute; reflexivity)) as (Hoff & Hfit & Hwrite).
  split; [exact Hoff|]. split; [exact Hfit|].
  apply (Hwrite buf false). subst buf. rewrite length_replicate. lia.
Defined.

(** X13 witness: basic AFBC of RGBA_8888. *)
Lemma X13_witness :
  ∃ l, get_alloc_type INTFMT_AFBC_BASIC 0 USAGE_HW_TEXTURE alloc_type_zero
       = (l, inr (set_primary_type alloc_type_zero AFBC)).
Proof.
  pose proof (X13_afbc_selection (H:=headers) INTFMT_AFBC_BASIC 0
                USAGE_HW_TEXTURE alloc_type_zero
                ltac:(vm_compute; reflexivity)) as Hsel.
  vm_compute in Hsel. vm_compute. exact Hsel.
Defined.

(** X14 witness: the 64x64 RGBA_8888 request is answered with its format. *)
Lemma X14_witness :
  ∃ l d',
    mali_gralloc_derive_format_and_size
      (request 64 64 (sample_format_id RGBA_8888) USAGE_HW_TEXTURE 1)
    = (l, inr d')
    ∧ d_alloc_format d' = sample_format_id RGBA_8888.
Proof.
  destruct (mali_gralloc_derive_format_and_size
              (request 64 64 (sample_format_id RGBA_8888) USAGE_HW_TEXTURE 1))
    as [l [e|d']] eqn:Hd; [vm_compute in Hd; discriminate|].
  exists l, d'. split; [reflexivity|].
  exact (proj1 (X14_derive_answers_supported_encodings (H:=headers)
                  (request 64 64 (sample_format_id RGBA_8888)
                     USAGE_HW_TEXTURE 1) d' l Hd)).
Defined.

(** X15 witness: a BLOB of height 64. *)
Lemma X15_witness :
  ∃ l e,
    mali_gralloc_derive_format_and_size
      (request 64 64 (sample_format_id BLOB) USAGE_HW_TEXTURE 1)
    = (l, inl e)
    ∧ e = Err_blob_height.
Proof.
  destruct (X15_blob_needs_height_one (H:=headers)
              (request 64 64 (sample_format_id BLOB) USAGE_HW_TEXTURE 1) 4
              ltac:(vm_compute; reflexivity) ltac:(vm_compute; reflexivity)
              ltac:(vm_compute; discriminate))
    as (l & e & Hd & _ & Hkind).
  exists l, e. split; [exact Hd|].
  apply Hkind; try (vm_compute; reflexivity). vm_compute. discriminate.
Defined.

(** X16 witness: a luma stride of 100 bytes with a stride alignment of 16. *)
Lemma X16_witness :
  ∃ luma,
    update_yv12_stride 0 100 16 = Some luma
    ∧ (2 * 16 | luma).
Proof.
  destruct (X16_yv12_strides_fit_together 100 16 ltac:(lia)
              ltac:(by exists 1) ltac:(lia) ltac:(lia))
    as [(luma & Hl & _ & Hdiv & _) _].
  by exists luma.
Defined.

(** X17 witness: AFRC of a 64x64 NV12 buffer with CPU usage. *)
Lemma X17_witness :
  ∃ l t st,
    get_alloc_type INTFMT_AFRC_BASIC 2 USAGE_HW_TEXTURE alloc_type_zero
    = (l, inr t)
    ∧ calc_allocation_size 64 64 t fmt_nv12 true true 0 planes0 = Some st.
Proof.
  destruct (get_alloc_type INTFMT_AFRC_BASIC 2 USAGE_HW_TEXTURE alloc_type_zero)
    as [l [e|t]] eqn:Ht; [vm_compute in Ht; discriminate|].
  assert (Hafrc : is_afrc t = true).
  { vm_compute in Ht. injection Ht as <- <-. reflexivity. }
  destruct (X17_compressed_layouts_are_total (H:=headers) 64 64 t fmt_nv12
              true true 0 planes0 fmt_nv12_wf
              (get_alloc_type_wf (H:=headers) INTFMT_AFRC_BASIC 2
                 USAGE_HW_TEXTURE alloc_type_zero l t ltac:(vm_compute; lia)
                 ltac:(vm_compute; lia) Ht)
              (or_introl Hafrc)) as [st Hst].
  by exists l, t, st.
Defined.

(** X18 witness: a linear 64x64 RGBA_8888 buffer. *)
Lemma X18_witness :
  ∃ st,
    calc_allocation_size 64 64 alloc_type_zero fmt_rgba_8888 true true 0
      planes0 = Some st.
Proof.
  apply (X18_linear_layouts_are_total (H:=headers) 64 64 alloc_type_zero
           fmt_rgba_8888 true true 0 planes0 fmt_rgba_8888_wf eq_refl eq_refl).
  - intros [|plane] Hplane; [by exists 4|vm_compute in Hplane; lia].
  - intros Hyv12. vm_compute in Hyv12. discriminate.
  - unfold MAX_DIM. lia.
  - unfold MAX_DIM. lia.
  - vm_compute. lia.
Defined.

(** X19 witness: the first identifier of process 1234 at counter 5. *)
Lemma X19_witness :
  (getUniqueId 1234 5).1 = 1234 mod 2 ^ 32 * 2 ^ 32 + 5.
Proof.
  exact (proj1 (X19_buffer_identifiers 1234 5 3 0 2 ltac:(lia) ltac:(lia)
                  ltac:(lia))).
Defined.

(** X20 witness: three buffers are asked for and the shared memory of the
    third cannot be allocated. *)
Lemma X20_witness :
  ∃ tr counter',
    GrallocAllocator_allocate (λ _, true) (λ i, bool_decide (i < 2)%nat) 1234
      (Some (request 64 64 (sample_format_id RGBA_8888) USAGE_HW_TEXTURE 1))
      3 0
    = (tr, Some counter')
    ∧ freed tr ≡ₚ allocated tr.
Proof.
  destruct (GrallocAllocator_allocate (λ _, true)
              (λ i, bool_decide (i < 2)%nat) 1234
              (Some (request 64 64 (sample_format_id RGBA_8888)
                       USAGE_HW_TEXTURE 1)) 3 0)
    as [tr [counter'|]] eqn:Hrun; [|vm_compute in Hrun; discriminate].
  exists tr, counter'. split; [reflexivity|].
  by destruct (X20_allocate_releases_its_handles (H:=headers) _ _ _ _ _ _ _ _
                 Hrun)
    as (pre & post & error & stride & buffers & _ & _ & _ & _ & Hperm & _).
Defined.

(** X21 witness: two buffers of a 64x64 RGBA_8888 request for the CPU and the
    GPU, with a back end that does not fail. *)
Lemma X21_witness :
  ∃ l d1,
    mali_gralloc_derive_format_and_size
      (request 64 64 (sample_format_id RGBA_8888)
         (Z.lor USAGE_HW_TEXTURE USAGE_SW_READ_OFTEN) 1)
    = (l, inr d1)
    ∧ callbacks
        (allocate (λ _, true) (λ _, true) 1234
           (request 64 64 (sample_format_id RGBA_8888)
              (Z.lor USAGE_HW_TEXTURE USAGE_SW_READ_OFTEN) 1) 2 0).1
      = [(Error.NONE, u32 (d_pixel_stride d1), handles 1234 0 2)].
Proof.
  destruct (mali_gralloc_derive_format_and_size
              (request 64 64 (sample_format_id RGBA_8888)
                 (Z.lor USAGE_HW_TEXTURE USAGE_SW_READ_OFTEN) 1))
    as [l [e|d1]] eqn:Hd; [vm_compute in Hd; discriminate|].
  exists l, d1. split; [reflexivity|].
  destruct (X21_allocate_answer (H:=headers) (λ _, true) (λ _, true) 1234
              (request 64 64 (sample_format_id RGBA_8888)
                 (Z.lor USAGE_HW_TEXTURE USAGE_SW_READ_OFTEN) 1) 2 0
              sample_npln) as (_ & _ & Hok).
  destruct (Hok l d1 Hd) as [Hall _]. by apply Hall.
Defined.

(** X22 witness: the identifiers of these two buffers. *)
Lemma X22_witness :
  NoDup (map backing_store_id (handles 1234 0 2)).
Proof.
  refine (proj1 (X22_delivered_identifiers_differ (H:=headers) (λ _, true)
                   (λ _, true) 1234
                   (request 64 64 (sample_format_id RGBA_8888)
                      (Z.lor USAGE_HW_TEXTURE USAGE_SW_READ_OFTEN) 1) 2 0
                   Error.NONE 64 (handles 1234 0 2) ltac:(lia) ltac:(lia) _)).
  replace (callbacks _) with [(Error.NONE, 64, handles 1234 0 2)]
    by (vm_compute; reflexivity).
  apply list_elem_of_here.
Defined.

End MoreExamples.
